(** * CIFTI-2 axes: a shallow embedding of [nibabel/cifti2/cifti2_axes.py]

    The five axis classes ([Series], [Scalar], [Label], [BrainModel],
    [Parcels]), the resolver of brain structure names and the two module
    level functions [from_mapping] and [to_header] are embedded as Rocq
    functions, one per Python function, under the Python names.

    Conventions of the embedding:
    - a Python exception is a value [Raise e] of the type [result];
    - numpy arrays are lists ((N, 3) integer arrays are lists of triples);
    - Python dicts are stdpp [gmap]s (dict equality ignores the order);
    - the numbers of a series ([start], [step]) are Python numbers, an
      [int] of any size or a [float]; a float is an IEEE 754 binary64
      value, a primitive float of Rocq, with the rounding, the
      infinities and the NaN of the format;
    - the entries of an affine and the colours of a label are finite
      numbers; the source only stores and compares them, and they are
      exact rationals [Qc] here: NaN and the infinities are not among
      them;
    - an index that passes through a float64 array or an int32 array of
      numpy is rounded or wrapped as the array does it;
    - strings are ASCII strings. *)

From Stdlib Require Import ZArith QArith Qcanon Qcabs String Ascii List Lia.
From Stdlib Require Import Floats.
From stdpp Require Import base numbers option gmap strings list.

Open Scope string_scope.
Open Scope Z_scope.

(** ** Exceptions *)

Inductive exn : Type :=
| ValueError (msg : string)
| IndexError (msg : string)
| KeyError (key : string)
| TypeError
| AttributeError
| ZeroDivisionError
| OverflowError.

Inductive result (A : Type) : Type :=
| Ok (a : A)
| Raise (e : exn).
Arguments Ok {A} a.
Arguments Raise {A} e.

Definition bind {A B} (r : result A) (k : A -> result B) : result B :=
  match r with
  | Ok a => k a
  | Raise e => Raise e
  end.

Notation "'do' x <- r ; k" := (bind r (fun x => k))
  (at level 10, x name, r at level 100, k at level 200).
Notation "'do' ' p <- r ; k" := (bind r (fun x => match x with p => k end))
  (at level 10, p pattern, r at level 100, k at level 200).

Definition is_ok {A} (r : result A) : bool :=
  match r with Ok _ => true | Raise _ => false end.

(** [mapM f l] runs [f] over [l] from left to right and stops at the first
    exception, as a Python list comprehension does. *)
Fixpoint mapM {A B} (f : A -> result B) (l : list A) : result (list B) :=
  match l with
  | [] => Ok []
  | x :: l' => do y <- f x; do ys <- mapM f l'; Ok (y :: ys)
  end.

(** Python's [any(f(x) for x in l)]: stops at the first true element. *)
Fixpoint anyM {A} (f : A -> result bool) (l : list A) : result bool :=
  match l with
  | [] => Ok false
  | x :: l' => do b <- f x; if b then Ok true else anyM f l'
  end.

(** ** Numbers *)

Definition Qc_of_Z (z : Z) : Qc := Q2Qc (inject_Z z).

Definition Qcmaxc (a b : Qc) : Qc := if decide (a ≤ b)%Qc then b else a.

(** A Python number: an [int] of any size, or a [float]. *)
Inductive number : Type :=
| PyInt (z : Z)
| PyFloat (f : float).

(** The float next to an integer, ties to even; an infinity when the
    integer is beyond the largest float. *)
Definition float_of_Z (z : Z) : float :=
  SF2Prim (binary_normalize prec emax z 0 false).

(** The conversion of an [int] operand of a [float] operation: an [int]
    that is too large for a float raises [OverflowError]. *)
Definition as_float (z : Z) : result float :=
  let f := float_of_Z z in
  if is_infinity f then Raise OverflowError else Ok f.

(** [a + b] and [a * b]: exact on two [int]s, the float operation as soon
    as one operand is a [float]. A float operation on floats does not
    raise: it overflows to an infinity. *)
Definition num_add (a b : number) : result number :=
  match a, b with
  | PyInt x, PyInt y => Ok (PyInt (x + y))
  | PyInt x, PyFloat g => do f <- as_float x; Ok (PyFloat (PrimFloat.add f g))
  | PyFloat f, PyInt y => do g <- as_float y; Ok (PyFloat (PrimFloat.add f g))
  | PyFloat f, PyFloat g => Ok (PyFloat (PrimFloat.add f g))
  end.

Definition num_mul (a b : number) : result number :=
  match a, b with
  | PyInt x, PyInt y => Ok (PyInt (x * y))
  | PyInt x, PyFloat g => do f <- as_float x; Ok (PyFloat (PrimFloat.mul f g))
  | PyFloat f, PyInt y => do g <- as_float y; Ok (PyFloat (PrimFloat.mul f g))
  | PyFloat f, PyFloat g => Ok (PyFloat (PrimFloat.mul f g))
  end.

(** [f == z] for a [float] and an [int]: Python compares the two values
    exactly, without converting the [int]. *)
Definition float_eq_int (f : float) (z : Z) : bool :=
  match Prim2SF f with
  | S754_zero _ => z =? 0
  | S754_finite s m e =>
      let v := if s then Z.neg m else Z.pos m in
      if 0 <=? e then z =? v * 2 ^ e else z * 2 ^ (- e) =? v
  | _ => false
  end.

(** [a == b]; [a != b] is its negation. Two floats compare as IEEE 754
    has it: a NaN is not equal to itself, and [0.0 == -0.0]. *)
Definition num_eqb (a b : number) : bool :=
  match a, b with
  | PyInt x, PyInt y => x =? y
  | PyInt x, PyFloat g => float_eq_int g x
  | PyFloat f, PyInt y => float_eq_int f y
  | PyFloat f, PyFloat g => PrimFloat.eqb f g
  end.

(** The float NaN, the one number that is not equal to itself. *)
Definition num_is_nan (a : number) : bool :=
  match a with
  | PyInt _ => false
  | PyFloat f => is_nan f
  end.

(** [10 ** e] for an [int] [e]: an [int] for [0 <= e], and the float
    [pow(10.0, float(e))] of the C library for a negative [e]. The
    function [pow] of the C library is not part of the sources; it is the
    argument [libm_pow]. *)
Definition pow10 (libm_pow : float -> float -> float) (e : Z) : result number :=
  if 0 <=? e then Ok (PyInt (10 ^ e))
  else do x <- as_float e; Ok (PyFloat (libm_pow (float_of_Z 10) x)).

(** What an integer becomes in a float64 array that is then read with
    [dtype=int]: the float next to it, cut back to an integer. On x86-64
    the conversion of a float outside of int64 gives the least int64. *)
Definition int64_of_float (f : float) : Z :=
  let least := - 2 ^ 63 in
  match Prim2SF f with
  | S754_zero _ => 0
  | S754_finite s m e =>
      let v := if 0 <=? e then Z.pos m * 2 ^ e else Z.pos m / 2 ^ (- e) in
      let v := if s then - v else v in
      if (v <? least) || (2 ^ 63 <=? v) then least else v
  | _ => least
  end.

Definition via_float64 (z : Z) : Z := int64_of_float (float_of_Z z).

(** What an integer becomes in an int32 array: it wraps around. *)
Definition wrap_int32 (z : Z) : Z := (z + 2 ^ 31) mod 2 ^ 32 - 2 ^ 31.

(** The literal [1e-8]. *)
Definition tol_1e_8 : Qc := Q2Qc (1 # 100000000).

(** ** Strings *)

Definition ascii_upper (c : ascii) : ascii :=
  let n := nat_of_ascii c in
  if ((97 <=? n) && (n <=? 122))%nat then ascii_of_nat (n - 32) else c.

Definition ascii_lower (c : ascii) : ascii :=
  let n := nat_of_ascii c in
  if ((65 <=? n) && (n <=? 90))%nat then ascii_of_nat (n + 32) else c.

Fixpoint str_upper (s : string) : string :=
  match s with
  | EmptyString => EmptyString
  | String c s' => String (ascii_upper c) (str_upper s')
  end.

Fixpoint str_lower (s : string) : string :=
  match s with
  | EmptyString => EmptyString
  | String c s' => String (ascii_lower c) (str_lower s')
  end.

Fixpoint str_take (n : nat) (s : string) : string :=
  match n, s with
  | S n', String c s' => String c (str_take n' s')
  | _, _ => EmptyString
  end.

Fixpoint str_drop (n : nat) (s : string) : string :=
  match n, s with
  | S n', String _ s' => str_drop n' s'
  | _, _ => s
  end.

(** Python slices of a string for a positive [k]:
    [s[:k]], [s[k:]], [s[-k:]] and [s[:-k]]. *)
Definition str_prefix (k : nat) (s : string) : string := str_take k s.
Definition str_from (k : nat) (s : string) : string := str_drop k s.
Definition str_last (k : nat) (s : string) : string :=
  str_drop (String.length s - k) s.
Definition str_until_last (k : nat) (s : string) : string :=
  str_take (String.length s - k) s.

(** [s[i]] for [0 <= i], and [s[-j]] for [1 <= j]. *)
Definition str_index (i : nat) (s : string) : result ascii :=
  match String.get i s with
  | Some c => Ok c
  | None => Raise (IndexError "string index out of range")
  end.

Definition str_index_neg (j : nat) (s : string) : result ascii :=
  if (j <=? String.length s)%nat
  then str_index (String.length s - j) s
  else Raise (IndexError "string index out of range").

(** ** Slices and sequence indexing *)

Record slice : Type := Slice {
  slice_start : option Z;
  slice_stop : option Z;
  slice_step : option Z
}.

(** What [item] of [obj[item]] can be. Indexing a numpy array with anything
    but an integer or a slice (a mask, a list of indices) is not modelled. *)
Inductive item : Type :=
| ItemInt (i : Z)
| ItemSlice (s : slice)
| ItemStr (s : string).

(** [slice.indices(len)] of CPython, for a non-zero step:
    the clipped start and stop. *)
Definition slice_adjust (len : Z) (step : Z) (bound : option Z) (is_start : bool) : Z :=
  match bound with
  | None =>
      if is_start then (if step <? 0 then len - 1 else 0)
      else (if step <? 0 then -1 else len)
  | Some b =>
      let b' := if b <? 0 then b + len else b in
      if b' <? 0 then (if step <? 0 then -1 else 0)
      else if len <=? b' then (if step <? 0 then len - 1 else len)
      else b'
  end.

Definition slice_length (start stop step : Z) : Z :=
  if step <? 0
  then (if stop <? start then (start - stop - 1) / (- step) + 1 else 0)
  else (if start <? stop then (stop - start - 1) / step + 1 else 0).

(** The positions selected by a slice in a sequence of length [len]. *)
Definition slice_positions (len : Z) (s : slice) : result (list Z) :=
  let step := default 1 (slice_step s) in
  if step =? 0 then Raise (ValueError "slice step cannot be zero")
  else
    let start := slice_adjust len step (slice_start s) true in
    let stop := slice_adjust len step (slice_stop s) false in
    let n := slice_length start stop step in
    Ok (map (fun i => start + Z.of_nat i * step) (seq 0 (Z.to_nat n))).

(** [l[s]] for a list or a one-dimensional array. *)
Definition getslice {A} (l : list A) (s : slice) : result (list A) :=
  do ps <- slice_positions (Z.of_nat (length l)) s;
  Ok (omap (fun p => l !! Z.to_nat p) ps).

(** [l[i]] for an integer [i]: negative indices count from the end. *)
Definition getindex {A} (l : list A) (i : Z) : result A :=
  let len := Z.of_nat (length l) in
  let j := if i <? 0 then i + len else i in
  if (j <? 0) || (len <=? j) then Raise (IndexError "index out of bounds")
  else match l !! Z.to_nat j with
       | Some x => Ok x
       | None => Raise (IndexError "index out of bounds")
       end.

(** Boolean mask indexing [arr[mask]] of numpy: the lengths must agree. *)
Fixpoint getmask {A} (l : list A) (mask : list bool) : result (list A) :=
  match l, mask with
  | [], [] => Ok []
  | x :: l', b :: mask' =>
      do r <- getmask l' mask';
      Ok (if b then x :: r else r)
  | _, _ => Raise (IndexError "boolean index did not match indexed array")
  end.

(** ** The header containers of [nibabel.cifti2.cifti2] *)

Module cifti2.

(** Modelled from the spec: the classes of [nibabel/cifti2/cifti2.py]
    (the matrix indices map and its children) are not part of the
    sources at hand. Section 6 of the specification lists what a mapping
    descriptor exposes: the type tag, brain-model entries with
    offset/count/type/structure/vertex-count/voxel-or-vertex-index
    lists, named-map entries with name/metadata/optional label table,
    series start/step/exponent/unit/count, parcel entries with
    name/voxel list/per-structure vertex lists, and a volume entry with
    dimensions and a 4x4 transform. The containers store what they are
    given; attributes that were never set are [None]. *)

Record Cifti2Label : Type := {
  key : Z;
  label : string;
  red : Qc; green : Qc; blue : Qc; alpha : Qc
}.
Definition rgba (l : Cifti2Label) : Qc * Qc * Qc * Qc :=
  (red l, green l, blue l, alpha l).

Record Cifti2NamedMap : Type := {
  map_name : string;
  metadata : option (gmap string string);
  label_table : option (gmap Z Cifti2Label)
}.

Record Cifti2BrainModel : Type := {
  index_offset : nat;
  index_count : nat;
  model_type : string;
  brain_structure : string;
  surface_number_of_vertices : option Z;
  voxel_indices_ijk : option (list (Z * Z * Z));
  vertex_indices : option (list Z)
}.

Record Cifti2Surface : Type := {
  surface_brain_structure : string;
  surface_surface_number_of_vertices : Z
}.

(** [Cifti2Vertices]: a list of vertex indices with a structure name. *)
Record Cifti2Vertices : Type := {
  vertices_brain_structure : string;
  vertices_indices : list Z
}.

Record Cifti2Parcel : Type := {
  parcel_name : string;
  parcel_voxel_indices_ijk : option (list (Z * Z * Z));
  parcel_vertices : list Cifti2Vertices
}.

Record Cifti2TransformationMatrixVoxelIndicesIJKtoXYZ : Type := {
  meter_exponent : Z;
  matrix : option (list (list Qc))
}.

Record Cifti2Volume : Type := {
  volume_dimensions : option (list Z);
  transformation_matrix_voxel_indices_ijk_to_xyz :
    Cifti2TransformationMatrixVoxelIndicesIJKtoXYZ
}.

(** [Cifti2MatrixIndicesMap]: the children are kept per kind, in the
    order in which [append] received them. *)
Record Cifti2MatrixIndicesMap : Type := {
  applies_to_matrix_dimension : list nat;
  indices_map_to_data_type : string;
  number_of_series_points : option Z;
  series_exponent : option Z;
  series_start : option number;
  series_step : option number;
  series_unit : option string;
  named_maps : list Cifti2NamedMap;
  brain_models : list Cifti2BrainModel;
  parcels : list Cifti2Parcel;
  surfaces : list Cifti2Surface;
  volume : option Cifti2Volume
}.

(** [Cifti2MatrixIndicesMap([dim], tag)] *)
Definition new (dim : nat) (tag : string) : Cifti2MatrixIndicesMap :=
  {| applies_to_matrix_dimension := [dim];
     indices_map_to_data_type := tag;
     number_of_series_points := None;
     series_exponent := None;
     series_start := None;
     series_step := None;
     series_unit := None;
     named_maps := [];
     brain_models := [];
     parcels := [];
     surfaces := [];
     volume := None |}.

Definition with_series (m : Cifti2MatrixIndicesMap)
    (e : Z) (st sp : number) (n : Z) (u : string) : Cifti2MatrixIndicesMap :=
  {| applies_to_matrix_dimension := applies_to_matrix_dimension m;
     indices_map_to_data_type := indices_map_to_data_type m;
     number_of_series_points := Some n;
     series_exponent := Some e;
     series_start := Some st;
     series_step := Some sp;
     series_unit := Some u;
     named_maps := named_maps m;
     brain_models := brain_models m;
     parcels := parcels m;
     surfaces := surfaces m;
     volume := volume m |}.

Definition append_named_map (m : Cifti2MatrixIndicesMap) (x : Cifti2NamedMap) :=
  {| applies_to_matrix_dimension := applies_to_matrix_dimension m;
     indices_map_to_data_type := indices_map_to_data_type m;
     number_of_series_points := number_of_series_points m;
     series_exponent := series_exponent m;
     series_start := series_start m;
     series_step := series_step m;
     series_unit := series_unit m;
     named_maps := named_maps m ++ [x];
     brain_models := brain_models m;
     parcels := parcels m;
     surfaces := surfaces m;
     volume := volume m |}.

Definition append_brain_model (m : Cifti2MatrixIndicesMap) (x : Cifti2BrainModel) :=
  {| applies_to_matrix_dimension := applies_to_matrix_dimension m;
     indices_map_to_data_type := indices_map_to_data_type m;
     number_of_series_points := number_of_series_points m;
     series_exponent := series_exponent m;
     series_start := series_start m;
     series_step := series_step m;
     series_unit := series_unit m;
     named_maps := named_maps m;
     brain_models := brain_models m ++ [x];
     parcels := parcels m;
     surfaces := surfaces m;
     volume := volume m |}.

Definition append_parcel (m : Cifti2MatrixIndicesMap) (x : Cifti2Parcel) :=
  {| applies_to_matrix_dimension := applies_to_matrix_dimension m;
     indices_map_to_data_type := indices_map_to_data_type m;
     number_of_series_points := number_of_series_points m;
     series_exponent := series_exponent m;
     series_start := series_start m;
     series_step := series_step m;
     series_unit := series_unit m;
     named_maps := named_maps m;
     brain_models := brain_models m;
     parcels := parcels m ++ [x];
     surfaces := surfaces m;
     volume := volume m |}.

Definition append_surface (m : Cifti2MatrixIndicesMap) (x : Cifti2Surface) :=
  {| applies_to_matrix_dimension := applies_to_matrix_dimension m;
     indices_map_to_data_type := indices_map_to_data_type m;
     number_of_series_points := number_of_series_points m;
     series_exponent := series_exponent m;
     series_start := series_start m;
     series_step := series_step m;
     series_unit := series_unit m;
     named_maps := named_maps m;
     brain_models := brain_models m;
     parcels := parcels m;
     surfaces := surfaces m ++ [x];
     volume := volume m |}.

Definition set_volume (m : Cifti2MatrixIndicesMap) (v : Cifti2Volume) :=
  {| applies_to_matrix_dimension := applies_to_matrix_dimension m;
     indices_map_to_data_type := indices_map_to_data_type m;
     number_of_series_points := number_of_series_points m;
     series_exponent := series_exponent m;
     series_start := series_start m;
     series_step := series_step m;
     series_unit := series_unit m;
     named_maps := named_maps m;
     brain_models := brain_models m;
     parcels := parcels m;
     surfaces := surfaces m;
     volume := Some v |}.

(** [mim.applies_to_matrix_dimension.append(dim)] *)
Definition register_dimension (m : Cifti2MatrixIndicesMap) (dim : nat) :=
  {| applies_to_matrix_dimension := applies_to_matrix_dimension m ++ [dim];
     indices_map_to_data_type := indices_map_to_data_type m;
     number_of_series_points := number_of_series_points m;
     series_exponent := series_exponent m;
     series_start := series_start m;
     series_step := series_step m;
     series_unit := series_unit m;
     named_maps := named_maps m;
     brain_models := brain_models m;
     parcels := parcels m;
     surfaces := surfaces m;
     volume := volume m |}.

End cifti2.

(** ** [class Series(Axis)] *)

Module Series.

Record t : Type := {
  start : number;
  step : number;
  size : Z;
  unit : string
}.

Definition unit_names : list string := ["SECOND"; "HERTZ"; "METER"; "RADIAN"].

(** [Series.__init__]; the setter of [unit] runs first. *)
Definition __init__ (start step : number) (size : Z) (unit : string) : result t :=
  if bool_decide (str_upper unit ∈ unit_names)
  then Ok {| start := start; step := step; size := size; unit := str_upper unit |}
  else Raise (ValueError "Series unit should be one of ('second', 'hertz', 'meter', or 'radian'").

Definition from_mapping (libm_pow : float -> float -> float)
    (mim : cifti2.Cifti2MatrixIndicesMap) : result t :=
  match cifti2.series_start mim, cifti2.series_step mim, cifti2.series_exponent mim,
        cifti2.number_of_series_points mim, cifti2.series_unit mim with
  | Some st, Some sp, Some e, Some n, Some u =>
      do p <- pow10 libm_pow e;
      do start <- num_mul st p;
      do p <- pow10 libm_pow e;
      do step <- num_mul sp p;
      __init__ start step n u
  | _, _, _, _, _ => Raise TypeError
  end.

Definition to_mapping (self : t) (dim : nat) : cifti2.Cifti2MatrixIndicesMap :=
  cifti2.with_series (cifti2.new dim "CIFTI_INDEX_TYPE_SERIES")
    0 (start self) (step self) (size self) (unit self).

Definition extend (self other_axis : t) : result t :=
  if negb (num_eqb (step other_axis) (step self))
  then Raise (ValueError "Can only concatenate Series with the same step size")
  else if negb (bool_decide (unit other_axis = unit self))
  then Raise (ValueError "Can only concatenate Series with the same unit")
  else __init__ (start self) (step self) (size self + size other_axis) (unit self).

Definition out_of_range : exn :=
  IndexError "index %i is out of range for get_series with size %i".

(** The time point [start + step * index] of a position. *)
Definition time_point (self : t) (index : Z) : result number :=
  do p <- num_mul (step self) (PyInt index);
  num_add (start self) p.

Definition get_element (self : t) (index : Z) : result number :=
  let index := if index <? 0 then size self + index else index in
  if size self <=? index then Raise out_of_range
  else time_point self index.

Inductive selected : Type :=
| Sub (s : t)
| Element (x : number).

Definition __getitem__ (self : t) (it : item) : result selected :=
  match it with
  | ItemSlice sl =>
      let step' := match slice_step sl with None => 1 | Some s => s end in
      let idx_start :=
        match slice_start sl with
        | None => if step' <? 0 then size self - 1 else 0
        | Some s => if 0 <=? s then s else size self + s
        end in
      let idx_end :=
        match slice_stop sl with
        | None => if step' <? 0 then -1 else size self
        | Some s => if 0 <=? s then s else size self + s
        end in
      let idx_start := if size self <? idx_start then size self - 1 else idx_start in
      let idx_end := if size self <? idx_end then size self else idx_end in
      if step' =? 0 then Raise ZeroDivisionError
      else
        let nelements := (idx_end - idx_start) / step' in
        let nelements := if nelements <? 0 then 0 else nelements in
        do p <- num_mul (PyInt idx_start) (step self);
        do new_start <- num_add p (start self);
        do new_step <- num_mul (step self) (PyInt step');
        do s <- __init__ new_start new_step nelements (unit self);
        Ok (Sub s)
  | ItemInt i => do x <- get_element self i; Ok (Element x)
  | ItemStr _ =>
      Raise (IndexError "Series can only be indexed with integers or slices without breaking the regular structure")
  end.

(** [Series.__add__] for another [Series]. *)
Definition __add__ (self other : t) : result t := extend self other.

(** [Series.__eq__] for another [Series]. *)
Definition __eq__ (self other : t) : bool :=
  num_eqb (start self) (start other) &&
  num_eqb (step self) (step other) &&
  bool_decide (size self = size other) &&
  bool_decide (unit self = unit other).

Definition __len__ (self : t) : Z := size self.

End Series.

(** ** [class Scalar(Axis)] and [class Label(Axis)] *)

Definition rgba_t : Type := Qc * Qc * Qc * Qc.
Definition label_table_t : Type := gmap Z (string * rgba_t).

Module Label.

Record t : Type := {
  name : list string;
  label : list label_table_t;
  meta : list (gmap string string)
}.

Definition __len__ (self : t) : nat := length (name self).

Definition __init__ (name : list string) (label : list label_table_t)
    (meta : list (gmap string string)) : result t :=
  let size := length name in
  if negb (length meta =? size)%nat
  then Raise (ValueError "Input meta has incorrect shape for Label axis")
  else if negb (length label =? size)%nat
  then Raise (ValueError "Input label has incorrect shape for Label axis")
  else Ok {| name := name; label := label; meta := meta |}.

Definition to_label_table (lb : label_table_t) : gmap Z cifti2.Cifti2Label :=
  map_imap (fun k (v : string * rgba_t) =>
    let '(nm, (r, g, b, a)) := v in
    Some {| cifti2.key := k; cifti2.label := nm;
            cifti2.red := r; cifti2.green := g; cifti2.blue := b; cifti2.alpha := a |}) lb.

(** An empty [meta] is written as [Cifti2MetaData(None)], the metadata
    without entries. *)
Definition to_mapping (self : t) (dim : nat) : cifti2.Cifti2MatrixIndicesMap :=
  fold_left
    (fun mim '(nm, lb, mt) =>
       cifti2.append_named_map mim
         {| cifti2.map_name := nm;
            cifti2.metadata := Some mt;
            cifti2.label_table := Some (to_label_table lb) |})
    (zip (zip (name self) (label self)) (meta self))
    (cifti2.new dim "CIFTI_INDEX_TYPE_LABELS").

Definition get_element (self : t) (index : Z)
    : result (string * label_table_t * gmap string string) :=
  do n <- getindex (name self) index;
  do l <- getindex (label self) index;
  do m <- getindex (meta self) index;
  Ok (n, l, m).

(** [Label.__add__] for another [Label]. *)
Definition __add__ (self other : t) : result t :=
  __init__ (name self ++ name other)%list (label self ++ label other)%list
           (meta self ++ meta other)%list.

(** [Label.__eq__] for another [Label]. *)
Definition __eq__ (self other : t) : bool :=
  if negb (__len__ self =? __len__ other)%nat then false
  else bool_decide (name self = name other) &&
       bool_decide (meta self = meta other) &&
       bool_decide (label self = label other).

Inductive selected : Type :=
| Sub (s : t)
| Element (x : string * label_table_t * gmap string string).

Definition __getitem__ (self : t) (it : item) : result selected :=
  match it with
  | ItemInt i => do x <- get_element self i; Ok (Element x)
  | ItemSlice sl =>
      do n <- getslice (name self) sl;
      do l <- getslice (label self) sl;
      do m <- getslice (meta self) sl;
      do s <- __init__ n l m;
      Ok (Sub s)
  | ItemStr _ =>
      Raise (IndexError "only integers, slices and integer or boolean arrays are valid indices")
  end.

End Label.

Module Scalar.

Record t : Type := {
  name : list string;
  meta : list (gmap string string)
}.

Definition __len__ (self : t) : nat := length (name self).

Definition __init__ (name : list string) (meta : option (list (gmap string string)))
    : result t :=
  let meta := match meta with
              | None => replicate (length name) ∅
              | Some m => m
              end in
  if negb (length meta =? length name)%nat
  then Raise (ValueError "Input meta has incorrect shape for Scalar axis")
  else Ok {| name := name; meta := meta |}.

Definition from_mapping (mim : cifti2.Cifti2MatrixIndicesMap) : result t :=
  let names := map cifti2.map_name (cifti2.named_maps mim) in
  let meta := map (fun nm => default ∅ (cifti2.metadata nm)) (cifti2.named_maps mim) in
  __init__ names (Some meta).

(** An empty [meta] is written as [Cifti2MetaData(None)], the metadata
    without entries. *)
Definition to_mapping (self : t) (dim : nat) : cifti2.Cifti2MatrixIndicesMap :=
  fold_left
    (fun mim '(nm, mt) =>
       cifti2.append_named_map mim
         {| cifti2.map_name := nm;
            cifti2.metadata := Some mt;
            cifti2.label_table := None |})
    (zip (name self) (meta self))
    (cifti2.new dim "CIFTI_INDEX_TYPE_SCALARS").

Definition get_element (self : t) (index : Z) : result (string * gmap string string) :=
  do n <- getindex (name self) index;
  do m <- getindex (meta self) index;
  Ok (n, m).

(** [labels] is one table for all rows ([inl]) or a list of tables ([inr]). *)
Definition to_label (self : t) (labels : label_table_t + list label_table_t)
    : result Label.t :=
  let labels := match labels with
                | inl d => replicate (__len__ self) d
                | inr l => l
                end in
  Label.__init__ (name self) labels (meta self).

(** [Scalar.__eq__] for another [Scalar]. *)
Definition __eq__ (self other : t) : bool :=
  if negb (__len__ self =? __len__ other)%nat then false
  else bool_decide (name self = name other) &&
       bool_decide (meta self = meta other).

(** [Scalar.__add__] for another [Scalar]. *)
Definition __add__ (self other : t) : result t :=
  __init__ (name self ++ name other)%list (Some (meta self ++ meta other)%list).

Inductive selected : Type :=
| Sub (s : t)
| Element (x : string * gmap string string).

Definition __getitem__ (self : t) (it : item) : result selected :=
  match it with
  | ItemInt i => do x <- get_element self i; Ok (Element x)
  | ItemSlice sl =>
      do n <- getslice (name self) sl;
      do m <- getslice (meta self) sl;
      do s <- __init__ n (Some m);
      Ok (Sub s)
  | ItemStr _ =>
      Raise (IndexError "only integers, slices and integer or boolean arrays are valid indices")
  end.

End Scalar.

(** [Label.from_mapping], which goes through [Scalar.from_mapping] and
    [Scalar.to_label]. *)
Definition Label_from_mapping (mim : cifti2.Cifti2MatrixIndicesMap) : result Label.t :=
  do tables <- mapM (fun nm =>
                 match cifti2.label_table nm with
                 | Some tb => Ok ((fun v => (cifti2.label v, cifti2.rgba v)) <$> tb)
                 | None => Raise AttributeError
                 end) (cifti2.named_maps mim);
  do sc <- Scalar.from_mapping mim;
  Scalar.to_label sc (inr tables).

(** ** numpy helpers shared by [BrainModel] and [Parcels] *)

Definition matrix_t : Type := list (list Qc).

(** [np.asarray(value).shape == (4, 4)] *)
Definition shape_4x4 (m : matrix_t) : bool :=
  (length m =? 4)%nat && forallb (fun row => (length row =? 4)%nat) m.

(** Pairs up two arrays along their first axis for an elementwise
    operation; an array of length one is broadcast, any other mismatch of
    the lengths raises. *)
Definition broadcast2 {A} (l1 l2 : list A) : result (list (A * A)) :=
  if (length l1 =? length l2)%nat then Ok (zip l1 l2)
  else match l1, l2 with
       | [x], _ => Ok (zip (replicate (length l2) x) l2)
       | _, [y] => Ok (zip l1 (replicate (length l1) y))
       | _, _ => Raise (ValueError "operands could not be broadcast together")
       end.

(** [(a == b).all()], [(a != b).any()] and [(a != b).all()] *)
Definition all_eq `{EqDecision A} (l1 l2 : list A) : result bool :=
  do ps <- broadcast2 l1 l2;
  Ok (forallb (fun '(x, y) => bool_decide (x = y)) ps).

Definition any_ne `{EqDecision A} (l1 l2 : list A) : result bool :=
  do ps <- broadcast2 l1 l2;
  Ok (existsb (fun '(x, y) => negb (bool_decide (x = y))) ps).

Definition all_ne `{EqDecision A} (l1 l2 : list A) : result bool :=
  do ps <- broadcast2 l1 l2;
  Ok (forallb (fun '(x, y) => negb (bool_decide (x = y))) ps).

(** The entries of [abs(a - b)] for two matrices of one shape. *)
Definition abs_diff_entries (a b : matrix_t) : list Qc :=
  concat (map (fun '(ra, rb) => map (fun '(x, y) => Qcabs (x - y)%Qc) (zip ra rb)) (zip a b)).

(** [arr.max()] *)
Definition array_max (l : list Qc) : result Qc :=
  match l with
  | [] => Raise (ValueError "zero-size array to reduction operation maximum which has no identity")
  | x :: l' => Ok (fold_left Qcmaxc l' x)
  end.

(** [(a != b).all()] and [(a != b).any()] for two matrices of one shape. *)
Definition matrix_all_ne (a b : matrix_t) : bool :=
  forallb (fun '(ra, rb) =>
    forallb (fun '(x, y) => negb (bool_decide (x = y :> Qc))) (zip ra rb)) (zip a b).

Definition matrix_any_ne (a b : matrix_t) : bool :=
  existsb (fun '(ra, rb) =>
    existsb (fun '(x, y) => negb (bool_decide (x = y :> Qc))) (zip ra rb)) (zip a b).

(** [arr[lo:hi] = vals] along the first axis. *)
Definition setslice {A} (arr : list A) (lo hi : nat) (vals : list A) : result (list A) :=
  let lo' := Nat.min lo (length arr) in
  let hi' := Nat.max lo' (Nat.min hi (length arr)) in
  let n := (hi' - lo')%nat in
  if (length vals =? n)%nat then Ok (take lo' arr ++ vals ++ drop hi' arr)%list
  else match vals with
       | [v] => Ok (take lo' arr ++ replicate n v ++ drop hi' arr)%list
       | _ => Raise (ValueError "could not broadcast input array")
       end.

(** [np.eye(n)] *)
Definition eye (n : nat) : matrix_t :=
  map (fun i => map (fun j => if (i =? j)%nat then Qc_of_Z 1 else Qc_of_Z 0) (seq 0 n))
      (seq 0 n).

(** The masks that [BrainModel.from_mask] tells apart by [mask.ndim]: a
    one-dimensional array, an array of the shape [(nx, ny, nz)] with its
    entries, and an array of another number of dimensions. *)
Inductive mask_t : Type :=
| Mask1 (m : list Z)
| Mask3 (nx ny nz : nat) (m : nat -> nat -> nat -> Z)
| MaskN (ndim : nat).

(** [np.where(mask != 0)[0]] for a one-dimensional mask. *)
Definition nonzero1 (m : list Z) : list Z :=
  omap (fun '(i, x) => if x =? 0 then None else Some (Z.of_nat i))
       (zip (seq 0 (length m)) m).

(** [np.array(np.where(mask != 0)).T] for a three-dimensional mask: the
    indices of the entries that are not zero, in row-major order. *)
Definition nonzero3 (nx ny nz : nat) (m : nat -> nat -> nat -> Z) : list (Z * Z * Z) :=
  flat_map (fun i =>
    flat_map (fun j =>
      flat_map (fun k =>
        if m i j k =? 0 then [] else [(Z.of_nat i, Z.of_nat j, Z.of_nat k)])
      (seq 0 nz))
    (seq 0 ny))
  (seq 0 nx).

(** The loop that merges the vertex counts of [other] into those of
    [self] and raises on the first structure with two different counts. *)
Definition merge_nvertices (mine other : gmap string Z) (e : exn) : result (gmap string Z) :=
  if forallb (fun '(name, value) =>
       match mine !! name with
       | Some v => bool_decide (v = value)
       | None => true
       end) (map_to_list other)
  then Ok (other ∪ mine)
  else Raise e.

(** ** [class BrainModel(Axis)] *)

Module BrainModel.

(** The argument of [to_cifti_brain_structure_name]: a string or a tuple
    of strings. *)
Inductive name_input : Type :=
| Str (s : string)
| Tup (l : list string).

(** The [name] argument of the constructor: one string or an array. *)
Inductive name_arg : Type :=
| NameStr (s : string)
| NameArr (l : list string).

Record t : Type := {
  name : list string;
  voxel : list (Z * Z * Z);
  vertex : list Z;
  affine : option matrix_t;
  volume_shape : option (list Z);
  nvertices : gmap string Z
}.

(** What [get_element] returns: the surface flag, the vertex index or
    the voxel indices, and the structure name. *)
Record element : Type := {
  elt_is_surface : bool;
  elt_index : Z + Z * Z * Z;
  elt_name : string
}.

Definition orient_names : list string := ["left"; "right"; "both"].

Definition is_separator (c : ascii) : bool :=
  bool_decide (c = "_"%char) || bool_decide (c = " "%char).

(** The tests [poss_orient == name.lower()[:idx]] and
    [poss_orient == name.lower()[-idx:]] for [idx = len(poss_orient)]. *)
Definition at_start (poss_orient name : string) : bool :=
  String.eqb poss_orient (str_prefix (String.length poss_orient) (str_lower name)).

Definition at_end (poss_orient name : string) : bool :=
  String.eqb poss_orient (str_last (String.length poss_orient) (str_lower name)).

(** The [for poss_orient in orient_names: ... else: ...] loop: the
    orientation and the structure found in a free string. *)
Fixpoint scan_orientation (name : string) (orients : list string)
    : result (string * string) :=
  match orients with
  | [] => Ok ("both", name)
  | poss_orient :: rest =>
      let idx := String.length poss_orient in
      if at_start poss_orient name then
        do c <- str_index idx name;
        Ok (poss_orient,
            if is_separator c then str_from (idx + 1) name else str_from idx name)
      else if at_end poss_orient name then
        do c <- str_index_neg (idx + 1) name;
        Ok (poss_orient,
            if is_separator c then str_until_last (idx + 1) name
            else str_until_last idx name)
      else scan_orientation name rest
  end.

Definition invalid_structure : exn :=
  ValueError "%s was interpreted as %s, which is not a valid CIFTI brain structure".

(** [proposed_name] for an orientation and a structure. *)
Definition proposed_name (orientation structure : string) : string :=
  if String.eqb (str_lower orientation) "both"
  then "CIFTI_STRUCTURE_" ++ str_upper structure
  else "CIFTI_STRUCTURE_" ++ str_upper structure ++ "_" ++ str_upper orientation.

Section WithStructures.

(** [cifti2.CIFTI_BRAIN_STRUCTURES], the tuple of the valid names, is
    defined in [cifti2.py]. *)
Variable CIFTI_BRAIN_STRUCTURES : list string.

(** The end of [to_cifti_brain_structure_name]: the proposed name is
    returned when it is a valid name. *)
Definition propose (orientation structure : string) : result string :=
  let proposed_name := proposed_name orientation structure in
  if bool_decide (proposed_name ∈ CIFTI_BRAIN_STRUCTURES)
  then Ok proposed_name
  else Raise invalid_structure.

Definition to_cifti_brain_structure_name (name : name_input) : result string :=
  match name with
  | Str name =>
      if bool_decide (name ∈ CIFTI_BRAIN_STRUCTURES) then Ok name
      else
        do '(orientation, structure) <- scan_orientation name orient_names;
        propose orientation structure
  | Tup [structure] => propose "both" structure
  | Tup [first; second] =>
      if bool_decide (str_lower first ∈ orient_names)
      then propose first second
      else propose second first
  | Tup _ => Raise (ValueError "not enough values to unpack")
  end.

(** The setters of the properties [affine], [volume_shape] and [name]. *)
Definition set_affine (value : option matrix_t) : result (option matrix_t) :=
  match value with
  | None => Ok None
  | Some m =>
      if shape_4x4 m then Ok (Some m)
      else Raise (ValueError "Affine transformation should be a 4x4 array")
  end.

Definition set_volume_shape (value : option (list Z)) : result (option (list Z)) :=
  match value with
  | None => Ok None
  | Some v =>
      if (length v =? 3)%nat then Ok (Some v)
      else Raise (ValueError "Volume shape should be a tuple of length 3")
  end.

Definition set_name (values : list string) : result (list string) :=
  mapM (fun name => to_cifti_brain_structure_name (Str name)) values.

(** [is_surface] for given names and vertex counts; [np.vectorize]
    refuses an input of size zero. *)
Definition surface_mask (nvertices : gmap string Z) (name : list string)
    : result (list bool) :=
  match name with
  | [] => Raise (ValueError "cannot call `vectorize` on size 0 inputs unless `otypes` is set")
  | _ => Ok (map (fun n => bool_decide (is_Some (nvertices !! n))) name)
  end.

Definition is_surface (self : t) : result (list bool) :=
  surface_mask (nvertices self) (name self).

Definition __len__ (self : t) : nat := length (name self).

Definition negative_voxel (v : Z * Z * Z) : bool :=
  let '(i, j, k) := v in (i <? 0) || (j <? 0) || (k <? 0).

Definition __init__ (name : name_arg) (voxel : option (list (Z * Z * Z)))
    (vertex : option (list Z)) (affine : option matrix_t)
    (volume_shape : option (list Z)) (nvertices : option (gmap string Z))
    : result t :=
  do '(nelements, voxel) <-
    match voxel with
    | None =>
        match vertex with
        | None => Raise (ValueError "Voxel and vertex indices not defined")
        | Some v => Ok (length v, replicate (length v) (-1, -1, -1))
        end
    | Some vx => Ok (length vx, vx)
    end;
  let vertex := match vertex with
                | None => replicate nelements (-1)
                | Some v => v
                end in
  do name <-
    match name with
    | NameStr s =>
        do c <- to_cifti_brain_structure_name (Str s);
        Ok (replicate (length vertex) c)
    | NameArr l => Ok l
    end;
  do name <- set_name name;
  let nvertices :=
    filter (fun kv => kv.1 ∈ name) (default ∅ nvertices) in
  do surf <- surface_mask nvertices name;
  do '(affine, volume_shape) <-
    (if forallb id surf then Ok (None, None)
     else do a <- set_affine affine;
          do s <- set_volume_shape volume_shape;
          Ok (a, s));
  do surface_vertices <- getmask vertex surf;
  if existsb (fun v => v <? 0) surface_vertices
  then Raise (ValueError "Undefined vertex indices found for surface elements")
  else
    do volume_voxels <- getmask voxel (map negb surf);
    if existsb negative_voxel volume_voxels
    then Raise (ValueError "Undefined voxel indices found for volumetric elements")
    else if negb (length voxel =? length name)%nat
    then Raise (ValueError "Input voxel has incorrect shape for Label axis")
    else if negb (length vertex =? length name)%nat
    then Raise (ValueError "Input vertex has incorrect shape for Label axis")
    else Ok {| name := name; voxel := voxel; vertex := vertex;
               affine := affine; volume_shape := volume_shape;
               nvertices := nvertices |}.

Definition from_surface (vertices : list Z) (nvertex : Z) (name : string)
    : result t :=
  do cifti_name <- to_cifti_brain_structure_name (Str name);
  __init__ (NameStr cifti_name) None (Some vertices) None None
           (Some {[ cifti_name := nvertex ]}).

Definition from_mask (mask : mask_t) (name : string) (affine : option matrix_t)
    : result t :=
  let affine := match affine with
                | None => eye 4
                | Some m => m
                end in
  if negb (shape_4x4 affine)
  then Raise (ValueError "Affine transformation should be a 4x4 array or None, not %r")
  else match mask with
       | Mask1 m => from_surface (nonzero1 m) (Z.of_nat (length m)) name
       | Mask3 nx ny nz m =>
           __init__ (NameStr name) (Some (nonzero3 nx ny nz m)) None (Some affine)
                    (Some [Z.of_nat nx; Z.of_nat ny; Z.of_nat nz]) None
       | MaskN _ =>
           Raise (ValueError "Mask should be either 1-dimensional (for surfaces) or 3-dimensional (for volumes), not %i-dimensional")
       end.

Definition get_element (self : t) (index : Z) : result element :=
  do n <- getindex (name self) index;
  let is_surface := bool_decide (is_Some (nvertices self !! n)) in
  do i <- (if is_surface
           then do v <- getindex (vertex self) index; Ok (inl v)
           else do v <- getindex (voxel self) index; Ok (inr v));
  do n' <- getindex (name self) index;
  Ok {| elt_is_surface := is_surface; elt_index := i; elt_name := n' |}.

Inductive selected : Type :=
| Sub (s : t)
| Element (x : element).

(** [self[item]] for a slice. *)
Definition getitem_slice (self : t) (sl : slice) : result t :=
  do n <- getslice (name self) sl;
  do vx <- getslice (voxel self) sl;
  do vt <- getslice (vertex self) sl;
  __init__ (NameArr n) (Some vx) (Some vt)
           (affine self) (volume_shape self) (Some (nvertices self)).

Definition __getitem__ (self : t) (it : item) : result selected :=
  match it with
  | ItemInt i => do x <- get_element self i; Ok (Element x)
  | ItemStr _ =>
      Raise (IndexError "Can not index an Axis with a string (except for Parcels)")
  | ItemSlice sl => do s <- getitem_slice self sl; Ok (Sub s)
  end.

(** The body of the loop of [iter_structures] over
    [enumerate(self.name)], followed by the last [yield]. The results
    of the generator are collected in a list; an exception of any step
    is the exception of the whole. *)
Fixpoint iter_structures_loop (self : t) (names : list string)
    (idx_current idx_start : nat) (start_name : string)
    : result (list (string * slice * t)) :=
  match names with
  | [] =>
      let sl := Slice (Some (Z.of_nat idx_start)) None None in
      do sub <- getitem_slice self sl;
      Ok [(start_name, sl, sub)]
  | name :: rest =>
      if negb (String.eqb start_name name) then
        let sl := Slice (Some (Z.of_nat idx_start)) (Some (Z.of_nat idx_current)) None in
        do sub <- getitem_slice self sl;
        do start_name' <- getindex (BrainModel.name self) (Z.of_nat idx_current);
        do ys <- iter_structures_loop self rest (S idx_current) idx_current start_name';
        Ok ((start_name, sl, sub) :: ys)
      else iter_structures_loop self rest (S idx_current) idx_start start_name
  end.

Definition iter_structures (self : t) : result (list (string * slice * t)) :=
  do start_name <- getindex (name self) 0;
  iter_structures_loop self (name self) 0 0 start_name.

(** The volume and the brain model that [to_mapping] writes for a
    structure. *)
Definition volume_of (self : t) : cifti2.Cifti2Volume :=
  {| cifti2.volume_dimensions := volume_shape self;
     cifti2.transformation_matrix_voxel_indices_ijk_to_xyz :=
       {| cifti2.meter_exponent := -3; cifti2.matrix := affine self |} |}.

Definition brain_model_of (self : t) (name : string) (to_slice : slice) (bm : t)
    : cifti2.Cifti2BrainModel :=
  let is_surface := bool_decide (is_Some (nvertices self !! name)) in
  {| cifti2.index_offset := Z.to_nat (default 0 (slice_start to_slice));
     cifti2.index_count := __len__ bm;
     cifti2.model_type :=
       if is_surface then "CIFTI_MODEL_TYPE_SURFACE" else "CIFTI_MODEL_TYPE_VOXELS";
     cifti2.brain_structure := name;
     cifti2.surface_number_of_vertices :=
       if is_surface then nvertices self !! name else None;
     cifti2.voxel_indices_ijk := if is_surface then None else Some (voxel bm);
     cifti2.vertex_indices := if is_surface then Some (vertex bm) else None |}.

(** The body of the loop of [to_mapping]. *)
Definition to_mapping_step (self : t) (mim : cifti2.Cifti2MatrixIndicesMap)
    (structure : string * slice * t) : cifti2.Cifti2MatrixIndicesMap :=
  let '(name, to_slice, bm) := structure in
  let is_surface := bool_decide (is_Some (nvertices self !! name)) in
  let mim :=
    if is_surface then mim
    else match cifti2.volume mim with
         | Some _ => mim
         | None => cifti2.set_volume mim (volume_of self)
         end in
  cifti2.append_brain_model mim (brain_model_of self name to_slice bm).

Definition to_mapping (self : t) (dim : nat) : result cifti2.Cifti2MatrixIndicesMap :=
  do structures <- iter_structures self;
  Ok (fold_left (to_mapping_step self) structures
        (cifti2.new dim "CIFTI_INDEX_TYPE_BRAIN_MODELS")).

(** The state of the loop of [from_mapping]. A surface entry without
    vertex indices or without a vertex count, and a voxel entry
    without voxel indices, are outside of the schema of the header;
    they end in a [TypeError] here. The arrays [voxel] and [vertex] of
    the loop are float64 arrays ([-np.ones(...)]), which the constructor
    reads with [dtype=int]: an index that is stored in them becomes
    [via_float64] of it. *)
Record parse_state : Type := {
  ps_voxel : list (Z * Z * Z);
  ps_vertex : list Z;
  ps_name : list string;
  ps_nvertices : gmap string Z;
  ps_affine : option matrix_t;
  ps_shape : option (list Z)
}.

Definition via_float64_ijk (v : Z * Z * Z) : Z * Z * Z :=
  let '(i, j, k) := v in (via_float64 i, via_float64 j, via_float64 k).

Definition from_mapping_step (mim : cifti2.Cifti2MatrixIndicesMap)
    (st : parse_state) (bm : cifti2.Cifti2BrainModel) : result parse_state :=
  let index_end := (cifti2.index_offset bm + cifti2.index_count bm)%nat in
  let is_surface := String.eqb (cifti2.model_type bm) "CIFTI_MODEL_TYPE_SURFACE" in
  let name := (ps_name st ++ replicate (cifti2.index_count bm) (cifti2.brain_structure bm))%list in
  if is_surface then
    match cifti2.vertex_indices bm, cifti2.surface_number_of_vertices bm with
    | Some vs, Some nv =>
        do vertex <- setslice (ps_vertex st) (cifti2.index_offset bm) index_end
                              (map via_float64 vs);
        Ok {| ps_voxel := ps_voxel st; ps_vertex := vertex; ps_name := name;
              ps_nvertices := <[ cifti2.brain_structure bm := nv ]> (ps_nvertices st);
              ps_affine := ps_affine st; ps_shape := ps_shape st |}
    | _, _ => Raise TypeError
    end
  else
    match cifti2.voxel_indices_ijk bm with
    | Some vx =>
        do voxel <- setslice (ps_voxel st) (cifti2.index_offset bm) index_end
                             (map via_float64_ijk vx);
        match cifti2.volume mim with
        | None => Raise AttributeError
        | Some vol =>
            let dims := cifti2.volume_dimensions vol in
            let mat := cifti2.matrix (cifti2.transformation_matrix_voxel_indices_ijk_to_xyz vol) in
            match ps_affine st with
            | None =>
                Ok {| ps_voxel := voxel; ps_vertex := ps_vertex st; ps_name := name;
                      ps_nvertices := ps_nvertices st;
                      ps_affine := mat; ps_shape := dims |}
            | Some affine =>
                if negb (bool_decide (ps_shape st = dims))
                then Raise (ValueError "All volume masks should be defined in the same volume")
                else match mat with
                     | None => Raise (ValueError "All volume masks should have the same affine")
                     | Some m =>
                         if matrix_any_ne affine m
                         then Raise (ValueError "All volume masks should have the same affine")
                         else Ok {| ps_voxel := voxel; ps_vertex := ps_vertex st;
                                    ps_name := name;
                                    ps_nvertices := ps_nvertices st;
                                    ps_affine := ps_affine st; ps_shape := ps_shape st |}
                     end
            end
        end
    | None => Raise TypeError
    end.

(** For a mapping without brain models [np.sum([])] is the float [0.0],
    which [np.ones] refuses as a length with a [TypeError]. *)
Definition from_mapping (mim : cifti2.Cifti2MatrixIndicesMap) : result t :=
  let nbm := list_sum (map cifti2.index_count (cifti2.brain_models mim)) in
  if (length (cifti2.brain_models mim) =? 0)%nat then Raise TypeError else
  do st <- fold_left (fun acc bm => do st <- acc; from_mapping_step mim st bm)
             (cifti2.brain_models mim)
             (Ok {| ps_voxel := replicate nbm (-1, -1, -1);
                    ps_vertex := replicate nbm (-1);
                    ps_name := [];
                    ps_nvertices := ∅;
                    ps_affine := None; ps_shape := None |});
  __init__ (NameArr (ps_name st)) (Some (ps_voxel st)) (Some (ps_vertex st))
           (ps_affine st) (ps_shape st) (Some (ps_nvertices st)).

Definition different_volume : exn :=
  ValueError "Trying to concatenate two BrainModels defined in a different brain volume".

Definition inconsistent_vertices : exn :=
  ValueError "Trying to concatenate two BrainModels with inconsistent number of vertices for %s".

(** [BrainModel.__eq__] for another [BrainModel]. *)
Definition __eq__ (self other : t) : result bool :=
  if negb (__len__ self =? __len__ other)%nat then Ok false
  else if xorb (bool_decide (affine self = None)) (bool_decide (affine other = None))
  then Ok false
  else
    do same_volume <-
      match affine self, affine other with
      | None, None => Ok true
      | Some a, Some b =>
          do m <- array_max (abs_diff_entries a b);
          Ok (bool_decide (m < tol_1e_8)%Qc &&
              bool_decide (volume_shape self = volume_shape other))
      | _, _ => Ok false
      end;
    if negb same_volume then Ok false
    else if negb (bool_decide (nvertices self = nvertices other)) then Ok false
    else if negb (bool_decide (name self = name other)) then Ok false
    else
      do m1 <- is_surface self;
      do m2 <- is_surface other;
      do vx1 <- getmask (voxel self) (map negb m1);
      do vx2 <- getmask (voxel other) (map negb m2);
      do same_voxels <- all_eq vx1 vx2;
      if negb same_voxels then Ok false
      else
        do m1 <- is_surface self;
        do m2 <- is_surface other;
        do vt1 <- getmask (vertex self) (map negb m1);
        do vt2 <- getmask (vertex other) (map negb m2);
        all_eq vt1 vt2.

(** [BrainModel.__add__] for another [BrainModel]. *)
Definition __add__ (self other : t) : result t :=
  do '(affine, shape) <-
    match BrainModel.affine self with
    | None => Ok (BrainModel.affine other, volume_shape other)
    | Some a =>
        match BrainModel.affine other with
        | Some b =>
            if matrix_all_ne b a ||
               negb (bool_decide (volume_shape other = volume_shape self))
            then Raise different_volume
            else Ok (Some a, volume_shape self)
        | None => Ok (Some a, volume_shape self)
        end
    end;
  do nvertices <- merge_nvertices (nvertices self) (nvertices other) inconsistent_vertices;
  __init__ (NameArr (name self ++ name other)%list)
           (Some (voxel self ++ voxel other)%list)
           (Some (vertex self ++ vertex other)%list)
           affine shape (Some nvertices).

End WithStructures.

End BrainModel.

(** ** [class Parcels(Axis)] *)

Module Parcels.

Record t : Type := {
  name : list string;
  voxels : list (list (Z * Z * Z));
  vertices : list (gmap string (list Z));
  affine : option matrix_t;
  volume_shape : option (list Z);
  nvertices : gmap string Z
}.

Definition __len__ (self : t) : nat := length (name self).

Definition set_affine (value : option matrix_t) : result (option matrix_t) :=
  match value with
  | None => Ok None
  | Some m =>
      if shape_4x4 m then Ok (Some m)
      else Raise (ValueError "Affine transformation should be a 4x4 array")
  end.

Definition set_volume_shape (value : option (list Z)) : result (option (list Z)) :=
  match value with
  | None => Ok None
  | Some v =>
      if (length v =? 3)%nat then Ok (Some v)
      else Raise (ValueError "Volume shape should be a tuple of length 3")
  end.

(** [voxels] and [vertices] are one-dimensional object arrays with one
    entry for each parcel, as [from_mapping] builds them; for Python
    lists of arrays, which [np.asarray] may stack, see [of_lists]. *)
Definition __init__ (name : list string) (voxels : list (list (Z * Z * Z)))
    (vertices : list (gmap string (list Z))) (affine : option matrix_t)
    (volume_shape : option (list Z)) (nvertices : option (gmap string Z))
    : result t :=
  do affine <- set_affine affine;
  do volume_shape <- set_volume_shape volume_shape;
  let size := length name in
  if negb (length voxels =? size)%nat
  then Raise (ValueError "Input voxels has incorrect shape for Label axis")
  else if negb (length vertices =? size)%nat
  then Raise (ValueError "Input vertices has incorrect shape for Label axis")
  else Ok {| name := name; voxels := voxels; vertices := vertices;
             affine := affine; volume_shape := volume_shape;
             nvertices := default ∅ nvertices |}.

(** [np.asarray(voxels, dtype='object')] for a Python list of arrays of
    the shapes [(n_i, 3)]: when the list is not empty and all the [n_i]
    are equal, numpy stacks the arrays to one array of three
    dimensions; otherwise the result is the one-dimensional array of
    the arrays. *)
Definition stacked (voxels : list (list (Z * Z * Z))) : bool :=
  match voxels with
  | [] => false
  | v :: rest => forallb (fun w => (length w =? length v)%nat) rest
  end.

(** The constructor for Python lists [name], [voxels] and [vertices], as
    [from_brain_models] calls it: the stacked array of the voxels fails
    the test of the shape. *)
Definition of_lists (name : list string) (voxels : list (list (Z * Z * Z)))
    (vertices : list (gmap string (list Z))) (affine : option matrix_t)
    (volume_shape : option (list Z)) (nvertices : option (gmap string Z))
    : result t :=
  do _ <- set_affine affine;
  do _ <- set_volume_shape volume_shape;
  if stacked voxels
  then Raise (ValueError "Input voxels has incorrect shape for Label axis")
  else __init__ name voxels vertices affine volume_shape nvertices.

Definition vertices_undefined : exn :=
  ValueError "Number of vertices for surface structure %s not defined".

Definition wrap_int32_ijk (v : Z * Z * Z) : Z * Z * Z :=
  let '(i, j, k) := v in (wrap_int32 i, wrap_int32 j, wrap_int32 k).

(** The voxels of a parcel are copied into an int32 array
    ([np.zeros((nvoxels, 3), dtype='i4')]). *)
Definition from_mapping (mim : cifti2.Cifti2MatrixIndicesMap) : result t :=
  let volume_shape :=
    match cifti2.volume mim with
    | None => None
    | Some v => cifti2.volume_dimensions v
    end in
  let affine :=
    match cifti2.volume mim with
    | None => None
    | Some v => cifti2.matrix (cifti2.transformation_matrix_voxel_indices_ijk_to_xyz v)
    end in
  let nvertices :=
    fold_left (fun nv surface =>
                 <[ cifti2.surface_brain_structure surface :=
                      cifti2.surface_surface_number_of_vertices surface ]> nv)
              (cifti2.surfaces mim) ∅ in
  do rows <- mapM (fun parcel =>
      let voxels := map wrap_int32_ijk (default [] (cifti2.parcel_voxel_indices_ijk parcel)) in
      do vertices <-
        fold_left (fun acc vertex =>
                     do vs <- acc;
                     let name := cifti2.vertices_brain_structure vertex in
                     if bool_decide (is_Some (nvertices !! name))
                     then Ok (<[ name := cifti2.vertices_indices vertex ]> vs)
                     else Raise vertices_undefined)
                  (cifti2.parcel_vertices parcel) (Ok ∅);
      Ok (cifti2.parcel_name parcel, voxels, vertices)) (cifti2.parcels mim);
  __init__ (map (fun r => r.1.1) rows) (map (fun r => r.1.2) rows)
           (map (fun r => r.2) rows) affine volume_shape (Some nvertices).

(** The entries of a dict are written in the order of [map_to_list]. *)
Definition to_mapping (self : t) (dim : nat) : cifti2.Cifti2MatrixIndicesMap :=
  let mim := cifti2.new dim "CIFTI_INDEX_TYPE_PARCELS" in
  let mim :=
    match affine self with
    | Some a =>
        cifti2.set_volume mim
          {| cifti2.volume_dimensions := volume_shape self;
             cifti2.transformation_matrix_voxel_indices_ijk_to_xyz :=
               {| cifti2.meter_exponent := -3; cifti2.matrix := Some a |} |}
    | None => mim
    end in
  let mim :=
    fold_left (fun mim '(name, nvertex) =>
                 cifti2.append_surface mim
                   {| cifti2.surface_brain_structure := name;
                      cifti2.surface_surface_number_of_vertices := nvertex |})
              (map_to_list (nvertices self)) mim in
  fold_left
    (fun mim '(name, voxels, vertices) =>
       cifti2.append_parcel mim
         {| cifti2.parcel_name := name;
            cifti2.parcel_voxel_indices_ijk := Some voxels;
            cifti2.parcel_vertices :=
              map (fun '(name, idx_vertices) =>
                     {| cifti2.vertices_brain_structure := name;
                        cifti2.vertices_indices := idx_vertices |})
                  (map_to_list vertices) |})
    (zip (zip (name self) (voxels self)) (vertices self))
    mim.

Definition get_element (self : t) (index : Z)
    : result (string * list (Z * Z * Z) * gmap string (list Z)) :=
  do n <- getindex (name self) index;
  do vx <- getindex (voxels self) index;
  do vt <- getindex (vertices self) index;
  Ok (n, vx, vt).

Inductive selected : Type :=
| Sub (s : t)
| Element (x : string * list (Z * Z * Z) * gmap string (list Z))
| Named (x : list (Z * Z * Z) * gmap string (list Z)).

(** [np.where(self.name == item)[0]] *)
Definition where_name (names : list string) (it : string) : list nat :=
  omap (fun '(i, n) => if String.eqb n it then Some i else None)
       (zip (seq 0 (length names)) names).

Definition not_found : exn := IndexError "Parcel %s not found".
Definition multiple_found : exn := IndexError "Multiple get_parcels with name %s found".

Definition __getitem__ (self : t) (it : item) : result selected :=
  match it with
  | ItemStr s =>
      match where_name (name self) s with
      | [] => Raise not_found
      | [i] =>
          do vx <- getindex (voxels self) (Z.of_nat i);
          do vt <- getindex (vertices self) (Z.of_nat i);
          Ok (Named (vx, vt))
      | _ => Raise multiple_found
      end
  | ItemInt i => do x <- get_element self i; Ok (Element x)
  | ItemSlice sl =>
      do n <- getslice (name self) sl;
      do vx <- getslice (voxels self) sl;
      do vt <- getslice (vertices self) sl;
      do s <- __init__ n vx vt (affine self) (volume_shape self) (Some (nvertices self));
      Ok (Sub s)
  end.

(** The loop over [vert1.keys()] in [__eq__]: [true] when the loop
    reaches a [return False]. The keys are visited in the order of
    [map_to_list]. *)
Definition vertices_differ (vert1 vert2 : gmap string (list Z)) : result bool :=
  if negb (size vert1 =? size vert2)%nat then Ok true
  else anyM (fun '(name, v1) =>
               match vert2 !! name with
               | None => Ok true
               | Some v2 => all_ne v1 v2
               end) (map_to_list vert1).

(** [Parcels.__eq__] for another [Parcels]. *)
Definition __eq__ (self other : t) : result bool :=
  if negb (__len__ self =? __len__ other)%nat then Ok false
  else
    do names_differ <- all_ne (name self) (name other);
    if names_differ then Ok false
    else if negb (bool_decide (nvertices self = nvertices other)) then Ok false
    else
      do voxels_differ <-
        anyM (fun '(vox1, vox2) => any_ne vox1 vox2) (zip (voxels self) (voxels other));
      if voxels_differ then Ok false
      else
        do volume_differs <-
          match affine self with
          | Some a =>
              match affine other with
              | None => Ok true
              | Some b =>
                  do m <- array_max (abs_diff_entries a b);
                  Ok (bool_decide (tol_1e_8 < m)%Qc ||
                      negb (bool_decide (volume_shape self = volume_shape other)))
              end
          | None => Ok (negb (bool_decide (affine other = None)))
          end;
        if volume_differs then Ok false
        else
          do differ <- anyM (fun '(vert1, vert2) => vertices_differ vert1 vert2)
                         (zip (vertices self) (vertices other));
          Ok (negb differ).

Definition different_volume : exn :=
  ValueError "Trying to concatenate two Parcels defined in a different brain volume".

Definition inconsistent_vertices : exn :=
  ValueError "Trying to concatenate two Parcels with inconsistent number of vertices for %s".

(** [Parcels.__add__] for another [Parcels]. *)
Definition __add__ (self other : t) : result t :=
  do '(affine, shape) <-
    match Parcels.affine self with
    | None => Ok (Parcels.affine other, volume_shape other)
    | Some a =>
        match Parcels.affine other with
        | Some b =>
            if matrix_all_ne b a ||
               negb (bool_decide (volume_shape other = volume_shape self))
            then Raise different_volume
            else Ok (Some a, volume_shape self)
        | None => Ok (Some a, volume_shape self)
        end
    end;
  do nvertices <- merge_nvertices (nvertices self) (nvertices other) inconsistent_vertices;
  __init__ (name self ++ name other)%list
           (voxels self ++ voxels other)%list
           (vertices self ++ vertices other)%list
           affine shape (Some nvertices).

End Parcels.

(** ** The axes as one type, [from_mapping] and [to_header] *)

Inductive Axis : Type :=
| AxBrainModel (a : BrainModel.t)
| AxParcels (a : Parcels.t)
| AxScalar (a : Scalar.t)
| AxLabel (a : Label.t)
| AxSeries (a : Series.t).

(** A Python object: an axis together with its identity. *)
Record object : Type := Object {
  identity : nat;
  value : Axis
}.

(** The state of the loop of [to_header]. An entry of [mims_all] refers to
    a mapping of [matrix] by its position, so that the entries of
    [mims_all] that stand for one Python object share their updates. *)
Record header_state : Type := {
  mims_all : list nat;
  matrix : list cifti2.Cifti2MatrixIndicesMap
}.

(** [self == other]: the [isinstance] test of each [__eq__], then the
    comparison of the class. *)
Definition Axis_eq (self other : Axis) : result bool :=
  match self, other with
  | AxBrainModel a, AxBrainModel b => BrainModel.__eq__ a b
  | AxParcels a, AxParcels b => Parcels.__eq__ a b
  | AxScalar a, AxScalar b => Ok (Scalar.__eq__ a b)
  | AxLabel a, AxLabel b => Ok (Label.__eq__ a b)
  | AxSeries a, AxSeries b => Ok (Series.__eq__ a b)
  | _, _ => Ok false
  end.

(** [x is e or x == e], the test behind [x in list] and [list.index(x)]:
    the language reference gives [x in y] for a list [y] as
    [any(x is e or x == e for e in y)]. *)
Definition same_or_equal (x e : object) : result bool :=
  if (identity x =? identity e)%nat then Ok true else Axis_eq (value x) (value e).

(** [ax in l] *)
Definition contains (ax : object) (l : list object) : result bool :=
  anyM (same_or_equal ax) l.

(** [l.index(ax)] *)
Fixpoint index (l : list object) (ax : object) : result nat :=
  match l with
  | [] => Raise (ValueError "x not in list")
  | e :: l' =>
      do b <- same_or_equal ax e;
      if b then Ok 0%nat else do i <- index l' ax; Ok (S i)
  end.

Section WithStructures.

Variable CIFTI_BRAIN_STRUCTURES : list string.

(** The function [pow] of the C library, behind [10 ** e] of
    [Series.from_mapping] for a negative [e]. *)
Variable libm_pow : float -> float -> float.

Definition from_mapping (mim : cifti2.Cifti2MatrixIndicesMap) : result Axis :=
  let tag := cifti2.indices_map_to_data_type mim in
  if String.eqb tag "CIFTI_INDEX_TYPE_SCALARS"
  then do a <- Scalar.from_mapping mim; Ok (AxScalar a)
  else if String.eqb tag "CIFTI_INDEX_TYPE_LABELS"
  then do a <- Label_from_mapping mim; Ok (AxLabel a)
  else if String.eqb tag "CIFTI_INDEX_TYPE_SERIES"
  then do a <- Series.from_mapping libm_pow mim; Ok (AxSeries a)
  else if String.eqb tag "CIFTI_INDEX_TYPE_BRAIN_MODELS"
  then do a <- BrainModel.from_mapping CIFTI_BRAIN_STRUCTURES mim; Ok (AxBrainModel a)
  else if String.eqb tag "CIFTI_INDEX_TYPE_PARCELS"
  then do a <- Parcels.from_mapping mim; Ok (AxParcels a)
  else Raise (KeyError tag).

(** [ax.to_mapping(dim)] *)
Definition Axis_to_mapping (ax : Axis) (dim : nat) : result cifti2.Cifti2MatrixIndicesMap :=
  match ax with
  | AxBrainModel a => BrainModel.to_mapping CIFTI_BRAIN_STRUCTURES a dim
  | AxParcels a => Ok (Parcels.to_mapping a dim)
  | AxScalar a => Ok (Scalar.to_mapping a dim)
  | AxLabel a => Ok (Label.to_mapping a dim)
  | AxSeries a => Ok (Series.to_mapping a dim)
  end.

Definition to_header_step (axes : list object) (st : header_state)
    (dim : nat) (ax : object) : result header_state :=
  do found <- contains ax (take dim axes);
  if found then
    do dim_prev <- index axes ax;
    match mims_all st !! dim_prev with
    | None => Raise (IndexError "list index out of range")
    | Some p =>
        Ok {| mims_all := mims_all st ++ [p];
              matrix := alter (fun mim => cifti2.register_dimension mim dim) p (matrix st) |}
    end
  else
    do mim <- Axis_to_mapping (value ax) dim;
    Ok {| mims_all := mims_all st ++ [length (matrix st)];
          matrix := matrix st ++ [mim] |}.

(** The loop [for dim, ax in enumerate(axes)] from position [dim] on. *)
Fixpoint to_header_loop (axes : list object) (st : header_state)
    (dim : nat) (rest : list object) : result header_state :=
  match rest with
  | [] => Ok st
  | ax :: rest' =>
      do st' <- to_header_step axes st dim ax;
      to_header_loop axes st' (S dim) rest'
  end.

Definition to_header_state (axes : list object) : result header_state :=
  to_header_loop axes {| mims_all := []; matrix := [] |} 0 axes.

(** [to_header]: the header is the matrix of the mappings. *)
Definition to_header (axes : list object) : result (list cifti2.Cifti2MatrixIndicesMap) :=
  do st <- to_header_state axes; Ok (matrix st).

Definition different_volumes : exn :=
  ValueError "Can not combine brain models defined in different volumes into a single Parcel axis".

Definition conflicting_vertices : exn :=
  ValueError "Got multiple conflicting number of vertices for surface structure %s".

(** The state of the loop of [Parcels.from_brain_models]. *)
Record collect_state : Type := {
  cs_affine : option matrix_t;
  cs_volume_shape : option (list Z);
  cs_names : list string;
  cs_voxels : list (list (Z * Z * Z));
  cs_vertices : list (gmap string (list Z));
  cs_nvertices : gmap string Z
}.

Definition from_brain_models_step (st : collect_state)
    (named : string * BrainModel.t) : result collect_state :=
  let '(parcel_name, bm) := named in
  do surf <- BrainModel.is_surface bm;
  do voxels <- getmask (BrainModel.voxel bm) (map negb surf);
  do '(affine, volume_shape) <-
    (if (length voxels =? 0)%nat then Ok (cs_affine st, cs_volume_shape st)
     else match cs_affine st with
          | None => Ok (BrainModel.affine bm, BrainModel.volume_shape bm)
          | Some a =>
              let differ := match BrainModel.affine bm with
                            | Some b => matrix_any_ne a b
                            | None => true
                            end in
              if differ || negb (bool_decide (cs_volume_shape st = BrainModel.volume_shape bm))
              then Raise different_volumes
              else Ok (cs_affine st, cs_volume_shape st)
          end);
  do structures <- BrainModel.iter_structures CIFTI_BRAIN_STRUCTURES bm;
  do '(nvertices, vertices) <-
    fold_left
      (fun acc '(name, _, bm_part) =>
         do '(nvertices, vertices) <- acc;
         match BrainModel.nvertices bm !! name with
         | Some n =>
             match nvertices !! name with
             | Some n' =>
                 if negb (bool_decide (n' = n)) then Raise conflicting_vertices
                 else Ok (<[name := n]> nvertices,
                          <[name := BrainModel.vertex bm_part]> vertices)
             | None => Ok (<[name := n]> nvertices,
                           <[name := BrainModel.vertex bm_part]> vertices)
             end
         | None => Ok (nvertices, vertices)
         end)
      structures (Ok (cs_nvertices st, ∅));
  Ok {| cs_affine := affine; cs_volume_shape := volume_shape;
        cs_names := cs_names st ++ [parcel_name];
        cs_voxels := cs_voxels st ++ [voxels];
        cs_vertices := cs_vertices st ++ [vertices];
        cs_nvertices := nvertices |}.

Definition Parcels_from_brain_models (named_brain_models : list (string * BrainModel.t))
    : result Parcels.t :=
  do st <- fold_left (fun acc named => do st <- acc; from_brain_models_step st named)
             named_brain_models
             (Ok {| cs_affine := None; cs_volume_shape := None; cs_names := [];
                    cs_voxels := []; cs_vertices := []; cs_nvertices := ∅ |});
  Parcels.of_lists (cs_names st) (cs_voxels st) (cs_vertices st)
                   (cs_affine st) (cs_volume_shape st) (Some (cs_nvertices st)).

End WithStructures.

(** ** Examples *)

(** A few of the names of [CIFTI_BRAIN_STRUCTURES], for the examples. *)
Definition some_structures : list string :=
  ["CIFTI_STRUCTURE_CORTEX"; "CIFTI_STRUCTURE_CORTEX_LEFT";
   "CIFTI_STRUCTURE_CORTEX_RIGHT"; "CIFTI_STRUCTURE_THALAMUS_LEFT";
   "CIFTI_STRUCTURE_THALAMUS_RIGHT"; "CIFTI_STRUCTURE_BRAIN_STEM";
   "CIFTI_STRUCTURE_OTHER"].

(** A stand-in for [pow] of the C library in the examples below, none
    of which reads a mapping with a negative exponent. *)
Definition unused_pow : float -> float -> float := fun _ _ => nan.

(** [Series(a, b, n)] for three [int]s. *)
Definition ser (a b n : Z) : Series.t :=
  {| Series.start := PyInt a; Series.step := PyInt b; Series.size := n; Series.unit := "SECOND" |}.


(** * Properties *)

(** ** Series *)

Lemma Qc_of_Z_eq (a b : Z) : a = b -> Qc_of_Z a = Qc_of_Z b.
Proof. intros ->. reflexivity. Qed.

Lemma Series_init_ok (st sp : number) (n : Z) (u : string) :
  str_upper u ∈ Series.unit_names ->
  Series.__init__ st sp n u =
    Ok {| Series.start := st; Series.step := sp; Series.size := n;
          Series.unit := str_upper u |}.
Proof.
  intros Hu. unfold Series.__init__. rewrite bool_decide_eq_true_2; done.
Qed.

(** Within the range, [get_element] counts negative indices from the end. *)
Lemma Series_get_element_nonneg (s : Series.t) (i : Z) :
  0 <= i < Series.size s ->
  Series.get_element s i = Series.time_point s i.
Proof.
  intros H. unfold Series.get_element.
  destruct (Z.ltb_spec i 0); [lia|].
  destruct (Z.leb_spec (Series.size s) i); [lia|]. reflexivity.
Qed.

Lemma Series_get_element_neg (s : Series.t) (i : Z) :
  - Series.size s <= i < 0 ->
  Series.get_element s i = Series.time_point s (Series.size s + i).
Proof.
  intros H. unfold Series.get_element.
  destruct (Z.ltb_spec i 0); [|lia].
  destruct (Z.leb_spec (Series.size s) (Series.size s + i)); [lia|]. reflexivity.
Qed.

Lemma Series_get_element_above (s : Series.t) (i : Z) :
  0 <= Series.size s -> Series.size s <= i ->
  Series.get_element s i = Raise Series.out_of_range.
Proof.
  intros H0 H. unfold Series.get_element.
  destruct (Z.ltb_spec i 0); [lia|].
  destruct (Z.leb_spec (Series.size s) i); [reflexivity|lia].
Qed.

(** The arithmetic of a time point raises nothing but [OverflowError],
    for an [int] that is too large for a float; on two [int]s it is
    exact. *)
Lemma as_float_cases (z : Z) :
  as_float z = Raise OverflowError \/ exists f, as_float z = Ok f.
Proof. unfold as_float. destruct (is_infinity _); eauto. Qed.

Lemma num_mul_cases (a b : number) :
  num_mul a b = Raise OverflowError \/ exists c, num_mul a b = Ok c.
Proof.
  destruct a as [x|f], b as [y|g]; simpl; eauto.
  - destruct (as_float_cases x) as [-> | [h ->]]; simpl; eauto.
  - destruct (as_float_cases y) as [-> | [h ->]]; simpl; eauto.
Qed.

Lemma num_add_cases (a b : number) :
  num_add a b = Raise OverflowError \/ exists c, num_add a b = Ok c.
Proof.
  destruct a as [x|f], b as [y|g]; simpl; eauto.
  - destruct (as_float_cases x) as [-> | [h ->]]; simpl; eauto.
  - destruct (as_float_cases y) as [-> | [h ->]]; simpl; eauto.
Qed.

Lemma time_point_cases (s : Series.t) (i : Z) :
  Series.time_point s i = Raise OverflowError \/ exists x, Series.time_point s i = Ok x.
Proof.
  unfold Series.time_point.
  destruct (num_mul_cases (Series.step s) (PyInt i)) as [-> | [p ->]]; simpl; [eauto|].
  apply num_add_cases.
Qed.

Lemma time_point_int (s : Series.t) (a b i : Z) :
  Series.start s = PyInt a -> Series.step s = PyInt b ->
  Series.time_point s i = Ok (PyInt (a + b * i)).
Proof. intros Ha Hb. unfold Series.time_point. rewrite Ha, Hb. reflexivity. Qed.

Lemma time_point_float (s : Series.t) (f g h : float) (i : Z) :
  Series.start s = PyFloat f -> Series.step s = PyFloat g -> as_float i = Ok h ->
  Series.time_point s i = Ok (PyFloat (PrimFloat.add f (PrimFloat.mul g h))).
Proof.
  intros Hf Hg Hh. unfold Series.time_point. rewrite Hf, Hg. simpl. rewrite Hh. reflexivity.
Qed.

(** C6. [Series.get_element] only tests the upper bound: for an index [i]
    below [-size] the resulting index [size + i] is negative, outside of
    [[0, size)], and yet no [IndexError] is raised; the time point
    [start + step * (size + i)] of that negative position is computed
    and returned: for an [int] start and step it is the [int]
    [start + step * (size + i)], for a float start and step the float of
    the same expression. The only exception that the arithmetic can
    raise is the [OverflowError] of an [int] too large for a float. *)
Theorem C6_get_element_below_range (s : Series.t) (i : Z) :
  0 <= Series.size s -> i < - Series.size s ->
  Series.get_element s i = Series.time_point s (Series.size s + i) /\
  (forall msg, Series.get_element s i <> Raise (IndexError msg)) /\
  (forall a b, Series.start s = PyInt a -> Series.step s = PyInt b ->
     Series.get_element s i = Ok (PyInt (a + b * (Series.size s + i)))) /\
  (forall f g h, Series.start s = PyFloat f -> Series.step s = PyFloat g ->
     as_float (Series.size s + i) = Ok h ->
     Series.get_element s i = Ok (PyFloat (PrimFloat.add f (PrimFloat.mul g h)))).
Proof.
  intros H0 H.
  assert (E : Series.get_element s i = Series.time_point s (Series.size s + i)).
  { unfold Series.get_element.
    destruct (Z.ltb_spec i 0); [|lia].
    destruct (Z.leb_spec (Series.size s) (Series.size s + i)); [lia|]. reflexivity. }
  rewrite E. split; [reflexivity|]. split; [|split].
  - intros msg. destruct (time_point_cases s (Series.size s + i)) as [-> | [x ->]]; discriminate.
  - intros a b. apply time_point_int.
  - intros f g h. apply time_point_float.
Qed.

Lemma C6_get_element_below_range_witness :
  Series.get_element (ser 0 1 3) (-5) = Ok (PyInt (-2)).
Proof.
  destruct (C6_get_element_below_range (ser 0 1 3) (-5)) as (_ & _ & Hint & _);
    [simpl; lia | simpl; lia |].
  apply (Hint 0 1); reflexivity.
Defined.

(** The example of the specification:
    [Series(0,2,5)[1:4] == Series(2,2,3)]. *)
Lemma Series_slice_example :
  exists s, Series.__getitem__ (ser 0 2 5) (ItemSlice (Slice (Some 1) (Some 4) None))
              = Ok (Series.Sub s)
            /\ Series.__eq__ s (ser 2 2 3) = true.
Proof. eexists. split; [reflexivity|]. vm_compute. reflexivity. Qed.

(** The slice of an [int] series is computed exactly. *)
Lemma Series_getitem_int (s : Series.t) (z1 z2 : Z) (sl : slice) :
  Series.start s = PyInt z1 -> Series.step s = PyInt z2 ->
  str_upper (Series.unit s) = Series.unit s -> Series.unit s ∈ Series.unit_names ->
  Series.__getitem__ s (ItemSlice sl) =
    let step' := match slice_step sl with None => 1 | Some s => s end in
    let idx_start :=
      match slice_start sl with
      | None => if step' <? 0 then Series.size s - 1 else 0
      | Some x => if 0 <=? x then x else Series.size s + x
      end in
    let idx_end :=
      match slice_stop sl with
      | None => if step' <? 0 then -1 else Series.size s
      | Some x => if 0 <=? x then x else Series.size s + x
      end in
    let idx_start := if Series.size s <? idx_start then Series.size s - 1 else idx_start in
    let idx_end := if Series.size s <? idx_end then Series.size s else idx_end in
    if step' =? 0 then Raise ZeroDivisionError
    else
      let nelements := (idx_end - idx_start) / step' in
      let nelements := if nelements <? 0 then 0 else nelements in
      Ok (Series.Sub {| Series.start := PyInt (idx_start * z2 + z1);
                        Series.step := PyInt (z2 * step');
                        Series.size := nelements;
                        Series.unit := Series.unit s |}).
Proof.
  intros Hs Hp Hup Hu. unfold Series.__getitem__. rewrite Hs, Hp. cbv zeta.
  destruct (_ =? 0); [reflexivity|]. cbn [num_mul num_add bind].
  rewrite Series_init_ok by (rewrite Hup; exact Hu). cbn [bind]. rewrite Hup. reflexivity.
Qed.

(** C5. With a slice step that does not divide the range, [__getitem__]
    does not count the selected elements: [Series(0,1,5)[::2]] selects the
    three positions 0, 2 and 4 of the axis, but the floor division
    [(idx_end - idx_start) // step] gives a progression of size 2. *)
Theorem C5_slice_size_is_not_selected_count :
  exists s, Series.__getitem__ (ser 0 1 5) (ItemSlice (Slice None None (Some 2)))
              = Ok (Series.Sub s)
            /\ Series.size s = 2
            /\ slice_positions (Series.size (ser 0 1 5)) (Slice None None (Some 2))
               = Ok [0; 2; 4].
Proof. eexists. split; [reflexivity|]. split; reflexivity. Qed.

(** Two more slips of the same function: a start below [-size] is not
    clipped, and a start above [size] is moved to the last element. *)
Lemma Series_slice_start_not_clipped :
  exists s, Series.__getitem__ (ser 0 1 5) (ItemSlice (Slice (Some (-10)) None None))
              = Ok (Series.Sub s)
            /\ Series.size s = 10
            /\ slice_positions 5 (Slice (Some (-10)) None None) = Ok [0; 1; 2; 3; 4].
Proof. eexists. split; [reflexivity|]. split; reflexivity. Qed.

Lemma Series_slice_start_above_size :
  exists s, Series.__getitem__ (ser 0 1 5) (ItemSlice (Slice (Some 7) None None))
              = Ok (Series.Sub s)
            /\ Series.size s = 1
            /\ slice_positions 5 (Slice (Some 7) None None) = Ok [].
Proof. eexists. split; [reflexivity|]. split; reflexivity. Qed.

(** ** The [result] monad and the list helpers *)

(** Decides a closed decidable proposition by evaluation. *)
Ltac decide_by_compute :=
  match goal with
  | |- ?P => apply (bool_decide_unpack P); vm_compute; exact I
  end.

Lemma bind_Ok {A B} (r : result A) (k : A -> result B) (b : B) :
  bind r k = Ok b -> exists a, r = Ok a /\ k a = Ok b.
Proof. destruct r as [a|e]; simpl; [eauto | discriminate]. Qed.

(** Splits a hypothesis [bind r k = Ok b] into its two steps. *)
Ltac inv_bind H :=
  let x := fresh "x" in
  let Hx := fresh "Hx" in
  apply bind_Ok in H; destruct H as (x & Hx & H).

Lemma mapM_Ok_length {A B} (f : A -> result B) (l : list A) (l' : list B) :
  mapM f l = Ok l' -> length l' = length l.
Proof.
  revert l'. induction l as [|x l IH]; simpl; intros l' H.
  - injection H as <-. reflexivity.
  - inv_bind H. inv_bind H. injection H as <-. simpl. f_equal. eauto.
Qed.

Lemma mapM_Ok_Forall2 {A B} (f : A -> result B) (l : list A) (l' : list B) :
  mapM f l = Ok l' -> Forall2 (fun x y => f x = Ok y) l l'.
Proof.
  revert l'. induction l as [|x l IH]; simpl; intros l' H.
  - injection H as <-. constructor.
  - inv_bind H. inv_bind H. injection H as <-. constructor; eauto.
Qed.

Lemma mapM_id_Ok {A} (f : A -> result A) (l : list A) :
  Forall (fun x => f x = Ok x) l -> mapM f l = Ok l.
Proof.
  induction 1 as [|x l Hx Hl IH]; simpl; [reflexivity|].
  rewrite Hx. simpl. rewrite IH. reflexivity.
Qed.

Lemma getmask_Ok_length {A} (l : list A) (mask : list bool) (r : list A) :
  getmask l mask = Ok r -> length l = length mask.
Proof.
  revert mask r. induction l as [|x l IH]; intros [|b mask] r H; simpl in *;
    try discriminate; [reflexivity|].
  inv_bind H. f_equal. eauto.
Qed.

Lemma getmask_same_length {A} (l : list A) (mask : list bool) :
  length l = length mask -> exists r, getmask l mask = Ok r.
Proof.
  revert mask. induction l as [|x l IH]; intros [|b mask] H; simpl in *;
    try discriminate; [eauto|].
  destruct (IH mask) as [r Hr]; [lia|]. rewrite Hr. simpl. eauto.
Qed.

(** What a mask selects: the elements at the positions marked [true]. *)
Lemma getmask_Ok_elem {A} (l : list A) (mask : list bool) (r : list A) (x : A) :
  getmask l mask = Ok r ->
  (x ∈ r <-> exists i, l !! i = Some x /\ mask !! i = Some true).
Proof.
  revert mask r. induction l as [|y l IH]; intros [|b mask] r H; simpl in *;
    try discriminate.
  - injection H as <-. split.
    + intros Hx. inversion Hx.
    + intros (i & Hi & _). destruct i; discriminate.
  - inv_bind H. injection H as <-. specialize (IH mask x0 Hx). split.
    + intros Hin. destruct b.
      * apply elem_of_cons in Hin as [->|Hin].
        -- exists 0%nat. split; reflexivity.
        -- apply IH in Hin as (i & ? & ?). exists (S i). split; assumption.
      * apply IH in Hin as (i & ? & ?). exists (S i). split; assumption.
    + intros (i & Hl & Hm). destruct i as [|i]; simpl in *.
      * injection Hl as ->. injection Hm as ->. apply elem_of_cons. left. reflexivity.
      * assert (x ∈ x0) by (apply IH; eauto).
        destruct b; [apply elem_of_cons; right|]; assumption.
Qed.

(** ** BrainModel: the constructor *)

Section BrainModelFacts.

Variable CIFTI_BRAIN_STRUCTURES : list string.

Abbreviation init := (BrainModel.__init__ CIFTI_BRAIN_STRUCTURES).
Abbreviation canonical := (BrainModel.to_cifti_brain_structure_name CIFTI_BRAIN_STRUCTURES).

(** A name that the resolver returns is one of [CIFTI_BRAIN_STRUCTURES]. *)
Lemma canonical_valid (n : BrainModel.name_input) (c : string) :
  canonical n = Ok c -> c ∈ CIFTI_BRAIN_STRUCTURES.
Proof.
  assert (Hp : forall o st : string,
    BrainModel.propose CIFTI_BRAIN_STRUCTURES o st = Ok c ->
    c ∈ CIFTI_BRAIN_STRUCTURES).
  { intros o st H. unfold BrainModel.propose in H.
    case_bool_decide; [|discriminate]. injection H as <-. assumption. }
  unfold canonical. destruct n as [s|l].
  - case_bool_decide as Hin.
    + intros H. injection H as <-. assumption.
    + intros H. inv_bind H. destruct x as [o st]. eapply Hp, H.
  - destruct l as [|a [|b [|? ?]]]; try discriminate.
    + apply Hp.
    + case_bool_decide; apply Hp.
Qed.

(** The resolver returns a valid name unchanged. *)
Lemma canonical_of_valid (c : string) :
  c ∈ CIFTI_BRAIN_STRUCTURES -> canonical (BrainModel.Str c) = Ok c.
Proof.
  intros H. unfold canonical. rewrite bool_decide_eq_true_2; done.
Qed.

Lemma set_name_valid (l l' : list string) :
  BrainModel.set_name CIFTI_BRAIN_STRUCTURES l = Ok l' ->
  Forall (fun c => c ∈ CIFTI_BRAIN_STRUCTURES) l'.
Proof.
  intros H. apply mapM_Ok_Forall2 in H.
  induction H; constructor; eauto using canonical_valid.
Qed.

Lemma set_name_of_valid (l : list string) :
  Forall (fun c => c ∈ CIFTI_BRAIN_STRUCTURES) l ->
  BrainModel.set_name CIFTI_BRAIN_STRUCTURES l = Ok l.
Proof.
  intros H. apply mapM_id_Ok. eapply Forall_impl; [exact H|].
  intros c Hc. apply canonical_of_valid, Hc.
Qed.

(** The invariant that the constructor establishes. *)
Record wf (a : BrainModel.t) : Prop := {
  wf_nonempty : BrainModel.name a <> [];
  wf_names : Forall (fun c => c ∈ CIFTI_BRAIN_STRUCTURES) (BrainModel.name a);
  wf_voxel : length (BrainModel.voxel a) = length (BrainModel.name a);
  wf_vertex : length (BrainModel.vertex a) = length (BrainModel.name a);
  wf_nvertices : forall k, is_Some (BrainModel.nvertices a !! k) -> k ∈ BrainModel.name a;
  wf_surface : forall i n v,
    BrainModel.name a !! i = Some n -> is_Some (BrainModel.nvertices a !! n) ->
    BrainModel.vertex a !! i = Some v -> 0 <= v;
  wf_volume : forall i n v,
    BrainModel.name a !! i = Some n -> BrainModel.nvertices a !! n = None ->
    BrainModel.voxel a !! i = Some v -> BrainModel.negative_voxel v = false;
  wf_all_surface :
    (forall n, n ∈ BrainModel.name a -> is_Some (BrainModel.nvertices a !! n)) ->
    BrainModel.affine a = None /\ BrainModel.volume_shape a = None;
  wf_affine : forall m, BrainModel.affine a = Some m -> shape_4x4 m = true;
  wf_volume_shape : forall v, BrainModel.volume_shape a = Some v -> length v = 3%nat
}.

Lemma surface_mask_Ok (nv : gmap string Z) (names : list string) (surf : list bool) :
  BrainModel.surface_mask nv names = Ok surf ->
  names <> [] /\ surf = map (fun n => bool_decide (is_Some (nv !! n))) names.
Proof.
  destruct names; simpl; [discriminate|]. intros H. injection H as <-.
  split; [discriminate|reflexivity].
Qed.

Lemma forallb_mask_true (nv : gmap string Z) (names : list string) :
  forallb id (map (fun n => bool_decide (is_Some (nv !! n))) names) = true <->
  (forall n, n ∈ names -> is_Some (nv !! n)).
Proof.
  induction names as [|x names IH]; simpl.
  - split; [intros _ n Hn; inversion Hn | reflexivity].
  - rewrite andb_true_iff, IH. change (id ?b) with b. rewrite bool_decide_eq_true. split.
    + intros [Hx Hr] n Hn. apply elem_of_cons in Hn as [->|Hn]; eauto.
    + intros H. split; [apply H; left | intros n Hn; apply H; right; assumption].
Qed.

Lemma existsb_false_Forall {A} (f : A -> bool) (l : list A) :
  existsb f l = false -> forall x, x ∈ l -> f x = false.
Proof.
  induction l as [|y l IH]; simpl; intros H x Hx; [inversion Hx|].
  apply orb_false_iff in H as [Hy Hl].
  apply elem_of_cons in Hx as [->|Hx]; eauto.
Qed.

(** What a successful call of the constructor tells. *)
Lemma init_Ok n vx vt af sh nv a :
  init n vx vt af sh nv = Ok a ->
  wf a /\
  ((exists x, x ∈ BrainModel.name a /\ BrainModel.nvertices a !! x = None) ->
   BrainModel.set_affine af = Ok (BrainModel.affine a) /\
   BrainModel.set_volume_shape sh = Ok (BrainModel.volume_shape a)).
Proof.
  unfold init. intros H.
  inv_bind H. destruct x as [nelements voxel].
  set (vertex := match vt with Some v => v | None => replicate nelements (-1) end) in *.
  inv_bind H. rename x into names0.
  inv_bind H. rename x into names.
  inv_bind H. rename x into surf.
  inv_bind H. destruct x as [aff shp].
  inv_bind H. rename x into sv.
  destruct (existsb _ sv) eqn:Hsv; [discriminate|].
  inv_bind H. rename x into vv.
  destruct (existsb _ vv) eqn:Hvv; [discriminate|].
  destruct (negb (length voxel =? length names)%nat) eqn:Hl1; [discriminate|].
  destruct (negb (length vertex =? length names)%nat) eqn:Hl2; [discriminate|].
  injection H as <-.
  apply negb_false_iff, Nat.eqb_eq in Hl1, Hl2.
  apply surface_mask_Ok in Hx2 as [Hne ->].
  set (nv' := filter _ _) in *.
  assert (Hnv' : forall k, is_Some (nv' !! k) -> k ∈ names).
  { intros k [v Hk]. subst nv'. apply map_lookup_filter_Some in Hk as [_ Hk]. exact Hk. }
  split; [constructor; simpl|simpl].
  - exact Hne.
  - eapply set_name_valid, Hx1.
  - exact Hl1.
  - exact Hl2.
  - exact Hnv'.
  - intros i c v Hi Hc Hv.
    assert (Hin : v ∈ sv).
    { eapply getmask_Ok_elem; [exact Hx4|]. exists i. split; [exact Hv|].
      rewrite list_lookup_fmap, Hi. simpl. rewrite bool_decide_eq_true_2; done. }
    pose proof (existsb_false_Forall _ _ Hsv v Hin) as Hneg. simpl in Hneg. lia.
  - intros i c v Hi Hc Hv.
    assert (Hin : v ∈ vv).
    { eapply getmask_Ok_elem; [exact Hx5|]. exists i. split; [exact Hv|].
      rewrite !list_lookup_fmap, Hi. simpl. rewrite bool_decide_eq_false_2; [done|].
      rewrite Hc. intros [? ?]; discriminate. }
    exact (existsb_false_Forall _ _ Hvv v Hin).
  - intros Hall. apply forallb_mask_true in Hall. rewrite Hall in Hx3.
    injection Hx3 as <- <-. split; reflexivity.
  - intros m Hm. destruct (forallb id _); [injection Hx3 as <- <-; discriminate|].
    inv_bind Hx3. inv_bind Hx3. injection Hx3 as <- <-. subst x.
    unfold BrainModel.set_affine in Hx2. destruct af as [m'|]; [|discriminate].
    destruct (shape_4x4 m') eqn:Hs; [|discriminate]. injection Hx2 as <-. exact Hs.
  - intros v Hv. destruct (forallb id _); [injection Hx3 as <- <-; discriminate|].
    inv_bind Hx3. inv_bind Hx3. injection Hx3 as <- <-. subst x0.
    unfold BrainModel.set_volume_shape in Hx6. destruct sh as [v'|]; [|discriminate].
    destruct (length v' =? 3)%nat eqn:Hs; [|discriminate]. injection Hx6 as <-.
    apply Nat.eqb_eq, Hs.
  - intros (c & Hc & Hnone).
    destruct (forallb id _) eqn:Hall.
    + pose proof (proj1 (forallb_mask_true nv' names) Hall c Hc) as [? ?]. congruence.
    + inv_bind Hx3. inv_bind Hx3. injection Hx3 as <- <-. split; assumption.
Qed.

(** An axis that some call of the constructor returned. *)
Definition constructed (a : BrainModel.t) : Prop :=
  exists n vx vt af sh nv, init n vx vt af sh nv = Ok a.

Lemma constructed_wf (a : BrainModel.t) : constructed a -> wf a.
Proof. intros (n & vx & vt & af & sh & nv & H). apply init_Ok in H as [H _]. exact H. Qed.

End BrainModelFacts.

(** A single voxel of the left thalamus, without affine or volume shape. *)
Definition thalamus_voxel : BrainModel.t :=
  {| BrainModel.name := ["CIFTI_STRUCTURE_THALAMUS_LEFT"];
     BrainModel.voxel := [(1, 2, 3)];
     BrainModel.vertex := [-1];
     BrainModel.affine := None;
     BrainModel.volume_shape := None;
     BrainModel.nvertices := ∅ |}.

Lemma thalamus_voxel_init :
  BrainModel.__init__ some_structures (BrainModel.NameStr "thalamus_left")
    (Some [(1, 2, 3)]) None None None None = Ok thalamus_voxel.
Proof. vm_compute. reflexivity. Qed.

(** The constructor accepts a volumetric element without an affine: the
    statement that the affine is present exactly when some element is
    volumetric fails for [BrainModel('thalamus_left', voxel=[[1, 2, 3]])]. *)
Lemma C9_counterexample :
  ~ (forall n vx vt af sh nv a,
       BrainModel.__init__ some_structures n vx vt af sh nv = Ok a ->
       (is_Some (BrainModel.affine a) <-> is_Some (BrainModel.volume_shape a)) /\
       (is_Some (BrainModel.affine a) <->
        exists x, x ∈ BrainModel.name a /\ BrainModel.nvertices a !! x = None)).
Proof.
  intros H. destruct (H _ _ _ _ _ _ _ thalamus_voxel_init) as [_ [_ H2]].
  destruct H2 as [m Hm].
  - exists "CIFTI_STRUCTURE_THALAMUS_LEFT". split.
    + simpl. apply elem_of_cons. left. reflexivity.
    + reflexivity.
  - discriminate.
Qed.

(** C9 (as amended). For every successfully constructed BrainModel axis:
    when all elements are surface elements, [affine] and [volume_shape] are
    both [None] whatever the arguments were; when some element is
    volumetric, they are the arguments [affine] and [volume_shape] as
    given, present or not, the affine a 4x4 array and the shape of
    length 3 when they are present. *)
Theorem C9_affine_and_volume_shape (vocab : list string) n vx vt af sh nv a :
  BrainModel.__init__ vocab n vx vt af sh nv = Ok a ->
  ((forall x, x ∈ BrainModel.name a -> is_Some (BrainModel.nvertices a !! x)) ->
   BrainModel.affine a = None /\ BrainModel.volume_shape a = None) /\
  ((exists x, x ∈ BrainModel.name a /\ BrainModel.nvertices a !! x = None) ->
   BrainModel.affine a = af /\ BrainModel.volume_shape a = sh /\
   (forall m, af = Some m -> shape_4x4 m = true) /\
   (forall v, sh = Some v -> length v = 3%nat)).
Proof.
  intros H. apply init_Ok in H as [Hwf Hvol]. split.
  - apply (wf_all_surface _ _ Hwf).
  - intros Hex. destruct (Hvol Hex) as [Ha Hs].
    assert (BrainModel.affine a = af) as Haf.
    { unfold BrainModel.set_affine in Ha. destruct af as [m|]; [|congruence].
      destruct (shape_4x4 m); congruence. }
    assert (BrainModel.volume_shape a = sh) as Hsh.
    { unfold BrainModel.set_volume_shape in Hs. destruct sh as [v|]; [|congruence].
      destruct (length v =? 3)%nat; congruence. }
    repeat split; try assumption.
    + intros m ->. apply (wf_affine _ _ Hwf). assumption.
    + intros v ->. apply (wf_volume_shape _ _ Hwf). assumption.
Qed.

Lemma C9_affine_and_volume_shape_witness :
  ((forall x, x ∈ BrainModel.name thalamus_voxel ->
              is_Some (BrainModel.nvertices thalamus_voxel !! x)) ->
   BrainModel.affine thalamus_voxel = None /\
   BrainModel.volume_shape thalamus_voxel = None) /\
  ((exists x, x ∈ BrainModel.name thalamus_voxel /\
              BrainModel.nvertices thalamus_voxel !! x = None) ->
   BrainModel.affine thalamus_voxel = None /\
   BrainModel.volume_shape thalamus_voxel = None /\
   (forall m, None = Some m -> shape_4x4 m = true) /\
   (forall v : list Z, None = Some v -> length v = 3%nat)).
Proof.
  apply (C9_affine_and_volume_shape some_structures
           (BrainModel.NameStr "thalamus_left") (Some [(1, 2, 3)]) None None None None).
  vm_compute. reflexivity.
Defined.

(** ** BrainModel: concatenation *)

Definition matrix_of_Z (m : list (list Z)) : matrix_t := map (map Qc_of_Z) m.

Definition identity4 : matrix_t :=
  matrix_of_Z [[1; 0; 0; 0]; [0; 1; 0; 0]; [0; 0; 1; 0]; [0; 0; 0; 1]].

(** The identity with a translation of one voxel along the first axis. *)
Definition shifted4 : matrix_t :=
  matrix_of_Z [[1; 0; 0; 1]; [0; 1; 0; 0]; [0; 0; 1; 0]; [0; 0; 0; 1]].

Definition scaled4 : matrix_t :=
  matrix_of_Z [[2; 1; 1; 1]; [1; 2; 1; 1]; [1; 1; 2; 1]; [1; 1; 1; 2]].

(** One voxel of the left thalamus in a 2x2x2 volume with affine [m]. *)
Definition voxel_in (m : matrix_t) (shape : list Z) (v : Z * Z * Z) : BrainModel.t :=
  {| BrainModel.name := ["CIFTI_STRUCTURE_THALAMUS_LEFT"];
     BrainModel.voxel := [v];
     BrainModel.vertex := [-1];
     BrainModel.affine := Some m;
     BrainModel.volume_shape := Some shape;
     BrainModel.nvertices := ∅ |}.

(** C4. [BrainModel.__add__] compares the affines with
    [(other.affine != affine).all()]: it raises only when all sixteen
    entries differ. Two axes with one voxel each, in volumes of one shape
    whose affines differ in one entry, are concatenated without an
    exception, and the result keeps the affine of the first. *)
Theorem C4_add_with_different_affines :
  BrainModel.__init__ some_structures (BrainModel.NameStr "thalamus_left")
    (Some [(0, 0, 0)]) None (Some identity4) (Some [2; 2; 2]) None
    = Ok (voxel_in identity4 [2; 2; 2] (0, 0, 0)) /\
  BrainModel.__init__ some_structures (BrainModel.NameStr "thalamus_left")
    (Some [(1, 1, 1)]) None (Some shifted4) (Some [2; 2; 2]) None
    = Ok (voxel_in shifted4 [2; 2; 2] (1, 1, 1)) /\
  matrix_any_ne identity4 shifted4 = true /\
  BrainModel.__add__ some_structures
    (voxel_in identity4 [2; 2; 2] (0, 0, 0)) (voxel_in shifted4 [2; 2; 2] (1, 1, 1))
    = Ok {| BrainModel.name := ["CIFTI_STRUCTURE_THALAMUS_LEFT"; "CIFTI_STRUCTURE_THALAMUS_LEFT"];
            BrainModel.voxel := [(0, 0, 0); (1, 1, 1)];
            BrainModel.vertex := [-1; -1];
            BrainModel.affine := Some identity4;
            BrainModel.volume_shape := Some [2; 2; 2];
            BrainModel.nvertices := ∅ |}.
Proof. repeat split; vm_compute; reflexivity. Qed.

(** The exception is raised when all entries differ, and when the volume
    shapes differ. *)
Lemma BrainModel_add_all_entries_differ :
  BrainModel.__add__ some_structures
    (voxel_in identity4 [2; 2; 2] (0, 0, 0)) (voxel_in scaled4 [2; 2; 2] (1, 1, 1))
    = Raise BrainModel.different_volume.
Proof. vm_compute. reflexivity. Qed.

Lemma BrainModel_add_shapes_differ (vocab : list string) (a b : BrainModel.t) :
  BrainModel.affine a <> None -> BrainModel.affine b <> None ->
  BrainModel.volume_shape a <> BrainModel.volume_shape b ->
  BrainModel.__add__ vocab a b = Raise BrainModel.different_volume.
Proof.
  intros Ha Hb Hs. unfold BrainModel.__add__.
  destruct (BrainModel.affine a) as [ma|]; [|congruence].
  destruct (BrainModel.affine b) as [mb|]; [|congruence].
  rewrite (bool_decide_eq_false_2 (BrainModel.volume_shape b = BrainModel.volume_shape a))
    by congruence.
  rewrite orb_true_r. reflexivity.
Qed.

(** ** Parcels: equality *)

(** The mapping of parcels without voxels and vertices. *)
Definition parcels_mapping (names : list string) : cifti2.Cifti2MatrixIndicesMap :=
  {| cifti2.applies_to_matrix_dimension := [0%nat];
     cifti2.indices_map_to_data_type := "CIFTI_INDEX_TYPE_PARCELS";
     cifti2.number_of_series_points := None;
     cifti2.series_exponent := None;
     cifti2.series_start := None;
     cifti2.series_step := None;
     cifti2.series_unit := None;
     cifti2.named_maps := [];
     cifti2.brain_models := [];
     cifti2.parcels :=
       map (fun n => {| cifti2.parcel_name := n;
                        cifti2.parcel_voxel_indices_ijk := None;
                        cifti2.parcel_vertices := [] |}) names;
     cifti2.surfaces := [];
     cifti2.volume := None |}.

Definition two_parcels (second : string) : Parcels.t :=
  {| Parcels.name := ["a"; second];
     Parcels.voxels := [[]; []];
     Parcels.vertices := [∅; ∅];
     Parcels.affine := None;
     Parcels.volume_shape := None;
     Parcels.nvertices := ∅ |}.

(** C7. [Parcels.__eq__] tests the names with
    [(self.name != other.name).all()], which is false as soon as one pair
    of names agrees: the axes read from the mappings with the parcel names
    [a, b] and [a, c] (no voxels, no vertices) differ in the name of their
    second parcel and still compare equal. *)
Theorem C7_parcels_with_different_names_are_equal (libm_pow : float -> float -> float) :
  from_mapping some_structures libm_pow (parcels_mapping ["a"; "b"]) = Ok (AxParcels (two_parcels "b")) /\
  from_mapping some_structures libm_pow (parcels_mapping ["a"; "c"]) = Ok (AxParcels (two_parcels "c")) /\
  Parcels.name (two_parcels "b") <> Parcels.name (two_parcels "c") /\
  Axis_eq (AxParcels (two_parcels "b")) (AxParcels (two_parcels "c")) = Ok true.
Proof. repeat split; try (vm_compute; reflexivity). discriminate. Qed.

(** Axes of two different classes compare unequal, without an exception. *)
Lemma Axis_eq_other_class (a b : Axis) :
  match a, b with
  | AxBrainModel _, AxBrainModel _ | AxParcels _, AxParcels _
  | AxScalar _, AxScalar _ | AxLabel _, AxLabel _ | AxSeries _, AxSeries _ => True
  | _, _ => Axis_eq a b = Ok false
  end.
Proof. destruct a, b; simpl; exact I || reflexivity. Qed.

(** Voxel arrays of two different lengths, none of them one, cannot be
    compared elementwise: the comparison of the two axes ends in an
    exception. *)
Definition parcel_with_voxels (vox : list (Z * Z * Z)) : Parcels.t :=
  {| Parcels.name := ["a"];
     Parcels.voxels := [vox];
     Parcels.vertices := [∅];
     Parcels.affine := None;
     Parcels.volume_shape := None;
     Parcels.nvertices := ∅ |}.

Lemma Parcels_eq_raises :
  Parcels.__eq__ (parcel_with_voxels [(0, 0, 0); (0, 0, 1)])
                 (parcel_with_voxels [(0, 0, 0); (0, 0, 1); (0, 0, 2)])
  = Raise (ValueError "operands could not be broadcast together").
Proof. vm_compute. reflexivity. Qed.

(** The same slip hides a difference in a vertex array, as long as one
    vertex agrees, and makes an axis with an array without vertices differ
    from itself. *)
Definition parcel_with_vertices (vs : list Z) : Parcels.t :=
  {| Parcels.name := ["a"];
     Parcels.voxels := [[]];
     Parcels.vertices := [{[ "CIFTI_STRUCTURE_CORTEX_LEFT" := vs ]}];
     Parcels.affine := None;
     Parcels.volume_shape := None;
     Parcels.nvertices := {[ "CIFTI_STRUCTURE_CORTEX_LEFT" := 10 ]} |}.

Lemma Parcels_eq_vertices :
  Parcels.__eq__ (parcel_with_vertices [1; 2]) (parcel_with_vertices [1; 3]) = Ok true /\
  Parcels.__eq__ (parcel_with_vertices []) (parcel_with_vertices []) = Ok false.
Proof. split; vm_compute; reflexivity. Qed.

(** ** BrainModel: equality *)

Lemma Qcmaxc_lt (a b t : Qc) : (Qcmaxc a b < t)%Qc <-> (a < t)%Qc /\ (b < t)%Qc.
Proof.
  unfold Qcmaxc. case_decide as Hab.
  - split; [|tauto]. intros Hb. split; [|assumption]. eapply Qcle_lt_trans; eassumption.
  - apply Qcnot_le_lt in Hab. split; [|tauto]. intros Ha. split; [assumption|].
    eapply Qclt_trans; eassumption.
Qed.

Lemma fold_Qcmaxc_lt (l : list Qc) (x t : Qc) :
  (fold_left Qcmaxc l x < t)%Qc <-> (x < t)%Qc /\ Forall (fun d => (d < t)%Qc) l.
Proof.
  revert x. induction l as [|y l IH]; intros x; simpl.
  - split; [intros H; split; [assumption|constructor] | tauto].
  - rewrite IH, Qcmaxc_lt, Forall_cons. tauto.
Qed.

Lemma array_max_lt (l : list Qc) (m t : Qc) :
  array_max l = Ok m -> ((m < t)%Qc <-> Forall (fun d => (d < t)%Qc) l).
Proof.
  destruct l as [|x l]; simpl; [discriminate|]. intros H. injection H as <-.
  rewrite fold_Qcmaxc_lt, Forall_cons. tauto.
Qed.

Lemma abs_diff_entries_4x4 (a b : matrix_t) :
  shape_4x4 a = true -> shape_4x4 b = true ->
  exists m, array_max (abs_diff_entries a b) = Ok m.
Proof.
  unfold shape_4x4. intros Ha Hb.
  destruct a as [|[|x ra] a]; try discriminate.
  { simpl in Ha. rewrite andb_false_r in Ha. discriminate. }
  destruct b as [|[|y rb] b]; try discriminate.
  { simpl in Hb. rewrite andb_false_r in Hb. discriminate. }
  simpl. eauto.
Qed.

Lemma getmask_same_mask {A} (l1 l2 r1 r2 : list A) (mask : list bool) :
  getmask l1 mask = Ok r1 -> getmask l2 mask = Ok r2 ->
  length r1 = length r2 /\
  (r1 = r2 <-> forall i, mask !! i = Some true -> l1 !! i = l2 !! i).
Proof.
  revert l2 r1 r2 mask.
  induction l1 as [|x l1 IH]; intros [|y l2] r1 r2 [|b mask] H1 H2; simpl in *;
    try discriminate.
  - injection H1 as <-. injection H2 as <-. split; [reflexivity|].
    split; [intros _ i Hi; destruct i; discriminate | reflexivity].
  - inv_bind H1. inv_bind H2. injection H1 as <-. injection H2 as <-.
    destruct (IH _ _ _ _ Hx Hx0) as [Hlen Hiff]. destruct b; simpl.
    + split; [congruence|]. split.
      * intros Heq. injection Heq as -> Hr. intros [|i] Hi; simpl; [reflexivity|].
        apply Hiff; assumption.
      * intros H. f_equal.
        -- specialize (H 0%nat eq_refl). simpl in H. congruence.
        -- apply Hiff. intros i Hi. apply (H (S i)). exact Hi.
    + split; [assumption|]. rewrite Hiff. split.
      * intros H [|i] Hi; simpl in *; [discriminate|]. apply H, Hi.
      * intros H i Hi. apply (H (S i)). exact Hi.
Qed.

Lemma all_eq_same_length `{EqDecision A} (l1 l2 : list A) :
  length l1 = length l2 -> all_eq l1 l2 = Ok (bool_decide (l1 = l2)).
Proof.
  intros Hlen. unfold all_eq, broadcast2. rewrite (proj2 (Nat.eqb_eq _ _) Hlen). simpl.
  f_equal. revert l2 Hlen. induction l1 as [|x l1 IH]; intros [|y l2] Hlen;
    simpl in *; try discriminate.
  - reflexivity.
  - rewrite IH by lia. repeat case_bool_decide; simpl; congruence.
Qed.

(** The test on the volume in [BrainModel.__eq__]: both affines absent,
    or both present, all entries closer than [1e-8] and the volume shapes
    equal. *)
Definition same_volume (a b : BrainModel.t) : Prop :=
  match BrainModel.affine a, BrainModel.affine b with
  | None, None => True
  | Some ma, Some mb =>
      Forall (fun d => (d < tol_1e_8)%Qc) (abs_diff_entries ma mb) /\
      BrainModel.volume_shape a = BrainModel.volume_shape b
  | _, _ => False
  end.

(** The voxels of the volumetric elements agree. *)
Definition same_volume_voxels (a b : BrainModel.t) : Prop :=
  forall i n, BrainModel.name a !! i = Some n -> BrainModel.nvertices a !! n = None ->
              BrainModel.voxel a !! i = BrainModel.voxel b !! i.

(** The vertices of the volumetric elements agree. *)
Definition same_volume_vertices (a b : BrainModel.t) : Prop :=
  forall i n, BrainModel.name a !! i = Some n -> BrainModel.nvertices a !! n = None ->
              BrainModel.vertex a !! i = BrainModel.vertex b !! i.

Lemma volumetric_mask_lookup (nv : gmap string Z) (names : list string) (i : nat) :
  map negb (map (fun n => bool_decide (is_Some (nv !! n))) names) !! i = Some true <->
  exists n, names !! i = Some n /\ nv !! n = None.
Proof.
  rewrite !list_lookup_fmap. destruct (names !! i) as [n|]; simpl.
  - split.
    + intros H. exists n. split; [reflexivity|]. injection H as H.
      apply negb_true_iff, bool_decide_eq_false in H.
      destruct (nv !! n); [exfalso; apply H; eauto | reflexivity].
    + intros (n' & Hn & Hnone). injection Hn as <-. f_equal.
      apply negb_true_iff, bool_decide_eq_false. rewrite Hnone. intros [? ?]; discriminate.
  - split; [discriminate | intros (n & ? & _); discriminate].
Qed.

Lemma surface_mask_nonempty (nv : gmap string Z) (names : list string) :
  names <> [] ->
  BrainModel.surface_mask nv names =
    Ok (map (fun n => bool_decide (is_Some (nv !! n))) names).
Proof. destruct names; [congruence | reflexivity]. Qed.

Section BrainModelEq.

Variable CIFTI_BRAIN_STRUCTURES : list string.
Variables a b : BrainModel.t.
Hypothesis wf_a : wf CIFTI_BRAIN_STRUCTURES a.
Hypothesis wf_b : wf CIFTI_BRAIN_STRUCTURES b.

(** The tests of [__eq__] that follow the test on the volume. *)
Lemma BrainModel_eq_tail (V : Prop) :
  length (BrainModel.name a) = length (BrainModel.name b) -> V ->
  exists r,
    (if negb (bool_decide (BrainModel.nvertices a = BrainModel.nvertices b)) then Ok false
     else if negb (bool_decide (BrainModel.name a = BrainModel.name b)) then Ok false
     else
       do m1 <- BrainModel.is_surface a;
       do m2 <- BrainModel.is_surface b;
       do vx1 <- getmask (BrainModel.voxel a) (map negb m1);
       do vx2 <- getmask (BrainModel.voxel b) (map negb m2);
       do same_voxels <- all_eq vx1 vx2;
       if negb same_voxels then Ok false
       else
         do m1 <- BrainModel.is_surface a;
         do m2 <- BrainModel.is_surface b;
         do vt1 <- getmask (BrainModel.vertex a) (map negb m1);
         do vt2 <- getmask (BrainModel.vertex b) (map negb m2);
         all_eq vt1 vt2) = Ok r /\
    (r = true <->
     V /\ BrainModel.nvertices a = BrainModel.nvertices b /\
     BrainModel.name a = BrainModel.name b /\
     same_volume_voxels a b /\ same_volume_vertices a b).
Proof.
  intros Hlen HV.
  case_bool_decide as Hnv; simpl.
  2:{ exists false. split; [reflexivity|]. split; [discriminate | tauto]. }
  case_bool_decide as Hname; simpl.
  2:{ exists false. split; [reflexivity|]. split; [discriminate | tauto]. }
  unfold BrainModel.is_surface. rewrite <- Hnv, <- Hname.
  rewrite surface_mask_nonempty by apply (wf_nonempty _ _ wf_a). simpl.
  set (mask := map negb (map (fun n => bool_decide (is_Some (BrainModel.nvertices a !! n)))
                             (BrainModel.name a))).
  assert (Hmask : length mask = length (BrainModel.name a)).
  { unfold mask. rewrite !length_map. reflexivity. }
  destruct (getmask_same_length (BrainModel.voxel a) mask) as [vx1 Hvx1].
  { rewrite Hmask. apply (wf_voxel _ _ wf_a). }
  destruct (getmask_same_length (BrainModel.voxel b) mask) as [vx2 Hvx2].
  { rewrite Hmask, Hname. apply (wf_voxel _ _ wf_b). }
  destruct (getmask_same_length (BrainModel.vertex a) mask) as [vt1 Hvt1].
  { rewrite Hmask. apply (wf_vertex _ _ wf_a). }
  destruct (getmask_same_length (BrainModel.vertex b) mask) as [vt2 Hvt2].
  { rewrite Hmask, Hname. apply (wf_vertex _ _ wf_b). }
  rewrite Hvx1, Hvx2. simpl.
  destruct (getmask_same_mask _ _ _ _ _ Hvx1 Hvx2) as [Hlx Hx].
  destruct (getmask_same_mask _ _ _ _ _ Hvt1 Hvt2) as [Hlt Ht].
  rewrite (all_eq_same_length vx1 vx2 Hlx). simpl.
  assert (Hvoxels : vx1 = vx2 <-> same_volume_voxels a b).
  { rewrite Hx. unfold same_volume_voxels, mask. split.
    - intros H i n Hi Hn. apply H. apply volumetric_mask_lookup. eauto.
    - intros H i Hi. apply volumetric_mask_lookup in Hi as (n & Hi & Hn). eauto. }
  assert (Hvertices : vt1 = vt2 <-> same_volume_vertices a b).
  { rewrite Ht. unfold same_volume_vertices, mask. split.
    - intros H i n Hi Hn. apply H. apply volumetric_mask_lookup. eauto.
    - intros H i Hi. apply volumetric_mask_lookup in Hi as (n & Hi & Hn). eauto. }
  case_bool_decide as Hvx; simpl.
  2:{ exists false. split; [reflexivity|]. split; [discriminate | tauto]. }
  rewrite Hvt1, Hvt2. simpl. rewrite (all_eq_same_length vt1 vt2 Hlt).
  eexists. split; [reflexivity|]. rewrite bool_decide_eq_true. tauto.
Qed.

(** On constructed axes, [__eq__] returns, and it returns the
    conjunction of its tests. *)
Lemma BrainModel_eq_spec :
  exists r, BrainModel.__eq__ a b = Ok r /\
    (r = true <->
     same_volume a b /\ BrainModel.nvertices a = BrainModel.nvertices b /\
     BrainModel.name a = BrainModel.name b /\
     same_volume_voxels a b /\ same_volume_vertices a b).
Proof.
  unfold BrainModel.__eq__, BrainModel.__len__.
  destruct (Nat.eqb_spec (length (BrainModel.name a)) (length (BrainModel.name b)))
    as [Hlen|Hlen]; simpl.
  2:{ exists false. split; [reflexivity|]. split; [discriminate|].
      intros (_ & _ & Hn & _). congruence. }
  unfold same_volume.
  destruct (BrainModel.affine a) as [ma|] eqn:Hma,
           (BrainModel.affine b) as [mb|] eqn:Hmb; simpl;
    try (exists false; split; [reflexivity|]; split; [discriminate | tauto]).
  - destruct (abs_diff_entries_4x4 ma mb) as [m Hm];
      [apply (wf_affine _ _ wf_a _ Hma) | apply (wf_affine _ _ wf_b _ Hmb) |].
    rewrite Hm. simpl. pose proof (array_max_lt _ _ tol_1e_8 Hm) as Hlt.
    case_bool_decide as Hclose; simpl.
    2:{ exists false. split; [reflexivity|]. split; [discriminate|].
        intros ((Hall & _) & _). apply Hlt in Hall. contradiction. }
    apply Hlt in Hclose.
    case_bool_decide as Hshape; simpl.
    2:{ exists false. split; [reflexivity|]. split; [discriminate|].
        intros ((_ & Hs) & _). contradiction. }
    apply BrainModel_eq_tail; [assumption|]. split; assumption.
  - apply BrainModel_eq_tail; [assumption|]. exact I.
Qed.

End BrainModelEq.







(** The slip of [__eq__]: the vertices are compared on the volumetric
    elements, [self.vertex[~self.is_surface]], so that two surface axes
    with different vertices compare equal. *)
Definition cortex_vertices (vs : list Z) : BrainModel.t :=
  {| BrainModel.name := replicate (length vs) "CIFTI_STRUCTURE_CORTEX_LEFT";
     BrainModel.voxel := replicate (length vs) (-1, -1, -1);
     BrainModel.vertex := vs;
     BrainModel.affine := None;
     BrainModel.volume_shape := None;
     BrainModel.nvertices := {[ "CIFTI_STRUCTURE_CORTEX_LEFT" := 10 ]} |}.

Lemma BrainModel_eq_ignores_surface_vertices :
  BrainModel.from_surface some_structures [1; 2] 10 "CortexLeft" = Ok (cortex_vertices [1; 2]) /\
  BrainModel.from_surface some_structures [3; 4] 10 "CortexLeft" = Ok (cortex_vertices [3; 4]) /\
  BrainModel.__eq__ (cortex_vertices [1; 2]) (cortex_vertices [3; 4]) = Ok true.
Proof. repeat split; vm_compute; reflexivity. Qed.

(** ** The resolver of structure names *)








Lemma str_eqb_refl (s : string) : String.eqb s s = true.
Proof. apply String.eqb_eq. reflexivity. Qed.

Section Resolver.

Variable CIFTI_BRAIN_STRUCTURES : list string.

Abbreviation resolve := (BrainModel.to_cifti_brain_structure_name CIFTI_BRAIN_STRUCTURES).





End Resolver.



(** ** Slices of arrays *)

(** The elements of [l] at the positions [i], ..., [j - 1]. *)
Definition sub_range {A} (l : list A) (i j : nat) : list A := take (j - i) (drop i l).

Lemma omap_lookup_seq {A} (l : list A) (n i : nat) :
  (i + n <= length l)%nat ->
  omap (fun k => l !! k) (seq i n) = take n (drop i l).
Proof.
  revert i. induction n as [|n IH]; intros i Hle; simpl.
  - reflexivity.
  - destruct (lookup_lt_is_Some_2 l i) as [x Hx]; [lia|].
    rewrite Hx. rewrite (drop_S _ _ _ Hx). simpl. f_equal. apply IH. lia.
Qed.

Lemma omap_lookup_positions {A} (l : list A) (i s n : nat) :
  omap (fun p => l !! Z.to_nat p)
       (map (fun k => Z.of_nat i + Z.of_nat k * 1) (seq s n)) =
  omap (fun k => l !! k) (seq (i + s) n).
Proof.
  revert s. induction n as [|n IH]; intros s; simpl; [reflexivity|].
  replace (Z.to_nat (Z.of_nat i + Z.of_nat s * 1)) with (i + s)%nat by lia.
  rewrite IH. replace (i + S s)%nat with (S (i + s)) by lia. reflexivity.
Qed.

Lemma slice_positions_range (len : nat) (i j : nat) (stop : option Z) :
  (i <= j <= len)%nat ->
  stop = Some (Z.of_nat j) \/ (stop = None /\ j = len) ->
  slice_positions (Z.of_nat len) (Slice (Some (Z.of_nat i)) stop None) =
  Ok (map (fun k => Z.of_nat i + Z.of_nat k * 1) (seq 0 (j - i))).
Proof.
  intros Hle Hstop. unfold slice_positions.
  cbn [slice_step slice_start slice_stop default from_option id].
  change (1 =? 0) with false. cbv iota.
  assert (slice_adjust (Z.of_nat len) 1 (Some (Z.of_nat i)) true = Z.of_nat i) as ->.
  { unfold slice_adjust. change (1 <? 0) with false. cbv iota.
    destruct (Z.ltb_spec (Z.of_nat i) 0); [lia|].
    destruct (Z.ltb_spec (Z.of_nat i) 0); [lia|].
    destruct (Z.leb_spec (Z.of_nat len) (Z.of_nat i)); lia. }
  assert (slice_adjust (Z.of_nat len) 1 stop false = Z.of_nat j) as ->.
  { destruct Hstop as [->|[-> ->]]; unfold slice_adjust; change (1 <? 0) with false;
      cbv iota; [|reflexivity].
    destruct (Z.ltb_spec (Z.of_nat j) 0); [lia|].
    destruct (Z.ltb_spec (Z.of_nat j) 0); [lia|].
    destruct (Z.leb_spec (Z.of_nat len) (Z.of_nat j)); lia. }
  assert (slice_length (Z.of_nat i) (Z.of_nat j) 1 = Z.of_nat (j - i)) as ->.
  { unfold slice_length. change (1 <? 0) with false. cbv iota.
    destruct (Z.ltb_spec (Z.of_nat i) (Z.of_nat j)).
    - rewrite Z.div_1_r. lia.
    - lia. }
  rewrite Nat2Z.id. reflexivity.
Qed.

(** [l[i:j]] and [l[i:]] for [i <= j <= len(l)]. *)
Lemma getslice_range {A} (l : list A) (i j : nat) (stop : option Z) :
  (i <= j <= length l)%nat ->
  stop = Some (Z.of_nat j) \/ (stop = None /\ j = length l) ->
  getslice l (Slice (Some (Z.of_nat i)) stop None) = Ok (sub_range l i j).
Proof.
  intros Hle Hstop. unfold getslice.
  rewrite (slice_positions_range _ i j stop Hle Hstop). simpl. f_equal.
  unfold sub_range. rewrite <- (omap_lookup_seq l (j - i) i) by lia.
  rewrite omap_lookup_positions, Nat.add_0_r. reflexivity.
Qed.

(** ** BrainModel: construction from valid parts, and sub-axes *)

Definition surface_flags (nv : gmap string Z) (names : list string) : list bool :=
  map (fun n => bool_decide (is_Some (nv !! n))) names.

Lemma surface_flags_filter (nv : gmap string Z) (names : list string) :
  surface_flags (filter (fun kv => kv.1 ∈ names) nv) names = surface_flags nv names.
Proof.
  unfold surface_flags. apply map_ext_in. intros n Hn. apply list_elem_of_In in Hn.
  apply bool_decide_ext. unfold is_Some. split.
  - intros [v Hv]. apply map_lookup_filter_Some in Hv as [Hv _]. eauto.
  - intros [v Hv]. exists v. apply map_lookup_filter_Some. split; assumption.
Qed.

Lemma existsb_false_intro {A} (f : A -> bool) (l : list A) :
  (forall x, x ∈ l -> f x = false) -> existsb f l = false.
Proof.
  intros H. destruct (existsb f l) eqn:E; [|reflexivity].
  apply existsb_exists in E as (x & Hin & Hx). apply list_elem_of_In in Hin.
  rewrite (H x Hin) in Hx. discriminate.
Qed.

Section BrainModelParts.

Variable CIFTI_BRAIN_STRUCTURES : list string.

(** The axis that the constructor builds from arrays of valid names,
    voxels and vertices. *)
Definition built (names : list string) (vx : list (Z * Z * Z)) (vt : list Z)
    (aff : option matrix_t) (shp : option (list Z)) (nv : gmap string Z)
    : BrainModel.t :=
  {| BrainModel.name := names;
     BrainModel.voxel := vx;
     BrainModel.vertex := vt;
     BrainModel.affine := if forallb id (surface_flags nv names) then None else aff;
     BrainModel.volume_shape := if forallb id (surface_flags nv names) then None else shp;
     BrainModel.nvertices := filter (fun kv => kv.1 ∈ names) nv |}.

Lemma init_of_valid names vx vt aff shp nv :
  names <> [] ->
  Forall (fun c => c ∈ CIFTI_BRAIN_STRUCTURES) names ->
  length vx = length names -> length vt = length names ->
  (forall k n v, names !! k = Some n -> is_Some (nv !! n) -> vt !! k = Some v -> 0 <= v) ->
  (forall k n v, names !! k = Some n -> nv !! n = None -> vx !! k = Some v ->
                 BrainModel.negative_voxel v = false) ->
  (forall m, aff = Some m -> shape_4x4 m = true) ->
  (forall v, shp = Some v -> length v = 3%nat) ->
  BrainModel.__init__ CIFTI_BRAIN_STRUCTURES (BrainModel.NameArr names)
    (Some vx) (Some vt) aff shp (Some nv) = Ok (built names vx vt aff shp nv).
Proof.
  intros Hne Hvalid Hlx Hlt Hsurf Hvol Haff Hshp.
  unfold BrainModel.__init__. simpl.
  rewrite set_name_of_valid by assumption. simpl.
  rewrite surface_mask_nonempty by assumption. simpl.
  fold (surface_flags (filter (fun kv : string * Z => kv.1 ∈ names) nv) names).
  rewrite surface_flags_filter.
  assert (Hvolume :
    (if forallb id (surface_flags nv names) then Ok (None, None)
     else do a <- BrainModel.set_affine aff;
          do s <- BrainModel.set_volume_shape shp; Ok (a, s)) =
    Ok (if forallb id (surface_flags nv names) then None else aff,
        if forallb id (surface_flags nv names) then None else shp)).
  { destruct (forallb id (surface_flags nv names)); [reflexivity|].
    assert (BrainModel.set_affine aff = Ok aff) as ->.
    { destruct aff as [m|]; [|reflexivity]. simpl. rewrite (Haff m eq_refl). reflexivity. }
    assert (BrainModel.set_volume_shape shp = Ok shp) as ->.
    { destruct shp as [v|]; [|reflexivity]. simpl. rewrite (Hshp v eq_refl). reflexivity. }
    reflexivity. }
  rewrite Hvolume. simpl.
  destruct (getmask_same_length vt (surface_flags nv names)) as [sv Hsv].
  { unfold surface_flags. rewrite length_map. assumption. }
  destruct (getmask_same_length vx (map negb (surface_flags nv names))) as [vv Hvv].
  { unfold surface_flags. rewrite !length_map. assumption. }
  rewrite Hsv. simpl. rewrite existsb_false_intro.
  2:{ intros v Hin. apply (getmask_Ok_elem _ _ _ v Hsv) in Hin as (k & Hk & Hm).
      unfold surface_flags in Hm. rewrite list_lookup_fmap in Hm.
      destruct (names !! k) as [n|] eqn:Hn; [|discriminate]. injection Hm as Hm.
      apply bool_decide_eq_true in Hm. specialize (Hsurf k n v Hn Hm Hk).
      apply Z.ltb_ge. assumption. }
  rewrite Hvv. simpl. rewrite existsb_false_intro.
  2:{ intros v Hin. apply (getmask_Ok_elem _ _ _ v Hvv) in Hin as (k & Hk & Hm).
      apply volumetric_mask_lookup in Hm as (n & Hn & Hnone). eauto. }
  rewrite Hlx, Hlt, Nat.eqb_refl. simpl. reflexivity.
Qed.

(** The elements [i], ..., [j - 1] of an axis. *)
Definition sub_axis (a : BrainModel.t) (i j : nat) : BrainModel.t :=
  built (sub_range (BrainModel.name a) i j) (sub_range (BrainModel.voxel a) i j)
        (sub_range (BrainModel.vertex a) i j)
        (BrainModel.affine a) (BrainModel.volume_shape a) (BrainModel.nvertices a).

Lemma sub_range_lookup {A} (l : list A) (i j k : nat) (x : A) :
  sub_range l i j !! k = Some x -> l !! (i + k)%nat = Some x.
Proof.
  unfold sub_range. intros H. apply lookup_take_Some in H as [H _].
  rewrite lookup_drop in H. exact H.
Qed.

Lemma sub_range_length {A} (l : list A) (i j : nat) :
  (i <= j <= length l)%nat -> length (sub_range l i j) = (j - i)%nat.
Proof. intros H. unfold sub_range. rewrite length_take, length_drop. lia. Qed.

(** [a[i:j]], and [a[i:]] for [j = len(a)], of a constructed axis. *)
Lemma getitem_slice_range (a : BrainModel.t) (i j : nat) (stop : option Z) :
  wf CIFTI_BRAIN_STRUCTURES a ->
  (i < j <= length (BrainModel.name a))%nat ->
  stop = Some (Z.of_nat j) \/ (stop = None /\ j = length (BrainModel.name a)) ->
  BrainModel.getitem_slice CIFTI_BRAIN_STRUCTURES a (Slice (Some (Z.of_nat i)) stop None)
  = Ok (sub_axis a i j).
Proof.
  intros Hwf Hij Hstop. unfold BrainModel.getitem_slice.
  pose proof (wf_voxel _ _ Hwf) as Hlx. pose proof (wf_vertex _ _ Hwf) as Hlt.
  rewrite (getslice_range (BrainModel.name a) i j stop) by (lia || assumption).
  rewrite (getslice_range (BrainModel.voxel a) i j stop)
    by (lia || (rewrite Hlx; assumption)).
  rewrite (getslice_range (BrainModel.vertex a) i j stop)
    by (lia || (rewrite Hlt; assumption)).
  simpl. apply init_of_valid.
  - intros Hnil. apply (f_equal length) in Hnil.
    rewrite sub_range_length in Hnil by lia. simpl in Hnil. lia.
  - apply Forall_forall. intros n Hn. apply list_elem_of_lookup in Hn as [k Hk].
    apply sub_range_lookup in Hk.
    pose proof (wf_names _ _ Hwf) as Hall. rewrite Forall_forall in Hall.
    apply Hall. apply list_elem_of_lookup. eauto.
  - rewrite !sub_range_length by lia. reflexivity.
  - rewrite !sub_range_length by lia. reflexivity.
  - intros k n v Hn Hs Hv. apply sub_range_lookup in Hn, Hv.
    eapply (wf_surface _ _ Hwf); eassumption.
  - intros k n v Hn Hs Hv. apply sub_range_lookup in Hn, Hv.
    eapply (wf_volume _ _ Hwf); eassumption.
  - apply (wf_affine _ _ Hwf).
  - apply (wf_volume_shape _ _ Hwf).
Qed.

End BrainModelParts.

(** ** BrainModel: [iter_structures] *)

(** [is_runs names s runs]: the triples [(name, start, stop)] of [runs]
    are the maximal runs of equal names that tile [names] from the
    position [s] on. A run is maximal when the name that follows it, if
    any, is another one. *)
Inductive is_runs (names : list string) : nat -> list (string * nat * nat) -> Prop :=
| runs_last (n : string) (s : nat) :
    (s < length names)%nat ->
    (forall p, (s <= p < length names)%nat -> names !! p = Some n) ->
    is_runs names s [(n, s, length names)]
| runs_cons (n : string) (s e : nat) (rest : list (string * nat * nat)) :
    (s < e)%nat ->
    (forall p, (s <= p < e)%nat -> names !! p = Some n) ->
    names !! e <> Some n ->
    is_runs names e rest ->
    is_runs names s ((n, s, e) :: rest).

(** The range of positions that a slice [start:stop] or [start:] of
    [iter_structures] stands for. *)
Definition slice_range (len : nat) (sl : slice) : nat * nat :=
  (Z.to_nat (default 0 (slice_start sl)),
   match slice_stop sl with
   | Some e => Z.to_nat e
   | None => len
   end).

Definition run_of (a : BrainModel.t) (y : string * slice * BrainModel.t)
    : string * nat * nat :=
  let '(n, sl, _) := y in
  (n, (slice_range (length (BrainModel.name a)) sl).1,
      (slice_range (length (BrainModel.name a)) sl).2).

Lemma getindex_lookup {A} (l : list A) (k : nat) (x : A) :
  l !! k = Some x -> getindex l (Z.of_nat k) = Ok x.
Proof.
  intros H. pose proof (lookup_lt_Some _ _ _ H) as Hlt. unfold getindex.
  destruct (Z.ltb_spec (Z.of_nat k) 0); [lia|].
  destruct (Z.ltb_spec (Z.of_nat k) 0); [lia|].
  destruct (Z.leb_spec (Z.of_nat (length l)) (Z.of_nat k)); [lia|]. simpl.
  rewrite Nat2Z.id, H. reflexivity.
Qed.

Section IterStructures.

Variable CIFTI_BRAIN_STRUCTURES : list string.
Variable a : BrainModel.t.
Hypothesis wf_a : wf CIFTI_BRAIN_STRUCTURES a.

(** What [iter_structures] yields together with a name and a slice:
    the sub-axis of the positions of the slice. *)
Definition yields_sub_axis (y : string * slice * BrainModel.t) : Prop :=
  let '(_, sl, sub) := y in
  sub = sub_axis a (slice_range (length (BrainModel.name a)) sl).1
                   (slice_range (length (BrainModel.name a)) sl).2.

Lemma iter_structures_loop_spec (rest done : list string) (cur st : nat) (sn : string) :
  BrainModel.name a = (done ++ rest)%list -> length done = cur -> (st <= cur)%nat ->
  (forall p, (st <= p < cur)%nat -> BrainModel.name a !! p = Some sn) ->
  BrainModel.name a !! st = Some sn ->
  exists ys,
    BrainModel.iter_structures_loop CIFTI_BRAIN_STRUCTURES a rest cur st sn = Ok ys /\
    is_runs (BrainModel.name a) st (map (run_of a) ys) /\
    Forall yields_sub_axis ys.
Proof.
  revert done cur st sn.
  induction rest as [|name rest IH]; intros done cur st sn Hnames Hlen Hst Hrun Hsn.
  - rewrite app_nil_r in Hnames. subst done. simpl.
    pose proof (lookup_lt_Some _ _ _ Hsn) as Hlt. rewrite Hlen in Hlt.
    rewrite (getitem_slice_range _ a st cur None wf_a) by (lia || (right; split; congruence)).
    simpl. eexists. split; [reflexivity|]. split.
    + simpl. rewrite Nat2Z.id. apply runs_last; [lia|].
      intros p Hp. apply Hrun. lia.
    + constructor; [|constructor]. simpl. rewrite Nat2Z.id, Hlen. reflexivity.
  - assert (Hcur : BrainModel.name a !! cur = Some name).
    { rewrite Hnames, lookup_app_r by lia. replace (cur - length done)%nat with 0%nat by lia.
      reflexivity. }
    simpl. destruct (String.eqb_spec sn name) as [Heq|Hne]; simpl.
    + subst name. apply (IH (done ++ [sn])%list).
      * rewrite <- app_assoc. exact Hnames.
      * rewrite length_app. simpl. lia.
      * lia.
      * intros p Hp. destruct (decide (p = cur)) as [->|]; [exact Hcur|]. apply Hrun. lia.
      * exact Hsn.
    + assert (st < cur)%nat.
      { destruct (decide (st = cur)) as [->|]; [congruence|lia]. }
      pose proof (lookup_lt_Some _ _ _ Hcur) as Hlt.
      rewrite (getitem_slice_range _ a st cur (Some (Z.of_nat cur)) wf_a)
        by (lia || (left; reflexivity)).
      simpl. rewrite (getindex_lookup _ _ _ Hcur). simpl.
      destruct (IH (done ++ [name])%list (S cur) cur name) as (ys & Hys & Hruns & Hsub).
      * rewrite <- app_assoc. exact Hnames.
      * rewrite length_app. simpl. lia.
      * lia.
      * intros p Hp. replace p with cur by lia. exact Hcur.
      * exact Hcur.
      * rewrite Hys. simpl. eexists. split; [reflexivity|]. split.
        -- simpl. rewrite !Nat2Z.id. apply runs_cons; try assumption. congruence.
        -- constructor; [|exact Hsub]. simpl. rewrite !Nat2Z.id. reflexivity.
Qed.

Lemma iter_structures_spec :
  exists ys,
    BrainModel.iter_structures CIFTI_BRAIN_STRUCTURES a = Ok ys /\
    is_runs (BrainModel.name a) 0 (map (run_of a) ys) /\
    Forall yields_sub_axis ys.
Proof.
  unfold BrainModel.iter_structures.
  destruct (BrainModel.name a) as [|n0 names] eqn:Hnames.
  { exfalso. apply (wf_nonempty _ _ wf_a). exact Hnames. }
  rewrite <- Hnames.
  assert (H0 : BrainModel.name a !! 0%nat = Some n0) by (rewrite Hnames; reflexivity).
  change 0 with (Z.of_nat 0). rewrite (getindex_lookup _ _ _ H0). simpl.
  apply (iter_structures_loop_spec (BrainModel.name a) [] 0 0 n0).
  - reflexivity.
  - reflexivity.
  - lia.
  - intros p Hp. lia.
  - exact H0.
Qed.

End IterStructures.

(** C8. For every constructed BrainModel axis, [iter_structures] yields,
    in order, one triple of a structure name, a slice and a sub-axis for
    each maximal run of consecutive equal names: the ranges of the slices
    tile the axis from its first position on, all names within a range are
    the yielded name, the name that follows a range is another one, and
    the sub-axis consists of the elements of the range. *)
Theorem C8_iter_structures (vocab : list string) (a : BrainModel.t) :
  constructed vocab a ->
  exists ys,
    BrainModel.iter_structures vocab a = Ok ys /\
    is_runs (BrainModel.name a) 0 (map (run_of a) ys) /\
    Forall (yields_sub_axis a) ys.
Proof. intros Ha. apply iter_structures_spec, constructed_wf, Ha. Qed.

(** The axis with the names [X, X, Y, X], for two vertices of the left
    cortex, a voxel of the left thalamus and a third vertex. *)
Definition cortex_thalamus_cortex : BrainModel.t :=
  {| BrainModel.name :=
       ["CIFTI_STRUCTURE_CORTEX_LEFT"; "CIFTI_STRUCTURE_CORTEX_LEFT";
        "CIFTI_STRUCTURE_THALAMUS_LEFT"; "CIFTI_STRUCTURE_CORTEX_LEFT"];
     BrainModel.voxel := [(-1, -1, -1); (-1, -1, -1); (1, 2, 3); (-1, -1, -1)];
     BrainModel.vertex := [3; 4; -1; 7];
     BrainModel.affine := None;
     BrainModel.volume_shape := None;
     BrainModel.nvertices := {[ "CIFTI_STRUCTURE_CORTEX_LEFT" := 10 ]} |}.

Lemma cortex_thalamus_cortex_constructed :
  constructed some_structures cortex_thalamus_cortex.
Proof.
  exists (BrainModel.NameArr ["cortex_left"; "CortexLeft"; "thalamus_left"; "left_cortex"]),
         (Some [(-1, -1, -1); (-1, -1, -1); (1, 2, 3); (-1, -1, -1)]),
         (Some [3; 4; -1; 7]), None, None,
         (Some {[ "CIFTI_STRUCTURE_CORTEX_LEFT" := 10 ]}).
  vm_compute. reflexivity.
Qed.

(** The names [X, X, Y, X] give the three runs [(X, [0, 2))],
    [(Y, [2, 3))] and [(X, [3, 4))], the last one as the slice [3:]. *)
Lemma C8_iter_structures_witness :
  exists ys,
    BrainModel.iter_structures some_structures cortex_thalamus_cortex = Ok ys /\
    map (fun y => (y.1.1, y.1.2)) ys =
      [("CIFTI_STRUCTURE_CORTEX_LEFT", Slice (Some 0) (Some 2) None);
       ("CIFTI_STRUCTURE_THALAMUS_LEFT", Slice (Some 2) (Some 3) None);
       ("CIFTI_STRUCTURE_CORTEX_LEFT", Slice (Some 3) None None)] /\
    is_runs (BrainModel.name cortex_thalamus_cortex) 0
      [("CIFTI_STRUCTURE_CORTEX_LEFT", 0%nat, 2%nat);
       ("CIFTI_STRUCTURE_THALAMUS_LEFT", 2%nat, 3%nat);
       ("CIFTI_STRUCTURE_CORTEX_LEFT", 3%nat, 4%nat)].
Proof.
  destruct (C8_iter_structures some_structures cortex_thalamus_cortex
              cortex_thalamus_cortex_constructed) as (ys & Hys & Hruns & _).
  exists ys. split; [exact Hys|].
  assert (Hc : exists ys', BrainModel.iter_structures some_structures cortex_thalamus_cortex
                 = Ok ys' /\
               map (fun y => (y.1.1, y.1.2)) ys' =
                 [("CIFTI_STRUCTURE_CORTEX_LEFT", Slice (Some 0) (Some 2) None);
                  ("CIFTI_STRUCTURE_THALAMUS_LEFT", Slice (Some 2) (Some 3) None);
                  ("CIFTI_STRUCTURE_CORTEX_LEFT", Slice (Some 3) None None)] /\
               map (run_of cortex_thalamus_cortex) ys' =
                 [("CIFTI_STRUCTURE_CORTEX_LEFT", 0%nat, 2%nat);
                  ("CIFTI_STRUCTURE_THALAMUS_LEFT", 2%nat, 3%nat);
                  ("CIFTI_STRUCTURE_CORTEX_LEFT", 3%nat, 4%nat)]).
  { eexists. split; [vm_compute; reflexivity|]. split; reflexivity. }
  destruct Hc as (ys' & Hys' & Hnames & Hmap).
  rewrite Hys in Hys'. injection Hys' as <-.
  split; [exact Hnames|]. rewrite <- Hmap. exact Hruns.
Defined.

(** ** Header assembly *)

Lemma anyM_Ok_true {A} (f : A -> result bool) (l : list A) :
  anyM f l = Ok true -> exists i x, l !! i = Some x /\ f x = Ok true.
Proof.
  induction l as [|y l IH]; simpl; [discriminate|]. intros H.
  inv_bind H. destruct x as [|].
  - exists 0%nat, y. split; [reflexivity | assumption].
  - destruct (IH H) as (i & z & Hi & Hz). exists (S i), z. split; assumption.
Qed.

Lemma anyM_Ok_false {A} (f : A -> result bool) (l : list A) :
  anyM f l = Ok false -> forall i x, l !! i = Some x -> f x = Ok false.
Proof.
  induction l as [|y l IH]; simpl; intros H i x Hi; [destruct i; discriminate|].
  inv_bind H. destruct x0 as [|]; [discriminate|].
  destruct i as [|i]; simpl in Hi.
  - injection Hi as <-. assumption.
  - eapply IH; eassumption.
Qed.


(** When [ax in axes[:dim]] holds, [axes.index(ax)] is a position before
    [dim]. *)
Lemma index_of_contained (ax : object) (l : list object) (d : nat) :
  contains ax (take d l) = Ok true ->
  exists i e, index l ax = Ok i /\ (i < d)%nat /\ l !! i = Some e /\
              same_or_equal ax e = Ok true.
Proof.
  unfold contains. revert d. induction l as [|y l IH]; intros d H.
  - rewrite take_nil in H. discriminate.
  - destruct d as [|d]; [discriminate|]. simpl in H. inv_bind H. simpl. rewrite Hx. simpl.
    destruct x as [|].
    + exists 0%nat, y. repeat split; [lia | assumption].
    + destruct (IH d H) as (i & e & Hi & Hlt & He & Hs). rewrite Hi. simpl.
      exists (S i), e. repeat split; [lia | assumption | assumption].
Qed.


Section HeaderAssembly.

Variable CIFTI_BRAIN_STRUCTURES : list string.

Abbreviation to_mapping := (Axis_to_mapping CIFTI_BRAIN_STRUCTURES).
Abbreviation step := (to_header_step CIFTI_BRAIN_STRUCTURES).
Abbreviation loop := (to_header_loop CIFTI_BRAIN_STRUCTURES).

(** The mapping that [to_mapping(dim)] returns applies to [dim]. *)
Lemma fold_left_applies_to {A} (f : cifti2.Cifti2MatrixIndicesMap -> A -> cifti2.Cifti2MatrixIndicesMap)
    (l : list A) (m : cifti2.Cifti2MatrixIndicesMap) :
  (forall m x, cifti2.applies_to_matrix_dimension (f m x) =
               cifti2.applies_to_matrix_dimension m) ->
  cifti2.applies_to_matrix_dimension (fold_left f l m) =
  cifti2.applies_to_matrix_dimension m.
Proof.
  intros Hf. revert m. induction l as [|x l IH]; intros m; simpl; [reflexivity|].
  rewrite IH. apply Hf.
Qed.

Lemma to_mapping_applies_to (ax : Axis) (dim : nat) (mim : cifti2.Cifti2MatrixIndicesMap) :
  to_mapping ax dim = Ok mim -> cifti2.applies_to_matrix_dimension mim = [dim].
Proof.
  destruct ax as [a|a|a|a|a]; simpl; intros H.
  - unfold BrainModel.to_mapping in H. inv_bind H. injection H as <-.
    rewrite fold_left_applies_to; [reflexivity|].
    intros m [[n sl] bm]. unfold BrainModel.to_mapping_step.
    destruct (bool_decide _); [reflexivity|]. destruct (cifti2.volume m); reflexivity.
  - injection H as <-. unfold Parcels.to_mapping.
    rewrite fold_left_applies_to by (intros m [[? ?] ?]; reflexivity).
    rewrite fold_left_applies_to by (intros m [? ?]; reflexivity).
    destruct (Parcels.affine a); reflexivity.
  - injection H as <-. unfold Scalar.to_mapping.
    rewrite fold_left_applies_to by (intros m [? ?]; reflexivity). reflexivity.
  - injection H as <-. unfold Label.to_mapping.
    rewrite fold_left_applies_to by (intros m [[? ?] ?]; reflexivity). reflexivity.
  - injection H as <-. reflexivity.
Qed.

End HeaderAssembly.

(** The entries of [mims_all] refer to mappings of the matrix. *)
Definition pointers_valid (st : header_state) : Prop :=
  forall p, p ∈ mims_all st -> (p < length (matrix st))%nat.

(** The mapping of the position [j] lists [j] among its dimensions. *)
Definition registered (st : header_state) (j : nat) : Prop :=
  exists p m, mims_all st !! j = Some p /\ matrix st !! p = Some m /\
              j ∈ cifti2.applies_to_matrix_dimension m.

(** The position [j] has the mapping of an earlier position. *)
Definition shares (st : header_state) (j : nat) : Prop :=
  exists i, (i < j)%nat /\ mims_all st !! i = mims_all st !! j.

(** An earlier axis is the object [x] or compares equal to it. *)
Definition seen_before (axes : list object) (j : nat) (x : object) : Prop :=
  exists i e, (i < j)%nat /\ axes !! i = Some e /\ same_or_equal x e = Ok true.

Section HeaderLoop.

Variable CIFTI_BRAIN_STRUCTURES : list string.
Variable axes : list object.

Lemma to_header_step_spec (st st' : header_state) (d : nat) (x : object) :
  length (mims_all st) = d -> pointers_valid st ->
  to_header_step CIFTI_BRAIN_STRUCTURES axes st d x = Ok st' ->
  (exists p, mims_all st' = (mims_all st ++ [p])%list) /\
  pointers_valid st' /\ registered st' d /\
  (shares st' d <-> seen_before axes d x) /\
  (forall q m, matrix st !! q = Some m ->
     exists m', matrix st' !! q = Some m' /\
                forall k, k ∈ cifti2.applies_to_matrix_dimension m ->
                          k ∈ cifti2.applies_to_matrix_dimension m').
Proof.
  intros Hlen Hvalid H. unfold to_header_step in H. inv_bind H.
  destruct x0 as [|].
  - (* the axis was seen before *)
    apply index_of_contained in Hx as (i & e & Hi & Hlt & He & Hs).
    rewrite Hi in H. simpl in H.
    destruct (mims_all st !! i) as [p|] eqn:Hp; [|discriminate].
    injection H as <-. simpl.
    assert (Hpv : (p < length (matrix st))%nat).
    { apply Hvalid. apply list_elem_of_lookup. eauto. }
    destruct (lookup_lt_is_Some_2 (matrix st) p Hpv) as [m Hm].
    split; [eauto|]. split; [|split; [|split]].
    + intros q Hq. simpl in *. rewrite length_alter.
      apply elem_of_app in Hq as [Hq|Hq]; [apply Hvalid, Hq|].
      apply list_elem_of_singleton in Hq as ->. assumption.
    + exists p, (cifti2.register_dimension m d). simpl. split; [|split].
      * rewrite lookup_app_r by lia. rewrite Hlen, Nat.sub_diag. reflexivity.
      * rewrite list_lookup_alter_eq, Hm. reflexivity.
      * apply elem_of_app. right. apply list_elem_of_singleton. reflexivity.
    + split.
      * intros _. exists i, e. repeat split; assumption.
      * intros _. exists i. split; [assumption|]. simpl.
        rewrite lookup_app_l by lia. rewrite lookup_app_r by lia.
        rewrite Hlen, Nat.sub_diag. simpl. assumption.
    + intros q m0 Hq. destruct (decide (q = p)) as [->|Hne].
      * exists (cifti2.register_dimension m0 d). split.
        -- rewrite list_lookup_alter_eq, Hq. reflexivity.
        -- intros k Hk. simpl. apply elem_of_app. left. assumption.
      * exists m0. split; [|tauto]. rewrite list_lookup_alter_ne by congruence. assumption.
  - (* a new mapping *)
    inv_bind H. injection H as <-. simpl.
    split; [eauto|]. split; [|split; [|split]].
    + intros q Hq. simpl in *. rewrite length_app. simpl.
      apply elem_of_app in Hq as [Hq|Hq]; [specialize (Hvalid q Hq); lia|].
      apply list_elem_of_singleton in Hq as ->. lia.
    + exists (length (matrix st)), x0. simpl. split; [|split].
      * rewrite lookup_app_r by lia. rewrite Hlen, Nat.sub_diag. reflexivity.
      * rewrite lookup_app_r by lia. rewrite Nat.sub_diag. reflexivity.
      * rewrite (to_mapping_applies_to _ _ _ _ Hx0). apply list_elem_of_singleton.
        reflexivity.
    + split.
      * intros (i & Hlt & Hi). exfalso. simpl in Hi.
        rewrite lookup_app_l in Hi by lia. rewrite lookup_app_r in Hi by lia.
        rewrite Hlen, Nat.sub_diag in Hi. simpl in Hi.
        assert (length (matrix st) < length (matrix st))%nat; [|lia].
        apply Hvalid. apply list_elem_of_lookup. eauto.
      * intros (i & e & Hlt & He & Hs). exfalso.
        assert (same_or_equal x e = Ok false); [|congruence].
        eapply (anyM_Ok_false _ _ Hx i). rewrite lookup_take_lt by lia. assumption.
    + intros q m Hq. exists m. split; [|tauto].
      rewrite lookup_app_l by (eapply lookup_lt_Some; eassumption). assumption.
Qed.





End HeaderLoop.




(** The object [a] twice, a distinct equal object and another series. *)
Definition four_axes : list object :=
  [Object 0 (AxSeries (ser 0 1 3)); Object 0 (AxSeries (ser 0 1 3));
   Object 1 (AxSeries (ser 0 1 3)); Object 2 (AxSeries (ser 0 2 3))].


Lemma to_header_four_axes :
  exists st,
    to_header_state some_structures four_axes = Ok st /\
    mims_all st = [0; 0; 0; 1]%nat /\
    map cifti2.applies_to_matrix_dimension (matrix st) = [[0; 1; 2]; [3]]%nat.
Proof. eexists. split; [reflexivity|]. split; reflexivity. Qed.

(** ** Round trips through the mapping *)

Lemma str_upper_unit (u : string) : u ∈ Series.unit_names -> str_upper u = u.
Proof.
  unfold Series.unit_names. intros H.
  repeat (apply elem_of_cons in H; destruct H as [->|H]); try reflexivity. inversion H.
Qed.

Lemma Series_init_unit st sp n u s :
  Series.__init__ st sp n u = Ok s -> Series.unit s ∈ Series.unit_names.
Proof.
  unfold Series.__init__. case_bool_decide as Hu; [|discriminate].
  intros Hs. injection Hs as <-. assumption.
Qed.

(** A float is not changed by the multiplication with [1.0]: the
    product of the mantissa with [2^52] is shifted back by the rounding
    without a loss. *)
Lemma digits2_pos_iter_xO (m : positive) (n : nat) :
  Z.pos (digits2_pos (Nat.iter n xO m)) = Z.pos (digits2_pos m) + Z.of_nat n.
Proof.
  induction n as [|n IH]; [simpl; lia|].
  change (Nat.iter (S n) xO m) with (xO (Nat.iter n xO m)).
  cbn [digits2_pos]. rewrite Pos2Z.inj_succ, IH. lia.
Qed.

Lemma SFmul_one (x : spec_float) :
  valid_binary x = true -> SF64mul x (Prim2SF one) = x.
Proof.
  change (Prim2SF one) with (S754_finite false 4503599627370496 (-52)).
  destruct x as [s|s| |s m e]; simpl; intros Hv.
  - destruct s; reflexivity.
  - destruct s; reflexivity.
  - reflexivity.
  - unfold bounded, canonical_mantissa in Hv.
    apply andb_prop in Hv as [Hc Hb].
    apply Z.eqb_eq in Hc. apply Z.leb_le in Hb.
    rewrite (Pos.mul_comm m).
    change (4503599627370496 * m)%positive with (Nat.iter 52 xO m).
    pose proof (digits2_pos_iter_xO m 52) as Hd.
    set (M := Nat.iter 52 xO m) in *.
    unfold binary_round_aux, shr_fexp.
    cbn [Zdigits2 shr_record_of_loc].
    rewrite Hd.
    replace (Z.pos (digits2_pos m) + Z.of_nat 52 + (e + -52))
      with (Z.pos (digits2_pos m) + e) by lia.
    subst M.
    rewrite Hc. replace (e - (e + -52)) with 52 by lia.
    cbn [shr].
    change (SpecFloat.iter_pos shr_1 52 _)
      with {| shr_m := Z.pos m; shr_r := false; shr_s := false |}.
    cbn [shr_m loc_of_shr_record round_nearest_even Zdigits2].
    replace (e + -52 + 52) with e by lia.
    rewrite Hc, Z.sub_diag. cbn [shr shr_m].
    destruct (e <=? emax - prec) eqn:E; [|apply Z.leb_gt in E; lia].
    rewrite xorb_false_r. reflexivity.
Qed.

Lemma float_mul_one (f : float) : PrimFloat.mul f one = f.
Proof.
  apply Prim2SF_inj. rewrite mul_spec. apply SFmul_one, Prim2SF_valid.
Qed.

Lemma num_mul_one (x : number) : num_mul x (PyInt 1) = Ok x.
Proof.
  destruct x as [z|f]; simpl.
  - rewrite Z.mul_1_r. reflexivity.
  - change (as_float 1) with (Ok one). simpl. rewrite float_mul_one. reflexivity.
Qed.

(** A number is equal to itself unless it is the NaN. *)
Lemma num_eqb_refl (x : number) : num_eqb x x = negb (num_is_nan x).
Proof.
  destruct x as [z|f]; simpl.
  - apply Z.eqb_refl.
  - unfold is_nan. rewrite negb_involutive. reflexivity.
Qed.

Lemma Series_eq_refl (s : Series.t) :
  Series.__eq__ s s = negb (num_is_nan (Series.start s)) && negb (num_is_nan (Series.step s)).
Proof.
  unfold Series.__eq__. rewrite !num_eqb_refl, !bool_decide_eq_true_2 by reflexivity.
  rewrite !andb_true_r. reflexivity.
Qed.

(** A series axis comes back from its mapping. *)
Lemma Series_roundtrip (libm_pow : float -> float -> float) (s : Series.t) (dim : nat) :
  Series.unit s ∈ Series.unit_names ->
  from_mapping [] libm_pow (Series.to_mapping s dim) = Ok (AxSeries s).
Proof.
  intros Hu. unfold from_mapping. simpl. unfold Series.from_mapping. simpl.
  change (pow10 libm_pow 0) with (Ok (PyInt 1)). cbn [bind].
  rewrite !num_mul_one. cbn [bind].
  rewrite Series_init_ok by (rewrite (str_upper_unit _ Hu); exact Hu). simpl.
  rewrite (str_upper_unit _ Hu). destruct s; reflexivity.
Qed.

Lemma fold_left_named_maps {A}
    (F : cifti2.Cifti2MatrixIndicesMap -> A -> cifti2.Cifti2MatrixIndicesMap)
    (f : A -> cifti2.Cifti2NamedMap) (l : list A) (m : cifti2.Cifti2MatrixIndicesMap) :
  (forall m x, cifti2.named_maps (F m x) = (cifti2.named_maps m ++ [f x])%list) ->
  cifti2.named_maps (fold_left F l m) = (cifti2.named_maps m ++ map f l)%list.
Proof.
  intros HF. revert m. induction l as [|x l IH]; intros m; simpl.
  - rewrite app_nil_r. reflexivity.
  - rewrite IH, HF, <- app_assoc. reflexivity.
Qed.

Lemma fold_left_tag {A} (f : cifti2.Cifti2MatrixIndicesMap -> A -> cifti2.Cifti2MatrixIndicesMap)
    (l : list A) (m : cifti2.Cifti2MatrixIndicesMap) :
  (forall m x, cifti2.indices_map_to_data_type (f m x) = cifti2.indices_map_to_data_type m) ->
  cifti2.indices_map_to_data_type (fold_left f l m) = cifti2.indices_map_to_data_type m.
Proof.
  intros Hf. revert m. induction l as [|x l IH]; intros m; simpl; [reflexivity|].
  rewrite IH. apply Hf.
Qed.

Lemma map_fst_zip {A B} (l : list A) (k : list B) :
  length l = length k -> map fst (zip l k) = l.
Proof.
  revert k. induction l as [|x l IH]; intros [|y k] H; simpl in *; try discriminate;
    [reflexivity|]. f_equal. apply IH. lia.
Qed.

Lemma map_snd_zip {A B} (l : list A) (k : list B) :
  length l = length k -> map snd (zip l k) = k.
Proof.
  revert k. induction l as [|x l IH]; intros [|y k] H; simpl in *; try discriminate;
    [reflexivity|]. f_equal. apply IH. lia.
Qed.


(** A scalar axis comes back from its mapping. *)
Lemma Scalar_roundtrip (vocab : list string) (libm_pow : float -> float -> float) (a : Scalar.t) (dim : nat) :
  length (Scalar.meta a) = length (Scalar.name a) ->
  from_mapping vocab libm_pow (Scalar.to_mapping a dim) = Ok (AxScalar a) /\
  Scalar.__eq__ a a = true.
Proof.
  intros Hlen. split.
  - unfold from_mapping, Scalar.to_mapping.
    rewrite fold_left_tag by (intros m [? ?]; reflexivity). simpl.
    unfold Scalar.from_mapping.
    rewrite (fold_left_named_maps _
               (fun x : string * gmap string string =>
                  {| cifti2.map_name := x.1; cifti2.metadata := Some x.2;
                     cifti2.label_table := None |}))
      by (intros m [? ?]; reflexivity).
    simpl. rewrite !map_map. simpl.
    change (map (fun x : string * gmap string string => x.1)) with
      (map (@fst string (gmap string string))).
    change (map (fun x : string * gmap string string => x.2)) with
      (map (@snd string (gmap string string))).
    rewrite map_fst_zip, map_snd_zip by congruence.
    unfold Scalar.__init__. rewrite Hlen, Nat.eqb_refl. simpl. destruct a; reflexivity.
  - unfold Scalar.__eq__. rewrite Nat.eqb_refl. simpl.
    rewrite !bool_decide_eq_true_2; reflexivity.
Qed.

Lemma label_table_roundtrip (lb : label_table_t) :
  (fun v => (cifti2.label v, cifti2.rgba v)) <$> Label.to_label_table lb = lb.
Proof.
  apply map_eq. intros k. unfold Label.to_label_table.
  rewrite lookup_fmap, map_lookup_imap. unfold label_table_t, rgba_t in *.
  destruct (lb !! k) as [[nm [[[r g] b] al]]|] eqn:E; rewrite ?E; reflexivity.
Qed.

Lemma mapM_label_tables (l : list (string * label_table_t * gmap string string)) :
  mapM (fun nm : cifti2.Cifti2NamedMap =>
          match cifti2.label_table nm with
          | Some tb => Ok ((fun v => (cifti2.label v, cifti2.rgba v)) <$> tb)
          | None => Raise AttributeError
          end)
       (map (fun x : string * label_table_t * gmap string string =>
               {| cifti2.map_name := x.1.1; cifti2.metadata := Some x.2;
                  cifti2.label_table := Some (Label.to_label_table x.1.2) |}) l)
  = Ok (map (fun x => x.1.2) l).
Proof.
  induction l as [|x l IH]; simpl; [reflexivity|].
  rewrite IH. simpl. rewrite label_table_roundtrip. reflexivity.
Qed.

(** A label axis comes back from its mapping. *)
Lemma Label_roundtrip (vocab : list string) (libm_pow : float -> float -> float) (a : Label.t) (dim : nat) :
  length (Label.meta a) = length (Label.name a) ->
  length (Label.label a) = length (Label.name a) ->
  from_mapping vocab libm_pow (Label.to_mapping a dim) = Ok (AxLabel a) /\
  Label.__eq__ a a = true.
Proof.
  intros Hm Hl. split.
  - unfold from_mapping, Label.to_mapping.
    rewrite fold_left_tag by (intros m [[? ?] ?]; reflexivity). simpl.
    unfold Label_from_mapping, Scalar.from_mapping.
    rewrite (fold_left_named_maps _
               (fun x : string * label_table_t * gmap string string =>
                  {| cifti2.map_name := x.1.1; cifti2.metadata := Some x.2;
                     cifti2.label_table := Some (Label.to_label_table x.1.2) |}))
      by (intros m [[? ?] ?]; reflexivity).
    simpl. rewrite !map_map. simpl.
    assert (Hnames : map (fun x : string * label_table_t * gmap string string => x.1.1)
                       (zip (zip (Label.name a) (Label.label a)) (Label.meta a))
                     = Label.name a).
    { rewrite <- (map_map fst fst), map_fst_zip, map_fst_zip; [reflexivity|congruence|].
      rewrite length_zip_with. lia. }
    assert (Hmeta : map (fun x : string * label_table_t * gmap string string => x.2)
                      (zip (zip (Label.name a) (Label.label a)) (Label.meta a))
                    = Label.meta a).
    { change (map (fun x : string * label_table_t * gmap string string => x.2)) with
        (map (@snd (string * label_table_t) (gmap string string))).
      rewrite map_snd_zip; [reflexivity|]. rewrite length_zip_with. lia. }
    assert (Htables :
      mapM (fun nm : cifti2.Cifti2NamedMap =>
              match cifti2.label_table nm with
              | Some tb => Ok ((fun v => (cifti2.label v, cifti2.rgba v)) <$> tb)
              | None => Raise AttributeError
              end)
           (map (fun x : string * label_table_t * gmap string string =>
                   {| cifti2.map_name := x.1.1; cifti2.metadata := Some x.2;
                      cifti2.label_table := Some (Label.to_label_table x.1.2) |})
                (zip (zip (Label.name a) (Label.label a)) (Label.meta a)))
      = Ok (Label.label a)).
    { assert (Hlabels : map (fun x : string * label_table_t * gmap string string => x.1.2)
                          (zip (zip (Label.name a) (Label.label a)) (Label.meta a))
                        = Label.label a).
      { rewrite <- (map_map fst snd), map_fst_zip, map_snd_zip; [reflexivity|congruence|].
        rewrite length_zip_with. lia. }
      rewrite mapM_label_tables. f_equal. exact Hlabels. }
    rewrite Htables. simpl. rewrite Hnames, Hmeta.
    unfold Scalar.__init__. rewrite Hm, Nat.eqb_refl. simpl.
    unfold Scalar.to_label, Label.__init__. simpl.
    rewrite Hm, Hl, Nat.eqb_refl. simpl. destruct a; reflexivity.
  - unfold Label.__eq__. rewrite Nat.eqb_refl. simpl.
    rewrite !bool_decide_eq_true_2; reflexivity.
Qed.

(** *** BrainModel *)

Lemma sub_range_app {A} (l : list A) (s e : nat) :
  (s <= e)%nat -> (take s l ++ sub_range l s e)%list = take e l.
Proof.
  intros H. unfold sub_range. rewrite take_take_drop. f_equal. lia.
Qed.

Lemma sub_range_constant {A} (l : list A) (s e : nat) (x : A) :
  (s <= e <= length l)%nat ->
  (forall p, (s <= p < e)%nat -> l !! p = Some x) ->
  sub_range l s e = replicate (e - s) x.
Proof.
  intros Hle H. apply list_eq. intros k.
  destruct (decide (k < e - s)%nat) as [Hk|Hk].
  - rewrite lookup_replicate_2 by lia. unfold sub_range.
    rewrite lookup_take_lt by lia. rewrite lookup_drop. apply H. lia.
  - rewrite (lookup_ge_None_2 (replicate _ _)) by (rewrite length_replicate; lia).
    apply lookup_ge_None_2. unfold sub_range. rewrite length_take, length_drop. lia.
Qed.

(** An array that is filled up to [s] and holds the default from there
    on, after the assignment of the elements [s], ..., [e - 1]. *)
Lemma setslice_next {A} (l vals : list A) (d : A) (s e : nat) :
  (s <= e <= length l)%nat -> vals = sub_range l s e ->
  setslice (take s l ++ replicate (length l - s) d) s (s + (e - s)) vals =
  Ok (take e l ++ replicate (length l - e) d)%list.
Proof.
  intros Hle ->. unfold setslice.
  assert (Hlen : length (take s l ++ replicate (length l - s) d) = length l).
  { rewrite length_app, length_take, length_replicate. lia. }
  rewrite Hlen.
  replace (Nat.min s (length l)) with s by lia.
  replace (Nat.max s (Nat.min (s + (e - s)) (length l))) with e by lia.
  assert (Hsub : length (sub_range l s e) = (e - s)%nat).
  { unfold sub_range. rewrite length_take, length_drop. lia. }
  rewrite Hsub, Nat.eqb_refl. f_equal.
  rewrite take_app_le by (rewrite length_take; lia).
  rewrite take_take. replace (Nat.min s s) with s by lia.
  rewrite drop_app_ge by (rewrite length_take; lia).
  rewrite length_take, drop_replicate.
  rewrite app_assoc, sub_range_app by lia. f_equal. f_equal. lia.
Qed.

(** An array that holds the default at the elements [s], ..., [e - 1]. *)
Lemma filled_next {A} (l : list A) (d : A) (s e : nat) :
  (s <= e <= length l)%nat ->
  (forall p, (s <= p < e)%nat -> l !! p = Some d) ->
  (take s l ++ replicate (length l - s) d)%list =
  (take e l ++ replicate (length l - e) d)%list.
Proof.
  intros Hle H. rewrite <- (sub_range_app l s e) by lia.
  rewrite (sub_range_constant l s e d) by assumption.
  rewrite <- app_assoc, <- replicate_add. f_equal. f_equal. lia.
Qed.

Lemma existsb_replicate {A} (f : A -> bool) (k : nat) (x : A) :
  (0 < k)%nat -> existsb f (replicate k x) = f x.
Proof.
  induction k as [|k IH]; intros Hk; [lia|]. simpl.
  destruct (f x) eqn:E; [reflexivity|]. simpl.
  destruct k as [|k]; [reflexivity|]. rewrite IH by lia. reflexivity.
Qed.

Lemma elem_of_zip_same {A} (l : list A) (x y : A) : (x, y) ∈ zip l l -> x = y.
Proof.
  induction l as [|z l IH]; simpl; intros H; [inversion H|].
  apply elem_of_cons in H as [Heq|H]; [congruence | auto].
Qed.

Lemma matrix_any_ne_refl (m : matrix_t) : matrix_any_ne m m = false.
Proof.
  unfold matrix_any_ne. apply existsb_false_intro. intros [ra rb] Hin.
  apply elem_of_zip_same in Hin as ->.
  apply existsb_false_intro. intros [x y] Hxy.
  apply elem_of_zip_same in Hxy as ->.
  rewrite bool_decide_eq_true_2; reflexivity.
Qed.

Lemma abs_diff_entries_refl (m : matrix_t) :
  Forall (fun d => (d < tol_1e_8)%Qc) (abs_diff_entries m m).
Proof.
  unfold abs_diff_entries. apply Forall_concat, Forall_fmap, Forall_forall.
  intros [ra rb] Hin. apply elem_of_zip_same in Hin as ->.
  simpl. apply Forall_fmap, Forall_forall. intros [x y] Hxy.
  apply elem_of_zip_same in Hxy as ->.
  simpl. unfold Qcminus. rewrite Qcplus_opp_r. reflexivity.
Qed.

(** An integer of at most 53 bits, and [2^53] itself, is a float: it
    comes back unchanged from a float64 array. *)
Lemma digits2_pos_bounds (m : positive) :
  2 ^ (Z.pos (digits2_pos m) - 1) <= Z.pos m < 2 ^ Z.pos (digits2_pos m).
Proof.
  induction m as [m IH|m IH|]; cbn [digits2_pos]; [| |simpl; lia].
  - rewrite Pos2Z.inj_succ. change (Z.pos m~1) with (2 * Z.pos m + 1).
    replace (Z.succ (Z.pos (digits2_pos m)) - 1) with (Z.succ (Z.pos (digits2_pos m) - 1)) by lia.
    rewrite !Z.pow_succ_r by lia. lia.
  - rewrite Pos2Z.inj_succ. change (Z.pos m~0) with (2 * Z.pos m).
    replace (Z.succ (Z.pos (digits2_pos m)) - 1) with (Z.succ (Z.pos (digits2_pos m) - 1)) by lia.
    rewrite !Z.pow_succ_r by lia. lia.
Qed.

Lemma iter_xO_spec (m k : positive) :
  Z.pos (Pos.iter xO m k) = Z.pos m * 2 ^ Z.pos k /\
  Z.pos (digits2_pos (Pos.iter xO m k)) = Z.pos (digits2_pos m) + Z.pos k.
Proof.
  induction k as [|k IH] using Pos.peano_ind.
  - simpl. split; lia.
  - rewrite Pos.iter_succ. cbn [digits2_pos]. rewrite !Pos2Z.inj_succ.
    change (Z.pos (Pos.iter xO m k)~0) with (2 * Z.pos (Pos.iter xO m k)).
    destruct IH as [-> ->]. rewrite Z.pow_succ_r by lia. split; lia.
Qed.

(** The float next to an integer of at most 53 bits. *)
Lemma binary_round_exact (s : bool) (m : positive) :
  Z.pos m < 2 ^ 53 ->
  exists mz ez,
    binary_round prec emax s m 0 = S754_finite s mz ez /\
    valid_binary (S754_finite s mz ez) = true /\
    ez <= 0 /\ Z.pos mz = Z.pos m * 2 ^ (- ez).
Proof.
  intros Hm. pose proof (digits2_pos_bounds m) as [Hlo Hhi].
  set (d := digits2_pos m) in *.
  assert (Hd : Z.pos d <= 53).
  { destruct (Z.le_gt_cases (Z.pos d) 53) as [?|Hgt]; [assumption|exfalso].
    assert (2 ^ 53 <= 2 ^ (Z.pos d - 1)) by (apply Z.pow_le_mono_r; lia). lia. }
  assert (Hf : fexp prec emax (Z.pos d + 0) = Z.pos d - 53).
  { unfold fexp, SpecFloat.emin, prec, emax. lia. }
  unfold binary_round. fold d. rewrite Hf.
  assert (Hal : exists mz ez, shl_align m 0 (Z.pos d - 53) = (mz, ez) /\
                  ez = Z.pos d - 53 /\ Z.pos mz = Z.pos m * 2 ^ (- ez) /\
                  Z.pos (digits2_pos mz) = 53).
  { unfold shl_align. destruct (Z.pos d - 53 - 0) as [|p|p] eqn:E; [|lia|].
    - exists m, 0. replace (Z.pos d - 53) with 0 by lia.
      split; [reflexivity|]. split; [reflexivity|]. split; [simpl; lia|]. fold d. lia.
    - exists (Pos.iter xO m p), (Z.pos d - 53).
      destruct (iter_xO_spec m p) as [Hv Hdg].
      split; [reflexivity|]. split; [reflexivity|]. split.
      + rewrite Hv. f_equal. f_equal. lia.
      + rewrite Hdg. fold d. lia. }
  destruct Hal as (mz & ez & -> & Hez & Hmz & Hdz).
  exists mz, ez.
  assert (Hfz : fexp prec emax (Z.pos (digits2_pos mz) + ez) = ez).
  { rewrite Hdz. unfold fexp, SpecFloat.emin, prec, emax. lia. }
  split; [|split; [|split; [lia | assumption]]].
  - unfold binary_round_aux, shr_fexp. cbn [Zdigits2 shr_record_of_loc].
    rewrite Hfz, Z.sub_diag. cbn [shr shr_m loc_of_shr_record round_nearest_even Zdigits2].
    rewrite Hfz, Z.sub_diag. cbn [shr shr_m].
    destruct (ez <=? emax - prec) eqn:E; [reflexivity|].
    apply Z.leb_gt in E. unfold emax, prec in E. lia.
  - cbn [valid_binary]. unfold bounded, canonical_mantissa. rewrite Hfz, Z.eqb_refl. simpl.
    apply Z.leb_le. unfold emax, prec. lia.
Qed.

Lemma via_float64_exact (z : Z) : - 2 ^ 53 <= z <= 2 ^ 53 -> via_float64 z = z.
Proof.
  intros Hz.
  destruct (Z.eq_dec z (2 ^ 53)) as [->|Hne1]; [vm_compute; reflexivity|].
  destruct (Z.eq_dec z (- 2 ^ 53)) as [->|Hne2]; [vm_compute; reflexivity|].
  unfold via_float64, float_of_Z, int64_of_float.
  destruct z as [|m|m]; [vm_compute; reflexivity| |]; cbn [binary_normalize].
  - destruct (binary_round_exact false m) as (mz & ez & -> & Hv & Hez & Hmz); [lia|].
    rewrite (Prim2SF_SF2Prim _ Hv). cbv zeta. rewrite Hmz.
    destruct (Z.leb_spec 0 ez).
    + replace ez with 0 by lia. simpl (2 ^ _). rewrite !Z.mul_1_r.
      destruct (Z.ltb_spec (Z.pos m) (- 2 ^ 63)); [lia|].
      destruct (Z.leb_spec (2 ^ 63) (Z.pos m)); [lia|]. reflexivity.
    + rewrite Z.div_mul by (apply Z.pow_nonzero; lia).
      destruct (Z.ltb_spec (Z.pos m) (- 2 ^ 63)); [lia|].
      destruct (Z.leb_spec (2 ^ 63) (Z.pos m)); [lia|]. reflexivity.
  - destruct (binary_round_exact true m) as (mz & ez & -> & Hv & Hez & Hmz); [lia|].
    rewrite (Prim2SF_SF2Prim _ Hv). cbv zeta. rewrite Hmz.
    destruct (Z.leb_spec 0 ez).
    + replace ez with 0 by lia. simpl (2 ^ _). rewrite !Z.mul_1_r.
      destruct (Z.ltb_spec (- Z.pos m) (- 2 ^ 63)); [lia|].
      destruct (Z.leb_spec (2 ^ 63) (- Z.pos m)); [lia|]. reflexivity.
    + rewrite Z.div_mul by (apply Z.pow_nonzero; lia).
      destruct (Z.ltb_spec (- Z.pos m) (- 2 ^ 63)); [lia|].
      destruct (Z.leb_spec (2 ^ 63) (- Z.pos m)); [lia|]. reflexivity.
Qed.

(** The indices of an axis are in the range that a float64 array holds
    exactly. *)
Definition float64_exact (z : Z) : Prop := - 2 ^ 53 <= z <= 2 ^ 53.

Definition float64_exact_ijk (v : Z * Z * Z) : Prop :=
  float64_exact v.1.1 /\ float64_exact v.1.2 /\ float64_exact v.2.

Definition indices_float64_exact (a : BrainModel.t) : Prop :=
  Forall float64_exact (BrainModel.vertex a) /\
  Forall float64_exact_ijk (BrainModel.voxel a).

Lemma map_via_float64_exact (l : list Z) :
  Forall float64_exact l -> map via_float64 l = l.
Proof.
  induction 1 as [|z l Hz _ IH]; simpl; [reflexivity|].
  rewrite IH, (via_float64_exact z Hz). reflexivity.
Qed.

Lemma map_via_float64_ijk_exact (l : list (Z * Z * Z)) :
  Forall float64_exact_ijk l -> map BrainModel.via_float64_ijk l = l.
Proof.
  induction 1 as [|[[i j] k] l (Hi & Hj & Hk) _ IH]; simpl; [reflexivity|].
  simpl in Hi, Hj, Hk.
  rewrite IH, (via_float64_exact i Hi), (via_float64_exact j Hj), (via_float64_exact k Hk).
  reflexivity.
Qed.

Lemma Forall_sub_range {A} (P : A -> Prop) (l : list A) (i j : nat) :
  Forall P l -> Forall P (sub_range l i j).
Proof. intros H. unfold sub_range. apply Forall_take, Forall_drop, H. Qed.

(** The sentinels of the data model: a surface element has the voxel
    (-1, -1, -1) and a volumetric element has the vertex -1. *)
Definition sentinels (a : BrainModel.t) : Prop :=
  forall i n, BrainModel.name a !! i = Some n ->
    (is_Some (BrainModel.nvertices a !! n) ->
     BrainModel.voxel a !! i = Some (-1, -1, -1)) /\
    (BrainModel.nvertices a !! n = None -> BrainModel.vertex a !! i = Some (-1)).

Section BrainModelRoundTrip.

Variable CIFTI_BRAIN_STRUCTURES : list string.
Variable a : BrainModel.t.
Hypothesis wf_a : wf CIFTI_BRAIN_STRUCTURES a.
Hypothesis sentinels_a : sentinels a.
Hypothesis exact_a : indices_float64_exact a.

Definition is_volume (n : string) : bool :=
  negb (bool_decide (is_Some (BrainModel.nvertices a !! n))).

Definition seen_volume (s : nat) : bool :=
  existsb is_volume (take s (BrainModel.name a)).

(** The state of the loop of [from_mapping] when the elements before
    the position [s] have been read. *)
Definition state_at (s : nat) : BrainModel.parse_state :=
  {| BrainModel.ps_voxel :=
       take s (BrainModel.voxel a) ++
       replicate (length (BrainModel.voxel a) - s) (-1, -1, -1);
     BrainModel.ps_vertex :=
       take s (BrainModel.vertex a) ++ replicate (length (BrainModel.vertex a) - s) (-1);
     BrainModel.ps_name := take s (BrainModel.name a);
     BrainModel.ps_nvertices :=
       filter (fun kv => kv.1 ∈ take s (BrainModel.name a)) (BrainModel.nvertices a);
     BrainModel.ps_affine := if seen_volume s then BrainModel.affine a else None;
     BrainModel.ps_shape := if seen_volume s then BrainModel.volume_shape a else None |}.

Lemma to_mapping_fold (ys : list (string * slice * BrainModel.t))
    (m0 : cifti2.Cifti2MatrixIndicesMap) :
  cifti2.brain_models (fold_left (BrainModel.to_mapping_step a) ys m0) =
    (cifti2.brain_models m0 ++
     map (fun y => BrainModel.brain_model_of a y.1.1 y.1.2 y.2) ys)%list /\
  cifti2.indices_map_to_data_type (fold_left (BrainModel.to_mapping_step a) ys m0) =
    cifti2.indices_map_to_data_type m0 /\
  cifti2.volume (fold_left (BrainModel.to_mapping_step a) ys m0) =
    match cifti2.volume m0 with
    | Some v => Some v
    | None => if existsb (fun y => is_volume y.1.1) ys
              then Some (BrainModel.volume_of a) else None
    end.
Proof.
  revert m0. induction ys as [|[[n sl] bm] ys IH]; intros m0; cbn [fold_left map existsb].
  - rewrite app_nil_r. destruct (cifti2.volume m0); repeat split; reflexivity.
  - destruct (IH (BrainModel.to_mapping_step a m0 (n, sl, bm))) as (Hb & Ht & Hv).
    rewrite Hb, Ht, Hv. clear. unfold BrainModel.to_mapping_step, is_volume. cbn [fst snd].
    destruct (bool_decide (is_Some (BrainModel.nvertices a !! n))); cbn [negb orb].
    + cbn. rewrite <- app_assoc. repeat split; reflexivity.
    + destruct (cifti2.volume m0) eqn:E; cbn; rewrite ?E, <- app_assoc;
        repeat split; reflexivity.
Qed.

Section Run.

Variables (n : string) (s e : nat).
Hypothesis run_range : (s < e <= length (BrainModel.name a))%nat.
Hypothesis run_names : forall p, (s <= p < e)%nat -> BrainModel.name a !! p = Some n.

Lemma names_next :
  (take s (BrainModel.name a) ++ replicate (e - s) n)%list = take e (BrainModel.name a).
Proof.
  rewrite <- (sub_range_constant (BrainModel.name a) s e n) by (lia || assumption).
  apply sub_range_app. lia.
Qed.

Lemma elem_of_names_next (k : string) :
  k ∈ take e (BrainModel.name a) <-> k ∈ take s (BrainModel.name a) \/ k = n.
Proof.
  rewrite <- names_next, elem_of_app. split.
  - intros [H|H]; [left; assumption|]. right.
    apply elem_of_replicate in H as [H _]. assumption.
  - intros [H| ->]; [left; assumption|]. right. apply elem_of_replicate. split; [reflexivity|lia].
Qed.

Lemma seen_volume_next : seen_volume e = seen_volume s || is_volume n.
Proof.
  unfold seen_volume. rewrite <- names_next, existsb_app. f_equal.
  apply existsb_replicate. lia.
Qed.

Lemma nvertices_next_surface (c : Z) :
  BrainModel.nvertices a !! n = Some c ->
  <[n := c]> (filter (fun kv => kv.1 ∈ take s (BrainModel.name a)) (BrainModel.nvertices a)) =
  filter (fun kv => kv.1 ∈ take e (BrainModel.name a)) (BrainModel.nvertices a).
Proof.
  intros Hc. apply map_eq. intros k. apply option_eq. intros v.
  rewrite map_lookup_filter_Some. simpl. rewrite elem_of_names_next.
  destruct (decide (k = n)) as [->|Hne].
  - rewrite lookup_insert_eq. split.
    + intros Hv. split; [congruence | right; reflexivity].
    + intros [Hv _]. congruence.
  - rewrite lookup_insert_ne by congruence. rewrite map_lookup_filter_Some. simpl. tauto.
Qed.

Lemma nvertices_next_volume :
  BrainModel.nvertices a !! n = None ->
  filter (fun kv => kv.1 ∈ take s (BrainModel.name a)) (BrainModel.nvertices a) =
  filter (fun kv => kv.1 ∈ take e (BrainModel.name a)) (BrainModel.nvertices a).
Proof.
  intros Hc. apply map_eq. intros k. apply option_eq. intros v.
  rewrite !map_lookup_filter_Some. simpl. rewrite elem_of_names_next.
  split; [tauto|]. intros [Hv [Hk| ->]]; [tauto | congruence].
Qed.

(** The step of [from_mapping] for the brain model that [to_mapping]
    wrote for the run. *)
Lemma from_mapping_step_run (mim : cifti2.Cifti2MatrixIndicesMap) (sl : slice) :
  Z.to_nat (default 0 (slice_start sl)) = s ->
  (is_volume n = true -> cifti2.volume mim = Some (BrainModel.volume_of a)) ->
  BrainModel.from_mapping_step mim (state_at s)
    (BrainModel.brain_model_of a n sl (sub_axis a s e)) = Ok (state_at e).
Proof.
  intros Hstart Hvolume.
  pose proof (wf_voxel _ _ wf_a) as Hlx. pose proof (wf_vertex _ _ wf_a) as Hlt.
  assert (Hcount : BrainModel.__len__ (sub_axis a s e) = (e - s)%nat).
  { unfold BrainModel.__len__. simpl. apply sub_range_length. lia. }
  unfold BrainModel.from_mapping_step, BrainModel.brain_model_of.
  cbn [cifti2.index_offset cifti2.index_count cifti2.model_type cifti2.brain_structure
       cifti2.surface_number_of_vertices cifti2.voxel_indices_ijk cifti2.vertex_indices].
  rewrite Hstart, Hcount.
  pose proof seen_volume_next as Hseen. unfold is_volume in Hseen, Hvolume.
  destruct (BrainModel.nvertices a !! n) as [c|] eqn:Hn.
  - (* a surface structure *)
    rewrite bool_decide_eq_true_2 in * by eauto. simpl in Hseen. rewrite orb_false_r in Hseen.
    change ("CIFTI_MODEL_TYPE_SURFACE" =? "CIFTI_MODEL_TYPE_SURFACE")%string with true.
    cbv iota.
    unfold state_at at 1. cbn [BrainModel.ps_vertex BrainModel.ps_voxel BrainModel.ps_name
      BrainModel.ps_nvertices BrainModel.ps_affine BrainModel.ps_shape].
    change (BrainModel.vertex (sub_axis a s e)) with (sub_range (BrainModel.vertex a) s e).
    rewrite (map_via_float64_exact (sub_range (BrainModel.vertex a) s e))
      by (apply Forall_sub_range, exact_a).
    rewrite (setslice_next (BrainModel.vertex a) _ (-1) s e) by (lia || reflexivity).
    simpl. unfold state_at. f_equal. f_equal.
    + apply filled_next; [lia|]. intros p Hp.
      apply (sentinels_a p n (run_names p Hp)). eauto.
    + apply names_next.
    + apply nvertices_next_surface. assumption.
    + rewrite Hseen. reflexivity.
    + rewrite Hseen. reflexivity.
  - (* a volume structure *)
    rewrite bool_decide_eq_false_2 in * by (intros [? ?]; discriminate).
    simpl in Hseen. rewrite orb_true_r in Hseen.
    change ("CIFTI_MODEL_TYPE_VOXELS" =? "CIFTI_MODEL_TYPE_SURFACE")%string with false.
    cbv iota.
    unfold state_at at 1. cbn [BrainModel.ps_vertex BrainModel.ps_voxel BrainModel.ps_name
      BrainModel.ps_nvertices BrainModel.ps_affine BrainModel.ps_shape].
    change (BrainModel.voxel (sub_axis a s e)) with (sub_range (BrainModel.voxel a) s e).
    rewrite (map_via_float64_ijk_exact (sub_range (BrainModel.voxel a) s e))
      by (apply Forall_sub_range, exact_a).
    rewrite (setslice_next (BrainModel.voxel a) _ (-1, -1, -1) s e) by (lia || reflexivity).
    simpl. rewrite (Hvolume eq_refl). simpl.
    assert (Hvt : (take s (BrainModel.vertex a) ++
                   replicate (length (BrainModel.vertex a) - s) (-1))%list =
                  (take e (BrainModel.vertex a) ++
                   replicate (length (BrainModel.vertex a) - e) (-1))%list).
    { apply filled_next; [lia|]. intros p Hp.
      apply (sentinels_a p n (run_names p Hp)). assumption. }
    destruct (seen_volume s) eqn:Hs.
    + destruct (BrainModel.affine a) as [m|] eqn:Hm.
      * rewrite bool_decide_eq_true_2 by reflexivity. simpl.
        rewrite matrix_any_ne_refl. unfold state_at. rewrite Hseen, Hm.
        f_equal. f_equal; [assumption | apply names_next | apply nvertices_next_volume; assumption].
      * unfold state_at. rewrite Hseen, Hm.
        f_equal. f_equal; [assumption | apply names_next | apply nvertices_next_volume; assumption].
    + unfold state_at. rewrite Hseen.
      f_equal. f_equal; [assumption | apply names_next | apply nvertices_next_volume; assumption].
Qed.

End Run.

Lemma is_runs_start (names : list string) (s : nat) (rs : list (string * nat * nat)) :
  is_runs names s rs -> (s < length names)%nat.
Proof. induction 1; lia. Qed.

Definition entry_of (y : string * slice * BrainModel.t) : cifti2.Cifti2BrainModel :=
  BrainModel.brain_model_of a y.1.1 y.1.2 y.2.

(** The loop of [from_mapping] over the brain models of the runs from
    the position [s] on. *)
Lemma from_mapping_fold_runs (mim : cifti2.Cifti2MatrixIndicesMap) (s : nat)
    (rs : list (string * nat * nat)) :
  is_runs (BrainModel.name a) s rs ->
  forall ys, map (run_of a) ys = rs -> Forall (yields_sub_axis a) ys ->
    (forall y, y ∈ ys -> is_volume y.1.1 = true ->
               cifti2.volume mim = Some (BrainModel.volume_of a)) ->
    fold_left (fun acc bm => do st <- acc; BrainModel.from_mapping_step mim st bm)
              (map entry_of ys) (Ok (state_at s))
      = Ok (state_at (length (BrainModel.name a))) /\
    list_sum (map cifti2.index_count (map entry_of ys)) =
      (length (BrainModel.name a) - s)%nat.
Proof.
  induction 1 as [n s Hs Hrun | n s e rest Hse Hrun Hnext Hrest IH];
    intros ys Hmap Hsub Hvol.
  - destruct ys as [|[[n' sl] sub] [|? ?]]; try discriminate.
    simpl in Hmap. injection Hmap as -> Hstart Hstop.
    apply Forall_cons in Hsub as [Hsub _]. simpl in Hsub.
    rewrite Hstart, Hstop in Hsub. subst sub. simpl. unfold entry_of. simpl.
    rewrite (from_mapping_step_run n s (length (BrainModel.name a))); try assumption; try lia.
    + split; [reflexivity|]. unfold BrainModel.__len__. simpl.
      rewrite sub_range_length by lia. lia.
    + intros Hv. apply (Hvol (n, sl, sub_axis a s (length (BrainModel.name a)))); [left|exact Hv].
  - pose proof (is_runs_start _ _ _ Hrest) as He.
    destruct ys as [|[[n' sl] sub] ys]; try discriminate.
    simpl in Hmap. injection Hmap as -> Hstart Hstop Hmap.
    apply Forall_cons in Hsub as [Hsub Hsubs]. simpl in Hsub.
    rewrite Hstart, Hstop in Hsub. subst sub. unfold entry_of in *. simpl.
    rewrite (from_mapping_step_run n s e); try assumption; try lia.
    + destruct (IH ys Hmap Hsubs) as [Hfold Hsum].
      { intros y Hy. apply Hvol. right. assumption. }
      split; [exact Hfold|]. rewrite Hsum. unfold BrainModel.__len__. simpl.
      rewrite sub_range_length by lia. lia.
    + intros Hv. apply (Hvol (n, sl, sub_axis a s e)); [left|exact Hv].
Qed.

Lemma all_surface_or_seen_volume :
  forallb id (surface_flags (BrainModel.nvertices a) (BrainModel.name a)) =
  negb (seen_volume (length (BrainModel.name a))).
Proof.
  unfold seen_volume, surface_flags, is_volume. rewrite take_ge by lia.
  induction (BrainModel.name a) as [|n names IH]; simpl; [reflexivity|].
  rewrite IH. change (id ?b) with b.
  destruct (bool_decide _), (existsb _ names); reflexivity.
Qed.

(** A constructed axis with the sentinels of the data model comes back
    from its mapping, as the very same axis, which is equal to itself. *)
Lemma BrainModel_roundtrip (libm_pow : float -> float -> float) (dim : nat) :
  exists mim,
    BrainModel.to_mapping CIFTI_BRAIN_STRUCTURES a dim = Ok mim /\
    from_mapping CIFTI_BRAIN_STRUCTURES libm_pow mim = Ok (AxBrainModel a) /\
    Axis_eq (AxBrainModel a) (AxBrainModel a) = Ok true.
Proof.
  destruct (iter_structures_spec CIFTI_BRAIN_STRUCTURES a wf_a) as (ys & Hys & Hruns & Hsub).
  unfold BrainModel.to_mapping. rewrite Hys. simpl.
  eexists. split; [reflexivity|].
  destruct (to_mapping_fold ys (cifti2.new dim "CIFTI_INDEX_TYPE_BRAIN_MODELS"))
    as (Hb & Ht & Hv).
  simpl in Hb, Ht, Hv. split.
  - unfold from_mapping. rewrite Ht. simpl.
    unfold BrainModel.from_mapping. rewrite Hb.
    assert (Hne : (length (map (fun y => BrainModel.brain_model_of a y.1.1 y.1.2 y.2) ys)
                   =? 0)%nat = false).
    { apply Nat.eqb_neq. rewrite length_map. destruct ys; [inversion Hruns | simpl; lia]. }
    rewrite Hne.
    destruct (from_mapping_fold_runs
                (fold_left (BrainModel.to_mapping_step a) ys
                           (cifti2.new dim "CIFTI_INDEX_TYPE_BRAIN_MODELS"))
                0 _ Hruns ys eq_refl Hsub) as [Hfold Hsum].
    { intros y Hy Hvy. rewrite Hv.
      assert (existsb (fun y => is_volume y.1.1) ys = true) as ->; [|reflexivity].
      apply existsb_exists. exists y. split; [apply list_elem_of_In|]; assumption. }
    fold entry_of. rewrite Hsum, Nat.sub_0_r.
    pose proof (wf_voxel _ _ wf_a) as Hlx. pose proof (wf_vertex _ _ wf_a) as Hlt.
    assert (Hinit : {| BrainModel.ps_voxel := replicate (length (BrainModel.name a)) (-1, -1, -1);
                       BrainModel.ps_vertex := replicate (length (BrainModel.name a)) (-1);
                       BrainModel.ps_name := [];
                       BrainModel.ps_nvertices := ∅;
                       BrainModel.ps_affine := None;
                       BrainModel.ps_shape := None |} = state_at 0).
    { unfold state_at, seen_volume. rewrite !take_0, !Nat.sub_0_r, Hlx, Hlt. simpl.
      f_equal. symmetry. apply map_eq. intros k. rewrite lookup_empty.
      apply map_lookup_filter_None. right. intros v _ Hin. inversion Hin. }
    rewrite Hinit, Hfold. simpl.
    unfold state_at. simpl. rewrite !take_ge by lia.
    rewrite Hlx, Hlt, Nat.sub_diag. simpl. rewrite !app_nil_r.
    assert (Hnv : filter (fun kv : string * Z => kv.1 ∈ BrainModel.name a)
                         (BrainModel.nvertices a) = BrainModel.nvertices a).
    { apply map_filter_id. intros k v Hk. simpl. apply (wf_nvertices _ _ wf_a). eauto. }
    rewrite Hnv.
    rewrite (init_of_valid CIFTI_BRAIN_STRUCTURES).
    + f_equal. f_equal. unfold built. rewrite Hnv, all_surface_or_seen_volume.
      destruct (seen_volume (length (BrainModel.name a))) eqn:Hseen; simpl.
      * destruct a; reflexivity.
      * assert (Hall : forall n, n ∈ BrainModel.name a ->
                                 is_Some (BrainModel.nvertices a !! n)).
        { apply forallb_mask_true. fold (surface_flags (BrainModel.nvertices a) (BrainModel.name a)).
          rewrite all_surface_or_seen_volume, Hseen. reflexivity. }
        destruct (wf_all_surface _ _ wf_a Hall) as [Ha Hs].
        destruct a; simpl in *. subst. reflexivity.
    + apply (wf_nonempty _ _ wf_a).
    + apply (wf_names _ _ wf_a).
    + assumption.
    + assumption.
    + intros k n v. apply (wf_surface _ _ wf_a).
    + intros k n v. apply (wf_volume _ _ wf_a).
    + intros m Hm. destruct (seen_volume _); [|discriminate]. apply (wf_affine _ _ wf_a _ Hm).
    + intros v Hv'. destruct (seen_volume _); [|discriminate].
      apply (wf_volume_shape _ _ wf_a _ Hv').
  - simpl. destruct (BrainModel_eq_spec CIFTI_BRAIN_STRUCTURES a a wf_a wf_a) as (r & Hr & Hiff).
    rewrite Hr. f_equal. apply Hiff.
    split; [|split; [reflexivity|split; [reflexivity|split; intros i n _ _; reflexivity]]].
    unfold same_volume. destruct (BrainModel.affine a) as [m|]; [|exact I].
    split; [apply abs_diff_entries_refl | reflexivity].
Qed.

End BrainModelRoundTrip.

(** Two vertices of the left cortex and two voxels of the left
    thalamus in a volume. *)
Definition cortex_and_thalamus : BrainModel.t :=
  {| BrainModel.name :=
       ["CIFTI_STRUCTURE_CORTEX_LEFT"; "CIFTI_STRUCTURE_CORTEX_LEFT";
        "CIFTI_STRUCTURE_THALAMUS_LEFT"; "CIFTI_STRUCTURE_THALAMUS_LEFT"];
     BrainModel.voxel := [(-1, -1, -1); (-1, -1, -1); (0, 0, 1); (1, 0, 1)];
     BrainModel.vertex := [3; 4; -1; -1];
     BrainModel.affine := Some identity4;
     BrainModel.volume_shape := Some [2; 2; 2];
     BrainModel.nvertices := {[ "CIFTI_STRUCTURE_CORTEX_LEFT" := 10 ]} |}.

Lemma cortex_and_thalamus_constructed :
  constructed some_structures cortex_and_thalamus.
Proof.
  exists (BrainModel.NameArr ["cortex_left"; "CortexLeft"; "thalamus_left"; "ThalamusLeft"]),
         (Some [(-1, -1, -1); (-1, -1, -1); (0, 0, 1); (1, 0, 1)]),
         (Some [3; 4; -1; -1]), (Some identity4), (Some [2; 2; 2]),
         (Some {[ "CIFTI_STRUCTURE_CORTEX_LEFT" := 10 ]}).
  vm_compute. reflexivity.
Qed.

Lemma cortex_and_thalamus_sentinels : sentinels cortex_and_thalamus.
Proof.
  intros i n Hi.
  destruct i as [|[|[|[|i]]]]; simpl in Hi; try discriminate;
    injection Hi as <-; split; intros Hn; try reflexivity; exfalso;
    vm_compute in Hn; try discriminate; destruct Hn as [v Hv]; discriminate.
Qed.

Lemma cortex_and_thalamus_exact : indices_float64_exact cortex_and_thalamus.
Proof.
  split; repeat constructor; unfold float64_exact; simpl; lia.
Qed.

(** A BrainModel axis with surface and volume elements comes back from
    its mapping. *)
Lemma BrainModel_roundtrip_example :
  exists mim,
    BrainModel.to_mapping some_structures cortex_and_thalamus 0 = Ok mim /\
    from_mapping some_structures unused_pow mim = Ok (AxBrainModel cortex_and_thalamus) /\
    Axis_eq (AxBrainModel cortex_and_thalamus) (AxBrainModel cortex_and_thalamus) = Ok true.
Proof.
  apply BrainModel_roundtrip.
  - apply constructed_wf, cortex_and_thalamus_constructed.
  - apply cortex_and_thalamus_sentinels.
  - apply cortex_and_thalamus_exact.
Qed.

(** A Parcels axis whose parcel has voxels and vertices comes back from
    its mapping. *)
Definition one_parcel : Parcels.t :=
  {| Parcels.name := ["a"];
     Parcels.voxels := [[(0, 0, 1); (1, 0, 1)]];
     Parcels.vertices := [{[ "CIFTI_STRUCTURE_CORTEX_LEFT" := [3; 4] ]}];
     Parcels.affine := Some identity4;
     Parcels.volume_shape := Some [2; 2; 2];
     Parcels.nvertices := {[ "CIFTI_STRUCTURE_CORTEX_LEFT" := 10 ]} |}.

Lemma Parcels_roundtrip_example :
  from_mapping some_structures unused_pow (Parcels.to_mapping one_parcel 0) = Ok (AxParcels one_parcel) /\
  Axis_eq (AxParcels one_parcel) (AxParcels one_parcel) = Ok true.
Proof. split; vm_compute; reflexivity. Qed.

(** The axis without parcels. *)
Definition no_parcels : Parcels.t :=
  {| Parcels.name := [];
     Parcels.voxels := [];
     Parcels.vertices := [];
     Parcels.affine := None;
     Parcels.volume_shape := None;
     Parcels.nvertices := ∅ |}.

(** C1. The round trip fails for [Parcels]: the axis without parcels,
    [Parcels([], [], [])], is written to a mapping from which
    [from_mapping] reads an axis of the very same content, and
    [Parcels.__eq__] finds the two unequal, because
    [(self.name != other.name).all()] holds for two empty arrays of names.
    The same holds for a parcel with an array of no vertices. *)
Theorem C1_roundtrip_fails_for_parcels (libm_pow : float -> float -> float) :
  Parcels.__init__ [] [] [] None None None = Ok no_parcels /\
  from_mapping some_structures libm_pow (Parcels.to_mapping no_parcels 0) = Ok (AxParcels no_parcels) /\
  Axis_eq (AxParcels no_parcels) (AxParcels no_parcels) = Ok false /\
  from_mapping some_structures libm_pow (Parcels.to_mapping (parcel_with_vertices []) 0)
    = Ok (AxParcels (parcel_with_vertices [])) /\
  Axis_eq (AxParcels (parcel_with_vertices [])) (AxParcels (parcel_with_vertices []))
    = Ok false.
Proof. repeat split; vm_compute; reflexivity. Qed.

(** * Further properties of the axes *)

(** ** Series *)

(** * Further properties of the axes *)

(** ** Series *)

Lemma Qc_of_Z_plus (a b : Z) : Qc_of_Z (a + b) = (Qc_of_Z a + Qc_of_Z b)%Qc.
Proof.
  apply Qc_is_canon. unfold Qc_of_Z. simpl. rewrite !Qred_correct.
  rewrite inject_Z_plus. reflexivity.
Qed.

Lemma Qc_of_Z_mult (a b : Z) : Qc_of_Z (a * b) = (Qc_of_Z a * Qc_of_Z b)%Qc.
Proof.
  apply Qc_is_canon. unfold Qc_of_Z. simpl. rewrite !Qred_correct.
  rewrite inject_Z_mult. reflexivity.
Qed.

(** What [l[i]] returns: the element at [i] for [0 <= i < len(l)], the
    element at [len(l) + i] for [-len(l) <= i < 0]. *)
Lemma getindex_nonneg {A} (l : list A) (i : Z) (x : A) :
  0 <= i -> l !! Z.to_nat i = Some x -> getindex l i = Ok x.
Proof.
  intros Hi Hx. rewrite <- (Z2Nat.id i Hi). apply getindex_lookup, Hx.
Qed.

Lemma getindex_neg {A} (l : list A) (i : Z) (x : A) :
  i < 0 -> 0 <= i + Z.of_nat (length l) ->
  l !! Z.to_nat (i + Z.of_nat (length l)) = Some x -> getindex l i = Ok x.
Proof.
  intros Hi Hlo Hx. pose proof (lookup_lt_Some _ _ _ Hx) as Hlt. unfold getindex.
  destruct (Z.ltb_spec i 0); [|lia].
  destruct (Z.ltb_spec (i + Z.of_nat (length l)) 0); [lia|].
  destruct (Z.leb_spec (Z.of_nat (length l)) (i + Z.of_nat (length l))); [lia|].
  simpl. rewrite Hx. reflexivity.
Qed.

Lemma getindex_out_of_range {A} (l : list A) (i : Z) :
  i < - Z.of_nat (length l) \/ Z.of_nat (length l) <= i ->
  getindex l i = Raise (IndexError "index out of bounds").
Proof.
  intros Hi. unfold getindex. destruct (Z.ltb_spec i 0).
  - destruct (Z.ltb_spec (i + Z.of_nat (length l)) 0); [reflexivity|]. lia.
  - destruct (Z.ltb_spec i 0); [lia|].
    destruct (Z.leb_spec (Z.of_nat (length l)) i); [reflexivity|]. lia.
Qed.

(** The floats next to 0.1 and to 0.2, and the series of [float]s
    [Series(a, b, n)]. *)
Definition tenth : float := 0x1.999999999999ap-4%float.
Definition fifth : float := 0x1.999999999999ap-3%float.

Definition fser (a b : float) (n : Z) : Series.t :=
  {| Series.start := PyFloat a; Series.step := PyFloat b; Series.size := n;
     Series.unit := "SECOND" |}.

(** X1. A series axis with one of the four units comes back from its
    mapping unchanged: [from_mapping(s.to_mapping(dim))] returns a series
    with the start, step, size and unit of [s], whether they are [int]s
    or floats. The comparison [==] finds the series equal to itself
    exactly when neither its start nor its step is the float NaN. *)
Theorem X1_Series_roundtrip (vocab : list string) (libm_pow : float -> float -> float)
    (s : Series.t) (dim : nat) :
  Series.unit s ∈ Series.unit_names ->
  from_mapping vocab libm_pow (Series.to_mapping s dim) = Ok (AxSeries s) /\
  Axis_eq (AxSeries s) (AxSeries s) =
    Ok (negb (num_is_nan (Series.start s)) && negb (num_is_nan (Series.step s))).
Proof.
  intros Hu. split.
  - unfold from_mapping. simpl. unfold Series.from_mapping. simpl.
    change (pow10 libm_pow 0) with (Ok (PyInt 1)). cbn [bind].
    rewrite !num_mul_one. cbn [bind].
    rewrite Series_init_ok by (rewrite (str_upper_unit _ Hu); exact Hu). simpl.
    rewrite (str_upper_unit _ Hu). destruct s; reflexivity.
  - simpl. rewrite Series_eq_refl. reflexivity.
Qed.

Lemma X1_Series_roundtrip_witness :
  from_mapping some_structures unused_pow (Series.to_mapping (fser tenth fifth 4) 1)
    = Ok (AxSeries (fser tenth fifth 4)) /\
  Axis_eq (AxSeries (fser tenth fifth 4)) (AxSeries (fser tenth fifth 4)) = Ok true.
Proof.
  apply (X1_Series_roundtrip some_structures unused_pow (fser tenth fifth 4) 1).
  decide_by_compute.
Defined.

(** X2. Concatenation of two series, [extend] and [+]: it raises
    [ValueError] when the steps differ ([!=]) or when the units differ;
    otherwise the result starts where the first series starts, keeps its
    step and unit and has the sum of the sizes, so that its element [i]
    is the time point [start + step * i] of the first series for all [i]
    below the sum of the sizes, the [int] [start + step * i] for a
    series of [int]s: the start of the second series is ignored. *)
Theorem X2_Series_extend (s1 s2 : Series.t) :
  Series.unit s1 ∈ Series.unit_names ->
  0 <= Series.size s1 -> 0 <= Series.size s2 ->
  (num_eqb (Series.step s2) (Series.step s1) = false ->
   Series.__add__ s1 s2 =
     Raise (ValueError "Can only concatenate Series with the same step size")) /\
  (num_eqb (Series.step s2) (Series.step s1) = true -> Series.unit s2 <> Series.unit s1 ->
   Series.__add__ s1 s2 =
     Raise (ValueError "Can only concatenate Series with the same unit")) /\
  (num_eqb (Series.step s2) (Series.step s1) = true -> Series.unit s2 = Series.unit s1 ->
   exists s,
     Series.__add__ s1 s2 = Ok s /\
     Series.start s = Series.start s1 /\ Series.step s = Series.step s1 /\
     Series.size s = Series.size s1 + Series.size s2 /\
     Series.unit s = Series.unit s1 /\
     (forall i, 0 <= i < Series.size s1 -> Series.get_element s i = Series.get_element s1 i) /\
     (forall i, 0 <= i < Series.size s1 + Series.size s2 ->
        Series.get_element s i = Series.time_point s1 i /\
        forall a b, Series.start s1 = PyInt a -> Series.step s1 = PyInt b ->
          Series.get_element s i = Ok (PyInt (a + b * i)))).
Proof.
  intros Hu H1 H2. unfold Series.__add__, Series.extend. split; [|split].
  - intros Hs. rewrite Hs. reflexivity.
  - intros Hs Hn. rewrite Hs. simpl.
    rewrite bool_decide_eq_false_2 by assumption. reflexivity.
  - intros Hs Hn. rewrite Hs, bool_decide_eq_true_2 by assumption. simpl.
    rewrite Series_init_ok by (rewrite (str_upper_unit _ Hu); exact Hu).
    rewrite (str_upper_unit _ Hu).
    eexists. split; [reflexivity|]. simpl. repeat split.
    + intros i Hi. rewrite !Series_get_element_nonneg by (simpl; lia). reflexivity.
    + rewrite Series_get_element_nonneg by (simpl; lia). reflexivity.
    + intros a b Ha Hb. rewrite Series_get_element_nonneg by (simpl; lia).
      apply time_point_int; assumption.
Qed.

Lemma X2_Series_extend_witness :
  exists s, Series.__add__ (ser 0 2 5) (ser 7 2 3) = Ok s /\ Series.size s = 8 /\
            Series.get_element s 6 = Ok (PyInt 12).
Proof.
  destruct (X2_Series_extend (ser 0 2 5) (ser 7 2 3)) as (_ & _ & H);
    [decide_by_compute | simpl; lia | simpl; lia |].
  destruct (H eq_refl eq_refl) as (s & Hs & _ & _ & Hsize & _ & _ & Hel).
  exists s. split; [exact Hs|]. split; [exact Hsize|].
  apply (proj2 (Hel 6 ltac:(simpl; lia)) 0 2); reflexivity.
Defined.

(** X3. A slice [a:b:k] of a series with a positive step [k] and bounds
    within the axis has [max(0, (b - a) // k)] elements, which are at
    most the positions that the slice selects, and all of them exactly
    when [k] divides [b - a] or the range is empty. For a series of
    [int]s the slice is returned and its element [i] is the element
    [a + i * k] of the axis, the position [i] of the slice. For a series
    of floats the slice is returned, with the start [a * step + start]
    and the step [step * k] in float arithmetic, when [a] and [k] are
    not too large for a float; its elements are computed from this new
    start and are not the rounded elements of the axis. Whatever the
    numbers, the only exception is the [OverflowError] of an [int] too
    large for a float. *)
Theorem X3_Series_slice_elements (s : Series.t) (a b k : Z) :
  Series.unit s ∈ Series.unit_names ->
  0 < k -> 0 <= a <= Series.size s -> 0 <= b <= Series.size s ->
  let it := ItemSlice (Slice (Some a) (Some b) (Some k)) in
  let n := Z.max 0 ((b - a) / k) in
  exists ps,
    slice_positions (Series.size s) (Slice (Some a) (Some b) (Some k)) = Ok ps /\
    n <= Z.of_nat (length ps) /\
    (n = Z.of_nat (length ps) <-> b <= a \/ (b - a) mod k = 0) /\
    (forall i, 0 <= i < n ->
       ps !! Z.to_nat i = Some (a + i * k) /\ 0 <= a + i * k < Series.size s) /\
    (Series.__getitem__ s it = Raise OverflowError \/
     exists s', Series.__getitem__ s it = Ok (Series.Sub s') /\
                Series.size s' = n /\ Series.unit s' = Series.unit s) /\
    (forall z1 z2, Series.start s = PyInt z1 -> Series.step s = PyInt z2 ->
       exists s', Series.__getitem__ s it = Ok (Series.Sub s') /\
         forall i, 0 <= i < n ->
           Series.get_element s' i = Series.get_element s (a + i * k)) /\
    (forall f g fa fk, Series.start s = PyFloat f -> Series.step s = PyFloat g ->
       as_float a = Ok fa -> as_float k = Ok fk ->
       Series.__getitem__ s it =
         Ok (Series.Sub {| Series.start := PyFloat (PrimFloat.add (PrimFloat.mul fa g) f);
                           Series.step := PyFloat (PrimFloat.mul g fk);
                           Series.size := n;
                           Series.unit := Series.unit s |})).
Proof.
  intros Hu Hk Ha Hb it n.
  assert (Hup : str_upper (Series.unit s) = Series.unit s) by apply (str_upper_unit _ Hu).
  assert (Hadj : forall x st, 0 <= x <= Series.size s ->
            slice_adjust (Series.size s) k (Some x) st = x).
  { intros x st Hx. unfold slice_adjust.
    destruct (Z.ltb_spec x 0); [lia|]. destruct (Z.ltb_spec x 0); [lia|].
    destruct (Z.ltb_spec k 0); [lia|].
    destruct (Z.leb_spec (Series.size s) x); [|reflexivity].
    destruct st; lia. }
  assert (Hlen : slice_length a b k = if a <? b then (b - a - 1) / k + 1 else 0).
  { unfold slice_length. destruct (Z.ltb_spec k 0); [lia|]. reflexivity. }
  assert (Hn : forall i, 0 <= i < n -> a + i * k < b).
  { intros i Hi. unfold n in Hi.
    assert (i < (b - a) / k) by lia.
    assert (i + 1 <= (b - a) / k) by lia.
    assert (k * (i + 1) <= b - a).
    { etransitivity; [apply Z.mul_le_mono_nonneg_l; [lia|eassumption]|].
      apply Z.mul_div_le. lia. }
    lia. }
  assert (Hcount : n <= slice_length a b k /\
                   (n = slice_length a b k <-> b <= a \/ (b - a) mod k = 0)).
  { rewrite Hlen. unfold n. destruct (Z.ltb_spec a b) as [Hab|Hab].
    - assert (Hq : (b - a) / k <= (b - a - 1) / k + 1).
      { replace (b - a) with ((b - a - 1) + 1 * 1) at 1 by lia.
        assert ((b - a - 1 + 1 * 1) / k <= (b - a - 1 + 1 * k) / k).
        { apply Z.div_le_mono; lia. }
        rewrite Z.div_add in H by lia. lia. }
      assert (0 <= (b - a) / k) by (apply Z.div_pos; lia).
      split; [lia|]. split.
      + intros He. right.
        pose proof (Z.div_mod (b - a) k ltac:(lia)) as Hdm.
        pose proof (Z.mod_pos_bound (b - a) k Hk) as Hm.
        destruct (decide ((b - a) mod k = 0)) as [|Hne]; [assumption|exfalso].
        assert (Hx : (b - a - 1) / k = (b - a) / k).
        { symmetry. apply (Z.div_unique _ _ _ ((b - a) mod k - 1)); lia. }
        lia.
      + intros [Hle|Hm]; [lia|].
        pose proof (Z.div_mod (b - a) k ltac:(lia)) as Hdm. rewrite Hm in Hdm.
        assert (Hx : (b - a - 1) / k = (b - a) / k - 1).
        { symmetry. apply (Z.div_unique _ _ _ (k - 1)); lia. }
        lia.
    - assert ((b - a) / k <= 0).
      { destruct (decide (a = b)) as [->|]; [rewrite Z.sub_diag, Z.div_0_l by lia; lia|].
        assert ((b - a) / k < 0) by (apply Z.div_lt_upper_bound; lia). lia. }
      split; [lia|]. split; [intros _; left; lia | intros _; lia]. }
  assert (Hsize : (if (b - a) / k <? 0 then 0 else (b - a) / k) = n).
  { unfold n. destruct (Z.ltb_spec ((b - a) / k) 0); lia. }
  (* the slice, once the bounds are resolved *)
  assert (Hget : Series.__getitem__ s it =
            do p <- num_mul (PyInt a) (Series.step s);
            do new_start <- num_add p (Series.start s);
            do new_step <- num_mul (Series.step s) (PyInt k);
            Ok (Series.Sub {| Series.start := new_start; Series.step := new_step;
                              Series.size := n; Series.unit := Series.unit s |})).
  { unfold it, Series.__getitem__. cbn [slice_step slice_start slice_stop].
    destruct (Z.leb_spec 0 a); [|lia]. destruct (Z.leb_spec 0 b); [|lia].
    destruct (Z.ltb_spec (Series.size s) a); [lia|].
    destruct (Z.ltb_spec (Series.size s) b); [lia|].
    destruct (Z.eqb_spec k 0); [lia|]. rewrite Hsize.
    destruct (num_mul (PyInt a) (Series.step s)) as [p|e]; [|reflexivity]. cbn [bind].
    destruct (num_add p (Series.start s)) as [st|e]; [|reflexivity]. cbn [bind].
    destruct (num_mul (Series.step s) (PyInt k)) as [sp|e]; [|reflexivity]. cbn [bind].
    rewrite Series_init_ok by (rewrite Hup; exact Hu). cbn [bind]. rewrite Hup. reflexivity. }
  eexists. split.
  { unfold slice_positions. cbn [slice_step slice_start slice_stop default from_option id].
    destruct (Z.eqb_spec k 0); [lia|]. rewrite !Hadj by lia. reflexivity. }
  rewrite length_map, length_seq.
  assert (0 <= slice_length a b k).
  { rewrite Hlen. destruct (Z.ltb_spec a b); [|lia].
    assert (0 <= (b - a - 1) / k) by (apply Z.div_pos; lia). lia. }
  rewrite Z2Nat.id by assumption.
  split; [apply Hcount|]. split; [apply Hcount|]. split; [|split; [|split]].
  - intros i Hi. pose proof (Hn i Hi) as Hlt. split; [|nia].
    rewrite list_lookup_fmap, lookup_seq_lt by lia. simpl. f_equal. lia.
  - rewrite Hget.
    destruct (num_mul_cases (PyInt a) (Series.step s)) as [-> | [p ->]]; [left; reflexivity|].
    cbn [bind].
    destruct (num_add_cases p (Series.start s)) as [-> | [st ->]]; [left; reflexivity|].
    cbn [bind].
    destruct (num_mul_cases (Series.step s) (PyInt k)) as [-> | [sp ->]]; [left; reflexivity|].
    cbn [bind]. right. eexists. split; [reflexivity|]. split; reflexivity.
  - intros z1 z2 Hz1 Hz2. rewrite Hget, Hz1, Hz2. cbn [num_mul num_add bind].
    eexists. split; [reflexivity|]. intros i Hi. pose proof (Hn i Hi) as Hlt.
    rewrite (Series_get_element_nonneg s (a + i * k)) by nia.
    rewrite Series_get_element_nonneg by (simpl; lia).
    rewrite (time_point_int s z1 z2) by assumption.
    unfold Series.time_point. simpl. f_equal. f_equal. lia.
  - intros f g fa fk Hf Hg Hfa Hfk. rewrite Hget, Hf, Hg. cbn [num_mul num_add bind].
    rewrite Hfa, Hfk. reflexivity.
Qed.

(** The slice [Series(0, 1, 5)[0:5:2]] has two of the three selected
    elements; the float series [Series(0.1, 0.1, 10)[1:10]] has the
    element 0.6000000000000001 where the axis has 0.6. *)
Lemma X3_Series_slice_elements_witness :
  (exists s' ps,
    Series.__getitem__ (ser 0 1 5) (ItemSlice (Slice (Some 0) (Some 5) (Some 2)))
      = Ok (Series.Sub s') /\
    slice_positions 5 (Slice (Some 0) (Some 5) (Some 2)) = Ok ps /\
    Series.size s' = 2 /\ length ps = 3%nat /\
    Series.get_element s' 1 = Series.get_element (ser 0 1 5) 2) /\
  (exists s',
    Series.__getitem__ (fser tenth tenth 10) (ItemSlice (Slice (Some 1) (Some 10) (Some 1)))
      = Ok (Series.Sub s') /\
    Series.get_element s' 4 = Ok (PyFloat 0x1.3333333333334p-1%float) /\
    Series.get_element (fser tenth tenth 10) 5 = Ok (PyFloat 0x1.3333333333333p-1%float)).
Proof.
  destruct (X3_Series_slice_elements (ser 0 1 5) 0 5 2)
    as (ps & Hps & _ & _ & _ & _ & Hint & _);
    [decide_by_compute | lia | simpl; lia | simpl; lia |].
  destruct (Hint 0 1 eq_refl eq_refl) as (s' & Hs & Hel).
  split.
  - exists s', ps. split; [exact Hs|]. split; [exact Hps|].
    vm_compute in Hs. injection Hs as <-.
    vm_compute in Hps. injection Hps as <-.
    repeat split.
  - eexists. split; [reflexivity|]. split; vm_compute; reflexivity.
Defined.

(** ** Scalar and Label *)

Lemma Scalar_init_Ok (names : list string) (meta : option (list (gmap string string)))
    (a : Scalar.t) :
  Scalar.__init__ names meta = Ok a ->
  Scalar.name a = names /\ length (Scalar.meta a) = length (Scalar.name a) /\
  Scalar.meta a = match meta with Some m => m | None => replicate (length names) ∅ end.
Proof.
  unfold Scalar.__init__. intros H.
  destruct (Nat.eqb_spec (length match meta with
                                 | Some m => m
                                 | None => replicate (length names) ∅
                                 end) (length names)) as [Hl|Hl]; simpl in H; [|discriminate].
  injection H as <-. simpl. repeat split. exact Hl.
Qed.

Lemma Scalar_init_of_lengths (names : list string) (meta : list (gmap string string)) :
  length meta = length names ->
  Scalar.__init__ names (Some meta) = Ok {| Scalar.name := names; Scalar.meta := meta |}.
Proof. intros H. unfold Scalar.__init__. rewrite H, Nat.eqb_refl. reflexivity. Qed.

Lemma Label_init_Ok (names : list string) (labels : list label_table_t)
    (meta : list (gmap string string)) (a : Label.t) :
  Label.__init__ names labels meta = Ok a ->
  a = {| Label.name := names; Label.label := labels; Label.meta := meta |} /\
  length meta = length names /\ length labels = length names.
Proof.
  unfold Label.__init__. intros H.
  destruct (Nat.eqb_spec (length meta) (length names)) as [Hm|Hm]; simpl in H; [|discriminate].
  destruct (Nat.eqb_spec (length labels) (length names)) as [Hl|Hl]; simpl in H;
    [|discriminate].
  injection H as <-. repeat split; assumption.
Qed.

Lemma Label_init_of_lengths (names : list string) (labels : list label_table_t)
    (meta : list (gmap string string)) :
  length meta = length names -> length labels = length names ->
  Label.__init__ names labels meta =
    Ok {| Label.name := names; Label.label := labels; Label.meta := meta |}.
Proof. intros Hm Hl. unfold Label.__init__. rewrite Hm, Hl, Nat.eqb_refl. reflexivity. Qed.

(** X5. A scalar axis that the constructor returned comes back from its
    mapping unchanged, and [==] finds it equal to itself. *)
Theorem X5_Scalar_roundtrip (vocab : list string) (libm_pow : float -> float -> float) (names : list string)
    (meta : option (list (gmap string string))) (a : Scalar.t) (dim : nat) :
  Scalar.__init__ names meta = Ok a ->
  from_mapping vocab libm_pow (Scalar.to_mapping a dim) = Ok (AxScalar a) /\
  Axis_eq (AxScalar a) (AxScalar a) = Ok true.
Proof.
  intros H. apply Scalar_init_Ok in H as (_ & Hlen & _).
  destruct (Scalar_roundtrip vocab libm_pow a dim Hlen) as [Hrt Heq].
  split; [exact Hrt|]. simpl. rewrite Heq. reflexivity.
Qed.

Lemma X5_Scalar_roundtrip_witness :
  from_mapping some_structures unused_pow
    (Scalar.to_mapping {| Scalar.name := ["one"; "two"]; Scalar.meta := [∅; ∅] |} 0)
  = Ok (AxScalar {| Scalar.name := ["one"; "two"]; Scalar.meta := [∅; ∅] |}) /\
  Axis_eq (AxScalar {| Scalar.name := ["one"; "two"]; Scalar.meta := [∅; ∅] |})
          (AxScalar {| Scalar.name := ["one"; "two"]; Scalar.meta := [∅; ∅] |}) = Ok true.
Proof.
  apply (X5_Scalar_roundtrip some_structures unused_pow ["one"; "two"] None). reflexivity.
Defined.

(** X6. A label axis that the constructor returned comes back from its
    mapping unchanged, label tables with their names and colours
    included, and [==] finds it equal to itself. *)
Theorem X6_Label_roundtrip (vocab : list string) (libm_pow : float -> float -> float) (names : list string)
    (labels : list label_table_t) (meta : list (gmap string string))
    (a : Label.t) (dim : nat) :
  Label.__init__ names labels meta = Ok a ->
  from_mapping vocab libm_pow (Label.to_mapping a dim) = Ok (AxLabel a) /\
  Axis_eq (AxLabel a) (AxLabel a) = Ok true.
Proof.
  intros H. apply Label_init_Ok in H as (-> & Hm & Hl).
  destruct (Label_roundtrip vocab libm_pow
              {| Label.name := names; Label.label := labels; Label.meta := meta |} dim Hm Hl)
    as [Hrt Heq].
  split; [exact Hrt|]. simpl. simpl in Heq. rewrite Heq. reflexivity.
Qed.

(** A table with the two labels [0: ("none", transparent)] and
    [1: ("some", red)]. *)
Definition two_labels : label_table_t :=
  {[ 0 := ("none", (Qc_of_Z 0, Qc_of_Z 0, Qc_of_Z 0, Qc_of_Z 0));
     1 := ("some", (Qc_of_Z 1, Qc_of_Z 0, Qc_of_Z 0, Qc_of_Z 1)) ]}.

Definition two_rows : Label.t :=
  {| Label.name := ["one"; "two"]; Label.label := [two_labels; ∅];
     Label.meta := [∅; {[ "key" := "value" ]}] |}.

Lemma X6_Label_roundtrip_witness :
  from_mapping some_structures unused_pow (Label.to_mapping two_rows 0) = Ok (AxLabel two_rows) /\
  Axis_eq (AxLabel two_rows) (AxLabel two_rows) = Ok true.
Proof.
  apply (X6_Label_roundtrip some_structures unused_pow ["one"; "two"] [two_labels; ∅]
           [∅; {[ "key" := "value" ]}]).
  reflexivity.
Defined.

(** X7. The sum of two scalar axes that the constructor returned is an
    axis with the rows of the first followed by the rows of the second:
    [+] returns, the length is the sum of the lengths, the row [i] of
    the sum is the row [i] of the first axis below its length, and the
    row [len(a) + j] is the row [j] of the second axis. *)
Theorem X7_Scalar_add (n1 n2 : list string) (m1 m2 : option (list (gmap string string)))
    (a b : Scalar.t) :
  Scalar.__init__ n1 m1 = Ok a -> Scalar.__init__ n2 m2 = Ok b ->
  exists c,
    Scalar.__add__ a b = Ok c /\
    Scalar.__len__ c = (Scalar.__len__ a + Scalar.__len__ b)%nat /\
    (forall i, (i < Scalar.__len__ a)%nat ->
       Scalar.get_element c (Z.of_nat i) = Scalar.get_element a (Z.of_nat i)) /\
    (forall j, (j < Scalar.__len__ b)%nat ->
       Scalar.get_element c (Z.of_nat (Scalar.__len__ a + j)) =
       Scalar.get_element b (Z.of_nat j)).
Proof.
  intros Ha Hb. apply Scalar_init_Ok in Ha as (_ & Hla & _), Hb as (_ & Hlb & _).
  unfold Scalar.__add__. rewrite Scalar_init_of_lengths by (rewrite !length_app; lia).
  eexists. split; [reflexivity|]. unfold Scalar.__len__, Scalar.get_element. simpl.
  split; [apply length_app|]. split.
  - intros i Hi.
    destruct (lookup_lt_is_Some_2 (Scalar.name a) i Hi) as [x Hx].
    destruct (lookup_lt_is_Some_2 (Scalar.meta a) i) as [y Hy]; [lia|].
    rewrite (getindex_lookup (Scalar.name a ++ Scalar.name b) i x)
      by (rewrite lookup_app_l by lia; exact Hx).
    rewrite (getindex_lookup (Scalar.meta a ++ Scalar.meta b) i y)
      by (rewrite lookup_app_l by lia; exact Hy).
    rewrite (getindex_lookup _ _ _ Hx), (getindex_lookup _ _ _ Hy). reflexivity.
  - intros j Hj.
    destruct (lookup_lt_is_Some_2 (Scalar.name b) j Hj) as [x Hx].
    destruct (lookup_lt_is_Some_2 (Scalar.meta b) j) as [y Hy]; [lia|].
    rewrite (getindex_lookup (Scalar.name a ++ Scalar.name b) _ x)
      by (rewrite lookup_app_r by lia;
          replace (length (Scalar.name a) + j - length (Scalar.name a))%nat with j by lia;
          exact Hx).
    rewrite (getindex_lookup (Scalar.meta a ++ Scalar.meta b) _ y)
      by (rewrite lookup_app_r by lia;
          replace (length (Scalar.name a) + j - length (Scalar.meta a))%nat with j by lia;
          exact Hy).
    rewrite (getindex_lookup _ _ _ Hx), (getindex_lookup _ _ _ Hy). reflexivity.
Qed.

Lemma X7_Scalar_add_witness :
  exists c,
    Scalar.__add__ {| Scalar.name := ["one"]; Scalar.meta := [∅] |}
                   {| Scalar.name := ["two"]; Scalar.meta := [{[ "key" := "value" ]}] |}
      = Ok c /\
    Scalar.__len__ c = 2%nat /\
    Scalar.get_element c 1 = Ok ("two", {[ "key" := "value" ]}).
Proof.
  destruct (X7_Scalar_add ["one"] ["two"] None (Some [{[ "key" := "value" ]}])
              {| Scalar.name := ["one"]; Scalar.meta := [∅] |}
              {| Scalar.name := ["two"]; Scalar.meta := [{[ "key" := "value" ]}] |}
              eq_refl eq_refl) as (c & Hc & Hlen & _ & Hright).
  exists c. split; [exact Hc|]. split; [exact Hlen|].
  apply (Hright 0%nat). unfold Scalar.__len__. simpl. lia.
Defined.

(** X8. [get_element(i)] of a label axis that the constructor returned:
    for [0 <= i < N] it is the name, the label table and the metadata
    of the row [i]; for [-N <= i < 0] it is the row [N + i]; for every
    other index it raises [IndexError]. *)
Theorem X8_Label_get_element (names : list string) (labels : list label_table_t)
    (meta : list (gmap string string)) (a : Label.t) (i : Z) :
  Label.__init__ names labels meta = Ok a ->
  let N := Z.of_nat (Label.__len__ a) in
  (0 <= i < N ->
   exists n l m, names !! Z.to_nat i = Some n /\ labels !! Z.to_nat i = Some l /\
                 meta !! Z.to_nat i = Some m /\
                 Label.get_element a i = Ok (n, l, m)) /\
  (- N <= i < 0 -> Label.get_element a i = Label.get_element a (N + i)) /\
  (i < - N \/ N <= i ->
   Label.get_element a i = Raise (IndexError "index out of bounds")).
Proof.
  intros H N. apply Label_init_Ok in H as (-> & Hm & Hl).
  unfold Label.__len__, Label.get_element in *. simpl in *. subst N.
  assert (Hin : forall j, 0 <= j < Z.of_nat (length names) ->
            exists n l m, names !! Z.to_nat j = Some n /\ labels !! Z.to_nat j = Some l /\
                          meta !! Z.to_nat j = Some m).
  { intros j Hj.
    destruct (lookup_lt_is_Some_2 names (Z.to_nat j)) as [n Hn]; [lia|].
    destruct (lookup_lt_is_Some_2 labels (Z.to_nat j)) as [l Hlb]; [lia|].
    destruct (lookup_lt_is_Some_2 meta (Z.to_nat j)) as [m Hmt]; [lia|].
    eauto 10. }
  split; [|split].
  - intros Hi. destruct (Hin i Hi) as (n & l & m & Hn & Hlb & Hmt).
    exists n, l, m. repeat split; try assumption.
    rewrite (getindex_nonneg _ _ _ (proj1 Hi) Hn), (getindex_nonneg _ _ _ (proj1 Hi) Hlb),
            (getindex_nonneg _ _ _ (proj1 Hi) Hmt). reflexivity.
  - intros Hi. destruct (Hin (Z.of_nat (length names) + i)) as (n & l & m & Hn & Hlb & Hmt);
      [lia|].
    rewrite (getindex_nonneg names (Z.of_nat (length names) + i) n) by (lia || assumption).
    rewrite (getindex_nonneg labels (Z.of_nat (length names) + i) l) by (lia || assumption).
    rewrite (getindex_nonneg meta (Z.of_nat (length names) + i) m) by (lia || assumption).
    rewrite (getindex_neg names i n), (getindex_neg labels i l), (getindex_neg meta i m);
      try lia; try reflexivity.
    + rewrite Hm, Z.add_comm. exact Hmt.
    + rewrite Hl, Z.add_comm. exact Hlb.
    + rewrite Z.add_comm. exact Hn.
  - intros Hi. rewrite (getindex_out_of_range names i) by lia. reflexivity.
Qed.

Lemma X8_Label_get_element_witness :
  Label.get_element two_rows (-1) = Label.get_element two_rows (2 + -1) /\
  Label.get_element two_rows 2 = Raise (IndexError "index out of bounds").
Proof.
  destruct (X8_Label_get_element ["one"; "two"] [two_labels; ∅] [∅; {[ "key" := "value" ]}]
              two_rows (-1) eq_refl) as (_ & Hneg & _).
  destruct (X8_Label_get_element ["one"; "two"] [two_labels; ∅] [∅; {[ "key" := "value" ]}]
              two_rows 2 eq_refl) as (_ & _ & Hout).
  split; [apply Hneg | apply Hout]; unfold Label.__len__; simpl; lia.
Defined.

(** A slice without a start begins at the first element. *)
Lemma getslice_from_start {A} (l : list A) (stop : option Z) :
  getslice l (Slice None stop None) = getslice l (Slice (Some 0) stop None).
Proof.
  unfold getslice, slice_positions. simpl.
  assert ((if Z.of_nat (length l) <=? 0 then Z.of_nat (length l) else 0) = 0) as ->;
    [|reflexivity].
  destruct (Z.leb_spec (Z.of_nat (length l)) 0); lia.
Qed.

Lemma getslice_prefix {A} (l : list A) (k : nat) :
  (k <= length l)%nat -> getslice l (Slice None (Some (Z.of_nat k)) None) = Ok (take k l).
Proof.
  intros Hk. rewrite getslice_from_start.
  change (Some 0) with (Some (Z.of_nat 0)).
  rewrite (getslice_range l 0 k) by (lia || (left; reflexivity)).
  unfold sub_range. rewrite Nat.sub_0_r. reflexivity.
Qed.

Lemma getslice_suffix {A} (l : list A) (k : nat) :
  (k <= length l)%nat -> getslice l (Slice (Some (Z.of_nat k)) None None) = Ok (drop k l).
Proof.
  intros Hk. rewrite (getslice_range l k (length l)) by (lia || (right; split; reflexivity)).
  unfold sub_range. rewrite take_ge by (rewrite length_drop; lia). reflexivity.
Qed.

(** X9. Slicing and concatenation of label axes are inverse to each
    other: for a label axis that the constructor returned and a
    position [k] within it, [a[:k]] and [a[k:]] are label axes of the
    lengths [k] and [len(a) - k], and [a[:k] + a[k:]] is [a]. *)
Theorem X9_Label_split_and_add (names : list string) (labels : list label_table_t)
    (meta : list (gmap string string)) (a : Label.t) (k : nat) :
  Label.__init__ names labels meta = Ok a -> (k <= Label.__len__ a)%nat ->
  exists a1 a2,
    Label.__getitem__ a (ItemSlice (Slice None (Some (Z.of_nat k)) None)) = Ok (Label.Sub a1) /\
    Label.__getitem__ a (ItemSlice (Slice (Some (Z.of_nat k)) None None)) = Ok (Label.Sub a2) /\
    Label.__len__ a1 = k /\ Label.__len__ a2 = (Label.__len__ a - k)%nat /\
    Label.__add__ a1 a2 = Ok a.
Proof.
  intros H Hk. apply Label_init_Ok in H as (-> & Hm & Hl).
  unfold Label.__len__ in *. cbn [Label.name] in Hk.
  unfold Label.__getitem__, Label.__add__. cbn [Label.name Label.label Label.meta].
  rewrite !getslice_prefix, !getslice_suffix by lia. cbn [bind].
  rewrite !Label_init_of_lengths by (rewrite ?length_take, ?length_drop; lia). simpl.
  eexists. eexists. split; [reflexivity|]. split; [reflexivity|]. simpl.
  rewrite length_take, length_drop, !take_drop.
  split; [lia|]. split; [lia|]. apply Label_init_of_lengths; assumption.
Qed.

Lemma X9_Label_split_and_add_witness :
  exists a1 a2,
    Label.__getitem__ two_rows (ItemSlice (Slice None (Some 1) None)) = Ok (Label.Sub a1) /\
    Label.__getitem__ two_rows (ItemSlice (Slice (Some 1) None None)) = Ok (Label.Sub a2) /\
    Label.__len__ a1 = 1%nat /\ Label.__len__ a2 = 1%nat /\
    Label.__add__ a1 a2 = Ok two_rows.
Proof.
  apply (X9_Label_split_and_add ["one"; "two"] [two_labels; ∅] [∅; {[ "key" := "value" ]}]
           two_rows 1 eq_refl).
  unfold Label.__len__. simpl. lia.
Defined.

(** X10. [to_label] of a scalar axis that the constructor returned: with
    one table it returns the label axis with the names and the metadata
    of the scalar axis and that table for every row; with a list of
    tables it returns the label axis with these tables when the list
    has one table for each row, and raises [ValueError] otherwise. *)
Theorem X10_Scalar_to_label (names : list string) (meta : option (list (gmap string string)))
    (a : Scalar.t) :
  Scalar.__init__ names meta = Ok a ->
  (forall table,
     Scalar.to_label a (inl table) =
       Ok {| Label.name := Scalar.name a;
             Label.label := replicate (Scalar.__len__ a) table;
             Label.meta := Scalar.meta a |}) /\
  (forall tables,
     Scalar.to_label a (inr tables) =
       if (length tables =? Scalar.__len__ a)%nat
       then Ok {| Label.name := Scalar.name a; Label.label := tables;
                  Label.meta := Scalar.meta a |}
       else Raise (ValueError "Input label has incorrect shape for Label axis")).
Proof.
  intros H. apply Scalar_init_Ok in H as (_ & Hlen & _).
  unfold Scalar.to_label, Scalar.__len__, Label.__init__. split.
  - intros table. rewrite Hlen, length_replicate, !Nat.eqb_refl. reflexivity.
  - intros tables. rewrite Hlen, Nat.eqb_refl. simpl.
    destruct (length tables =? length (Scalar.name a))%nat; reflexivity.
Qed.

Lemma X10_Scalar_to_label_witness :
  Scalar.to_label {| Scalar.name := ["one"; "two"]; Scalar.meta := [∅; ∅] |} (inl two_labels)
  = Ok {| Label.name := ["one"; "two"]; Label.label := [two_labels; two_labels];
          Label.meta := [∅; ∅] |} /\
  Scalar.to_label {| Scalar.name := ["one"; "two"]; Scalar.meta := [∅; ∅] |} (inr [two_labels])
  = Raise (ValueError "Input label has incorrect shape for Label axis").
Proof.
  destruct (X10_Scalar_to_label ["one"; "two"] None
              {| Scalar.name := ["one"; "two"]; Scalar.meta := [∅; ∅] |} eq_refl)
    as [Hone Hlist].
  split; [apply Hone | apply Hlist].
Defined.

(** ** The resolver of structure names, again *)

(** X11. A name that [to_cifti_brain_structure_name] returns is one of
    [CIFTI_BRAIN_STRUCTURES], and the resolver returns such a name
    unchanged: resolving twice is resolving once. *)
Theorem X11_resolver_idempotent (vocab : list string) (n : BrainModel.name_input)
    (c : string) :
  BrainModel.to_cifti_brain_structure_name vocab n = Ok c ->
  c ∈ vocab /\
  BrainModel.to_cifti_brain_structure_name vocab (BrainModel.Str c) = Ok c.
Proof.
  intros H. apply canonical_valid in H. split; [exact H|].
  apply canonical_of_valid, H.
Qed.

Lemma X11_resolver_idempotent_witness :
  "CIFTI_STRUCTURE_CORTEX_LEFT" ∈ some_structures /\
  BrainModel.to_cifti_brain_structure_name some_structures
    (BrainModel.Str "CIFTI_STRUCTURE_CORTEX_LEFT") = Ok "CIFTI_STRUCTURE_CORTEX_LEFT".
Proof.
  apply (X11_resolver_idempotent some_structures (BrainModel.Str "CortexLeft")).
  vm_compute. reflexivity.
Defined.

(** X12. For a tuple of a structure and an orientation the order of
    the two does not matter, as long as the structure itself is not one
    of the words left, right and both (in any case); a tuple of the
    structure alone stands for the orientation both. The result is the
    proposed name [CIFTI_STRUCTURE_<STRUCTURE>[_<ORIENTATION>]] when it
    is a valid name, and [ValueError] otherwise. *)
Theorem X12_resolver_tuple (vocab : list string) (structure orientation : string) :
  str_lower orientation ∈ BrainModel.orient_names ->
  str_lower structure ∉ BrainModel.orient_names ->
  let expected :=
    if bool_decide (BrainModel.proposed_name orientation structure ∈ vocab)
    then Ok (BrainModel.proposed_name orientation structure)
    else Raise BrainModel.invalid_structure in
  BrainModel.to_cifti_brain_structure_name vocab (BrainModel.Tup [structure; orientation])
    = expected /\
  BrainModel.to_cifti_brain_structure_name vocab (BrainModel.Tup [orientation; structure])
    = expected /\
  BrainModel.to_cifti_brain_structure_name vocab (BrainModel.Tup [structure]) =
  BrainModel.to_cifti_brain_structure_name vocab (BrainModel.Tup [structure; "both"]).
Proof.
  intros Ho Hs expected. unfold BrainModel.to_cifti_brain_structure_name.
  rewrite (bool_decide_eq_false_2 _ Hs), (bool_decide_eq_true_2 _ Ho).
  repeat split.
Qed.

Lemma X12_resolver_tuple_witness :
  BrainModel.to_cifti_brain_structure_name some_structures (BrainModel.Tup ["cortex"; "Left"])
    = Ok "CIFTI_STRUCTURE_CORTEX_LEFT" /\
  BrainModel.to_cifti_brain_structure_name some_structures (BrainModel.Tup ["Left"; "cortex"])
    = Ok "CIFTI_STRUCTURE_CORTEX_LEFT".
Proof.
  destruct (X12_resolver_tuple some_structures "cortex" "Left") as (H1 & H2 & _);
    [decide_by_compute | decide_by_compute |].
  split; [exact H1 | exact H2].
Defined.

(** ** BrainModel: the constructor and the factory methods *)

(** X13. What every BrainModel axis that the constructor returned
    satisfies: it has at least one element; all its names are valid
    CIFTI names; [voxel] and [vertex] have one entry for each name;
    [nvertices] keeps the given counts of the structures that occur among
    the names and no others; every surface element has a vertex index
    that is not negative, and every volumetric element has voxel
    indices that are not negative. *)
Theorem X13_BrainModel_init_invariants (vocab : list string) n vx vt af sh nv a :
  BrainModel.__init__ vocab n vx vt af sh nv = Ok a ->
  BrainModel.name a <> [] /\
  Forall (fun c => c ∈ vocab) (BrainModel.name a) /\
  length (BrainModel.voxel a) = length (BrainModel.name a) /\
  length (BrainModel.vertex a) = length (BrainModel.name a) /\
  (forall k, BrainModel.nvertices a !! k =
             if bool_decide (k ∈ BrainModel.name a) then default ∅ nv !! k else None) /\
  (forall i c v, BrainModel.name a !! i = Some c ->
     is_Some (BrainModel.nvertices a !! c) ->
     BrainModel.vertex a !! i = Some v -> 0 <= v) /\
  (forall i c v, BrainModel.name a !! i = Some c ->
     BrainModel.nvertices a !! c = None ->
     BrainModel.voxel a !! i = Some v -> BrainModel.negative_voxel v = false).
Proof.
  intros H. pose proof (proj1 (init_Ok _ _ _ _ _ _ _ _ H)) as Hwf.
  split; [apply (wf_nonempty _ _ Hwf)|]. split; [apply (wf_names _ _ Hwf)|].
  split; [apply (wf_voxel _ _ Hwf)|]. split; [apply (wf_vertex _ _ Hwf)|].
  split; [|split; [apply (wf_surface _ _ Hwf) | apply (wf_volume _ _ Hwf)]].
  assert (Hnv : BrainModel.nvertices a =
                filter (fun kv : string * Z => kv.1 ∈ BrainModel.name a) (default ∅ nv)).
  { clear Hwf. unfold BrainModel.__init__ in H.
    repeat (inv_bind H; try match goal with x : _ * _ |- _ => destruct x end).
    destruct (existsb _ _); [discriminate|].
    inv_bind H. destruct (existsb _ _); [discriminate|].
    destruct (negb _); [discriminate|]. destruct (negb _); [discriminate|].
    injection H as <-. reflexivity. }
  intros k. rewrite Hnv. case_bool_decide as Hk.
  - destruct (default ∅ nv !! k) as [v|] eqn:E.
    + apply map_lookup_filter_Some. split; assumption.
    + apply map_lookup_filter_None. left. assumption.
  - apply map_lookup_filter_None. right. intros v _ Hin. contradiction.
Qed.

Lemma X13_BrainModel_init_invariants_witness :
  BrainModel.name cortex_and_thalamus <> [] /\
  Forall (fun c => c ∈ some_structures) (BrainModel.name cortex_and_thalamus).
Proof.
  destruct (X13_BrainModel_init_invariants some_structures
              (BrainModel.NameArr ["cortex_left"; "CortexLeft"; "thalamus_left"; "ThalamusLeft"])
              (Some [(-1, -1, -1); (-1, -1, -1); (0, 0, 1); (1, 0, 1)])
              (Some [3; 4; -1; -1]) (Some identity4) (Some [2; 2; 2])
              (Some {[ "CIFTI_STRUCTURE_CORTEX_LEFT" := 10 ]}) cortex_and_thalamus)
    as (H1 & H2 & _); [vm_compute; reflexivity|].
  split; [exact H1 | exact H2].
Defined.

Lemma getmask_all {A} (l : list A) : getmask l (replicate (length l) true) = Ok l.
Proof. induction l as [|x l IH]; simpl; [reflexivity|]. rewrite IH. reflexivity. Qed.

Lemma getmask_none {A} (l : list A) : getmask l (replicate (length l) false) = Ok [].
Proof. induction l as [|x l IH]; simpl; [reflexivity|]. rewrite IH. reflexivity. Qed.

Lemma map_replicate {A B} (f : A -> B) (n : nat) (x : A) :
  map f (replicate n x) = replicate n (f x).
Proof. induction n as [|n IH]; simpl; [reflexivity|]. rewrite IH. reflexivity. Qed.

Lemma forallb_replicate {A} (f : A -> bool) (n : nat) (x : A) :
  forallb f (replicate (S n) x) = f x.
Proof.
  induction n as [|n IH]; simpl in *; [apply andb_true_r|].
  rewrite IH. apply andb_diag.
Qed.

Lemma Forall_replicate_2 {A} (P : A -> Prop) (n : nat) (x : A) :
  P x -> Forall P (replicate n x).
Proof. intros H. induction n; simpl; constructor; assumption. Qed.

Definition vectorize_error : exn :=
  ValueError "cannot call `vectorize` on size 0 inputs unless `otypes` is set".

Section Factories.

Variable CIFTI_BRAIN_STRUCTURES : list string.

(** The axis of the vertices [vs] of the surface [c] with [n] vertices. *)
Definition surface_axis (c : string) (vs : list Z) (n : Z) : BrainModel.t :=
  {| BrainModel.name := replicate (length vs) c;
     BrainModel.voxel := replicate (length vs) (-1, -1, -1);
     BrainModel.vertex := vs;
     BrainModel.affine := None;
     BrainModel.volume_shape := None;
     BrainModel.nvertices := {[ c := n ]} |}.

(** The axis of the voxels [vx] of the structure [c] in a volume. *)
Definition volume_axis (c : string) (vx : list (Z * Z * Z)) (m : matrix_t)
    (shape : list Z) : BrainModel.t :=
  {| BrainModel.name := replicate (length vx) c;
     BrainModel.voxel := vx;
     BrainModel.vertex := replicate (length vx) (-1);
     BrainModel.affine := Some m;
     BrainModel.volume_shape := Some shape;
     BrainModel.nvertices := ∅ |}.

Lemma init_surface (c : string) (vs : list Z) (n : Z) af sh :
  c ∈ CIFTI_BRAIN_STRUCTURES ->
  BrainModel.__init__ CIFTI_BRAIN_STRUCTURES (BrainModel.NameStr c) None (Some vs)
    af sh (Some {[ c := n ]}) =
  match vs with
  | [] => Raise vectorize_error
  | _ => if existsb (fun v => v <? 0) vs
         then Raise (ValueError "Undefined vertex indices found for surface elements")
         else Ok (surface_axis c vs n)
  end.
Proof.
  intros Hc. unfold BrainModel.__init__. cbv beta iota zeta.
  rewrite (canonical_of_valid _ _ Hc). simpl.
  rewrite set_name_of_valid by (apply Forall_replicate_2, Hc). simpl.
  destruct vs as [|v vs]; [reflexivity|].
  change (length (v :: vs)) with (length (v :: vs)).
  remember (v :: vs) as l eqn:El.
  assert (Hl : length l = S (length vs)) by (subst l; reflexivity).
  clear El.
  rewrite map_filter_singleton_True by (cbn [fst]; rewrite Hl; left).
  rewrite surface_mask_nonempty by (rewrite Hl; discriminate). simpl.
  rewrite map_replicate, lookup_singleton_eq.
  rewrite bool_decide_eq_true_2 by eauto.
  rewrite Hl at 1. rewrite forallb_replicate. simpl.
  rewrite getmask_all. simpl.
  destruct (existsb (fun v0 => v0 <? 0) l); [reflexivity|].
  rewrite map_replicate. simpl.
  rewrite <- (length_replicate (length l) (-1, -1, -1)) at 2.
  rewrite getmask_none. simpl. rewrite !length_replicate, Nat.eqb_refl. reflexivity.
Qed.

Lemma init_volume (c : string) (vx : list (Z * Z * Z)) (m : matrix_t) (shape : list Z) :
  c ∈ CIFTI_BRAIN_STRUCTURES -> shape_4x4 m = true -> length shape = 3%nat ->
  BrainModel.__init__ CIFTI_BRAIN_STRUCTURES (BrainModel.NameStr c) (Some vx) None
    (Some m) (Some shape) None =
  match vx with
  | [] => Raise vectorize_error
  | _ => if existsb BrainModel.negative_voxel vx
         then Raise (ValueError "Undefined voxel indices found for volumetric elements")
         else Ok (volume_axis c vx m shape)
  end.
Proof.
  intros Hc Hm Hs. unfold BrainModel.__init__. cbv beta iota zeta.
  rewrite (canonical_of_valid _ _ Hc). simpl. rewrite length_replicate.
  rewrite set_name_of_valid by (apply Forall_replicate_2, Hc). simpl.
  destruct vx as [|v vx]; [reflexivity|].
  remember (v :: vx) as l eqn:El.
  assert (Hl : length l = S (length vx)) by (subst l; reflexivity).
  clear El.
  rewrite map_filter_empty.
  rewrite surface_mask_nonempty by (rewrite Hl; discriminate). simpl.
  rewrite map_replicate, lookup_empty.
  rewrite bool_decide_eq_false_2 by (intros [? ?]; discriminate).
  rewrite Hl at 1. rewrite forallb_replicate. simpl.
  rewrite Hm, Hs. simpl.
  rewrite <- (length_replicate (length l) (-1)) at 2. rewrite getmask_none. simpl.
  rewrite map_replicate. simpl. rewrite getmask_all. simpl.
  destruct (existsb BrainModel.negative_voxel l); [reflexivity|].
  rewrite !length_replicate, Nat.eqb_refl. reflexivity.
Qed.

Lemma from_surface_resolved (vertices : list Z) (nvertex : Z) (name c : string) :
  BrainModel.to_cifti_brain_structure_name CIFTI_BRAIN_STRUCTURES (BrainModel.Str name) = Ok c ->
  BrainModel.from_surface CIFTI_BRAIN_STRUCTURES vertices nvertex name =
  match vertices with
  | [] => Raise vectorize_error
  | _ => if existsb (fun v => v <? 0) vertices
         then Raise (ValueError "Undefined vertex indices found for surface elements")
         else Ok (surface_axis c vertices nvertex)
  end.
Proof.
  intros Hc. unfold BrainModel.from_surface. rewrite Hc. simpl.
  apply init_surface. eapply canonical_valid, Hc.
Qed.

Lemma elem_of_nonzero_from (m : list Z) (s : nat) (v : Z) :
  v ∈ omap (fun '(i, x) => if x =? 0 then None else Some (Z.of_nat i))
           (zip (seq s (length m)) m) <->
  exists i x, v = Z.of_nat (s + i) /\ m !! i = Some x /\ x <> 0.
Proof.
  revert s. induction m as [|y m IH]; intros s; simpl.
  - split; [intros H; inversion H | intros (i & x & _ & H & _); destruct i; discriminate].
  - assert (Hrest : (exists i x, v = Z.of_nat (S s + i) /\ m !! i = Some x /\ x <> 0) <->
                    (exists i x, v = Z.of_nat (s + S i) /\ m !! i = Some x /\ x <> 0)).
    { split; intros (i & x & -> & Hi & Hx); exists i, x; repeat split;
        try assumption; f_equal; lia. }
    destruct (Z.eqb_spec y 0) as [Hy|Hy].
    + rewrite IH, Hrest. split.
      * intros (i & x & -> & Hi & Hx). exists (S i), x. repeat split; assumption.
      * intros (i & x & -> & Hi & Hx). destruct i as [|i]; simpl in Hi; [congruence|].
        exists i, x. repeat split; assumption.
    + rewrite elem_of_cons, IH, Hrest. split.
      * intros [->|(i & x & -> & Hi & Hx)].
        -- exists 0%nat, y. repeat split; [f_equal; lia | assumption].
        -- exists (S i), x. repeat split; assumption.
      * intros (i & x & -> & Hi & Hx). destruct i as [|i]; simpl in Hi.
        -- left. f_equal. lia.
        -- right. exists i, x. repeat split; assumption.
Qed.

(** The vertices of a one-dimensional mask: the positions of the
    entries that are not zero. *)
Lemma elem_of_nonzero1 (m : list Z) (v : Z) :
  v ∈ nonzero1 m <-> exists i x, v = Z.of_nat i /\ m !! i = Some x /\ x <> 0.
Proof. unfold nonzero1. rewrite elem_of_nonzero_from. reflexivity. Qed.

(** The voxels of a three-dimensional mask: the indices, within the
    shape, of the entries that are not zero. *)
Lemma elem_of_nonzero3 (nx ny nz : nat) (m : nat -> nat -> nat -> Z) (v : Z * Z * Z) :
  v ∈ nonzero3 nx ny nz m <->
  exists i j k, v = (Z.of_nat i, Z.of_nat j, Z.of_nat k) /\
                (i < nx)%nat /\ (j < ny)%nat /\ (k < nz)%nat /\ m i j k <> 0.
Proof.
  unfold nonzero3. rewrite list_elem_of_In, in_flat_map. split.
  - intros (i & Hi & H). apply in_flat_map in H as (j & Hj & H).
    apply in_flat_map in H as (k & Hk & H).
    apply in_seq in Hi, Hj, Hk.
    destruct (Z.eqb_spec (m i j k) 0) as [|Hne]; [destruct H|].
    destruct H as [<-|[]]. exists i, j, k. repeat split; lia || assumption.
  - intros (i & j & k & -> & Hi & Hj & Hk & Hne).
    exists i. split; [apply in_seq; lia|]. apply in_flat_map.
    exists j. split; [apply in_seq; lia|]. apply in_flat_map.
    exists k. split; [apply in_seq; lia|].
    destruct (Z.eqb_spec (m i j k) 0); [contradiction|]. left. reflexivity.
Qed.

Lemma nonzero1_not_negative (m : list Z) : existsb (fun v => v <? 0) (nonzero1 m) = false.
Proof.
  apply existsb_false_intro. intros v Hv.
  apply elem_of_nonzero1 in Hv as (i & x & -> & _). apply Z.ltb_ge. lia.
Qed.

Lemma nonzero3_not_negative (nx ny nz : nat) (m : nat -> nat -> nat -> Z) :
  existsb BrainModel.negative_voxel (nonzero3 nx ny nz m) = false.
Proof.
  apply existsb_false_intro. intros v Hv.
  apply elem_of_nonzero3 in Hv as (i & j & k & -> & _). simpl.
  destruct (Z.ltb_spec (Z.of_nat i) 0); [lia|].
  destruct (Z.ltb_spec (Z.of_nat j) 0); [lia|].
  destruct (Z.ltb_spec (Z.of_nat k) 0); [lia|]. reflexivity.
Qed.

End Factories.

(** X14. [from_surface] for a name that the resolver accepts: without
    vertices it raises [ValueError]; with a negative vertex index it
    raises [ValueError]; otherwise it returns the axis of surface
    elements with the resolved name for every element, the given vertex
    indices, the voxel indices (-1, -1, -1), the vertex count of the
    one structure, and neither affine nor volume shape. For a name that
    the resolver rejects it raises the exception of the resolver. *)
Theorem X14_BrainModel_from_surface (vocab : list string) (vertices : list Z)
    (nvertex : Z) (name : string) :
  (forall c, BrainModel.to_cifti_brain_structure_name vocab (BrainModel.Str name) = Ok c ->
     BrainModel.from_surface vocab vertices nvertex name =
     match vertices with
     | [] => Raise vectorize_error
     | _ => if existsb (fun v => v <? 0) vertices
            then Raise (ValueError "Undefined vertex indices found for surface elements")
            else Ok {| BrainModel.name := replicate (length vertices) c;
                       BrainModel.voxel := replicate (length vertices) (-1, -1, -1);
                       BrainModel.vertex := vertices;
                       BrainModel.affine := None;
                       BrainModel.volume_shape := None;
                       BrainModel.nvertices := {[ c := nvertex ]} |}
     end) /\
  (forall e, BrainModel.to_cifti_brain_structure_name vocab (BrainModel.Str name) = Raise e ->
     BrainModel.from_surface vocab vertices nvertex name = Raise e).
Proof.
  split.
  - intros c Hc. apply from_surface_resolved, Hc.
  - intros e He. unfold BrainModel.from_surface. rewrite He. reflexivity.
Qed.

Lemma X14_BrainModel_from_surface_witness :
  BrainModel.from_surface some_structures [3; 4] 10 "CortexLeft" =
    Ok {| BrainModel.name := replicate 2 "CIFTI_STRUCTURE_CORTEX_LEFT";
          BrainModel.voxel := replicate 2 (-1, -1, -1);
          BrainModel.vertex := [3; 4];
          BrainModel.affine := None;
          BrainModel.volume_shape := None;
          BrainModel.nvertices := {[ "CIFTI_STRUCTURE_CORTEX_LEFT" := 10 ]} |} /\
  BrainModel.from_surface some_structures [3; -4] 10 "CortexLeft" =
    Raise (ValueError "Undefined vertex indices found for surface elements").
Proof.
  split.
  - apply (proj1 (X14_BrainModel_from_surface some_structures [3; 4] 10 "CortexLeft")
                 "CIFTI_STRUCTURE_CORTEX_LEFT").
    vm_compute. reflexivity.
  - apply (proj1 (X14_BrainModel_from_surface some_structures [3; -4] 10 "CortexLeft")
                 "CIFTI_STRUCTURE_CORTEX_LEFT").
    vm_compute. reflexivity.
Defined.

(** X15. [from_mask] for a three-dimensional mask, a name that the
    resolver accepts and an affine that is absent or a 4x4 array: the
    voxels of the axis are the indices, within the shape of the mask, of
    the entries that are not zero; the axis has the resolved name and
    the vertex index -1 for every element, no vertex counts, the shape
    of the mask as its volume shape and the given affine, the identity
    when none was given. A mask without an entry that is not zero has no
    axis: [ValueError] is raised. *)
Theorem X15_BrainModel_from_mask_volume (vocab : list string) (nx ny nz : nat)
    (m : nat -> nat -> nat -> Z) (name c : string) (affine : option matrix_t) :
  BrainModel.to_cifti_brain_structure_name vocab (BrainModel.Str name) = Ok c ->
  (forall a, affine = Some a -> shape_4x4 a = true) ->
  let voxels := nonzero3 nx ny nz m in
  (forall v, v ∈ voxels <->
     exists i j k, v = (Z.of_nat i, Z.of_nat j, Z.of_nat k) /\
                   (i < nx)%nat /\ (j < ny)%nat /\ (k < nz)%nat /\ m i j k <> 0) /\
  BrainModel.from_mask vocab (Mask3 nx ny nz m) name affine =
    match voxels with
    | [] => Raise vectorize_error
    | _ => Ok {| BrainModel.name := replicate (length voxels) c;
                 BrainModel.voxel := voxels;
                 BrainModel.vertex := replicate (length voxels) (-1);
                 BrainModel.affine := Some (default (eye 4) affine);
                 BrainModel.volume_shape := Some [Z.of_nat nx; Z.of_nat ny; Z.of_nat nz];
                 BrainModel.nvertices := ∅ |}
    end.
Proof.
  intros Hc Haff voxels. split; [apply elem_of_nonzero3|].
  unfold BrainModel.from_mask.
  assert (Hshape : shape_4x4 (default (eye 4) affine) = true).
  { destruct affine as [a|]; [apply Haff; reflexivity | reflexivity]. }
  assert (Hsame : match affine with Some a => a | None => eye 4 end = default (eye 4) affine).
  { destruct affine; reflexivity. }
  rewrite Hsame, Hshape. cbn [negb].
  assert (Hinit : forall vx,
    BrainModel.__init__ vocab (BrainModel.NameStr name) (Some vx) None
      (Some (default (eye 4) affine)) (Some [Z.of_nat nx; Z.of_nat ny; Z.of_nat nz]) None =
    BrainModel.__init__ vocab (BrainModel.NameStr c) (Some vx) None
      (Some (default (eye 4) affine)) (Some [Z.of_nat nx; Z.of_nat ny; Z.of_nat nz]) None).
  { intros vx. unfold BrainModel.__init__. cbv beta iota zeta.
    rewrite Hc, (canonical_of_valid _ _ (canonical_valid _ _ _ Hc)). reflexivity. }
  rewrite Hinit, (init_volume vocab c) by (eauto using canonical_valid).
  fold voxels. rewrite (nonzero3_not_negative nx ny nz m : existsb _ voxels = false).
  reflexivity.
Qed.

(** The mask of the shape (2, 2, 2) whose entries [0, 0, 1] and
    [1, 0, 1] are one. *)
Definition two_voxels_mask : mask_t :=
  Mask3 2 2 2 (fun i j k => if ((j =? 0) && (k =? 1))%nat then 1 else 0).

Lemma X15_BrainModel_from_mask_volume_witness :
  BrainModel.from_mask some_structures two_voxels_mask "thalamus_left" None =
    Ok {| BrainModel.name := replicate 2 "CIFTI_STRUCTURE_THALAMUS_LEFT";
          BrainModel.voxel := [(0, 0, 1); (1, 0, 1)];
          BrainModel.vertex := replicate 2 (-1);
          BrainModel.affine := Some (eye 4);
          BrainModel.volume_shape := Some [2; 2; 2];
          BrainModel.nvertices := ∅ |}.
Proof.
  apply (proj2 (X15_BrainModel_from_mask_volume some_structures 2 2 2
                  (fun i j k => if ((j =? 0) && (k =? 1))%nat then 1 else 0)
                  "thalamus_left" "CIFTI_STRUCTURE_THALAMUS_LEFT" None
                  ltac:(vm_compute; reflexivity) ltac:(discriminate))).
Defined.

(** X16. [from_mask] for a one-dimensional mask, a name that the
    resolver accepts and an affine that is absent or a 4x4 array: the
    axis is the one of [from_surface] for the positions of the entries
    that are not zero, in ascending order, on a surface with as many
    vertices as the mask has entries; a mask of zeros has no axis. An
    affine of another shape is refused with [ValueError], although a
    surface has no affine; so is a mask that has neither one nor three
    dimensions. *)
Theorem X16_BrainModel_from_mask_surface (vocab : list string) (m : list Z)
    (name c : string) (affine : option matrix_t) :
  BrainModel.to_cifti_brain_structure_name vocab (BrainModel.Str name) = Ok c ->
  let vertices := nonzero1 m in
  (forall v, v ∈ vertices <-> exists i x, v = Z.of_nat i /\ m !! i = Some x /\ x <> 0) /\
  ((forall a, affine = Some a -> shape_4x4 a = true) ->
   BrainModel.from_mask vocab (Mask1 m) name affine =
     BrainModel.from_surface vocab vertices (Z.of_nat (length m)) name /\
   BrainModel.from_mask vocab (Mask1 m) name affine =
     match vertices with
     | [] => Raise vectorize_error
     | _ => Ok {| BrainModel.name := replicate (length vertices) c;
                  BrainModel.voxel := replicate (length vertices) (-1, -1, -1);
                  BrainModel.vertex := vertices;
                  BrainModel.affine := None;
                  BrainModel.volume_shape := None;
                  BrainModel.nvertices := {[ c := Z.of_nat (length m) ]} |}
     end /\
   forall ndim, ndim <> 1%nat -> ndim <> 3%nat -> exists msg,
     BrainModel.from_mask vocab (MaskN ndim) name affine = Raise (ValueError msg)) /\
  (forall a mask, affine = Some a -> shape_4x4 a = false ->
     BrainModel.from_mask vocab mask name affine =
       Raise (ValueError "Affine transformation should be a 4x4 array or None, not %r")).
Proof.
  intros Hc vertices. split; [apply elem_of_nonzero1|]. split.
  - intros Haff.
    assert (Hshape : shape_4x4 match affine with Some a => a | None => eye 4 end = true).
    { destruct affine as [a|]; [apply Haff; reflexivity | reflexivity]. }
    unfold BrainModel.from_mask. rewrite Hshape. cbn [negb].
    split; [reflexivity|]. split; [|intros ndim _ _; eauto].
    rewrite (from_surface_resolved vocab _ _ _ _ Hc). fold vertices.
    rewrite (nonzero1_not_negative m : existsb _ vertices = false). reflexivity.
  - intros a mask -> Ha. unfold BrainModel.from_mask. rewrite Ha. reflexivity.
Qed.

Lemma X16_BrainModel_from_mask_surface_witness :
  BrainModel.from_mask some_structures (Mask1 [0; 1; 0; 2]) "CortexLeft" None =
    Ok {| BrainModel.name := replicate 2 "CIFTI_STRUCTURE_CORTEX_LEFT";
          BrainModel.voxel := replicate 2 (-1, -1, -1);
          BrainModel.vertex := [1; 3];
          BrainModel.affine := None;
          BrainModel.volume_shape := None;
          BrainModel.nvertices := {[ "CIFTI_STRUCTURE_CORTEX_LEFT" := 4 ]} |}.
Proof.
  destruct (X16_BrainModel_from_mask_surface some_structures [0; 1; 0; 2] "CortexLeft"
              "CIFTI_STRUCTURE_CORTEX_LEFT" None ltac:(vm_compute; reflexivity))
    as (_ & H & _).
  destruct (H ltac:(discriminate)) as (_ & Hok & _). exact Hok.
Defined.

(** ** BrainModel: elements, slices and sums *)

(** X17. [get_element(i)] of a BrainModel axis that the constructor
    returned: for [0 <= i < N] it is the triple of the surface flag, the
    index and the name of the element [i], where the index of a surface
    element is its vertex, which is not negative, and the index of a
    volumetric element is its voxel, whose three indices are not
    negative; for [-N <= i < 0] it is the element [N + i]; for every
    other index it raises [IndexError]. *)
Theorem X17_BrainModel_get_element (vocab : list string) (a : BrainModel.t) (i : Z) :
  constructed vocab a ->
  let N := Z.of_nat (length (BrainModel.name a)) in
  (0 <= i < N ->
   exists n, BrainModel.name a !! Z.to_nat i = Some n /\
     match BrainModel.nvertices a !! n with
     | Some _ =>
         exists v, BrainModel.vertex a !! Z.to_nat i = Some v /\ 0 <= v /\
           BrainModel.get_element a i =
             Ok {| BrainModel.elt_is_surface := true; BrainModel.elt_index := inl v;
                   BrainModel.elt_name := n |}
     | None =>
         exists v, BrainModel.voxel a !! Z.to_nat i = Some v /\
           BrainModel.negative_voxel v = false /\
           BrainModel.get_element a i =
             Ok {| BrainModel.elt_is_surface := false; BrainModel.elt_index := inr v;
                   BrainModel.elt_name := n |}
     end) /\
  (- N <= i < 0 -> BrainModel.get_element a i = BrainModel.get_element a (N + i)) /\
  (i < - N \/ N <= i ->
   BrainModel.get_element a i = Raise (IndexError "index out of bounds")).
Proof.
  intros Ha N. apply constructed_wf in Ha.
  pose proof (wf_voxel _ _ Ha) as Hlx. pose proof (wf_vertex _ _ Ha) as Hlt.
  assert (Hin : forall j, 0 <= j < N ->
            exists n vx vt, BrainModel.name a !! Z.to_nat j = Some n /\
                            BrainModel.voxel a !! Z.to_nat j = Some vx /\
                            BrainModel.vertex a !! Z.to_nat j = Some vt).
  { intros j Hj. subst N.
    destruct (lookup_lt_is_Some_2 (BrainModel.name a) (Z.to_nat j)) as [n Hn]; [lia|].
    destruct (lookup_lt_is_Some_2 (BrainModel.voxel a) (Z.to_nat j)) as [vx Hvx]; [lia|].
    destruct (lookup_lt_is_Some_2 (BrainModel.vertex a) (Z.to_nat j)) as [vt Hvt]; [lia|].
    eauto 10. }
  assert (Hget : forall j n vx vt, 0 <= j ->
            BrainModel.name a !! Z.to_nat j = Some n ->
            BrainModel.voxel a !! Z.to_nat j = Some vx ->
            BrainModel.vertex a !! Z.to_nat j = Some vt ->
            BrainModel.get_element a j =
              Ok {| BrainModel.elt_is_surface :=
                      bool_decide (is_Some (BrainModel.nvertices a !! n));
                    BrainModel.elt_index :=
                      if bool_decide (is_Some (BrainModel.nvertices a !! n))
                      then inl vt else inr vx;
                    BrainModel.elt_name := n |}).
  { intros j n vx vt Hj Hn Hvx Hvt. unfold BrainModel.get_element.
    rewrite (getindex_nonneg _ _ _ Hj Hn). cbn [bind].
    rewrite (getindex_nonneg _ _ _ Hj Hvx), (getindex_nonneg _ _ _ Hj Hvt).
    destruct (bool_decide _); reflexivity. }
  split; [|split].
  - intros Hi. destruct (Hin i Hi) as (n & vx & vt & Hn & Hvx & Hvt).
    exists n. split; [exact Hn|]. rewrite (Hget i n vx vt) by (lia || assumption).
    destruct (BrainModel.nvertices a !! n) as [c|] eqn:Hc.
    + exists vt. split; [exact Hvt|]. split.
      * eapply (wf_surface _ _ Ha); [exact Hn | rewrite Hc; eauto | exact Hvt].
      * rewrite bool_decide_eq_true_2 by eauto. reflexivity.
    + exists vx. split; [exact Hvx|]. split.
      * eapply (wf_volume _ _ Ha); eassumption.
      * rewrite bool_decide_eq_false_2 by (intros [? ?]; discriminate). reflexivity.
  - intros Hi. destruct (Hin (N + i)) as (n & vx & vt & Hn & Hvx & Hvt); [lia|].
    rewrite (Hget (N + i) n vx vt) by (lia || assumption).
    unfold BrainModel.get_element. subst N.
    rewrite (getindex_neg (BrainModel.name a) i n) by (lia || rewrite Z.add_comm; exact Hn).
    cbn [bind].
    rewrite (getindex_neg (BrainModel.voxel a) i vx)
      by (lia || rewrite Hlx, Z.add_comm; exact Hvx).
    rewrite (getindex_neg (BrainModel.vertex a) i vt)
      by (lia || rewrite Hlt, Z.add_comm; exact Hvt).
    destruct (bool_decide _); reflexivity.
  - intros Hi. unfold BrainModel.get_element.
    rewrite (getindex_out_of_range (BrainModel.name a) i) by (subst N; lia). reflexivity.
Qed.

Lemma X17_BrainModel_get_element_witness :
  BrainModel.get_element cortex_and_thalamus (-1) =
  BrainModel.get_element cortex_and_thalamus (4 + -1) /\
  BrainModel.get_element cortex_and_thalamus 4 = Raise (IndexError "index out of bounds").
Proof.
  destruct (X17_BrainModel_get_element some_structures cortex_and_thalamus (-1)
              cortex_and_thalamus_constructed) as (_ & Hneg & _).
  destruct (X17_BrainModel_get_element some_structures cortex_and_thalamus 4
              cortex_and_thalamus_constructed) as (_ & _ & Hout).
  split; [apply Hneg | apply Hout]; simpl; lia.
Defined.

Lemma lookup_sub_range {A} (l : list A) (i j k : nat) :
  (i <= j <= length l)%nat -> (k < j - i)%nat -> sub_range l i j !! k = l !! (i + k)%nat.
Proof.
  intros Hij Hk. unfold sub_range. rewrite lookup_take_lt by lia. apply lookup_drop.
Qed.

Lemma elem_of_sub_range {A} (l : list A) (i j : nat) (x : A) :
  x ∈ sub_range l i j -> x ∈ l.
Proof.
  intros H. apply list_elem_of_lookup in H as [k Hk]. apply sub_range_lookup in Hk.
  apply list_elem_of_lookup. eauto.
Qed.

Lemma built_nvertices_lookup (names : list string) vx vt aff shp (nv : gmap string Z)
    (k : string) :
  BrainModel.nvertices (built names vx vt aff shp nv) !! k =
  if bool_decide (k ∈ names) then nv !! k else None.
Proof.
  simpl. case_bool_decide as Hk.
  - destruct (nv !! k) as [v|] eqn:E.
    + apply map_lookup_filter_Some. split; assumption.
    + apply map_lookup_filter_None. left. assumption.
  - apply map_lookup_filter_None. right. intros v _ Hin. contradiction.
Qed.

(** X18. A slice [a[i:j]] of a BrainModel axis that the constructor
    returned, for [i < j <= len(a)]: it is the axis of the elements
    [i], ..., [j - 1], so that its element [k] is the element [i + k]
    of [a]; it keeps the vertex counts of the structures that occur in
    the range and drops the others; it keeps the affine and the volume
    shape when the range has a volumetric element and has neither
    otherwise. The slice of an empty range, [a[i:i]], is no axis:
    [ValueError] is raised. *)
Theorem X18_BrainModel_slice (vocab : list string) (a : BrainModel.t) (i j : nat) :
  constructed vocab a -> (i <= j <= length (BrainModel.name a))%nat ->
  let item := ItemSlice (Slice (Some (Z.of_nat i)) (Some (Z.of_nat j)) None) in
  (i = j -> BrainModel.__getitem__ vocab a item = Raise vectorize_error) /\
  (i < j ->
   exists b,
     BrainModel.__getitem__ vocab a item = Ok (BrainModel.Sub b) /\
     constructed vocab b /\
     BrainModel.name b = sub_range (BrainModel.name a) i j /\
     BrainModel.voxel b = sub_range (BrainModel.voxel a) i j /\
     BrainModel.vertex b = sub_range (BrainModel.vertex a) i j /\
     length (BrainModel.name b) = (j - i)%nat /\
     (forall k, BrainModel.nvertices b !! k =
                if bool_decide (k ∈ BrainModel.name b) then BrainModel.nvertices a !! k
                else None) /\
     (forall k, (k < j - i)%nat ->
        BrainModel.get_element b (Z.of_nat k) = BrainModel.get_element a (Z.of_nat (i + k))) /\
     ((exists n, n ∈ BrainModel.name b /\ BrainModel.nvertices a !! n = None) ->
      BrainModel.affine b = BrainModel.affine a /\
      BrainModel.volume_shape b = BrainModel.volume_shape a) /\
     ((forall n, n ∈ BrainModel.name b -> is_Some (BrainModel.nvertices a !! n)) ->
      BrainModel.affine b = None /\ BrainModel.volume_shape b = None))%nat.
Proof.
  intros Ha Hij item. pose proof (constructed_wf _ _ Ha) as Hwf.
  pose proof (wf_voxel _ _ Hwf) as Hlx. pose proof (wf_vertex _ _ Hwf) as Hlt.
  split.
  - intros <-. unfold item, BrainModel.__getitem__, BrainModel.getitem_slice.
    rewrite !(getslice_range _ i i) by (lia || (left; reflexivity)).
    unfold sub_range. rewrite Nat.sub_diag. reflexivity.
  - intros Hlt'. exists (sub_axis a i j).
    unfold item, BrainModel.__getitem__.
    pose proof (getitem_slice_range vocab a i j (Some (Z.of_nat j)) Hwf
                  ltac:(lia) ltac:(left; reflexivity)) as Hslice.
    rewrite Hslice. split; [reflexivity|]. split.
    { unfold BrainModel.getitem_slice in Hslice.
      inv_bind Hslice. inv_bind Hslice. inv_bind Hslice.
      exists (BrainModel.NameArr x), (Some x0), (Some x1), (BrainModel.affine a),
             (BrainModel.volume_shape a), (Some (BrainModel.nvertices a)).
      exact Hslice. }
    assert (Hlen : length (sub_range (BrainModel.name a) i j) = (j - i)%nat)
      by (apply sub_range_length; lia).
    split; [reflexivity|]. split; [reflexivity|]. split; [reflexivity|].
    split; [exact Hlen|]. split; [intros k; apply built_nvertices_lookup|].
    split; [|split].
    + intros k Hk. unfold BrainModel.get_element, sub_axis.
      cbn [built BrainModel.name BrainModel.voxel BrainModel.vertex].
      destruct (lookup_lt_is_Some_2 (BrainModel.name a) (i + k)) as [n Hn]; [lia|].
      destruct (lookup_lt_is_Some_2 (BrainModel.voxel a) (i + k)) as [vx Hvx]; [lia|].
      destruct (lookup_lt_is_Some_2 (BrainModel.vertex a) (i + k)) as [vt Hvt]; [lia|].
      rewrite (getindex_lookup (sub_range (BrainModel.name a) i j) k n)
        by (rewrite lookup_sub_range by lia; exact Hn).
      rewrite (getindex_lookup (sub_range (BrainModel.voxel a) i j) k vx)
        by (rewrite lookup_sub_range by lia; exact Hvx).
      rewrite (getindex_lookup (sub_range (BrainModel.vertex a) i j) k vt)
        by (rewrite lookup_sub_range by lia; exact Hvt).
      rewrite (getindex_lookup _ _ _ Hn), (getindex_lookup _ _ _ Hvx),
              (getindex_lookup _ _ _ Hvt).
      cbn [bind].
      assert (Hsame : BrainModel.nvertices
                        (built (sub_range (BrainModel.name a) i j)
                               (sub_range (BrainModel.voxel a) i j)
                               (sub_range (BrainModel.vertex a) i j)
                               (BrainModel.affine a) (BrainModel.volume_shape a)
                               (BrainModel.nvertices a)) !! n =
                      BrainModel.nvertices a !! n).
      { rewrite built_nvertices_lookup. rewrite bool_decide_eq_true_2; [reflexivity|].
        apply list_elem_of_lookup. exists k. rewrite lookup_sub_range by lia. exact Hn. }
      rewrite Hsame. reflexivity.
    + intros (n & Hn & Hnone). unfold sub_axis. cbn [built BrainModel.affine BrainModel.volume_shape].
      assert (forallb id (surface_flags (BrainModel.nvertices a)
                            (sub_range (BrainModel.name a) i j)) = false) as ->.
      { destruct (forallb id _) eqn:E; [|reflexivity].
        pose proof (proj1 (forallb_mask_true _ _) E n Hn) as [? ?]. congruence. }
      split; reflexivity.
    + intros Hall. unfold sub_axis. cbn [built BrainModel.affine BrainModel.volume_shape].
      assert (forallb id (surface_flags (BrainModel.nvertices a)
                            (sub_range (BrainModel.name a) i j)) = true) as ->.
      { apply forallb_mask_true. exact Hall. }
      split; reflexivity.
Qed.

Lemma X18_BrainModel_slice_witness :
  BrainModel.__getitem__ some_structures cortex_and_thalamus
    (ItemSlice (Slice (Some 1) (Some 1) None)) = Raise vectorize_error /\
  exists b,
    BrainModel.__getitem__ some_structures cortex_and_thalamus
      (ItemSlice (Slice (Some 0) (Some 2) None)) = Ok (BrainModel.Sub b) /\
    BrainModel.affine b = None.
Proof.
  split.
  - apply (proj1 (X18_BrainModel_slice some_structures cortex_and_thalamus 1 1
                    cortex_and_thalamus_constructed ltac:(simpl; lia)) eq_refl).
  - destruct (proj2 (X18_BrainModel_slice some_structures cortex_and_thalamus 0 2
                       cortex_and_thalamus_constructed ltac:(simpl; lia)) ltac:(lia))
      as (b & Hb & _ & Hn & _ & _ & _ & _ & _ & _ & Hsurf).
    exists b. split; [exact Hb|]. apply Hsurf. rewrite Hn. intros n Hin.
    vm_compute in Hin. 
    repeat (apply elem_of_cons in Hin as [->|Hin]); try (eexists; reflexivity).
    inversion Hin.
Defined.

Lemma merge_nvertices_Ok (mine other : gmap string Z) (e : exn) :
  (forall n c c', mine !! n = Some c -> other !! n = Some c' -> c = c') ->
  merge_nvertices mine other e = Ok (other ∪ mine).
Proof.
  intros H. unfold merge_nvertices.
  assert (forallb (fun '(name, value) =>
            match mine !! name with
            | Some v => bool_decide (v = value)
            | None => true
            end) (map_to_list other) = true) as ->; [|reflexivity].
  apply forallb_forall. intros [n v] Hin.
  apply list_elem_of_In, elem_of_map_to_list in Hin.
  destruct (mine !! n) as [c|] eqn:Hc; [|reflexivity].
  apply bool_decide_eq_true. eapply H; eassumption.
Qed.

Lemma merge_nvertices_conflict (mine other : gmap string Z) (e : exn) (n : string) (c c' : Z) :
  mine !! n = Some c -> other !! n = Some c' -> c <> c' ->
  merge_nvertices mine other e = Raise e.
Proof.
  intros Hm Ho Hne. unfold merge_nvertices.
  destruct (forallb _ (map_to_list other)) eqn:E; [|reflexivity].
  rewrite forallb_forall in E. specialize (E (n, c')). simpl in E. rewrite Hm in E.
  rewrite bool_decide_eq_false_2 in E by assumption.
  discriminate E. apply list_elem_of_In, elem_of_map_to_list. exact Ho.
Qed.

Lemma matrix_all_ne_refl (m : matrix_t) : shape_4x4 m = true -> matrix_all_ne m m = false.
Proof.
  unfold shape_4x4. intros H.
  destruct m as [|[|x row] m]; try discriminate.
  { simpl in H. rewrite andb_false_r in H. discriminate. }
  unfold matrix_all_ne. cbn [zip zip_with forallb].
  rewrite bool_decide_eq_true_2 by reflexivity. reflexivity.
Qed.

Lemma sub_range_prefix {A} (l : list A) (k : nat) : sub_range l 0 k = take k l.
Proof. unfold sub_range. rewrite Nat.sub_0_r. reflexivity. Qed.

Lemma sub_range_suffix {A} (l : list A) (k : nat) : sub_range l k (length l) = drop k l.
Proof. unfold sub_range. apply take_ge. rewrite length_drop. lia. Qed.

Lemma getitem_slice_from_start (vocab : list string) (a : BrainModel.t) (stop : option Z) :
  BrainModel.getitem_slice vocab a (Slice None stop None) =
  BrainModel.getitem_slice vocab a (Slice (Some 0) stop None).
Proof. unfold BrainModel.getitem_slice. rewrite !getslice_from_start. reflexivity. Qed.

Lemma sub_axis_nvertices_lookup (a : BrainModel.t) (i j : nat) (n : string) :
  BrainModel.nvertices (sub_axis a i j) !! n =
  if bool_decide (n ∈ sub_range (BrainModel.name a) i j) then BrainModel.nvertices a !! n
  else None.
Proof. apply built_nvertices_lookup. Qed.

Section SplitAndAdd.

Variable CIFTI_BRAIN_STRUCTURES : list string.
Variable a : BrainModel.t.
Hypothesis wf_a : wf CIFTI_BRAIN_STRUCTURES a.
Variable k : nat.
Hypothesis k_inside : (0 < k < length (BrainModel.name a))%nat.

Abbreviation N := (length (BrainModel.name a)).
Abbreviation nv := (BrainModel.nvertices a).
Abbreviation left_part := (sub_axis a 0 k).
Abbreviation right_part := (sub_axis a k N).

Lemma split_names :
  (BrainModel.name left_part ++ BrainModel.name right_part)%list = BrainModel.name a.
Proof. simpl. rewrite sub_range_prefix, sub_range_suffix. apply take_drop. Qed.

Lemma split_voxels :
  (BrainModel.voxel left_part ++ BrainModel.voxel right_part)%list = BrainModel.voxel a.
Proof.
  simpl. rewrite sub_range_prefix. rewrite <- (wf_voxel _ _ wf_a), sub_range_suffix.
  apply take_drop.
Qed.

Lemma split_vertices :
  (BrainModel.vertex left_part ++ BrainModel.vertex right_part)%list = BrainModel.vertex a.
Proof.
  simpl. rewrite sub_range_prefix. rewrite <- (wf_vertex _ _ wf_a), sub_range_suffix.
  apply take_drop.
Qed.

Lemma split_nvertices_lookup (n : string) :
  (BrainModel.nvertices right_part ∪ BrainModel.nvertices left_part) !! n = nv !! n.
Proof.
  rewrite lookup_union, !sub_axis_nvertices_lookup.
  destruct (nv !! n) as [c|] eqn:Hc.
  - assert (Hin : n ∈ BrainModel.name a) by (apply (wf_nvertices _ _ wf_a); rewrite Hc; eauto).
    rewrite <- split_names in Hin. simpl in Hin. apply elem_of_app in Hin.
    repeat case_bool_decide; try reflexivity. tauto.
  - repeat case_bool_decide; reflexivity.
Qed.

Lemma split_merge :
  merge_nvertices (BrainModel.nvertices left_part) (BrainModel.nvertices right_part)
                  BrainModel.inconsistent_vertices =
  Ok (BrainModel.nvertices right_part ∪ BrainModel.nvertices left_part).
Proof.
  apply merge_nvertices_Ok. intros n c c'. rewrite !sub_axis_nvertices_lookup.
  repeat case_bool_decide; congruence.
Qed.

(** The affine and the volume shape that [__add__] chooses for the two
    parts. *)
Definition sum_volume : option matrix_t * option (list Z) :=
  match BrainModel.affine left_part with
  | None => (BrainModel.affine right_part, BrainModel.volume_shape right_part)
  | Some m => (Some m, BrainModel.volume_shape left_part)
  end.

Lemma split_volume :
  match BrainModel.affine left_part with
  | None => Ok (BrainModel.affine right_part, BrainModel.volume_shape right_part)
  | Some m =>
      match BrainModel.affine right_part with
      | Some m' =>
          if matrix_all_ne m' m ||
             negb (bool_decide (BrainModel.volume_shape right_part =
                                BrainModel.volume_shape left_part))
          then Raise BrainModel.different_volume
          else Ok (Some m, BrainModel.volume_shape left_part)
      | None => Ok (Some m, BrainModel.volume_shape left_part)
      end
  end = Ok sum_volume.
Proof.
  unfold sum_volume. simpl.
  destruct (forallb id (surface_flags nv (sub_range (BrainModel.name a) 0 k))); [reflexivity|].
  destruct (BrainModel.affine a) as [m|] eqn:Hm; [|reflexivity].
  destruct (forallb id (surface_flags nv (sub_range (BrainModel.name a) k N)));
    [reflexivity|].
  rewrite (matrix_all_ne_refl m) by (apply (wf_affine _ _ wf_a), Hm).
  rewrite bool_decide_eq_true_2 by reflexivity. reflexivity.
Qed.

Lemma surface_flags_app (m : gmap string Z) (l1 l2 : list string) :
  surface_flags m (l1 ++ l2) = (surface_flags m l1 ++ surface_flags m l2)%list.
Proof. apply map_app. Qed.

Lemma forallb_id_app (l1 l2 : list bool) :
  forallb id (l1 ++ l2) = forallb id l1 && forallb id l2.
Proof. apply forallb_app. Qed.

Lemma sum_volume_affine :
  (if forallb id (surface_flags nv (BrainModel.name a)) then None else sum_volume.1) =
  BrainModel.affine a.
Proof.
  destruct (forallb id (surface_flags nv (BrainModel.name a))) eqn:Hall.
  - symmetry. apply (wf_all_surface _ _ wf_a). apply forallb_mask_true, Hall.
  - rewrite <- split_names in Hall. simpl in Hall.
    rewrite surface_flags_app, forallb_id_app in Hall.
    unfold sum_volume. simpl.
    destruct (forallb id (surface_flags nv (sub_range (BrainModel.name a) 0 k))).
    + simpl in Hall. rewrite Hall. reflexivity.
    + destruct (BrainModel.affine a) as [m|]; [reflexivity|].
      destruct (forallb id _); reflexivity.
Qed.

Lemma sum_volume_shape :
  BrainModel.affine a <> None \/ BrainModel.volume_shape a = None ->
  (if forallb id (surface_flags nv (BrainModel.name a)) then None else sum_volume.2) =
  BrainModel.volume_shape a.
Proof.
  intros Hvol.
  destruct (forallb id (surface_flags nv (BrainModel.name a))) eqn:Hall.
  - symmetry. apply (wf_all_surface _ _ wf_a). apply forallb_mask_true, Hall.
  - rewrite <- split_names in Hall. simpl in Hall.
    rewrite surface_flags_app, forallb_id_app in Hall.
    unfold sum_volume. simpl.
    destruct (forallb id (surface_flags nv (sub_range (BrainModel.name a) 0 k))).
    + simpl in Hall. rewrite Hall. reflexivity.
    + destruct (BrainModel.affine a) as [m|]; [reflexivity|].
      destruct Hvol as [Hvol | ->]; [congruence|].
      destruct (forallb id _); reflexivity.
Qed.

Lemma sum_volume_valid :
  (forall m, sum_volume.1 = Some m -> shape_4x4 m = true) /\
  (forall v, sum_volume.2 = Some v -> length v = 3%nat).
Proof.
  unfold sum_volume. simpl.
  destruct (forallb id (surface_flags nv (sub_range (BrainModel.name a) 0 k)));
    destruct (BrainModel.affine a) as [m0|] eqn:Hm;
    destruct (forallb id (surface_flags nv (sub_range (BrainModel.name a) k N)));
    simpl; split; try discriminate;
    try (intros m Heq; injection Heq as <-; apply (wf_affine _ _ wf_a), Hm);
    try apply (wf_volume_shape _ _ wf_a).
Qed.

(** The sum of the two parts. *)
Definition sum_of_parts : BrainModel.t :=
  built (BrainModel.name a) (BrainModel.voxel a) (BrainModel.vertex a)
        sum_volume.1 sum_volume.2
        (BrainModel.nvertices right_part ∪ BrainModel.nvertices left_part).

Lemma add_parts :
  BrainModel.__add__ CIFTI_BRAIN_STRUCTURES left_part right_part = Ok sum_of_parts.
Proof.
  unfold BrainModel.__add__. rewrite split_volume.
  destruct sum_volume as [aff shp] eqn:Hsum. cbn [bind].
  rewrite split_merge. cbn [bind].
  rewrite split_names, split_voxels, split_vertices.
  unfold sum_of_parts. rewrite Hsum. cbn [fst snd].
  pose proof sum_volume_valid as [Haff Hshp]. rewrite Hsum in Haff, Hshp.
  apply init_of_valid; try assumption.
  - apply (wf_nonempty _ _ wf_a).
  - apply (wf_names _ _ wf_a).
  - apply (wf_voxel _ _ wf_a).
  - apply (wf_vertex _ _ wf_a).
  - intros i n v Hn Hs. rewrite split_nvertices_lookup in Hs.
    apply (wf_surface _ _ wf_a _ _ _ Hn Hs).
  - intros i n v Hn Hs. rewrite split_nvertices_lookup in Hs.
    apply (wf_volume _ _ wf_a _ _ _ Hn Hs).
Qed.

Lemma sum_of_parts_nvertices : BrainModel.nvertices sum_of_parts = nv.
Proof.
  apply map_eq. intros n. unfold sum_of_parts.
  rewrite built_nvertices_lookup, split_nvertices_lookup.
  case_bool_decide as Hn; [reflexivity|].
  destruct (nv !! n) as [c|] eqn:Hc; [|reflexivity].
  exfalso. apply Hn, (wf_nvertices _ _ wf_a). rewrite Hc. eauto.
Qed.

Lemma sum_of_parts_flags :
  surface_flags (BrainModel.nvertices right_part ∪ BrainModel.nvertices left_part)
                (BrainModel.name a) = surface_flags nv (BrainModel.name a).
Proof.
  unfold surface_flags. apply map_ext. intros n. rewrite split_nvertices_lookup. reflexivity.
Qed.

Lemma sum_of_parts_affine : BrainModel.affine sum_of_parts = BrainModel.affine a.
Proof.
  unfold sum_of_parts. cbn [built BrainModel.affine].
  rewrite sum_of_parts_flags. apply sum_volume_affine.
Qed.

Lemma sum_of_parts_shape :
  BrainModel.affine a <> None \/ BrainModel.volume_shape a = None ->
  BrainModel.volume_shape sum_of_parts = BrainModel.volume_shape a.
Proof.
  intros H. unfold sum_of_parts. cbn [built BrainModel.volume_shape].
  rewrite sum_of_parts_flags. apply sum_volume_shape, H.
Qed.

End SplitAndAdd.

(** X19. Slicing and concatenation of BrainModel axes are inverse to
    each other: for an axis that the constructor returned and a
    position [k] inside of it, [a[:k]] and [a[k:]] are axes, their sum
    [a[:k] + a[k:]] has the names, the voxels, the vertices, the vertex
    counts and the affine of [a] and compares equal to [a]; it is [a]
    itself unless [a] has a volume shape without an affine. *)
Theorem X19_BrainModel_split_and_add (vocab : list string) (a : BrainModel.t) (k : nat) :
  constructed vocab a -> (0 < k < length (BrainModel.name a))%nat ->
  exists a1 a2 c,
    BrainModel.__getitem__ vocab a (ItemSlice (Slice None (Some (Z.of_nat k)) None))
      = Ok (BrainModel.Sub a1) /\
    BrainModel.__getitem__ vocab a (ItemSlice (Slice (Some (Z.of_nat k)) None None))
      = Ok (BrainModel.Sub a2) /\
    BrainModel.__add__ vocab a1 a2 = Ok c /\
    BrainModel.name c = BrainModel.name a /\
    BrainModel.voxel c = BrainModel.voxel a /\
    BrainModel.vertex c = BrainModel.vertex a /\
    BrainModel.nvertices c = BrainModel.nvertices a /\
    BrainModel.affine c = BrainModel.affine a /\
    BrainModel.__eq__ c a = Ok true /\
    (BrainModel.affine a <> None \/ BrainModel.volume_shape a = None -> c = a).
Proof.
  intros Ha Hk. pose proof (constructed_wf _ _ Ha) as Hwf.
  exists (sub_axis a 0 k), (sub_axis a k (length (BrainModel.name a))), (sum_of_parts a k).
  pose proof (add_parts vocab a Hwf k Hk) as Hadd.
  assert (Hwfc : wf vocab (sum_of_parts a k)).
  { unfold BrainModel.__add__ in Hadd. inv_bind Hadd. destruct x as [aff shp].
    inv_bind Hadd. apply init_Ok in Hadd as [Hadd _]. exact Hadd. }
  unfold BrainModel.__getitem__.
  rewrite getitem_slice_from_start. change (Some 0) with (Some (Z.of_nat 0)).
  rewrite (getitem_slice_range vocab a 0 k (Some (Z.of_nat k)) Hwf)
    by (lia || (left; reflexivity)).
  rewrite (getitem_slice_range vocab a k (length (BrainModel.name a)) None Hwf)
    by (lia || (right; split; reflexivity)).
  split; [reflexivity|]. split; [reflexivity|]. split; [exact Hadd|].
  split; [reflexivity|]. split; [reflexivity|]. split; [reflexivity|].
  split; [apply (sum_of_parts_nvertices vocab a Hwf k Hk)|].
  split; [apply (sum_of_parts_affine vocab a Hwf k Hk)|]. split.
  - destruct (BrainModel_eq_spec vocab (sum_of_parts a k) a Hwfc Hwf) as (r & Hr & Hiff).
    rewrite Hr. f_equal. apply Hiff.
    split; [|split; [apply (sum_of_parts_nvertices vocab a Hwf k Hk)|
                     split; [reflexivity|split; intros i n _ _; reflexivity]]].
    unfold same_volume. rewrite (sum_of_parts_affine vocab a Hwf k Hk).
    destruct (BrainModel.affine a) as [m|] eqn:Hm; [|exact I].
    split; [apply abs_diff_entries_refl|].
    apply (sum_of_parts_shape vocab a Hwf k Hk). left. congruence.
  - intros Hvol.
    pose proof (sum_of_parts_nvertices vocab a Hwf k Hk) as Hnv.
    pose proof (sum_of_parts_affine vocab a Hwf k Hk) as Haff.
    pose proof (sum_of_parts_shape vocab a Hwf k Hk Hvol) as Hshp.
    destruct a as [names vx vt aff shp nvs].
    unfold sum_of_parts, built in *. cbn [BrainModel.name BrainModel.voxel BrainModel.vertex
      BrainModel.affine BrainModel.volume_shape BrainModel.nvertices] in *.
    rewrite Hnv, Haff, Hshp. reflexivity.
Qed.

Lemma X19_BrainModel_split_and_add_witness :
  exists a1 a2,
    BrainModel.__getitem__ some_structures cortex_and_thalamus
      (ItemSlice (Slice None (Some 2) None)) = Ok (BrainModel.Sub a1) /\
    BrainModel.__getitem__ some_structures cortex_and_thalamus
      (ItemSlice (Slice (Some 2) None None)) = Ok (BrainModel.Sub a2) /\
    BrainModel.__add__ some_structures a1 a2 = Ok cortex_and_thalamus.
Proof.
  destruct (X19_BrainModel_split_and_add some_structures cortex_and_thalamus 2
              cortex_and_thalamus_constructed ltac:(simpl; lia))
    as (a1 & a2 & c & H1 & H2 & Hadd & _ & _ & _ & _ & _ & _ & Hsame).
  exists a1, a2. split; [exact H1|]. split; [exact H2|].
  rewrite <- (Hsame ltac:(left; discriminate)). exact Hadd.
Defined.

(** X20. [+] refuses two axes that give two different vertex counts to
    one structure: for two BrainModel axes, and for two Parcels axes,
    the sum raises [ValueError], the one of the volumes when the two
    volumes are told apart before, and the one of the vertex counts
    otherwise. *)
Theorem X20_add_conflicting_vertex_counts (vocab : list string) (n : string) (c c' : Z) :
  c <> c' ->
  (forall a b : BrainModel.t,
     BrainModel.nvertices a !! n = Some c -> BrainModel.nvertices b !! n = Some c' ->
     BrainModel.__add__ vocab a b = Raise BrainModel.different_volume \/
     BrainModel.__add__ vocab a b = Raise BrainModel.inconsistent_vertices) /\
  (forall a b : Parcels.t,
     Parcels.nvertices a !! n = Some c -> Parcels.nvertices b !! n = Some c' ->
     Parcels.__add__ a b = Raise Parcels.different_volume \/
     Parcels.__add__ a b = Raise Parcels.inconsistent_vertices).
Proof.
  intros Hne. split; intros a b Ha Hb.
  - unfold BrainModel.__add__.
    rewrite (merge_nvertices_conflict _ _ _ n c c' Ha Hb Hne).
    destruct (BrainModel.affine a) as [ma|]; [|right; reflexivity].
    destruct (BrainModel.affine b) as [mb|]; [|right; reflexivity].
    destruct (_ || _); [left | right]; reflexivity.
  - unfold Parcels.__add__.
    rewrite (merge_nvertices_conflict _ _ _ n c c' Ha Hb Hne).
    destruct (Parcels.affine a) as [ma|]; [|right; reflexivity].
    destruct (Parcels.affine b) as [mb|]; [|right; reflexivity].
    destruct (_ || _); [left | right]; reflexivity.
Qed.

Lemma X20_add_conflicting_vertex_counts_witness :
  BrainModel.__add__ some_structures (surface_axis "CIFTI_STRUCTURE_CORTEX_LEFT" [1; 2] 10)
                     (surface_axis "CIFTI_STRUCTURE_CORTEX_LEFT" [3] 12)
  = Raise BrainModel.different_volume \/
  BrainModel.__add__ some_structures (surface_axis "CIFTI_STRUCTURE_CORTEX_LEFT" [1; 2] 10)
                     (surface_axis "CIFTI_STRUCTURE_CORTEX_LEFT" [3] 12)
  = Raise BrainModel.inconsistent_vertices.
Proof.
  apply (proj1 (X20_add_conflicting_vertex_counts some_structures
                  "CIFTI_STRUCTURE_CORTEX_LEFT" 10 12 ltac:(lia))); reflexivity.
Defined.

(** ** BrainModel: equality *)

Lemma abs_diff_row_sym (ra rb : list Qc) :
  map (fun '(x, y) => Qcabs (x - y)%Qc) (zip ra rb) =
  map (fun '(x, y) => Qcabs (x - y)%Qc) (zip rb ra).
Proof.
  revert rb. induction ra as [|x ra IH]; intros [|y rb]; simpl; try reflexivity.
  rewrite IH, Qcabs_Qcminus. reflexivity.
Qed.

Lemma abs_diff_entries_sym (a b : matrix_t) : abs_diff_entries a b = abs_diff_entries b a.
Proof.
  unfold abs_diff_entries. revert b.
  induction a as [|ra a IH]; intros [|rb b]; simpl; try reflexivity.
  rewrite IH, abs_diff_row_sym. reflexivity.
Qed.

Lemma same_volume_sym (a b : BrainModel.t) : same_volume a b -> same_volume b a.
Proof.
  unfold same_volume.
  destruct (BrainModel.affine a), (BrainModel.affine b); try tauto.
  rewrite abs_diff_entries_sym. intros [H1 H2]. split; [assumption | congruence].
Qed.

(** X21. The comparison [==] of BrainModel axes that the constructor
    returned always returns, finds every axis equal to itself, and does
    not depend on the order of its operands. *)
Theorem X21_BrainModel_eq_reflexive_symmetric (vocab : list string) (a b : BrainModel.t) :
  constructed vocab a -> constructed vocab b ->
  BrainModel.__eq__ a a = Ok true /\
  exists r, BrainModel.__eq__ a b = Ok r /\ BrainModel.__eq__ b a = Ok r.
Proof.
  intros Ha Hb. apply constructed_wf in Ha, Hb. split.
  - destruct (BrainModel_eq_spec vocab a a Ha Ha) as (r & Hr & Hiff).
    rewrite Hr. f_equal. apply Hiff.
    split; [|split; [reflexivity|split; [reflexivity|split; intros i n _ _; reflexivity]]].
    unfold same_volume. destruct (BrainModel.affine a) as [m|]; [|exact I].
    split; [apply abs_diff_entries_refl | reflexivity].
  - destruct (BrainModel_eq_spec vocab a b Ha Hb) as (r & Hr & Hiff).
    destruct (BrainModel_eq_spec vocab b a Hb Ha) as (r' & Hr' & Hiff').
    exists r. split; [exact Hr|]. rewrite Hr'. f_equal.
    assert (Hsym : forall x y : BrainModel.t,
              same_volume x y /\ BrainModel.nvertices x = BrainModel.nvertices y /\
              BrainModel.name x = BrainModel.name y /\
              same_volume_voxels x y /\ same_volume_vertices x y ->
              same_volume y x /\ BrainModel.nvertices y = BrainModel.nvertices x /\
              BrainModel.name y = BrainModel.name x /\
              same_volume_voxels y x /\ same_volume_vertices y x).
    { intros x y (Hv & Hnv & Hn & Hvx & Hvt).
      split; [apply same_volume_sym, Hv|]. split; [congruence|]. split; [congruence|].
      split; intros i n Hi Hnone; symmetry;
        [apply (Hvx i n) | apply (Hvt i n)]; congruence. }
    destruct r, r'; try reflexivity.
    + apply Hiff', Hsym, Hiff. reflexivity.
    + symmetry. apply Hiff, Hsym, Hiff'. reflexivity.
Qed.

Lemma X21_BrainModel_eq_reflexive_symmetric_witness :
  BrainModel.__eq__ cortex_and_thalamus cortex_and_thalamus = Ok true /\
  exists r, BrainModel.__eq__ cortex_and_thalamus cortex_thalamus_cortex = Ok r /\
            BrainModel.__eq__ cortex_thalamus_cortex cortex_and_thalamus = Ok r.
Proof.
  apply (X21_BrainModel_eq_reflexive_symmetric some_structures).
  - exact cortex_and_thalamus_constructed.
  - exact cortex_thalamus_cortex_constructed.
Defined.

(** ** BrainModel: the mapping *)

Lemma is_runs_bounds (names : list string) (s : nat) (rs : list (string * nat * nat)) :
  is_runs names s rs ->
  Forall (fun r => (r.1.2 < r.2 <= length names)%nat) rs.
Proof.
  induction 1 as [n s Hs Hrun | n s e rest Hse Hrun Hnext Hrest IH].
  - constructor; [simpl; lia | constructor].
  - constructor; [|exact IH]. simpl. split; [assumption|].
    apply is_runs_start in Hrest. lia.
Qed.

Lemma is_runs_names (names : list string) (s : nat) (rs : list (string * nat * nat)) :
  is_runs names s rs -> forall r, r ∈ rs -> r.1.1 ∈ names.
Proof.
  induction 1 as [n s Hs Hrun | n s e rest Hse Hrun Hnext Hrest IH]; intros r Hr.
  - apply list_elem_of_singleton in Hr as ->. simpl.
    apply list_elem_of_lookup. exists s. apply Hrun. lia.
  - apply elem_of_cons in Hr as [->|Hr]; [|apply IH, Hr]. simpl.
    apply list_elem_of_lookup. exists s. apply Hrun. lia.
Qed.

Lemma is_runs_covers (names : list string) (s : nat) (rs : list (string * nat * nat)) :
  is_runs names s rs ->
  forall p n, (s <= p)%nat -> names !! p = Some n -> exists r, r ∈ rs /\ r.1.1 = n.
Proof.
  induction 1 as [m s Hs Hrun | m s e rest Hse Hrun Hnext Hrest IH]; intros p n Hp Hn.
  - exists (m, s, length names). split; [left|]. simpl.
    pose proof (lookup_lt_Some _ _ _ Hn) as Hlt.
    rewrite Hrun in Hn by lia. congruence.
  - destruct (decide (p < e)%nat) as [Hlt|Hge].
    + exists (m, s, e). split; [left|]. simpl. rewrite Hrun in Hn by lia. congruence.
    + destruct (IH p n ltac:(lia) Hn) as (r & Hr & Hrn). exists r. split; [right|]; assumption.
Qed.

Lemma forallb_false_exists {A} (f : A -> bool) (l : list A) :
  forallb f l = false -> exists x, x ∈ l /\ f x = false.
Proof.
  induction l as [|y l IH]; simpl; [discriminate|]. intros H.
  apply andb_false_iff in H as [H|H].
  - exists y. split; [left | assumption].
  - destruct (IH H) as (x & Hx & Hf). exists x. split; [right|]; assumption.
Qed.

(** The name, the first position and the position after the last one
    that a brain model of a mapping covers. *)
Definition covered (bm : cifti2.Cifti2BrainModel) : string * nat * nat :=
  (cifti2.brain_structure bm, cifti2.index_offset bm,
   (cifti2.index_offset bm + cifti2.index_count bm)%nat).

(** What the brain model of the elements [s], ..., [e - 1] of the
    structure [n] holds: the vertices and the vertex count for a
    surface, the voxels for a volume. *)
Definition describes (a : BrainModel.t) (bm : cifti2.Cifti2BrainModel) : Prop :=
  let '(n, s, e) := covered bm in
  match BrainModel.nvertices a !! n with
  | Some count =>
      cifti2.model_type bm = "CIFTI_MODEL_TYPE_SURFACE" /\
      cifti2.surface_number_of_vertices bm = Some count /\
      cifti2.vertex_indices bm = Some (sub_range (BrainModel.vertex a) s e) /\
      cifti2.voxel_indices_ijk bm = None
  | None =>
      cifti2.model_type bm = "CIFTI_MODEL_TYPE_VOXELS" /\
      cifti2.surface_number_of_vertices bm = None /\
      cifti2.vertex_indices bm = None /\
      cifti2.voxel_indices_ijk bm = Some (sub_range (BrainModel.voxel a) s e)
  end.

(** X22. The mapping that [to_mapping] writes for a BrainModel axis
    that the constructor returned: it has the tag of the brain models
    and the dimension [dim]; its brain models cover the maximal runs of
    equal names of the axis, in order and without gaps; the brain model
    of a surface structure holds the vertices of its range and the
    vertex count of the structure, the one of a volumetric structure
    holds the voxels of its range; and the volume, with the volume
    shape and the affine of the axis, is present exactly when some
    element is volumetric. *)
Theorem X22_BrainModel_to_mapping (vocab : list string) (a : BrainModel.t) (dim : nat) :
  constructed vocab a ->
  exists mim,
    BrainModel.to_mapping vocab a dim = Ok mim /\
    cifti2.indices_map_to_data_type mim = "CIFTI_INDEX_TYPE_BRAIN_MODELS" /\
    cifti2.applies_to_matrix_dimension mim = [dim] /\
    is_runs (BrainModel.name a) 0 (map covered (cifti2.brain_models mim)) /\
    Forall (describes a) (cifti2.brain_models mim) /\
    cifti2.volume mim =
      if forallb (fun n => bool_decide (is_Some (BrainModel.nvertices a !! n)))
                 (BrainModel.name a)
      then None else Some (BrainModel.volume_of a).
Proof.
  intros Ha. apply constructed_wf in Ha.
  destruct (iter_structures_spec vocab a Ha) as (ys & Hys & Hruns & Hsub).
  assert (Hto : BrainModel.to_mapping vocab a dim =
                Ok (fold_left (BrainModel.to_mapping_step a) ys
                      (cifti2.new dim "CIFTI_INDEX_TYPE_BRAIN_MODELS"))).
  { unfold BrainModel.to_mapping. rewrite Hys. reflexivity. }
  eexists. split; [exact Hto|].
  destruct (to_mapping_fold a ys (cifti2.new dim "CIFTI_INDEX_TYPE_BRAIN_MODELS"))
    as (Hb & Ht & Hv).
  simpl in Hb, Ht, Hv. split; [exact Ht|].
  split; [apply (to_mapping_applies_to vocab (AxBrainModel a) dim), Hto|].
  pose proof (is_runs_bounds _ _ _ Hruns) as Hbounds.
  assert (Hcov : Forall (fun y => covered (BrainModel.brain_model_of a y.1.1 y.1.2 y.2) =
                                  run_of a y) ys).
  { rewrite Forall_fmap in Hbounds. rewrite Forall_forall in Hsub, Hbounds.
    apply Forall_forall. intros [[n sl] sub] Hy.
    specialize (Hsub _ Hy). specialize (Hbounds _ Hy). simpl in Hsub, Hbounds. subst sub.
    unfold covered, run_of, slice_range in *. simpl in *.
    unfold BrainModel.__len__. simpl. rewrite sub_range_length by lia.
    f_equal. lia. }
  assert (Hmap : map covered (cifti2.brain_models
                    (fold_left (BrainModel.to_mapping_step a) ys
                       (cifti2.new dim "CIFTI_INDEX_TYPE_BRAIN_MODELS"))) =
                 map (run_of a) ys).
  { rewrite Hb, map_map. clear -Hcov. induction Hcov as [|y ys Hy _ IH]; simpl;
      [reflexivity|]. rewrite Hy, IH. reflexivity. }
  split; [rewrite Hmap; exact Hruns|]. split.
  - rewrite Hb. apply Forall_fmap. rewrite Forall_forall in Hsub, Hcov.
    apply Forall_forall. intros [[n sl] sub] Hy.
    pose proof (Hsub _ Hy) as Hs. pose proof (Hcov _ Hy) as Hc. simpl in Hs, Hc.
    unfold compose, describes. cbn [fst snd]. rewrite Hc. cbv beta iota.
    unfold BrainModel.brain_model_of.
    cbn [cifti2.model_type cifti2.surface_number_of_vertices cifti2.vertex_indices
         cifti2.voxel_indices_ijk].
    subst sub. unfold sub_axis. cbn [built BrainModel.voxel BrainModel.vertex].
    destruct (BrainModel.nvertices a !! n) as [c|] eqn:Hn.
    + rewrite bool_decide_eq_true_2 by eauto. repeat split.
    + rewrite bool_decide_eq_false_2 by (intros [? ?]; discriminate). repeat split.
  - rewrite Hv.
    assert (Hex : existsb (fun y : string * slice * BrainModel.t => is_volume a y.1.1) ys =
                  negb (forallb (fun n => bool_decide (is_Some (BrainModel.nvertices a !! n)))
                                (BrainModel.name a))).
    { assert (Hname : forall y, run_of a y = (y.1.1, (run_of a y).1.2, (run_of a y).2))
        by (intros [[? ?] ?]; reflexivity).
      destruct (forallb _ (BrainModel.name a)) eqn:Hall; simpl.
      - apply existsb_false_intro. intros y Hy.
        rewrite forallb_forall in Hall. unfold is_volume. rewrite Hall; [reflexivity|].
        apply list_elem_of_In.
        assert (Hr : run_of a y ∈ map (run_of a) ys) by (apply list_elem_of_fmap; eauto).
        apply (is_runs_names _ _ _ Hruns) in Hr. rewrite Hname in Hr. exact Hr.
      - apply forallb_false_exists in Hall as (n & Hn & Hf).
        apply list_elem_of_lookup in Hn as [p Hp].
        destruct (is_runs_covers _ _ _ Hruns p n ltac:(lia) Hp) as (r & Hr & Hrn).
        apply list_elem_of_fmap in Hr as (y & -> & Hy). rewrite Hname in Hrn. simpl in Hrn.
        apply existsb_exists. exists y. split; [apply list_elem_of_In, Hy|].
        unfold is_volume. rewrite Hrn, Hf. reflexivity. }
    rewrite Hex. destruct (forallb _ _); reflexivity.
Qed.

Lemma X22_BrainModel_to_mapping_witness :
  exists mim,
    BrainModel.to_mapping some_structures cortex_thalamus_cortex 0 = Ok mim /\
    map covered (cifti2.brain_models mim) =
      [("CIFTI_STRUCTURE_CORTEX_LEFT", 0%nat, 2%nat);
       ("CIFTI_STRUCTURE_THALAMUS_LEFT", 2%nat, 3%nat);
       ("CIFTI_STRUCTURE_CORTEX_LEFT", 3%nat, 4%nat)] /\
    is_runs (BrainModel.name cortex_thalamus_cortex) 0 (map covered (cifti2.brain_models mim)).
Proof.
  destruct (X22_BrainModel_to_mapping some_structures cortex_thalamus_cortex 0
              cortex_thalamus_cortex_constructed) as (mim & Hmim & _ & _ & Hruns & _).
  exists mim. split; [exact Hmim|]. split; [|exact Hruns].
  vm_compute in Hmim. injection Hmim as <-. reflexivity.
Defined.

(** X23. A BrainModel axis that the constructor returned, that carries
    the sentinels of the data model, the voxel (-1, -1, -1) for every
    surface element and the vertex -1 for every volumetric element, and
    whose indices are at most [2^53] in absolute value, the integers that
    the float64 arrays of [from_mapping] hold exactly, comes back from
    its mapping unchanged, and [==] finds it equal to itself. *)
Theorem X23_BrainModel_roundtrip (vocab : list string) (libm_pow : float -> float -> float)
    (a : BrainModel.t) (dim : nat) :
  constructed vocab a ->
  (forall i n, BrainModel.name a !! i = Some n ->
     (is_Some (BrainModel.nvertices a !! n) -> BrainModel.voxel a !! i = Some (-1, -1, -1)) /\
     (BrainModel.nvertices a !! n = None -> BrainModel.vertex a !! i = Some (-1))) ->
  Forall (fun v => - 2 ^ 53 <= v <= 2 ^ 53) (BrainModel.vertex a) ->
  Forall (fun '(i, j, k) => - 2 ^ 53 <= i <= 2 ^ 53 /\ - 2 ^ 53 <= j <= 2 ^ 53 /\
                            - 2 ^ 53 <= k <= 2 ^ 53) (BrainModel.voxel a) ->
  exists mim,
    BrainModel.to_mapping vocab a dim = Ok mim /\
    from_mapping vocab libm_pow mim = Ok (AxBrainModel a) /\
    Axis_eq (AxBrainModel a) (AxBrainModel a) = Ok true.
Proof.
  intros Ha Hs Hvt Hvx.
  apply BrainModel_roundtrip; [apply constructed_wf, Ha | exact Hs |].
  split; [exact Hvt|]. eapply Forall_impl; [exact Hvx|]. intros [[i j] k] H. exact H.
Qed.

Lemma X23_BrainModel_roundtrip_witness :
  exists mim,
    BrainModel.to_mapping some_structures cortex_and_thalamus 0 = Ok mim /\
    from_mapping some_structures unused_pow mim = Ok (AxBrainModel cortex_and_thalamus) /\
    Axis_eq (AxBrainModel cortex_and_thalamus) (AxBrainModel cortex_and_thalamus) = Ok true.
Proof.
  apply (X23_BrainModel_roundtrip some_structures unused_pow cortex_and_thalamus 0).
  - exact cortex_and_thalamus_constructed.
  - exact cortex_and_thalamus_sentinels.
  - repeat constructor; simpl; lia.
  - repeat constructor; simpl; lia.
Defined.

(** Above [2^53] the round trip rounds: the voxel [(2^53 + 1, 0, 0)]
    comes back as [(2^53, 0, 0)]. *)
Lemma BrainModel_roundtrip_rounds :
  exists mim,
    BrainModel.to_mapping some_structures (voxel_in identity4 [2; 2; 2] (2 ^ 53 + 1, 0, 0)) 0
      = Ok mim /\
    from_mapping some_structures unused_pow mim =
      Ok (AxBrainModel (voxel_in identity4 [2; 2; 2] (2 ^ 53, 0, 0))).
Proof. eexists. split; [vm_compute; reflexivity|]. vm_compute. reflexivity. Qed.

(** ** Parcels *)

Lemma Parcels_init_Ok n vx vt af sh nv p :
  Parcels.__init__ n vx vt af sh nv = Ok p ->
  p = {| Parcels.name := n; Parcels.voxels := vx; Parcels.vertices := vt;
         Parcels.affine := af; Parcels.volume_shape := sh;
         Parcels.nvertices := default ∅ nv |} /\
  length vx = length n /\ length vt = length n /\
  (forall m, af = Some m -> shape_4x4 m = true) /\
  (forall v, sh = Some v -> length v = 3%nat).
Proof.
  unfold Parcels.__init__, Parcels.set_affine, Parcels.set_volume_shape. intros H.
  assert (Ha : forall m, af = Some m -> shape_4x4 m = true).
  { intros m ->. destruct (shape_4x4 m); [reflexivity | discriminate]. }
  assert (Hs : forall v, sh = Some v -> length v = 3%nat).
  { intros v ->. destruct af as [m|]; [destruct (shape_4x4 m); [|discriminate]|];
      simpl in H; destruct (Nat.eqb_spec (length v) 3); (assumption || discriminate). }
  assert (Haf : match af with
                | Some m => if shape_4x4 m then Ok (Some m)
                            else Raise (ValueError "Affine transformation should be a 4x4 array")
                | None => Ok None
                end = Ok af).
  { destruct af as [m|]; [rewrite (Ha m eq_refl)|]; reflexivity. }
  assert (Hsh : match sh with
                | Some v => if (length v =? 3)%nat then Ok (Some v)
                            else Raise (ValueError "Volume shape should be a tuple of length 3")
                | None => Ok None
                end = Ok sh).
  { destruct sh as [v|]; [rewrite (Hs v eq_refl)|]; reflexivity. }
  rewrite Haf, Hsh in H. simpl in H.
  destruct (Nat.eqb_spec (length vx) (length n)) as [Hlx|]; simpl in H; [|discriminate].
  destruct (Nat.eqb_spec (length vt) (length n)) as [Hlt|]; simpl in H; [|discriminate].
  injection H as <-. repeat split; assumption.
Qed.

Lemma Parcels_init_of_valid n vx vt af sh nv :
  length vx = length n -> length vt = length n ->
  (forall m, af = Some m -> shape_4x4 m = true) ->
  (forall v, sh = Some v -> length v = 3%nat) ->
  Parcels.__init__ n vx vt af sh (Some nv) =
    Ok {| Parcels.name := n; Parcels.voxels := vx; Parcels.vertices := vt;
          Parcels.affine := af; Parcels.volume_shape := sh; Parcels.nvertices := nv |}.
Proof.
  intros Hlx Hlt Ha Hs. unfold Parcels.__init__, Parcels.set_affine, Parcels.set_volume_shape.
  assert (match af with
          | Some m => if shape_4x4 m then Ok (Some m)
                      else Raise (ValueError "Affine transformation should be a 4x4 array")
          | None => Ok None
          end = Ok af) as ->.
  { destruct af as [m|]; [rewrite (Ha m eq_refl)|]; reflexivity. }
  assert (match sh with
          | Some v => if (length v =? 3)%nat then Ok (Some v)
                      else Raise (ValueError "Volume shape should be a tuple of length 3")
          | None => Ok None
          end = Ok sh) as ->.
  { destruct sh as [v|]; [rewrite (Hs v eq_refl)|]; reflexivity. }
  simpl. rewrite Hlx, Hlt, Nat.eqb_refl. reflexivity.
Qed.

(** The surface and the parcel that [to_mapping] writes for an entry of
    [nvertices] and for a row of the axis. *)
Definition surface_of (kv : string * Z) : cifti2.Cifti2Surface :=
  {| cifti2.surface_brain_structure := kv.1;
     cifti2.surface_surface_number_of_vertices := kv.2 |}.

Definition vertices_of (kv : string * list Z) : cifti2.Cifti2Vertices :=
  {| cifti2.vertices_brain_structure := kv.1; cifti2.vertices_indices := kv.2 |}.

Definition parcel_of (row : string * list (Z * Z * Z) * gmap string (list Z))
    : cifti2.Cifti2Parcel :=
  {| cifti2.parcel_name := row.1.1;
     cifti2.parcel_voxel_indices_ijk := Some row.1.2;
     cifti2.parcel_vertices := map vertices_of (map_to_list row.2) |}.

Definition rows (p : Parcels.t) : list (string * list (Z * Z * Z) * gmap string (list Z)) :=
  zip (zip (Parcels.name p) (Parcels.voxels p)) (Parcels.vertices p).

Lemma fold_left_append_surface {A}
    (F : cifti2.Cifti2MatrixIndicesMap -> A -> cifti2.Cifti2MatrixIndicesMap)
    (g : A -> cifti2.Cifti2Surface) (l : list A) (m : cifti2.Cifti2MatrixIndicesMap) :
  (forall m x, F m x = cifti2.append_surface m (g x)) ->
  cifti2.surfaces (fold_left F l m) = (cifti2.surfaces m ++ map g l)%list /\
  cifti2.parcels (fold_left F l m) = cifti2.parcels m /\
  cifti2.volume (fold_left F l m) = cifti2.volume m /\
  cifti2.indices_map_to_data_type (fold_left F l m) = cifti2.indices_map_to_data_type m.
Proof.
  intros HF. revert m. induction l as [|x l IH]; intros m; simpl.
  - rewrite app_nil_r. repeat split.
  - destruct (IH (F m x)) as (H1 & H2 & H3 & H4). rewrite H1, H2, H3, H4, HF. simpl.
    rewrite <- app_assoc. repeat split.
Qed.

Lemma fold_left_append_parcel {A}
    (F : cifti2.Cifti2MatrixIndicesMap -> A -> cifti2.Cifti2MatrixIndicesMap)
    (g : A -> cifti2.Cifti2Parcel) (l : list A) (m : cifti2.Cifti2MatrixIndicesMap) :
  (forall m x, F m x = cifti2.append_parcel m (g x)) ->
  cifti2.parcels (fold_left F l m) = (cifti2.parcels m ++ map g l)%list /\
  cifti2.surfaces (fold_left F l m) = cifti2.surfaces m /\
  cifti2.volume (fold_left F l m) = cifti2.volume m /\
  cifti2.indices_map_to_data_type (fold_left F l m) = cifti2.indices_map_to_data_type m.
Proof.
  intros HF. revert m. induction l as [|x l IH]; intros m; simpl.
  - rewrite app_nil_r. repeat split.
  - destruct (IH (F m x)) as (H1 & H2 & H3 & H4). rewrite H1, H2, H3, H4, HF. simpl.
    rewrite <- app_assoc. repeat split.
Qed.

(** What [to_mapping] writes. *)
Lemma Parcels_to_mapping_fields (p : Parcels.t) (dim : nat) :
  cifti2.indices_map_to_data_type (Parcels.to_mapping p dim) = "CIFTI_INDEX_TYPE_PARCELS" /\
  cifti2.volume (Parcels.to_mapping p dim) =
    match Parcels.affine p with
    | Some m =>
        Some {| cifti2.volume_dimensions := Parcels.volume_shape p;
                cifti2.transformation_matrix_voxel_indices_ijk_to_xyz :=
                  {| cifti2.meter_exponent := -3; cifti2.matrix := Some m |} |}
    | None => None
    end /\
  cifti2.surfaces (Parcels.to_mapping p dim) =
    map surface_of (map_to_list (Parcels.nvertices p)) /\
  cifti2.parcels (Parcels.to_mapping p dim) = map parcel_of (rows p).
Proof.
  unfold Parcels.to_mapping.
  match goal with
  | |- context [fold_left ?F (zip (zip _ _) _) (fold_left ?G ?l ?m0)] =>
      destruct (fold_left_append_parcel F parcel_of
                  (zip (zip (Parcels.name p) (Parcels.voxels p)) (Parcels.vertices p))
                  (fold_left G l m0)) as (P1 & P2 & P3 & P4);
        [intros m [[? ?] ?]; unfold parcel_of; simpl; do 2 f_equal;
         apply map_ext; intros [? ?]; reflexivity|];
      destruct (fold_left_append_surface G surface_of l m0) as (S1 & S2 & S3 & S4);
        [intros m [? ?]; reflexivity|]
  end.
  rewrite P1, P2, P3, P4, S1, S2, S3, S4.
  destruct (Parcels.affine p); simpl; repeat split.
Qed.

Lemma fold_left_insert_keys {A V} (key : A -> string) (val : A -> V) (l : list A)
    (acc : gmap string V) :
  NoDup (map key l) ->
  fold_left (fun m x => <[key x := val x]> m) l acc =
  list_to_map (map (fun x => (key x, val x)) l) ∪ acc.
Proof.
  revert acc. induction l as [|x l IH]; intros acc Hnd; simpl.
  - rewrite (left_id ∅ (∪)). reflexivity.
  - change (NoDup (key x :: map key l)) in Hnd.
    apply NoDup_cons in Hnd as [Hx Hnd]. rewrite IH by assumption.
    rewrite <- insert_union_l. symmetry. apply insert_union_r.
    apply not_elem_of_list_to_map_1.
    change (key x ∉ map fst (map (fun x => (key x, val x)) l)).
    rewrite map_map. exact Hx.
Qed.

Lemma fold_left_insert_map_to_list {A V} (key : A -> string) (val : A -> V)
    (g : string * V -> A) (m : gmap string V) :
  (forall kv, key (g kv) = kv.1) -> (forall kv, val (g kv) = kv.2) ->
  fold_left (fun acc x => <[key x := val x]> acc) (map g (map_to_list m)) ∅ = m.
Proof.
  intros Hk Hv. rewrite fold_left_insert_keys.
  - rewrite (right_id ∅ (∪)), map_map.
    rewrite (map_ext _ id) by (intros [k v]; rewrite Hk, Hv; reflexivity).
    rewrite map_id. apply list_to_map_to_list.
  - rewrite map_map. rewrite (map_ext _ fst) by (intros kv; apply Hk).
    apply NoDup_fst_map_to_list.
Qed.

Section ParcelsRoundTrip.

Variable nvertices : gmap string Z.

(** The loop of [from_mapping] over the vertices of a parcel. *)
Definition read_vertices (l : list cifti2.Cifti2Vertices) (acc : result (gmap string (list Z)))
    : result (gmap string (list Z)) :=
  fold_left (fun acc vertex =>
               do vs <- acc;
               let name := cifti2.vertices_brain_structure vertex in
               if bool_decide (is_Some (nvertices !! name))
               then Ok (<[ name := cifti2.vertices_indices vertex ]> vs)
               else Raise Parcels.vertices_undefined) l acc.

Lemma read_vertices_Raise (l : list cifti2.Cifti2Vertices) (e : exn) :
  read_vertices l (Raise e) = Raise e.
Proof. induction l as [|x l IH]; simpl; [reflexivity | exact IH]. Qed.

Lemma read_vertices_Ok (l : list cifti2.Cifti2Vertices) (acc : gmap string (list Z)) :
  Forall (fun v => is_Some (nvertices !! cifti2.vertices_brain_structure v)) l ->
  read_vertices l (Ok acc) =
  Ok (fold_left (fun m v => <[cifti2.vertices_brain_structure v :=
                               cifti2.vertices_indices v]> m) l acc).
Proof.
  revert acc. induction l as [|x l IH]; intros acc H; simpl; [reflexivity|].
  apply Forall_cons in H as [Hx Hl]. rewrite bool_decide_eq_true_2 by assumption.
  apply IH, Hl.
Qed.

Lemma read_vertices_undefined (l : list cifti2.Cifti2Vertices) (acc : gmap string (list Z)) :
  Exists (fun v => nvertices !! cifti2.vertices_brain_structure v = None) l ->
  read_vertices l (Ok acc) = Raise Parcels.vertices_undefined.
Proof.
  revert acc. induction l as [|x l IH]; intros acc H; [inversion H|]. simpl.
  case_bool_decide as Hx.
  - apply Exists_cons in H as [H|H]; [rewrite H in Hx; destruct Hx; discriminate|].
    apply IH, H.
  - apply read_vertices_Raise.
Qed.

(** The body of the loop of [from_mapping] over the parcels. *)
Definition read_parcel (parcel : cifti2.Cifti2Parcel)
    : result (string * list (Z * Z * Z) * gmap string (list Z)) :=
  let voxels := map Parcels.wrap_int32_ijk
                    (default [] (cifti2.parcel_voxel_indices_ijk parcel)) in
  do vertices <- read_vertices (cifti2.parcel_vertices parcel) (Ok ∅);
  Ok (cifti2.parcel_name parcel, voxels, vertices).

(** A row with its voxels as the int32 array holds them. *)
Definition wrapped (row : string * list (Z * Z * Z) * gmap string (list Z))
    : string * list (Z * Z * Z) * gmap string (list Z) :=
  (row.1.1, map Parcels.wrap_int32_ijk row.1.2, row.2).

Definition counted (row : string * list (Z * Z * Z) * gmap string (list Z)) : Prop :=
  forall k, is_Some (row.2 !! k) -> is_Some (nvertices !! k).

Lemma read_parcel_of (row : string * list (Z * Z * Z) * gmap string (list Z)) :
  counted row -> read_parcel (parcel_of row) = Ok (wrapped row).
Proof.
  intros Hrow. unfold read_parcel. simpl. rewrite read_vertices_Ok.
  - rewrite (fold_left_insert_map_to_list cifti2.vertices_brain_structure
               cifti2.vertices_indices vertices_of) by reflexivity.
    simpl. destruct row as [[? ?] ?]; reflexivity.
  - apply Forall_fmap, Forall_forall. intros [k v] Hkv. simpl.
    apply Hrow. apply elem_of_map_to_list in Hkv. eauto.
Qed.

Lemma counted_or_not (row : string * list (Z * Z * Z) * gmap string (list Z)) :
  counted row \/
  Exists (fun kv : string * list Z => nvertices !! kv.1 = None) (map_to_list row.2).
Proof.
  destruct (decide (Forall (fun kv : string * list Z => is_Some (nvertices !! kv.1))
                           (map_to_list row.2))) as [Hall|Hnot].
  - left. intros k [v Hv]. rewrite Forall_forall in Hall.
    apply (Hall (k, v)). apply elem_of_map_to_list. exact Hv.
  - right. apply not_Forall_Exists in Hnot; [|intros kv; apply _].
    apply Exists_exists in Hnot as (kv & Hin & Hkv). apply Exists_exists.
    exists kv. split; [exact Hin|].
    destruct (nvertices !! kv.1) eqn:E; [|reflexivity].
    exfalso. apply Hkv. rewrite E. eauto.
Qed.

Lemma read_parcel_undefined (row : string * list (Z * Z * Z) * gmap string (list Z)) :
  ~ counted row -> read_parcel (parcel_of row) = Raise Parcels.vertices_undefined.
Proof.
  intros Hrow. unfold read_parcel. simpl. rewrite read_vertices_undefined; [reflexivity|].
  destruct (counted_or_not row) as [H|H]; [contradiction|].
  apply Exists_fmap. exact H.
Qed.

Lemma mapM_read_parcels_Ok (l : list (string * list (Z * Z * Z) * gmap string (list Z))) :
  Forall counted l -> mapM read_parcel (map parcel_of l) = Ok (map wrapped l).
Proof.
  induction 1 as [|row l Hrow _ IH]; simpl; [reflexivity|].
  rewrite (read_parcel_of row Hrow). simpl. rewrite IH. reflexivity.
Qed.

Lemma mapM_read_parcels_undefined
    (l : list (string * list (Z * Z * Z) * gmap string (list Z))) :
  Exists (fun row => ~ counted row) l ->
  mapM read_parcel (map parcel_of l) = Raise Parcels.vertices_undefined.
Proof.
  induction l as [|row l IH]; intros H; [inversion H|]. simpl.
  destruct (counted_or_not row) as [Hrow|Hrow].
  - rewrite (read_parcel_of row Hrow). simpl.
    apply Exists_cons in H as [H|H]; [contradiction|]. rewrite (IH H). reflexivity.
  - rewrite (read_parcel_undefined row); [reflexivity|].
    intros Hc. apply Exists_exists in Hrow as ([k v] & Hin & Hnone).
    apply elem_of_map_to_list in Hin. destruct (Hc k) as [? ?]; [eauto|].
    simpl in Hnone. congruence.
Qed.

End ParcelsRoundTrip.

Lemma Parcels_from_mapping_unfold (mim : cifti2.Cifti2MatrixIndicesMap) :
  Parcels.from_mapping mim =
  let volume_shape :=
    match cifti2.volume mim with
    | None => None
    | Some v => cifti2.volume_dimensions v
    end in
  let affine :=
    match cifti2.volume mim with
    | None => None
    | Some v => cifti2.matrix (cifti2.transformation_matrix_voxel_indices_ijk_to_xyz v)
    end in
  let nvertices :=
    fold_left (fun nv surface =>
                 <[ cifti2.surface_brain_structure surface :=
                      cifti2.surface_surface_number_of_vertices surface ]> nv)
              (cifti2.surfaces mim) ∅ in
  do rows <- mapM (read_parcel nvertices) (cifti2.parcels mim);
  Parcels.__init__ (map (fun r => r.1.1) rows) (map (fun r => r.1.2) rows)
                   (map (fun r => r.2) rows) affine volume_shape (Some nvertices).
Proof. reflexivity. Qed.

(** An index within int32 is not changed by the int32 array. *)
Lemma wrap_int32_small (z : Z) : - 2 ^ 31 <= z < 2 ^ 31 -> wrap_int32 z = z.
Proof. intros Hz. unfold wrap_int32. rewrite Z.mod_small by lia. lia. Qed.

Definition int32_ijk (v : Z * Z * Z) : Prop :=
  (- 2 ^ 31 <= v.1.1 < 2 ^ 31) /\ (- 2 ^ 31 <= v.1.2 < 2 ^ 31) /\ (- 2 ^ 31 <= v.2 < 2 ^ 31).

Lemma map_wrap_int32_small (l : list (list (Z * Z * Z))) :
  Forall (Forall int32_ijk) l -> map (map Parcels.wrap_int32_ijk) l = l.
Proof.
  induction 1 as [|vox l Hvox _ IH]; simpl; [reflexivity|]. rewrite IH. f_equal.
  induction Hvox as [|[[i j] k] vox (Hi & Hj & Hk) _ IHv]; simpl; [reflexivity|].
  simpl in Hi, Hj, Hk.
  rewrite IHv, (wrap_int32_small i Hi), (wrap_int32_small j Hj), (wrap_int32_small k Hk).
  reflexivity.
Qed.

Lemma rows_columns (p : Parcels.t) :
  length (Parcels.voxels p) = length (Parcels.name p) ->
  length (Parcels.vertices p) = length (Parcels.name p) ->
  map (fun r : string * list (Z * Z * Z) * gmap string (list Z) => r.1.1) (rows p)
    = Parcels.name p /\
  map (fun r : string * list (Z * Z * Z) * gmap string (list Z) => r.1.2) (rows p)
    = Parcels.voxels p /\
  map (fun r : string * list (Z * Z * Z) * gmap string (list Z) => r.2) (rows p)
    = Parcels.vertices p.
Proof.
  intros Hx Ht. unfold rows. split; [|split].
  - rewrite <- (map_map fst fst), map_fst_zip, map_fst_zip; [reflexivity|congruence|].
    rewrite length_zip_with. lia.
  - rewrite <- (map_map fst snd), map_fst_zip, map_snd_zip; [reflexivity|congruence|].
    rewrite length_zip_with. lia.
  - change (map (fun r : string * list (Z * Z * Z) * gmap string (list Z) => r.2)) with
      (map (@snd (string * list (Z * Z * Z)) (gmap string (list Z)))).
    rewrite map_snd_zip; [reflexivity|]. rewrite length_zip_with. lia.
Qed.

(** X24. The mapping of a Parcels axis that the constructor returned is
    read back as follows. When every structure for which a parcel has
    vertices has a vertex count in [nvertices], [from_mapping] returns
    the axis with the names, the vertices, the vertex counts and the
    affine of the original; the voxel indices come back as the int32
    array of [from_mapping] holds them, wrapped around when they are
    outside of int32; the volume shape comes back with the affine and is
    lost without it. So the axis comes back unchanged when its voxel
    indices are within int32 and it has an affine or no volume shape.
    When some parcel has vertices for a structure without a vertex
    count, [to_mapping] writes the axis all the same and [from_mapping]
    raises [ValueError]. *)
Theorem X24_Parcels_roundtrip (vocab : list string) (libm_pow : float -> float -> float)
    n vx vt af sh nv (p : Parcels.t) (dim : nat) :
  Parcels.__init__ n vx vt af sh nv = Ok p ->
  let counted_vertices :=
    forall row k, row ∈ Parcels.vertices p -> is_Some (row !! k) ->
                  is_Some (Parcels.nvertices p !! k) in
  let within_int32 :=
    forall vox i j k, vox ∈ Parcels.voxels p -> (i, j, k) ∈ vox ->
      (- 2 ^ 31 <= i < 2 ^ 31) /\ (- 2 ^ 31 <= j < 2 ^ 31) /\ (- 2 ^ 31 <= k < 2 ^ 31) in
  (counted_vertices ->
   from_mapping vocab libm_pow (Parcels.to_mapping p dim) =
     Ok (AxParcels {| Parcels.name := Parcels.name p;
                      Parcels.voxels :=
                        map (map (fun '(i, j, k) => (wrap_int32 i, wrap_int32 j, wrap_int32 k)))
                            (Parcels.voxels p);
                      Parcels.vertices := Parcels.vertices p;
                      Parcels.affine := Parcels.affine p;
                      Parcels.volume_shape :=
                        match Parcels.affine p with
                        | Some _ => Parcels.volume_shape p
                        | None => None
                        end;
                      Parcels.nvertices := Parcels.nvertices p |})) /\
  (counted_vertices -> within_int32 ->
   Parcels.affine p <> None \/ Parcels.volume_shape p = None ->
   from_mapping vocab libm_pow (Parcels.to_mapping p dim) = Ok (AxParcels p)) /\
  ((exists row k, row ∈ Parcels.vertices p /\ is_Some (row !! k) /\
                  Parcels.nvertices p !! k = None) ->
   from_mapping vocab libm_pow (Parcels.to_mapping p dim) = Raise Parcels.vertices_undefined).
Proof.
  intros Hinit counted_vertices within_int32.
  apply Parcels_init_Ok in Hinit as (Hp & Hlx & Hlt & Haf & Hsh).
  assert (Hlx' : length (Parcels.voxels p) = length (Parcels.name p)) by (subst p; exact Hlx).
  assert (Hlt' : length (Parcels.vertices p) = length (Parcels.name p))
    by (subst p; exact Hlt).
  assert (Haf' : forall m, Parcels.affine p = Some m -> shape_4x4 m = true)
    by (subst p; exact Haf).
  assert (Hsh' : forall v, Parcels.volume_shape p = Some v -> length v = 3%nat)
    by (subst p; exact Hsh).
  clear Hp Hlx Hlt Haf Hsh.
  destruct (Parcels_to_mapping_fields p dim) as (Htag & Hvol & Hsurf & Hpar).
  assert (Hfrom : from_mapping vocab libm_pow (Parcels.to_mapping p dim) =
                  do a <- Parcels.from_mapping (Parcels.to_mapping p dim); Ok (AxParcels a)).
  { unfold from_mapping. rewrite Htag. reflexivity. }
  assert (Hnv : fold_left (fun nv surface =>
                  <[ cifti2.surface_brain_structure surface :=
                       cifti2.surface_surface_number_of_vertices surface ]> nv)
                  (cifti2.surfaces (Parcels.to_mapping p dim)) ∅ = Parcels.nvertices p).
  { rewrite Hsurf.
    apply (fold_left_insert_map_to_list cifti2.surface_brain_structure
             cifti2.surface_surface_number_of_vertices surface_of); reflexivity. }
  assert (Hread : counted_vertices ->
    from_mapping vocab libm_pow (Parcels.to_mapping p dim) =
     Ok (AxParcels {| Parcels.name := Parcels.name p;
                      Parcels.voxels := map (map Parcels.wrap_int32_ijk) (Parcels.voxels p);
                      Parcels.vertices := Parcels.vertices p;
                      Parcels.affine := Parcels.affine p;
                      Parcels.volume_shape :=
                        match Parcels.affine p with
                        | Some _ => Parcels.volume_shape p
                        | None => None
                        end;
                      Parcels.nvertices := Parcels.nvertices p |})).
  { intros Hcount. rewrite Hfrom, Parcels_from_mapping_unfold. cbv zeta.
    rewrite Hnv, Hpar, Hvol.
    rewrite mapM_read_parcels_Ok.
    2:{ apply Forall_forall. intros [[nm vox] vert] Hrow k Hk. simpl in Hk.
        apply (Hcount vert k); [|exact Hk]. unfold rows in Hrow.
        apply elem_of_zip_r in Hrow. exact Hrow. }
    cbn [bind]. rewrite !map_map. unfold wrapped. cbn [fst snd].
    destruct (rows_columns p Hlx' Hlt') as (Hc1 & Hc2 & Hc3).
    rewrite Hc1, Hc3.
    rewrite <- (map_map (fun r : string * list (Z * Z * Z) * gmap string (list Z) => r.1.2)
                        (map Parcels.wrap_int32_ijk)), Hc2.
    assert (Hlw : length (map (map Parcels.wrap_int32_ijk) (Parcels.voxels p)) =
                  length (Parcels.name p)) by (rewrite length_map; exact Hlx').
    destruct (Parcels.affine p) as [m|] eqn:Hm; simpl.
    - assert (Hm4 : forall m', Some m = Some m' -> shape_4x4 m' = true).
      { intros m' Hm'. injection Hm' as <-. apply Haf'. reflexivity. }
      rewrite (Parcels_init_of_valid _ _ _ _ _ _ Hlw Hlt' Hm4 Hsh'). reflexivity.
    - rewrite (Parcels_init_of_valid _ _ _ None None _ Hlw Hlt')
        by discriminate. reflexivity. }
  split; [|split].
  - intros Hcount. rewrite (Hread Hcount). reflexivity.
  - intros Hcount Hrange Hvolume. rewrite (Hread Hcount). f_equal. f_equal.
    rewrite map_wrap_int32_small.
    2:{ apply Forall_forall. intros vox Hvox. apply Forall_forall. intros [[i j] k] Hv.
        apply (Hrange vox i j k Hvox Hv). }
    destruct p as [pn pvx pvt paf psh pnv]. simpl in *.
    destruct paf as [m|]; [reflexivity|].
    destruct Hvolume as [Hvolume | ->]; [congruence | reflexivity].
  - intros (row & k & Hrow & Hk & Hnone).
    rewrite Hfrom, Parcels_from_mapping_unfold. cbv zeta. rewrite Hnv, Hpar.
    rewrite mapM_read_parcels_undefined; [reflexivity|].
    apply list_elem_of_lookup in Hrow as [i Hi].
    destruct (lookup_lt_is_Some_2 (Parcels.name p) i) as [nm Hnm];
      [rewrite <- Hlt'; eapply lookup_lt_Some; eassumption|].
    destruct (lookup_lt_is_Some_2 (Parcels.voxels p) i) as [vox Hvox];
      [rewrite Hlx', <- Hlt'; eapply lookup_lt_Some; eassumption|].
    apply Exists_exists. exists (nm, vox, row). split.
    + apply list_elem_of_lookup. exists i. unfold rows.
      apply lookup_zip_with_Some. exists (nm, vox), row. split; [reflexivity|].
      split; [|exact Hi]. apply lookup_zip_with_Some. exists nm, vox. auto.
    + intros Hc. destruct (Hc k Hk) as [? ?]. congruence.
Qed.

(** A parcel with vertices of the left cortex on an axis without vertex
    counts. *)
Definition uncounted_parcel : Parcels.t :=
  {| Parcels.name := ["a"]; Parcels.voxels := [[]];
     Parcels.vertices := [{[ "CIFTI_STRUCTURE_CORTEX_LEFT" := [3; 4] ]}];
     Parcels.affine := None; Parcels.volume_shape := None;
     Parcels.nvertices := ∅ |}.

Lemma X24_Parcels_roundtrip_witness :
  from_mapping some_structures unused_pow (Parcels.to_mapping one_parcel 0)
    = Ok (AxParcels one_parcel) /\
  from_mapping some_structures unused_pow (Parcels.to_mapping uncounted_parcel 0)
    = Raise Parcels.vertices_undefined.
Proof.
  split.
  - apply (proj1 (proj2 (X24_Parcels_roundtrip some_structures unused_pow
             ["a"] [[(0, 0, 1); (1, 0, 1)]] [{[ "CIFTI_STRUCTURE_CORTEX_LEFT" := [3; 4] ]}]
             (Some identity4) (Some [2; 2; 2]) (Some {[ "CIFTI_STRUCTURE_CORTEX_LEFT" := 10 ]})
             one_parcel 0 eq_refl))).
    + intros row k Hrow Hk. simpl in Hrow. apply list_elem_of_singleton in Hrow as ->.
      destruct (decide (k = "CIFTI_STRUCTURE_CORTEX_LEFT")) as [->|Hne].
      * eexists. reflexivity.
      * rewrite lookup_singleton_ne in Hk by congruence. destruct Hk; discriminate.
    + intros vox i j k Hvox Hv. simpl in Hvox. apply list_elem_of_singleton in Hvox as ->.
      repeat (apply elem_of_cons in Hv as [Hv|Hv]; [injection Hv as -> -> ->; lia|]).
      inversion Hv.
    + left. discriminate.
  - apply (proj2 (proj2 (X24_Parcels_roundtrip some_structures unused_pow
             ["a"] [[]] [{[ "CIFTI_STRUCTURE_CORTEX_LEFT" := [3; 4] ]}]
             None None None uncounted_parcel 0 eq_refl))).
    exists {[ "CIFTI_STRUCTURE_CORTEX_LEFT" := [3; 4] ]}, "CIFTI_STRUCTURE_CORTEX_LEFT".
    split; [left|]. split; [eexists|]; reflexivity.
Defined.

(** Outside of int32 the round trip wraps: the voxel [(2^31, 0, 0)] comes
    back as [(-2^31, 0, 0)]. *)
Lemma Parcels_roundtrip_wraps :
  from_mapping some_structures unused_pow
    (Parcels.to_mapping (parcel_with_voxels [(2 ^ 31, 0, 0)]) 0)
  = Ok (AxParcels (parcel_with_voxels [(- 2 ^ 31, 0, 0)])).
Proof. vm_compute. reflexivity. Qed.

(** The positions of a name among the names, from the position [st] on. *)
Definition where_from (st : nat) (names : list string) (it : string) : list nat :=
  omap (fun '(i, n) => if String.eqb n it then Some i else None)
       (zip (seq st (length names)) names).

Lemma where_name_from (names : list string) (it : string) :
  Parcels.where_name names it = where_from 0 names it.
Proof. reflexivity. Qed.

Lemma where_from_cons (st : nat) (x : string) (names : list string) (it : string) :
  where_from st (x :: names) it =
  if String.eqb x it then st :: where_from (S st) names it else where_from (S st) names it.
Proof. unfold where_from. simpl. destruct (String.eqb x it); reflexivity. Qed.

Lemma where_from_app (st : nat) (l1 l2 : list string) (it : string) :
  where_from st (l1 ++ l2) it =
  (where_from st l1 it ++ where_from (st + length l1) l2 it)%list.
Proof.
  revert st. induction l1 as [|x l1 IH]; intros st.
  - simpl. rewrite Nat.add_0_r. reflexivity.
  - change ((x :: l1) ++ l2)%list with (x :: (l1 ++ l2))%list.
    rewrite !where_from_cons, IH. cbn [length].
    replace (st + S (length l1))%nat with (S st + length l1)%nat by lia.
    destruct (String.eqb x it); reflexivity.
Qed.

Lemma where_from_none (st : nat) (names : list string) (it : string) :
  it ∉ names -> where_from st names it = [].
Proof.
  revert st. induction names as [|x names IH]; intros st Hn; [reflexivity|].
  rewrite where_from_cons. apply not_elem_of_cons in Hn as [Hx Hn].
  destruct (String.eqb_spec x it); [congruence|]. apply IH, Hn.
Qed.

Lemma where_from_bound (st : nat) (names : list string) (it : string) (i : nat) :
  i ∈ where_from st names it -> (st <= i < st + length names)%nat.
Proof.
  revert st. induction names as [|x names IH]; intros st Hi.
  - inversion Hi.
  - rewrite where_from_cons in Hi. simpl.
    destruct (String.eqb x it).
    + apply elem_of_cons in Hi as [->|Hi]; [lia|]. apply IH in Hi. lia.
    + apply IH in Hi. lia.
Qed.

Lemma where_from_some (st : nat) (names : list string) (it : string) (i : nat) :
  names !! i = Some it -> (st + i)%nat ∈ where_from st names it.
Proof.
  revert st i. induction names as [|x names IH]; intros st i Hi; [destruct i; discriminate|].
  rewrite where_from_cons. destruct i as [|i]; simpl in Hi.
  - injection Hi as ->. rewrite str_eqb_refl, Nat.add_0_r. left.
  - replace (st + S i)%nat with (S st + i)%nat by lia.
    destruct (String.eqb x it); [right|]; apply IH, Hi.
Qed.

Lemma where_from_unique (st : nat) (names : list string) (it : string) (i : nat) :
  names !! i = Some it -> (forall j, names !! j = Some it -> j = i) ->
  where_from st names it = [(st + i)%nat].
Proof.
  revert st i. induction names as [|x names IH]; intros st i Hi Huniq;
    [destruct i; discriminate|].
  rewrite where_from_cons. destruct i as [|i]; simpl in Hi.
  - injection Hi as ->. rewrite str_eqb_refl, Nat.add_0_r. f_equal.
    apply where_from_none. intros Hin. apply list_elem_of_lookup in Hin as [j Hj].
    specialize (Huniq (S j) Hj). discriminate.
  - destruct (String.eqb_spec x it) as [->|Hne].
    + specialize (Huniq 0%nat eq_refl). discriminate.
    + replace (st + S i)%nat with (S st + i)%nat by lia. apply IH; [exact Hi|].
      intros j Hj. specialize (Huniq (S j) Hj). lia.
Qed.

Lemma where_from_twice (st : nat) (names : list string) (it : string) (i j : nat) :
  (i < j)%nat -> names !! i = Some it -> names !! j = Some it ->
  exists p q rest, where_from st names it = p :: q :: rest.
Proof.
  revert st i j. induction names as [|x names IH]; intros st i j Hij Hi Hj;
    [destruct i; discriminate|].
  rewrite where_from_cons. destruct j as [|j]; [lia|]. simpl in Hj.
  assert (Hrest : exists q rest, where_from (S st) names it = q :: rest).
  { pose proof (where_from_some (S st) names it j Hj) as Hin.
    destruct (where_from (S st) names it) as [|q rest]; [inversion Hin | eauto]. }
  destruct i as [|i]; simpl in Hi.
  - injection Hi as ->. rewrite str_eqb_refl.
    destruct Hrest as (q & rest & ->). eauto.
  - destruct (IH (S st) i j ltac:(lia) Hi Hj) as (p & q & rest & Heq). rewrite Heq.
    destruct (String.eqb x it); eauto.
Qed.

(** X25. Indexing a Parcels axis that the constructor returned with a
    name: when no parcel has the name, [IndexError] is raised; when
    exactly one parcel has it, the voxels and the vertices of that
    parcel are returned; when two parcels have it, [IndexError] is
    raised. *)
Theorem X25_Parcels_getitem_name n vx vt af sh nv (p : Parcels.t) (s : string) :
  Parcels.__init__ n vx vt af sh nv = Ok p ->
  (s ∉ Parcels.name p -> Parcels.__getitem__ p (ItemStr s) = Raise Parcels.not_found) /\
  (forall i, Parcels.name p !! i = Some s ->
     (forall j, Parcels.name p !! j = Some s -> j = i) ->
     exists vox vert,
       Parcels.voxels p !! i = Some vox /\ Parcels.vertices p !! i = Some vert /\
       Parcels.__getitem__ p (ItemStr s) = Ok (Parcels.Named (vox, vert))) /\
  (forall i j, i <> j -> Parcels.name p !! i = Some s -> Parcels.name p !! j = Some s ->
     Parcels.__getitem__ p (ItemStr s) = Raise Parcels.multiple_found).
Proof.
  intros Hinit. apply Parcels_init_Ok in Hinit as (-> & Hlx & Hlt & _). simpl.
  rewrite where_name_from. split; [|split].
  - intros Hs. rewrite where_from_none by assumption. reflexivity.
  - intros i Hi Huniq. rewrite (where_from_unique 0 n s i Hi Huniq). simpl.
    pose proof (lookup_lt_Some _ _ _ Hi) as Hlt'.
    destruct (lookup_lt_is_Some_2 vx i) as [vox Hvox]; [lia|].
    destruct (lookup_lt_is_Some_2 vt i) as [vert Hvert]; [lia|].
    exists vox, vert. split; [exact Hvox|]. split; [exact Hvert|].
    rewrite (getindex_lookup _ _ _ Hvox), (getindex_lookup _ _ _ Hvert). reflexivity.
  - intros i j Hij Hi Hj.
    assert (Htwo : exists a b rest, where_from 0 n s = a :: b :: rest).
    { destruct (decide (i < j)%nat).
      - eapply (where_from_twice 0 n s i j); (lia || assumption).
      - eapply (where_from_twice 0 n s j i); (lia || assumption). }
    destruct Htwo as (a & b & rest & ->). reflexivity.
Qed.

(** Two parcels, named [a] and [b], with one voxel each. *)
Definition parcels_a_b : Parcels.t :=
  {| Parcels.name := ["a"; "b"];
     Parcels.voxels := [[(0, 0, 1)]; [(1, 0, 1)]];
     Parcels.vertices := [∅; ∅];
     Parcels.affine := Some identity4;
     Parcels.volume_shape := Some [2; 2; 2];
     Parcels.nvertices := ∅ |}.

Lemma parcels_a_b_init :
  Parcels.__init__ ["a"; "b"] [[(0, 0, 1)]; [(1, 0, 1)]] [∅; ∅]
    (Some identity4) (Some [2; 2; 2]) None = Ok parcels_a_b.
Proof. reflexivity. Qed.

Lemma X25_Parcels_getitem_name_witness :
  Parcels.__getitem__ parcels_a_b (ItemStr "c") = Raise Parcels.not_found /\
  Parcels.__getitem__ parcels_a_b (ItemStr "b") = Ok (Parcels.Named ([(1, 0, 1)], ∅)).
Proof.
  destruct (X25_Parcels_getitem_name _ _ _ _ _ _ parcels_a_b "c" parcels_a_b_init)
    as (Hnone & _ & _).
  destruct (X25_Parcels_getitem_name _ _ _ _ _ _ parcels_a_b "b" parcels_a_b_init)
    as (_ & Hone & _).
  split.
  - apply Hnone. simpl. intros Hin.
    repeat (apply elem_of_cons in Hin as [Hin|Hin]; [discriminate|]). inversion Hin.
  - destruct (Hone 1%nat eq_refl) as (vox & vert & Hvox & Hvert & Hget).
    + intros [|[|j]] Hj; simpl in Hj; try discriminate; reflexivity.
    + simpl in Hvox, Hvert. injection Hvox as <-. injection Hvert as <-. exact Hget.
Defined.

(** X26. The sum of two Parcels axes that the constructor returned,
    when the vertex counts of the two do not conflict and their volumes
    are not told apart (one of them has no affine, or the volume shapes
    are equal and the affines agree in some entry): [+] returns the axis
    with the parcels of the first followed by the parcels of the second,
    the affine and the volume shape of the first when it has an affine
    and those of the second otherwise, and the vertex counts of both.
    A name that the second axis does not have is looked up in the sum
    as in the first axis. *)
Theorem X26_Parcels_add n1 vx1 vt1 af1 sh1 nv1 n2 vx2 vt2 af2 sh2 nv2 (a b : Parcels.t) :
  Parcels.__init__ n1 vx1 vt1 af1 sh1 nv1 = Ok a ->
  Parcels.__init__ n2 vx2 vt2 af2 sh2 nv2 = Ok b ->
  (forall k c c', Parcels.nvertices a !! k = Some c -> Parcels.nvertices b !! k = Some c' ->
                  c = c') ->
  (forall ma mb, Parcels.affine a = Some ma -> Parcels.affine b = Some mb ->
                 matrix_all_ne mb ma = false /\
                 Parcels.volume_shape b = Parcels.volume_shape a) ->
  exists c,
    Parcels.__add__ a b = Ok c /\
    Parcels.name c = (Parcels.name a ++ Parcels.name b)%list /\
    Parcels.voxels c = (Parcels.voxels a ++ Parcels.voxels b)%list /\
    Parcels.vertices c = (Parcels.vertices a ++ Parcels.vertices b)%list /\
    Parcels.__len__ c = (Parcels.__len__ a + Parcels.__len__ b)%nat /\
    Parcels.affine c = match Parcels.affine a with
                       | Some m => Some m
                       | None => Parcels.affine b
                       end /\
    Parcels.volume_shape c = match Parcels.affine a with
                             | Some _ => Parcels.volume_shape a
                             | None => Parcels.volume_shape b
                             end /\
    Parcels.nvertices c = Parcels.nvertices b ∪ Parcels.nvertices a /\
    (forall s, s ∉ Parcels.name b ->
       Parcels.__getitem__ c (ItemStr s) = Parcels.__getitem__ a (ItemStr s)).
Proof.
  intros Ha Hb Hcounts Hvolume.
  apply Parcels_init_Ok in Ha as (-> & Hlx1 & Hlt1 & Haf1 & Hsh1).
  apply Parcels_init_Ok in Hb as (-> & Hlx2 & Hlt2 & Haf2 & Hsh2).
  unfold Parcels.__add__. cbn [Parcels.name Parcels.voxels Parcels.vertices Parcels.affine
    Parcels.volume_shape Parcels.nvertices] in *.
  rewrite (merge_nvertices_Ok _ _ _ Hcounts).
  set (aff := match af1 with Some m => Some m | None => af2 end).
  set (shp := match af1 with Some _ => sh1 | None => sh2 end).
  assert (Hvol : match af1 with
                 | Some a0 =>
                     match af2 with
                     | Some b0 =>
                         if matrix_all_ne b0 a0 || negb (bool_decide (sh2 = sh1))
                         then Raise Parcels.different_volume
                         else Ok (Some a0, sh1)
                     | None => Ok (Some a0, sh1)
                     end
                 | None => Ok (af2, sh2)
                 end = Ok (aff, shp)).
  { unfold aff, shp. destruct af1 as [ma|]; [|reflexivity].
    destruct af2 as [mb|]; [|reflexivity].
    destruct (Hvolume ma mb eq_refl eq_refl) as [-> ->].
    rewrite bool_decide_eq_true_2 by reflexivity. reflexivity. }
  rewrite Hvol. cbn [bind].
  rewrite Parcels_init_of_valid.
  - eexists. split; [reflexivity|]. unfold Parcels.__len__.
    cbn [Parcels.name Parcels.voxels Parcels.vertices Parcels.affine
         Parcels.volume_shape Parcels.nvertices].
    rewrite length_app. repeat split.
    intros s Hs. unfold Parcels.__getitem__.
    cbn [Parcels.name Parcels.voxels Parcels.vertices].
    change (Parcels.where_name (n1 ++ n2) s) with (where_from 0 (n1 ++ n2) s).
    change (Parcels.where_name n1 s) with (where_from 0 n1 s).
    rewrite where_from_app.
    rewrite (where_from_none _ n2 s Hs), app_nil_r.
    destruct (where_from 0 n1 s) as [|i [|j rest]] eqn:Hw; try reflexivity.
    assert (Hi : (i < length n1)%nat).
    { assert (Hin : i ∈ where_from 0 n1 s) by (rewrite Hw; left).
      apply where_from_bound in Hin. lia. }
    destruct (lookup_lt_is_Some_2 vx1 i) as [vox Hvox]; [lia|].
    destruct (lookup_lt_is_Some_2 vt1 i) as [vert Hvert]; [lia|].
    rewrite (getindex_lookup (vx1 ++ vx2) i vox) by (rewrite lookup_app_l by lia; exact Hvox).
    rewrite (getindex_lookup (vt1 ++ vt2) i vert)
      by (rewrite lookup_app_l by lia; exact Hvert).
    rewrite (getindex_lookup _ _ _ Hvox), (getindex_lookup _ _ _ Hvert). reflexivity.
  - rewrite !length_app. lia.
  - rewrite !length_app. lia.
  - unfold aff. destruct af1 as [m|]; [|exact Haf2]. exact Haf1.
  - unfold shp. destruct af1 as [m|]; [exact Hsh1 | exact Hsh2].
Qed.

Lemma X26_Parcels_add_witness :
  exists c,
    Parcels.__add__ parcels_a_b one_parcel = Ok c /\
    Parcels.name c = ["a"; "b"; "a"] /\
    Parcels.__getitem__ c (ItemStr "b") = Parcels.__getitem__ parcels_a_b (ItemStr "b").
Proof.
  destruct (X26_Parcels_add _ _ _ _ _ _
              ["a"] [[(0, 0, 1); (1, 0, 1)]] [{[ "CIFTI_STRUCTURE_CORTEX_LEFT" := [3; 4] ]}]
              (Some identity4) (Some [2; 2; 2]) (Some {[ "CIFTI_STRUCTURE_CORTEX_LEFT" := 10 ]})
              parcels_a_b one_parcel parcels_a_b_init eq_refl)
    as (c & Hc & Hn & _ & _ & _ & _ & _ & _ & Hget).
  - intros k x y Hx. simpl in Hx. rewrite lookup_empty in Hx. discriminate.
  - intros ma mb Hma Hmb. simpl in Hma, Hmb. injection Hma as <-. injection Hmb as <-.
    split; reflexivity.
  - exists c. split; [exact Hc|]. split; [exact Hn|]. apply Hget. simpl. intros Hin.
    apply list_elem_of_singleton in Hin. discriminate.
Defined.

(** ** The header and the dispatch of [from_mapping] *)

Lemma concat_register (l : list cifti2.Cifti2MatrixIndicesMap) (p d : nat)
    (m : cifti2.Cifti2MatrixIndicesMap) :
  l !! p = Some m ->
  concat (map cifti2.applies_to_matrix_dimension
            (alter (fun mim => cifti2.register_dimension mim d) p l)) ≡ₚ
  (concat (map cifti2.applies_to_matrix_dimension l) ++ [d])%list.
Proof.
  revert p. induction l as [|x l IH]; intros p Hp; [destruct p; discriminate|].
  destruct p as [|p]; simpl in *.
  - rewrite <- !app_assoc. apply Permutation_app_head, Permutation_app_comm.
  - rewrite (IH p Hp), app_assoc. reflexivity.
Qed.

Lemma Forall_alter_register (l : list cifti2.Cifti2MatrixIndicesMap) (p d : nat) :
  Forall (fun m => cifti2.applies_to_matrix_dimension m <> []) l ->
  Forall (fun m => cifti2.applies_to_matrix_dimension m <> [])
         (alter (fun mim => cifti2.register_dimension mim d) p l).
Proof.
  intros H. revert p. induction H as [|x l Hx Hl IH]; intros p; [constructor|].
  destruct p as [|p]; simpl; constructor; try assumption.
  - simpl. destruct (cifti2.applies_to_matrix_dimension x); discriminate.
  - apply IH.
Qed.

(** What the loop of [to_header] keeps: the dimensions that the
    mappings list are the positions that were visited, each once. *)
Definition dimensions_listed (st : header_state) (d : nat) : Prop :=
  concat (map cifti2.applies_to_matrix_dimension (matrix st)) ≡ₚ seq 0 d /\
  (length (matrix st) <= d)%nat /\
  Forall (fun m => cifti2.applies_to_matrix_dimension m <> []) (matrix st).

Section HeaderDimensions.

Variable CIFTI_BRAIN_STRUCTURES : list string.
Variable axes : list object.

Lemma to_header_step_dimensions (st st' : header_state) (d : nat) (x : object) :
  length (mims_all st) = d -> pointers_valid st -> dimensions_listed st d ->
  to_header_step CIFTI_BRAIN_STRUCTURES axes st d x = Ok st' ->
  dimensions_listed st' (S d).
Proof.
  intros Hlen Hvalid (Hperm & Hle & Hne) H. unfold to_header_step in H. inv_bind H.
  unfold dimensions_listed. rewrite seq_S. simpl.
  destruct x0 as [|].
  - inv_bind H. destruct (mims_all st !! x0) as [p|] eqn:Hp; [|discriminate].
    injection H as <-. simpl.
    assert (Hpv : (p < length (matrix st))%nat).
    { apply Hvalid. apply list_elem_of_lookup. eauto. }
    destruct (lookup_lt_is_Some_2 (matrix st) p Hpv) as [m Hm].
    split; [|split].
    + rewrite (concat_register _ _ _ _ Hm), Hperm. reflexivity.
    + rewrite length_alter. lia.
    + apply Forall_alter_register, Hne.
  - inv_bind H. injection H as <-. simpl.
    pose proof (to_mapping_applies_to _ _ _ _ Hx0) as Hdim.
    split; [|split].
    + rewrite map_app, concat_app. simpl. rewrite Hdim, Hperm. reflexivity.
    + rewrite length_app. simpl. lia.
    + apply Forall_app. split; [exact Hne|]. constructor; [|constructor].
      rewrite Hdim. discriminate.
Qed.

Lemma to_header_loop_dimensions (rest : list object) (st st' : header_state) (d : nat) :
  length (mims_all st) = d -> pointers_valid st -> dimensions_listed st d ->
  to_header_loop CIFTI_BRAIN_STRUCTURES axes st d rest = Ok st' ->
  dimensions_listed st' (d + length rest).
Proof.
  revert st d. induction rest as [|ax rest IH]; intros st d Hlen Hvalid Hinv H.
  - simpl in H. injection H as <-. rewrite Nat.add_0_r. exact Hinv.
  - simpl in H. inv_bind H. rename x into st1.
    destruct (to_header_step_spec CIFTI_BRAIN_STRUCTURES axes st st1 d ax Hlen Hvalid Hx)
      as ((p & Hp) & Hvalid1 & _).
    replace (d + length (ax :: rest))%nat with (S d + length rest)%nat by (simpl; lia).
    apply (IH st1 (S d)); try assumption.
    + rewrite Hp, length_app. simpl. lia.
    + eapply to_header_step_dimensions; eassumption.
Qed.

End HeaderDimensions.

(** X27. In the header that [to_header] returns for [n] axes every
    dimension [0], ..., [n - 1] is listed by exactly one mapping, and
    by that mapping once; there are at most [n] mappings, and none of
    them is without a dimension. *)
Theorem X27_to_header_dimensions (vocab : list string) (axes : list object)
    (mims : list cifti2.Cifti2MatrixIndicesMap) :
  to_header vocab axes = Ok mims ->
  concat (map cifti2.applies_to_matrix_dimension mims) ≡ₚ seq 0 (length axes) /\
  (length mims <= length axes)%nat /\
  Forall (fun m => cifti2.applies_to_matrix_dimension m <> []) mims.
Proof.
  unfold to_header, to_header_state. intros H. inv_bind H. injection H as <-.
  apply (to_header_loop_dimensions vocab axes axes {| mims_all := []; matrix := [] |} x 0).
  - reflexivity.
  - intros p Hp. inversion Hp.
  - unfold dimensions_listed. simpl. split; [reflexivity|]. split; [lia | constructor].
  - exact Hx.
Qed.

Lemma X27_to_header_dimensions_witness :
  exists mims,
    to_header some_structures four_axes = Ok mims /\
    concat (map cifti2.applies_to_matrix_dimension mims) ≡ₚ seq 0 4.
Proof.
  eexists. split; [reflexivity|].
  apply (X27_to_header_dimensions some_structures four_axes). reflexivity.
Defined.

(** The type tag of the mappings of each class of axes. *)
Definition tag_of (ax : Axis) : string :=
  match ax with
  | AxScalar _ => "CIFTI_INDEX_TYPE_SCALARS"
  | AxLabel _ => "CIFTI_INDEX_TYPE_LABELS"
  | AxSeries _ => "CIFTI_INDEX_TYPE_SERIES"
  | AxBrainModel _ => "CIFTI_INDEX_TYPE_BRAIN_MODELS"
  | AxParcels _ => "CIFTI_INDEX_TYPE_PARCELS"
  end.

Lemma from_mapping_tag (vocab : list string) (libm_pow : float -> float -> float) (mim : cifti2.Cifti2MatrixIndicesMap)
    (ax : Axis) :
  from_mapping vocab libm_pow mim = Ok ax -> cifti2.indices_map_to_data_type mim = tag_of ax.
Proof.
  unfold from_mapping.
  repeat match goal with
         | |- context [String.eqb ?a ?b] => destruct (String.eqb_spec a b) as [Heq|]
         end; intros H; try discriminate; inv_bind H; injection H as <-; exact Heq.
Qed.

Lemma to_mapping_tag (vocab : list string) (ax : Axis) (dim : nat)
    (mim : cifti2.Cifti2MatrixIndicesMap) :
  Axis_to_mapping vocab ax dim = Ok mim -> cifti2.indices_map_to_data_type mim = tag_of ax.
Proof.
  destruct ax as [a|a|a|a|a]; simpl; intros H.
  - unfold BrainModel.to_mapping in H. inv_bind H. injection H as <-.
    apply (to_mapping_fold a x (cifti2.new dim "CIFTI_INDEX_TYPE_BRAIN_MODELS")).
  - injection H as <-. apply Parcels_to_mapping_fields.
  - injection H as <-. unfold Scalar.to_mapping.
    rewrite fold_left_tag by (intros m [? ?]; reflexivity). reflexivity.
  - injection H as <-. unfold Label.to_mapping.
    rewrite fold_left_tag by (intros m [[? ?] ?]; reflexivity). reflexivity.
  - injection H as <-. reflexivity.
Qed.

(** X28. [from_mapping] chooses the class of the axis by the type tag of
    the mapping: a tag that is none of the five known ones raises
    [KeyError]; an axis that is returned has the class of the tag. The
    mapping that [to_mapping(dim)] writes for an axis has the tag of the
    class of the axis and lists the dimension [dim] alone, so that
    [from_mapping], when it returns, returns an axis of the class that
    was written. *)
Theorem X28_from_mapping_dispatch (vocab : list string) (libm_pow : float -> float -> float) :
  (forall mim,
     cifti2.indices_map_to_data_type mim ∉
       ["CIFTI_INDEX_TYPE_SCALARS"; "CIFTI_INDEX_TYPE_LABELS"; "CIFTI_INDEX_TYPE_SERIES";
        "CIFTI_INDEX_TYPE_BRAIN_MODELS"; "CIFTI_INDEX_TYPE_PARCELS"] ->
     from_mapping vocab libm_pow mim = Raise (KeyError (cifti2.indices_map_to_data_type mim))) /\
  (forall mim ax, from_mapping vocab libm_pow mim = Ok ax ->
     cifti2.indices_map_to_data_type mim = tag_of ax) /\
  (forall ax dim mim, Axis_to_mapping vocab ax dim = Ok mim ->
     cifti2.indices_map_to_data_type mim = tag_of ax /\
     cifti2.applies_to_matrix_dimension mim = [dim] /\
     forall ax', from_mapping vocab libm_pow mim = Ok ax' -> tag_of ax' = tag_of ax).
Proof.
  split; [|split].
  - intros mim Htag. unfold from_mapping.
    repeat match goal with
           | |- context [String.eqb ?a ?b] => destruct (String.eqb_spec a b) as [Heq|]
           end; try reflexivity; exfalso; apply Htag; rewrite Heq;
      repeat (try (left; fail); right).
  - apply from_mapping_tag.
  - intros ax dim mim H. pose proof (to_mapping_tag _ _ _ _ H) as Htag.
    split; [exact Htag|]. split; [eapply to_mapping_applies_to, H|].
    intros ax' H'. apply from_mapping_tag in H'. congruence.
Qed.

Lemma X28_from_mapping_dispatch_witness :
  from_mapping some_structures unused_pow (cifti2.new 0 "CIFTI_INDEX_TYPE_OTHER") =
    Raise (KeyError "CIFTI_INDEX_TYPE_OTHER").
Proof.
  apply (proj1 (X28_from_mapping_dispatch some_structures unused_pow)
               (cifti2.new 0 "CIFTI_INDEX_TYPE_OTHER")).
  simpl. intros Hin.
  repeat (apply elem_of_cons in Hin as [Hin|Hin]; [discriminate|]). inversion Hin.
Defined.

(** ** Parcels from brain models *)

Lemma fold_left_Raise {A B} (f : result A -> B -> result A) (l : list B) (e : exn) :
  (forall x, f (Raise e) x = Raise e) -> fold_left f l (Raise e) = Raise e.
Proof. intros Hf. induction l as [|x l IH]; simpl; [reflexivity|]. rewrite Hf. exact IH. Qed.

(** The number of volumetric elements of a brain model: the number of
    rows of [bm.voxel[~bm.is_surface]]. *)
Definition volume_count (bm : BrainModel.t) : nat :=
  length (filter (fun n => BrainModel.nvertices bm !! n = None) (BrainModel.name bm)).

Lemma getmask_volume_length {A} (nv : gmap string Z) (names : list string) (l r : list A) :
  getmask l (map negb (map (fun n => bool_decide (is_Some (nv !! n))) names)) = Ok r ->
  length r = length (filter (fun n => nv !! n = None) names).
Proof.
  revert l r. induction names as [|n names IH]; intros [|x l] r H; simpl in H;
    try discriminate.
  - injection H as <-. reflexivity.
  - inv_bind H. injection H as <-. rewrite filter_cons.
    destruct (nv !! n) as [c|] eqn:E.
    + rewrite bool_decide_eq_true_2 by eauto. simpl. eapply IH; eassumption.
    + rewrite bool_decide_eq_false_2 by (intros [? ?]; discriminate). simpl.
      f_equal. eapply IH; eassumption.
Qed.

(** [np.asarray] stacks a list of arrays of one length, unless the list
    is empty. *)
Lemma stacked_of_equal_lengths (l : list (list (Z * Z * Z))) (n : nat) :
  l <> [] -> Forall (fun vox => length vox = n) l -> Parcels.stacked l = true.
Proof.
  intros Hne Hall. destruct l as [|v rest]; [congruence|]. simpl.
  apply Forall_cons in Hall as [Hv Hrest]. apply forallb_forall. intros w Hw.
  apply list_elem_of_In in Hw. rewrite Forall_forall in Hrest.
  rewrite (Hrest w Hw), Hv. apply Nat.eqb_refl.
Qed.

Section FromBrainModels.

Variable CIFTI_BRAIN_STRUCTURES : list string.

(** The body of the loop of [from_brain_models] over the structures of
    a brain model. *)
Definition collect_vertices (bm : BrainModel.t)
    (acc : result (gmap string Z * gmap string (list Z)))
    (structure : string * slice * BrainModel.t)
    : result (gmap string Z * gmap string (list Z)) :=
  let '(name, _, bm_part) := structure in
  do '(nvertices, vertices) <- acc;
  match BrainModel.nvertices bm !! name with
  | Some n =>
      match nvertices !! name with
      | Some n' =>
          if negb (bool_decide (n' = n)) then Raise conflicting_vertices
          else Ok (<[name := n]> nvertices,
                   <[name := BrainModel.vertex bm_part]> vertices)
      | None => Ok (<[name := n]> nvertices,
                    <[name := BrainModel.vertex bm_part]> vertices)
      end
  | None => Ok (nvertices, vertices)
  end.

Lemma collect_vertices_Raise (bm : BrainModel.t) (e : exn)
    (ys : list (string * slice * BrainModel.t)) :
  fold_left (collect_vertices bm) ys (Raise e) = Raise e.
Proof. apply fold_left_Raise. intros [[? ?] ?]. reflexivity. Qed.

Lemma collect_vertices_spec (bm : BrainModel.t) (ys : list (string * slice * BrainModel.t))
    (nv0 nv1 : gmap string Z) (vt0 vt1 : gmap string (list Z)) :
  fold_left (collect_vertices bm) ys (Ok (nv0, vt0)) = Ok (nv1, vt1) ->
  (forall k c, nv0 !! k = Some c -> nv1 !! k = Some c) /\
  (forall y c, y ∈ ys -> BrainModel.nvertices bm !! y.1.1 = Some c ->
               nv1 !! y.1.1 = Some c) /\
  (forall k, is_Some (vt1 !! k) <->
             is_Some (vt0 !! k) \/
             (is_Some (BrainModel.nvertices bm !! k) /\ exists y, y ∈ ys /\ y.1.1 = k)).
Proof.
  revert nv0 vt0. induction ys as [|[[n sl] part] ys IH]; intros nv0 vt0 H.
  - simpl in H. injection H as <- <-. split; [auto|]. split.
    + intros y c Hy. inversion Hy.
    + intros k. split; [auto|]. intros [H|(_ & y & Hy & _)]; [exact H | inversion Hy].
  - change (fold_left (collect_vertices bm) ys
              (collect_vertices bm (Ok (nv0, vt0)) (n, sl, part)) = Ok (nv1, vt1)) in H.
    destruct (collect_vertices bm (Ok (nv0, vt0)) (n, sl, part)) as [[nv' vt']|e] eqn:Hr;
      [|rewrite collect_vertices_Raise in H; discriminate].
    assert (Hstep :
      (forall k c, nv0 !! k = Some c -> nv' !! k = Some c) /\
      (forall c, BrainModel.nvertices bm !! n = Some c -> nv' !! n = Some c) /\
      (forall k, is_Some (vt' !! k) <->
                 is_Some (vt0 !! k) \/ (is_Some (BrainModel.nvertices bm !! k) /\ n = k))).
    { unfold collect_vertices in Hr. cbn [bind] in Hr.
      destruct (BrainModel.nvertices bm !! n) as [c|] eqn:Hc.
      - assert (Hkeep : forall k c0, nv0 !! k = Some c0 ->
                  (nv0 !! n = None \/ nv0 !! n = Some c) ->
                  <[n := c]> nv0 !! k = Some c0).
        { intros k c0 Hk Hn. destruct (decide (k = n)) as [->|Hne].
          - rewrite lookup_insert_eq. destruct Hn; congruence.
          - rewrite lookup_insert_ne by congruence. exact Hk. }
        assert (Hvt : forall k, is_Some (<[n := BrainModel.vertex part]> vt0 !! k) <->
                  is_Some (vt0 !! k) \/ (is_Some (BrainModel.nvertices bm !! k) /\ n = k)).
        { intros k. destruct (decide (k = n)) as [->|Hne].
          - rewrite lookup_insert_eq, Hc. split; [intros _; right; eauto | eauto].
          - rewrite lookup_insert_ne by congruence. split; [auto|].
            intros [H'|[_ H']]; [exact H' | congruence]. }
        assert (Hok : (nv0 !! n = None \/ nv0 !! n = Some c) /\
                      nv' = <[n := c]> nv0 /\ vt' = <[n := BrainModel.vertex part]> vt0).
        { destruct (nv0 !! n) as [c'|] eqn:Hn.
          - case_bool_decide as Hcc; simpl in Hr; [|discriminate].
            injection Hr as <- <-. subst c'. auto.
          - injection Hr as <- <-. auto. }
        destruct Hok as (Hn & -> & ->). split; [|split].
        + intros k c0 Hk. apply Hkeep; assumption.
        + intros c0 Hc0. injection Hc0 as <-. apply lookup_insert_eq.
        + exact Hvt.
      - injection Hr as <- <-. split; [auto|]. split; [discriminate|].
        intros k. split; [auto|]. intros [H'|[[? H'] <-]]; [exact H' | congruence]. }
    destruct Hstep as (Hmono & Hhere & Hkeys).
    destruct (IH nv' vt' H) as (Hmono' & Hall & Hkeys').
    split; [|split].
    + intros k c Hk. apply Hmono', Hmono, Hk.
    + intros y c Hy Hc. apply elem_of_cons in Hy as [->|Hy].
      * simpl in *. apply Hmono', Hhere, Hc.
      * apply (Hall y c Hy Hc).
    + intros k. rewrite Hkeys', Hkeys. split.
      * intros [[H'|[Hs <-]]|(Hs & y & Hy & Hk)].
        -- left. exact H'.
        -- right. split; [exact Hs|]. exists (n, sl, part). split; [left | reflexivity].
        -- right. split; [exact Hs|]. exists y. split; [right|]; assumption.
      * intros [H'|(Hs & y & Hy & Hk)].
        -- left. left. exact H'.
        -- apply elem_of_cons in Hy as [->|Hy].
           ++ left. right. split; [exact Hs | exact Hk].
           ++ right. split; [exact Hs|]. exists y. split; assumption.
Qed.

(** What one round of the loop of [from_brain_models] adds. *)
Definition parcel_of_brain_model (bm : BrainModel.t) (vox : list (Z * Z * Z))
    (vert : gmap string (list Z)) : Prop :=
  (forall v, v ∈ vox <->
     exists i n, BrainModel.name bm !! i = Some n /\
                 BrainModel.nvertices bm !! n = None /\
                 BrainModel.voxel bm !! i = Some v) /\
  (forall k, is_Some (vert !! k) <-> is_Some (BrainModel.nvertices bm !! k)).

Lemma from_brain_models_step_spec (st st' : collect_state) (pn : string)
    (bm : BrainModel.t) :
  wf CIFTI_BRAIN_STRUCTURES bm ->
  from_brain_models_step CIFTI_BRAIN_STRUCTURES st (pn, bm) = Ok st' ->
  cs_names st' = (cs_names st ++ [pn])%list /\
  (exists vox vert,
     cs_voxels st' = (cs_voxels st ++ [vox])%list /\
     cs_vertices st' = (cs_vertices st ++ [vert])%list /\
     parcel_of_brain_model bm vox vert /\ length vox = volume_count bm) /\
  (forall k c, cs_nvertices st !! k = Some c -> cs_nvertices st' !! k = Some c) /\
  (forall k c, BrainModel.nvertices bm !! k = Some c -> cs_nvertices st' !! k = Some c).
Proof.
  intros Hwf H. unfold from_brain_models_step in H.
  inv_bind H. rename x into surf, Hx into Hsurf.
  inv_bind H. rename x into vox, Hx into Hvox.
  inv_bind H. destruct x as [aff shp]. clear Hx.
  destruct (iter_structures_spec _ bm Hwf) as (ys & Hys & Hruns & _).
  rewrite Hys in H. cbn [bind] in H.
  change (fold_left _ ys (Ok (cs_nvertices st, ∅))) with
    (fold_left (collect_vertices bm) ys (Ok (cs_nvertices st, ∅))) in H.
  inv_bind H. destruct x as [nv1 vt1]. injection H as <-. simpl.
  destruct (collect_vertices_spec bm ys _ _ _ _ Hx) as (Hmono & Hall & Hkeys).
  assert (Hname : forall y : string * slice * BrainModel.t,
            run_of bm y = (y.1.1, (run_of bm y).1.2, (run_of bm y).2))
    by (intros [[? ?] ?]; reflexivity).
  assert (Hrun : forall k, is_Some (BrainModel.nvertices bm !! k) ->
            exists y, y ∈ ys /\ y.1.1 = k).
  { intros k Hk. apply (wf_nvertices _ _ Hwf) in Hk.
    apply list_elem_of_lookup in Hk as [i Hi].
    destruct (is_runs_covers _ _ _ Hruns i k ltac:(lia) Hi) as (r & Hr & Hrk).
    apply list_elem_of_fmap in Hr as (y & -> & Hy). rewrite Hname in Hrk.
    exists y. split; assumption. }
  split; [reflexivity|]. split; [|split; [exact Hmono|]].
  - exists vox, vt1. split; [reflexivity|]. split; [reflexivity|].
    apply surface_mask_Ok in Hsurf as [_ ->].
    split; [|exact (getmask_volume_length _ _ _ _ Hvox)]. split.
    + intros v.
      rewrite (getmask_Ok_elem _ _ _ v Hvox). split.
      * intros (i & Hv & Hm). apply volumetric_mask_lookup in Hm as (n & Hn & Hnone).
        exists i, n. repeat split; assumption.
      * intros (i & n & Hn & Hnone & Hv). exists i. split; [exact Hv|].
        apply volumetric_mask_lookup. eauto.
    + intros k. rewrite Hkeys, lookup_empty. split.
      * intros [[? H']|[Hs _]]; [discriminate | exact Hs].
      * intros Hs. right. split; [exact Hs | apply Hrun, Hs].
  - intros k c Hk. destruct (Hrun k) as (y & Hy & <-); [rewrite Hk; eauto|].
    apply (Hall y c Hy Hk).
Qed.

(** The state of the loop after the brain models [done]. *)
Definition collected (st : collect_state) (done : list (string * BrainModel.t)) : Prop :=
  cs_names st = map fst done /\
  Forall2 (fun vox nb => (exists vert, parcel_of_brain_model nb.2 vox vert) /\
                         length vox = volume_count nb.2)
          (cs_voxels st) done /\
  Forall2 (fun vert nb => exists vox, parcel_of_brain_model nb.2 vox vert)
          (cs_vertices st) done /\
  (forall nb k c, nb ∈ done -> BrainModel.nvertices nb.2 !! k = Some c ->
                  cs_nvertices st !! k = Some c).

Lemma from_brain_models_loop_spec (l done : list (string * BrainModel.t))
    (st st' : collect_state) :
  Forall (fun nb => wf CIFTI_BRAIN_STRUCTURES nb.2) l ->
  collected st done ->
  fold_left (fun acc named =>
               do st <- acc; from_brain_models_step CIFTI_BRAIN_STRUCTURES st named)
            l (Ok st) = Ok st' ->
  collected st' (done ++ l).
Proof.
  revert done st. induction l as [|[pn bm] l IH]; intros done st Hwf Hinv H.
  - simpl in H. injection H as <-. rewrite app_nil_r. exact Hinv.
  - apply Forall_cons in Hwf as [Hbm Hwf]. cbn [fold_left bind] in H.
    destruct (from_brain_models_step CIFTI_BRAIN_STRUCTURES st (pn, bm)) as [st1|e] eqn:Hstep.
    2:{ rewrite fold_left_Raise in H by reflexivity. discriminate. }
    destruct (from_brain_models_step_spec st st1 pn bm Hbm Hstep)
      as (Hn & (vox & vert & Hvx & Hvt & Hparcel & Hcount) & Hmono & Hhere).
    destruct Hinv as (Hnames & Hvoxels & Hvertices & Hcounts).
    replace (done ++ (pn, bm) :: l)%list with ((done ++ [(pn, bm)]) ++ l)%list
      by (rewrite <- app_assoc; reflexivity).
    apply (IH _ st1 Hwf); [|exact H].
    split; [|split; [|split]].
    + rewrite Hn, Hnames, map_app. reflexivity.
    + rewrite Hvx. apply Forall2_app; [exact Hvoxels|].
      constructor; [|constructor]. split; [exists vert; exact Hparcel | exact Hcount].
    + rewrite Hvt. apply Forall2_app; [exact Hvertices|].
      constructor; [|constructor]. exists vox. exact Hparcel.
    + intros nb k c Hnb Hk. apply elem_of_app in Hnb as [Hnb|Hnb].
      * apply Hmono. apply (Hcounts nb k c Hnb Hk).
      * apply list_elem_of_singleton in Hnb as ->. apply (Hhere k c Hk).
Qed.

(** A round of the loop returns or raises one of its two [ValueError]s. *)
Lemma collect_vertices_cases (bm : BrainModel.t) (ys : list (string * slice * BrainModel.t))
    (acc : gmap string Z * gmap string (list Z)) :
  (exists r, fold_left (collect_vertices bm) ys (Ok acc) = Ok r) \/
  fold_left (collect_vertices bm) ys (Ok acc) = Raise conflicting_vertices.
Proof.
  revert acc. induction ys as [|[[n sl] part] ys IH]; intros [nv vt]; [left; eauto|].
  change (fold_left (collect_vertices bm) ((n, sl, part) :: ys) (Ok (nv, vt)))
    with (fold_left (collect_vertices bm) ys (collect_vertices bm (Ok (nv, vt)) (n, sl, part))).
  unfold collect_vertices at 2 4. cbn [bind].
  destruct (BrainModel.nvertices bm !! n) as [c|]; [|apply IH].
  destruct (nv !! n) as [c'|]; [|apply IH].
  destruct (negb (bool_decide (c' = c))); [|apply IH].
  right. apply collect_vertices_Raise.
Qed.

Lemma from_brain_models_step_cases (st : collect_state) (pn : string) (bm : BrainModel.t) :
  wf CIFTI_BRAIN_STRUCTURES bm ->
  (exists st', from_brain_models_step CIFTI_BRAIN_STRUCTURES st (pn, bm) = Ok st') \/
  (exists msg, from_brain_models_step CIFTI_BRAIN_STRUCTURES st (pn, bm)
               = Raise (ValueError msg)).
Proof.
  intros Hwf. unfold from_brain_models_step, BrainModel.is_surface.
  rewrite (surface_mask_nonempty _ _ (wf_nonempty _ _ Hwf)). cbn [bind].
  destruct (getmask_same_length (BrainModel.voxel bm)
              (map negb (map (fun n => bool_decide (is_Some (BrainModel.nvertices bm !! n)))
                             (BrainModel.name bm)))) as [vox Hvox].
  { rewrite !length_map. apply (wf_voxel _ _ Hwf). }
  rewrite Hvox. cbn [bind].
  destruct (iter_structures_spec _ bm Hwf) as (ys & Hys & _).
  match goal with
  | |- context [bind ?r _] =>
      assert (Hvol : (exists x, r = Ok x) \/ r = Raise different_volumes)
  end.
  { destruct (length vox =? 0)%nat; [left; eauto|].
    destruct (cs_affine st); [|left; eauto].
    destruct (_ || _); [right; reflexivity | left; eauto]. }
  destruct Hvol as [[[aff shp] ->] | ->]; [|right; eexists; reflexivity].
  cbn [bind]. rewrite Hys. cbn [bind].
  change (fold_left _ ys (Ok (cs_nvertices st, ∅))) with
    (fold_left (collect_vertices bm) ys (Ok (cs_nvertices st, ∅))).
  destruct (collect_vertices_cases bm ys (cs_nvertices st, ∅)) as [[[nv vt] ->] | ->].
  - left. eexists. reflexivity.
  - right. eexists. reflexivity.
Qed.

Lemma from_brain_models_loop_cases (l : list (string * BrainModel.t)) (st : collect_state) :
  Forall (fun nb => wf CIFTI_BRAIN_STRUCTURES nb.2) l ->
  (exists st', fold_left (fun acc named =>
                 do st <- acc; from_brain_models_step CIFTI_BRAIN_STRUCTURES st named)
               l (Ok st) = Ok st') \/
  (exists msg, fold_left (fun acc named =>
                 do st <- acc; from_brain_models_step CIFTI_BRAIN_STRUCTURES st named)
               l (Ok st) = Raise (ValueError msg)).
Proof.
  revert st. induction l as [|[pn bm] l IH]; intros st Hwf; [left; eauto|].
  apply Forall_cons in Hwf as [Hbm Hwf]. cbn [fold_left bind].
  destruct (from_brain_models_step_cases st pn bm Hbm) as [[st1 ->] | [msg ->]].
  - apply IH, Hwf.
  - right. exists msg. apply fold_left_Raise. reflexivity.
Qed.

End FromBrainModels.

(** The constructor for Python lists raises nothing but [ValueError]. *)
Lemma Parcels_of_lists_cases n vx vt af sh nv :
  (exists p, Parcels.of_lists n vx vt af sh nv = Ok p /\ Parcels.stacked vx = false /\
             Parcels.__init__ n vx vt af sh nv = Ok p) \/
  (exists msg, Parcels.of_lists n vx vt af sh nv = Raise (ValueError msg)).
Proof.
  unfold Parcels.of_lists, Parcels.__init__, Parcels.set_affine, Parcels.set_volume_shape.
  destruct af as [m|]; [destruct (shape_4x4 m); [|right; eexists; reflexivity]|];
    (destruct sh as [v|]; [destruct (length v =? 3)%nat; [|right; eexists; reflexivity]|]);
    cbn [bind];
    (destruct (Parcels.stacked vx); [right; eexists; reflexivity|]);
    (destruct (negb (length vx =? length n)%nat); [right; eexists; reflexivity|]);
    (destruct (negb (length vt =? length n)%nat); [right; eexists; reflexivity|]);
    left; eexists; repeat split.
Qed.

(** X29. [from_brain_models] hands the voxels of the brain models over
    to the constructor as a Python list of arrays, which numpy stacks to
    one array of three dimensions when all the arrays have one shape.
    So, for a list of named BrainModel axes that the constructor
    returned: when the list is not empty and all its brain models have
    equally many volumetric elements (a single brain model, or brain
    models of surfaces alone), [from_brain_models] raises [ValueError].
    When it returns, the Parcels axis has one parcel for each brain
    model, in order, with the given name; the voxels of a parcel are the
    voxels of the volumetric elements of its brain model; a parcel has
    vertices for exactly the surface structures of its brain model; and
    the vertex counts of the axis hold the vertex count of every surface
    structure of every brain model. *)
Theorem X29_Parcels_from_brain_models (vocab : list string)
    (named_brain_models : list (string * BrainModel.t)) :
  Forall (fun nb => constructed vocab nb.2) named_brain_models ->
  (forall n, named_brain_models <> [] ->
     Forall (fun nb => volume_count nb.2 = n) named_brain_models ->
     exists msg, Parcels_from_brain_models vocab named_brain_models
                 = Raise (ValueError msg)) /\
  (forall p, Parcels_from_brain_models vocab named_brain_models = Ok p ->
     Parcels.name p = map fst named_brain_models /\
     Forall2 (fun vox nb =>
                forall v, v ∈ vox <->
                  exists i n, BrainModel.name nb.2 !! i = Some n /\
                              BrainModel.nvertices nb.2 !! n = None /\
                              BrainModel.voxel nb.2 !! i = Some v)
             (Parcels.voxels p) named_brain_models /\
     Forall2 (fun vert nb =>
                forall k, is_Some (vert !! k) <-> is_Some (BrainModel.nvertices nb.2 !! k))
             (Parcels.vertices p) named_brain_models /\
     (forall nb k c, nb ∈ named_brain_models -> BrainModel.nvertices nb.2 !! k = Some c ->
                     Parcels.nvertices p !! k = Some c)).
Proof.
  intros Hall.
  assert (Hwf : Forall (fun nb => wf vocab nb.2) named_brain_models).
  { eapply Forall_impl; [exact Hall|]. intros nb. apply constructed_wf. }
  set (st0 := {| cs_affine := None; cs_volume_shape := None; cs_names := [];
                 cs_voxels := []; cs_vertices := []; cs_nvertices := ∅ |}).
  assert (Hst0 : collected st0 []).
  { split; [reflexivity|]. split; [constructor|]. split; [constructor|].
    intros nb k c Hnb. inversion Hnb. }
  split.
  - intros n Hne Hcount. unfold Parcels_from_brain_models. fold st0.
    destruct (from_brain_models_loop_cases vocab named_brain_models st0 Hwf)
      as [[st Hst] | [msg Hmsg]]; [|rewrite Hmsg; exists msg; reflexivity].
    rewrite Hst. cbn [bind].
    destruct (from_brain_models_loop_spec vocab named_brain_models [] st0 st Hwf Hst0 Hst)
      as (_ & Hvx & _).
    simpl in Hvx.
    destruct (Parcels_of_lists_cases (cs_names st) (cs_voxels st) (cs_vertices st)
                (cs_affine st) (cs_volume_shape st) (Some (cs_nvertices st)))
      as [(p & _ & Hflat & _) | Hraise]; [exfalso | exact Hraise].
    rewrite (stacked_of_equal_lengths (cs_voxels st) n) in Hflat; [discriminate| |].
    + intros Hnil. rewrite Hnil in Hvx. inversion Hvx. subst. congruence.
    + clear -Hvx Hcount. induction Hvx as [|vox nb voxs nbs [_ Hlen] _ IH]; [constructor|].
      apply Forall_cons in Hcount as [Hnb Hnbs]. constructor; [congruence | apply IH, Hnbs].
  - intros p H. unfold Parcels_from_brain_models in H. fold st0 in H. inv_bind H.
    destruct (Parcels_of_lists_cases (cs_names x) (cs_voxels x) (cs_vertices x)
                (cs_affine x) (cs_volume_shape x) (Some (cs_nvertices x)))
      as [(p' & Hp' & _ & Hinit) | [msg Hmsg]]; [|congruence].
    assert (p' = p) as -> by congruence.
    apply Parcels_init_Ok in Hinit as (-> & _). simpl.
    destruct (from_brain_models_loop_spec vocab named_brain_models [] st0 x Hwf Hst0 Hx)
      as (Hn & Hvx & Hvt & Hnv).
    simpl in *. split; [exact Hn|]. split; [|split; [|exact Hnv]].
    + eapply Forall2_impl; [exact Hvx|]. intros vox nb [(vert & Hp & _) _]. exact Hp.
    + eapply Forall2_impl; [exact Hvt|]. intros vert nb (vox & _ & Hp). exact Hp.
Qed.

(** A brain model with two voxels and a brain model of a surface alone
    make a Parcels axis; one brain model alone, or twice the same, does
    not. *)
Lemma X29_Parcels_from_brain_models_witness :
  (exists p,
    Parcels_from_brain_models some_structures
      [("first", cortex_and_thalamus); ("second", cortex_vertices [1; 2])] = Ok p /\
    Parcels.name p = ["first"; "second"] /\
    Parcels.nvertices p !! "CIFTI_STRUCTURE_CORTEX_LEFT" = Some 10) /\
  (exists msg,
    Parcels_from_brain_models some_structures [("first", cortex_and_thalamus)]
    = Raise (ValueError msg)).
Proof.
  assert (Hc : constructed some_structures (cortex_vertices [1; 2])).
  { exists (BrainModel.NameStr "CortexLeft"), None, (Some [1; 2]), None, None,
           (Some {[ "CIFTI_STRUCTURE_CORTEX_LEFT" := 10 ]}).
    vm_compute. reflexivity. }
  split.
  - assert (H : exists p, Parcels_from_brain_models some_structures
                  [("first", cortex_and_thalamus); ("second", cortex_vertices [1; 2])] = Ok p)
      by (eexists; vm_compute; reflexivity).
    destruct H as [p Hp]. exists p. split; [exact Hp|].
    destruct (X29_Parcels_from_brain_models some_structures
                [("first", cortex_and_thalamus); ("second", cortex_vertices [1; 2])])
      as [_ Hret].
    + repeat constructor; simpl; [exact cortex_and_thalamus_constructed | exact Hc].
    + destruct (Hret p Hp) as (Hn & _ & _ & Hnv). split; [exact Hn|].
      apply (Hnv ("first", cortex_and_thalamus)); [left | reflexivity].
  - destruct (X29_Parcels_from_brain_models some_structures [("first", cortex_and_thalamus)])
      as [Hraise _].
    + repeat constructor; simpl; exact cortex_and_thalamus_constructed.
    + apply (Hraise 2%nat); [discriminate|]. repeat constructor.
Defined.

(** ** Series: reversal *)

(** X30. The slice [s[::-1]] of a series of [int]s is the series in
    reverse: it has the size and the unit of [s] and the negated step,
    and its element [i] is the element [size - 1 - i] of [s]. Reversing
    twice gives [s] again, which [==] finds equal to [s]. (For a series
    of floats the new start [(size - 1) * step + start] is rounded, and
    the reversal is not exact, see [Series_reverse_rounds].) *)
Theorem X30_Series_reverse (s : Series.t) (z1 z2 : Z) :
  Series.unit s ∈ Series.unit_names -> 0 <= Series.size s ->
  Series.start s = PyInt z1 -> Series.step s = PyInt z2 ->
  exists r r2,
    Series.__getitem__ s (ItemSlice (Slice None None (Some (-1)))) = Ok (Series.Sub r) /\
    Series.size r = Series.size s /\ Series.unit r = Series.unit s /\
    Series.step r = PyInt (- z2) /\
    (forall i, 0 <= i < Series.size s ->
       Series.get_element r i = Series.get_element s (Series.size s - 1 - i)) /\
    Series.__getitem__ r (ItemSlice (Slice None None (Some (-1)))) = Ok (Series.Sub r2) /\
    r2 = s /\ Series.__eq__ r2 s = true.
Proof.
  intros Hu Hsize Hz1 Hz2.
  assert (Hup : str_upper (Series.unit s) = Series.unit s) by apply (str_upper_unit _ Hu).
  assert (Hcount : forall n, 0 <= n -> (-1 - (n - 1)) / -1 = n).
  { intros n Hn0. replace (-1 - (n - 1)) with (- n) by lia.
    change (-1) with (- (1)). rewrite Z.div_opp_opp by lia. apply Z.div_1_r. }
  assert (Hrev : forall t a b, Series.start t = PyInt a -> Series.step t = PyInt b ->
            Series.unit t = Series.unit s -> 0 <= Series.size t ->
            Series.__getitem__ t (ItemSlice (Slice None None (Some (-1)))) =
              Ok (Series.Sub {| Series.start := PyInt ((Series.size t - 1) * b + a);
                                Series.step := PyInt (b * -1);
                                Series.size := Series.size t;
                                Series.unit := Series.unit s |})).
  { intros t a b Ha Hb Ht Hsz.
    rewrite (Series_getitem_int t a b) by (rewrite ?Ht; assumption).
    cbn [slice_step slice_start slice_stop]. cbv zeta.
    change (-1 <? 0) with true. change (-1 =? 0) with false. cbv iota.
    destruct (Z.ltb_spec (Series.size t) (Series.size t - 1)); [lia|].
    destruct (Z.ltb_spec (Series.size t) (-1)); [lia|].
    rewrite (Hcount _ Hsz).
    destruct (Z.ltb_spec (Series.size t) 0); [lia|]. rewrite Ht. reflexivity. }
  eexists. eexists.
  split; [apply (Hrev s z1 z2); auto|]. cbn [Series.size Series.unit Series.step].
  split; [reflexivity|]. split; [reflexivity|].
  split; [f_equal; lia|]. split; [|split; [|split]].
  - intros i Hi.
    rewrite Series_get_element_nonneg by (simpl; lia).
    rewrite Series_get_element_nonneg by lia.
    rewrite (time_point_int s z1 z2) by assumption.
    unfold Series.time_point. simpl. f_equal. f_equal. lia.
  - rewrite (Hrev _ ((Series.size s - 1) * z2 + z1) (z2 * -1)) by (auto; reflexivity).
    reflexivity.
  - cbn [Series.size]. destruct s as [st sp sz u]. simpl in *. subst st sp.
    f_equal; f_equal; lia.
  - cbn [Series.size]. unfold Series.__eq__. cbn [Series.start Series.step Series.size Series.unit].
    rewrite Hz1, Hz2. cbn [num_eqb].
    rewrite !bool_decide_eq_true_2 by reflexivity.
    rewrite !andb_true_r. apply andb_true_intro. split; apply Z.eqb_eq; lia.
Qed.

Lemma X30_Series_reverse_witness :
  exists r r2,
    Series.__getitem__ (ser 0 2 5) (ItemSlice (Slice None None (Some (-1)))) = Ok (Series.Sub r) /\
    r = ser 8 (-2) 5 /\
    Series.get_element r 1 = Series.get_element (ser 0 2 5) 3 /\
    Series.__getitem__ r (ItemSlice (Slice None None (Some (-1)))) = Ok (Series.Sub r2) /\
    Series.__eq__ r2 (ser 0 2 5) = true.
Proof.
  destruct (X30_Series_reverse (ser 0 2 5) 0 2)
    as (r & r2 & Hr & _ & _ & _ & Hel & Hr2 & _ & Heq);
    [decide_by_compute | simpl; lia | reflexivity | reflexivity |].
  exists r, r2. split; [exact Hr|]. split.
  { vm_compute in Hr. injection Hr as <-. reflexivity. }
  split; [apply (Hel 1); simpl; lia|]. split; [exact Hr2 | exact Heq].
Defined.

(** The reversal of a series of floats rounds: the start of
    [Series(0.1, 0.2, 4)[::-1][::-1]] is 0.09999999999999998, and [==]
    finds the result unequal to the series. *)
Lemma Series_reverse_rounds :
  exists r r2,
    Series.__getitem__ (fser tenth fifth 4) (ItemSlice (Slice None None (Some (-1))))
      = Ok (Series.Sub r) /\
    Series.__getitem__ r (ItemSlice (Slice None None (Some (-1)))) = Ok (Series.Sub r2) /\
    Series.start r2 = PyFloat 0x1.9999999999998p-4%float /\
    Series.__eq__ r2 (fser tenth fifth 4) = false.
Proof.
  eexists. eexists. split; [vm_compute; reflexivity|].
  split; [vm_compute; reflexivity|]. split; vm_compute; reflexivity.
Qed.
